(** * Report management daemon: a shallow embedding and its properties

    The development follows the C sources of the report daemon:
    [report_system.h] (constants and records), [file_operations.c]
    (transfer, missing-report check, department extraction, change
    monitoring, directory scan), [backup.c] (backup, directory locking),
    [ipc.c] (FIFO messages) and [daemon.c] (signal flags and main loop).

    C strings are values of [string] (the bytes before the terminating NUL),
    C [int]/[time_t]/[mode_t] values are in [Z], a C array is a [list]
    and its element count is kept beside it as the code keeps it.  Everything the operating system decides
    (whether a system call succeeds, what the clock reads) is read from an
    oracle [os]; the effect of the calls on directories is kept in an
    explicit [state]. *)

From Stdlib Require Import ZArith List String Ascii Bool Arith Lia.
From Stdlib Require Import DecimalString.
Import ListNotations.

Local Open Scope string_scope.
Local Open Scope list_scope.
Local Open Scope Z_scope.

(* ================================================================= *)
(** ** Constants of report_system.h *)

Definition DEPT_WAREHOUSE : string := "Warehouse".
Definition DEPT_MANUFACTURING : string := "Manufacturing".
Definition DEPT_SALES : string := "Sales".
Definition DEPT_DISTRIBUTION : string := "Distribution".

Definition REPORT_EXTENSION : string := ".xml".
Definition REPORT_PREFIX : string := "report_".

Definition UPLOAD_DIR : string := "/var/report_system/upload".
Definition DASHBOARD_DIR : string := "/var/report_system/dashboard".
Definition BACKUP_DIR : string := "/var/report_system/backup".
Definition CHANGE_LOG : string := "/var/report_system/logs/changes.log".

Definition TRANSFER_HOUR : Z := 1.
Definition TRANSFER_MINUTE : Z := 0.

(** Octal 0777, 0755 and 0000. *)
Definition UPLOAD_PERMISSIONS : Z := 511.
Definition DASHBOARD_PERMISSIONS : Z := 493.
Definition LOCKED_PERMISSIONS : Z := 0.

Definition SUCCESS : Z := 0.
Definition FAILURE : Z := -1.

Definition MAX_PATH_LENGTH : Z := 1024.
Definition MAX_LINE_LENGTH : Z := 2048.
Definition MAX_USER_LENGTH : Z := 256.

(** [NAME_MAX] of <limits.h>: the longest name [readdir] can return
    ([d_name] is a 256 byte array). *)
Definition NAME_MAX : nat := 255.

(** [sizeof(IPCMessage)]: three 4-byte fields and the message buffer. *)
Definition sizeof_IPCMessage : Z := 4 + 4 + 4 + MAX_LINE_LENGTH.

(* ================================================================= *)
(** ** The C string functions the sources call *)

Module CString.

Definition code (c : ascii) : Z := Z.of_nat (nat_of_ascii c).

(** [strncmp], [strcmp] and [strcasecmp] return an integer less than,
    equal to or greater than zero; the sources only compare it with 0.
    Where one string ends first the result is -1 or 1, where two bytes
    differ it is their difference (as unsigned char). *)
Fixpoint strncmp (s1 s2 : string) (n : nat) : Z :=
  match n with
  | O => 0
  | S n' =>
      match s1, s2 with
      | EmptyString, EmptyString => 0
      | EmptyString, String _ _ => -1
      | String _ _, EmptyString => 1
      | String c1 r1, String c2 r2 =>
          if Ascii.eqb c1 c2 then strncmp r1 r2 n' else code c1 - code c2
      end
  end.

Fixpoint strcmp (s1 s2 : string) : Z :=
  match s1, s2 with
  | EmptyString, EmptyString => 0
  | EmptyString, String _ _ => -1
  | String _ _, EmptyString => 1
  | String c1 r1, String c2 r2 =>
      if Ascii.eqb c1 c2 then strcmp r1 r2 else code c1 - code c2
  end.

(** [tolower] in the C locale. *)
Definition tolower (c : ascii) : ascii :=
  let n := nat_of_ascii c in
  if andb (Nat.leb 65 n) (Nat.leb n 90) then ascii_of_nat (n + 32) else c.

Fixpoint strcasecmp (s1 s2 : string) : Z :=
  match s1, s2 with
  | EmptyString, EmptyString => 0
  | EmptyString, String _ _ => -1
  | String _ _, EmptyString => 1
  | String c1 r1, String c2 r2 =>
      if Ascii.eqb (tolower c1) (tolower c2) then strcasecmp r1 r2
      else code (tolower c1) - code (tolower c2)
  end.

(** [strchr s c]: the offset of the first [c] in [s], [None] for NULL. *)
Fixpoint strchr (s : string) (c : ascii) : option nat :=
  match s with
  | EmptyString => None
  | String a rest =>
      if Ascii.eqb a c then Some O else option_map S (strchr rest c)
  end.

(** [strstr haystack needle]: the offset of the first occurrence of
    [needle], [None] for NULL. *)
Fixpoint strstr (haystack needle : string) : option nat :=
  if prefix needle haystack then Some O
  else match haystack with
       | EmptyString => None
       | String _ rest => option_map S (strstr rest needle)
       end.

(** The string at [s + n]. *)
Fixpoint advance (n : nat) (s : string) : string :=
  match n, s with
  | O, _ => s
  | S n', String _ rest => advance n' rest
  | S _, EmptyString => EmptyString
  end.

(** [strncpy(dst, src, n); dst[n] = 0]: the first [n] bytes of [src],
    fewer when [src] is shorter. *)
Fixpoint take (n : nat) (s : string) : string :=
  match n, s with
  | O, _ => EmptyString
  | S _, EmptyString => EmptyString
  | S n', String c rest => String c (take n' rest)
  end.

End CString.

(* ================================================================= *)
(** ** file_operations.c: department extraction *)

(** [size_t] is 64 bits wide. *)
Definition SIZE_MODULUS : Z := 2 ^ 64.

Definition extract_department_from_filename
    (filename : string) (dept_size : Z) : option string :=
  let prefix_ := REPORT_PREFIX in
  (* Verify filename starts with the expected prefix *)
  if negb (CString.strncmp filename prefix_ (String.length prefix_) =? 0)
  then None
  else
    (* Find the start of department name (after prefix) *)
    let start := CString.advance (String.length prefix_) filename in
    (* Find the end of department name (before date) *)
    let end_ :=
      match CString.strchr start "_"%char with
      | Some e => Some e
      | None => CString.strstr start REPORT_EXTENSION
      end in
    match end_ with
    | None => None
    | Some e =>
        (* Calculate length and copy department name *)
        let length0 := Z.of_nat e in
        let length1 :=
          if length0 >=? dept_size
          then (dept_size - 1) mod SIZE_MODULUS
          else length0 in
        Some (CString.take (Z.to_nat length1) start)
    end.

(* ================================================================= *)
(** ** The operating system: directories, files and the oracle *)

(** [d_type] of a directory entry; only [DT_DIR] is ever tested. *)
Inductive d_type_t := DT_UNKNOWN | DT_REG | DT_DIR | DT_LNK.

Definition is_DT_DIR (t : d_type_t) : bool :=
  match t with DT_DIR => true | _ => false end.

(** What [stat] reports about a file, and its bytes. *)
Record inode := mkInode {
  st_mtime : Z;
  st_size : Z;
  st_uid : Z;
  i_data : string
}.

Record dirent := mkDirent {
  d_name : string;
  d_type : d_type_t;
  d_ino : inode
}.

(** A directory: its permission bits and its entries in [readdir] order. *)
Record directory := mkDirectory {
  dir_mode : Z;
  dir_entries : list dirent
}.

(** Directories are found by their full path. *)
Definition filesystem := string -> option directory.

Definition fs_set (fs : filesystem) (path : string) (d : directory)
  : filesystem :=
  fun p => if String.eqb p path then Some d else fs p.

Definition name_is (name : string) (e : dirent) : bool :=
  String.eqb (d_name e) name.

Definition lookup_entry (name : string) (entries : list dirent)
  : option dirent :=
  List.find (name_is name) entries.

Definition remove_entry (name : string) (entries : list dirent)
  : list dirent :=
  List.filter (fun e => negb (name_is name e)) entries.

(** A path [dir/name] is split at its last slash. *)
Fixpoint split_path (path : string) : option (string * string) :=
  match path with
  | EmptyString => None
  | String c rest =>
      match split_path rest with
      | Some (d, n) => Some (String c d, n)
      | None => if Ascii.eqb c "/"%char then Some (EmptyString, rest) else None
      end
  end.

(** The file a path names, when its directory exists and lists it. *)
Definition fs_file (fs : filesystem) (path : string) : option dirent :=
  match split_path path with
  | Some (d, n) =>
      match fs d with
      | Some dir => lookup_entry n (dir_entries dir)
      | None => None
      end
  | None => None
  end.

(** [struct tm], the fields the sources read. *)
Record tm := mkTm {
  tm_year : Z;
  tm_mon : Z;
  tm_mday : Z;
  tm_hour : Z;
  tm_min : Z;
  tm_sec : Z
}.

(** How the descriptor loop of [copy_file] ends once both files are open:
    a short write or a read error after [n] bytes, or end of file. *)
Inductive copy_io :=
| IoWriteFails (n : nat)
| IoReadFails (n : nat)
| IoDone.

Record IPCMessage := mkIPCMessage {
  msg_type : Z;
  sender_pid : Z;
  msg_status : Z;
  msg_text : string
}.

(** The result of one [read] on the FIFO. *)
Record read_result := mkRead {
  bytes_read : Z;
  read_errno : Z;
  read_buf : IPCMessage
}.

(** <errno.h> on Linux. *)
Definition EAGAIN : Z := 11.
Definition EWOULDBLOCK : Z := 11.
Definition EIO : Z := 5.

(** The oracle.  Every system call draws its verdict at the current tick
    of the state's call counter, so two calls with the same arguments may
    be answered differently. *)
Record os := mkOs {
  os_time : nat -> Z;
  os_localtime : Z -> tm;
  os_euid : Z;
  os_chmod : nat -> string -> Z -> bool;
  os_mkdir : nat -> string -> bool;
  os_opendir : nat -> string -> bool;
  os_stat : nat -> string -> bool;
  os_rename : nat -> string -> string -> bool;
  os_unlink : nat -> string -> bool;
  os_open : nat -> string -> bool;
  os_copy_io : nat -> copy_io;
  os_getpwuid : nat -> Z -> option string;
  os_alloc : nat -> bool;
  os_read : nat -> read_result
}.

(* ================================================================= *)
(** ** Records of report_system.h, log events, process state *)

Record ReportFile := mkReportFile {
  rf_path : string;
  rf_filename : string;
  rf_department : option string;   (* [None]: the buffer was never written *)
  rf_timestamp : Z;
  rf_owner : option string;        (* [None]: the buffer was never written *)
  rf_size : Z
}.

(** An argument of a printf-style log call; [ArgErrno] is
    [strerror(errno)]. *)
Inductive arg := ArgS (s : string) | ArgD (n : Z) | ArgErrno.

(** What the daemon hands to its log sinks, in call order. *)
Inductive event :=
| LogOperation (format : string) (args : list arg)
| LogError (format : string) (args : list arg)
| LogFileChange (now : Z) (username : option string)
                (filename action : string) (written : bool).

Record state := mkState {
  s_fs : filesystem;
  s_clock : nat;
  s_trace : list event;
  (* daemon.c *)
  daemon_exit : Z;
  force_backup : Z;
  force_transfer : Z;
  (* file_operations.c; [None] is the NULL pointer *)
  last_scan_time : Z;
  previous_files : option (list ReportFile);
  previous_file_count : Z;
  (* ipc.c *)
  fifo_fd : Z
}.

Definition with_fs (fs : filesystem) (s : state) : state :=
  mkState fs (s_clock s) (s_trace s) (daemon_exit s) (force_backup s)
          (force_transfer s) (last_scan_time s) (previous_files s)
          (previous_file_count s) (fifo_fd s).

Definition with_clock (c : nat) (s : state) : state :=
  mkState (s_fs s) c (s_trace s) (daemon_exit s) (force_backup s)
          (force_transfer s) (last_scan_time s) (previous_files s)
          (previous_file_count s) (fifo_fd s).

Definition with_trace (t : list event) (s : state) : state :=
  mkState (s_fs s) (s_clock s) t (daemon_exit s) (force_backup s)
          (force_transfer s) (last_scan_time s) (previous_files s)
          (previous_file_count s) (fifo_fd s).

Definition with_daemon_exit (v : Z) (s : state) : state :=
  mkState (s_fs s) (s_clock s) (s_trace s) v (force_backup s)
          (force_transfer s) (last_scan_time s) (previous_files s)
          (previous_file_count s) (fifo_fd s).

Definition with_force_backup (v : Z) (s : state) : state :=
  mkState (s_fs s) (s_clock s) (s_trace s) (daemon_exit s) v
          (force_transfer s) (last_scan_time s) (previous_files s)
          (previous_file_count s) (fifo_fd s).

Definition with_force_transfer (v : Z) (s : state) : state :=
  mkState (s_fs s) (s_clock s) (s_trace s) (daemon_exit s) (force_backup s)
          v (last_scan_time s) (previous_files s)
          (previous_file_count s) (fifo_fd s).

Definition with_last_scan_time (v : Z) (s : state) : state :=
  mkState (s_fs s) (s_clock s) (s_trace s) (daemon_exit s) (force_backup s)
          (force_transfer s) v (previous_files s)
          (previous_file_count s) (fifo_fd s).

Definition with_previous_files (v : option (list ReportFile)) (s : state)
  : state :=
  mkState (s_fs s) (s_clock s) (s_trace s) (daemon_exit s) (force_backup s)
          (force_transfer s) (last_scan_time s) v
          (previous_file_count s) (fifo_fd s).

Definition with_previous_file_count (v : Z) (s : state) : state :=
  mkState (s_fs s) (s_clock s) (s_trace s) (daemon_exit s) (force_backup s)
          (force_transfer s) (last_scan_time s) (previous_files s)
          v (fifo_fd s).

(* ================================================================= *)
(** ** The state monad *)

Definition M (A : Type) : Type := state -> A * state.

Definition ret {A : Type} (a : A) : M A := fun s => (a, s).

Definition bind {A B : Type} (m : M A) (k : A -> M B) : M B :=
  fun s => let (a, s') := m s in k a s'.

Notation "x <- m ;; k" := (bind m (fun x => k))
  (at level 61, m at next level, right associativity).
Notation "m ;; k" := (bind m (fun _ => k))
  (at level 61, right associativity).

Definition get {A : Type} (proj : state -> A) : M A := fun s => (proj s, s).

Definition modify (f : state -> state) : M unit := fun s => (tt, f s).

(** A loop over the entries [readdir] returns, carrying the locals the
    body updates. *)
Fixpoint fold_m {A B : Type} (body : B -> A -> M B) (l : list A) (acc : B)
  : M B :=
  match l with
  | [] => ret acc
  | x :: rest => acc' <- body acc x ;; fold_m body rest acc'
  end.

Definition emit (e : event) : M unit :=
  modify (fun s => with_trace (s_trace s ++ [e]) s).

(** utils.c: the log sinks.  Each call is recorded in the trace with its
    format and arguments, as [vsyslog] receives them on every path.  The
    lines the calls also append to the files of the log directory
    ("/var/report_system/logs") are not kept in [s_fs]: what is stated
    about the directories of a state leaves that one directory out. *)
Definition log_error (format : string) (args : list arg) : M unit :=
  emit (LogError format args).

Definition log_operation (format : string) (args : list arg) : M unit :=
  emit (LogOperation format args).

(** Decimal text of a number, for [%d] and [strftime]. *)
Definition decimal (n : Z) : string :=
  DecimalString.NilZero.string_of_int (Z.to_int n).

Definition pad2 (n : Z) : string :=
  if andb (0 <=? n) (n <? 10) then "0" ++ decimal n else decimal n.

Definition pad4 (n : Z) : string :=
  if andb (0 <=? n) (n <? 10) then "000" ++ decimal n
  else if andb (0 <=? n) (n <? 100) then "00" ++ decimal n
  else if andb (0 <=? n) (n <? 1000) then "0" ++ decimal n
  else decimal n.

(** [strftime(buf, MAX_TIME_LENGTH, "%Y-%m-%d_%H-%M-%S", tm)]. *)
Definition strftime_backup (t : tm) : string :=
  pad4 (tm_year t + 1900) ++ "-" ++ pad2 (tm_mon t + 1) ++ "-" ++
  pad2 (tm_mday t) ++ "_" ++ pad2 (tm_hour t) ++ "-" ++ pad2 (tm_min t) ++
  "-" ++ pad2 (tm_sec t).

(** [snprintf(buf, MAX_PATH_LENGTH, "%s/%s", a, b)]: the text is cut to
    fit the buffer. *)
Definition snprintf_path (a b : string) : string :=
  CString.take (Z.to_nat (MAX_PATH_LENGTH - 1)) (a ++ "/" ++ b).

(** An [int] assigned from a wider value keeps its low 32 bits. *)
Definition to_int32 (z : Z) : Z := (z + 2 ^ 31) mod 2 ^ 32 - 2 ^ 31.

Section Daemon.

Variable E : os.

(* ----------------------------------------------------------------- *)
(** *** System calls *)

(** The tick at which the next call is answered. *)
Definition tick : M nat :=
  fun s => (s_clock s, with_clock (S (s_clock s)) s).

Definition sys_time : M Z :=
  t <- tick ;; ret (os_time E t).

(** [chmod]: 0 and the new mode on success, -1 and no change otherwise. *)
Definition sys_chmod (path : string) (mode : Z) : M Z :=
  t <- tick ;;
  fs <- get s_fs ;;
  match fs path with
  | Some d =>
      if os_chmod E t path mode then
        modify (with_fs (fs_set fs path (mkDirectory mode (dir_entries d)))) ;;
        ret 0
      else ret (-1)
  | None => ret (-1)
  end.

(** [mkdir]: the directory must be new and its parent must exist. *)
Definition sys_mkdir (path : string) (mode : Z) : M Z :=
  t <- tick ;;
  fs <- get s_fs ;;
  match fs path, split_path path with
  | None, Some (parent, name) =>
      match fs parent with
      | Some pd =>
          if os_mkdir E t path then
            let now := os_time E t in
            let entry :=
              mkDirent name DT_DIR (mkInode now 0 (os_euid E) "") in
            modify (with_fs
              (fs_set (fs_set fs parent
                         (mkDirectory (dir_mode pd)
                                      (dir_entries pd ++ [entry])))
                      path (mkDirectory mode []))) ;;
            ret 0
          else ret (-1)
      | None => ret (-1)
      end
  | _, _ => ret (-1)
  end.

(** [opendir] with the [readdir] calls that follow it: the entries as
    they are when the directory is opened; [None] for NULL. *)
Definition sys_opendir (path : string) : M (option (list dirent)) :=
  t <- tick ;;
  fs <- get s_fs ;;
  match fs path with
  | Some d =>
      if os_opendir E t path then ret (Some (dir_entries d)) else ret None
  | None => ret None
  end.

(** [stat]: [None] when the call fails. *)
Definition sys_stat (path : string) : M (option inode) :=
  t <- tick ;;
  fs <- get s_fs ;;
  match fs_file fs path with
  | Some e => if os_stat E t path then ret (Some (d_ino e)) else ret None
  | None => ret None
  end.

(** [rename]: the entry leaves its directory and replaces any entry of
    the new name in the destination directory. *)
Definition sys_rename (source destination : string) : M Z :=
  t <- tick ;;
  fs <- get s_fs ;;
  match split_path source, split_path destination with
  | Some (sd, sn), Some (dd, dn) =>
      match fs sd with
      | Some sdir =>
          match lookup_entry sn (dir_entries sdir) with
          | Some e =>
              let fs1 :=
                fs_set fs sd
                  (mkDirectory (dir_mode sdir)
                               (remove_entry sn (dir_entries sdir))) in
              match fs1 dd with
              | Some ddir =>
                  if os_rename E t source destination then
                    modify (with_fs
                      (fs_set fs1 dd
                         (mkDirectory (dir_mode ddir)
                            (remove_entry dn (dir_entries ddir) ++
                             [mkDirent dn (d_type e) (d_ino e)])))) ;;
                    ret 0
                  else ret (-1)
              | None => ret (-1)
              end
          | None => ret (-1)
          end
      | None => ret (-1)
      end
  | _, _ => ret (-1)
  end.

Definition sys_unlink (path : string) : M Z :=
  t <- tick ;;
  fs <- get s_fs ;;
  match split_path path with
  | Some (d, n) =>
      match fs d with
      | Some dir =>
          match lookup_entry n (dir_entries dir) with
          | Some _ =>
              if os_unlink E t path then
                modify (with_fs
                  (fs_set fs d
                     (mkDirectory (dir_mode dir)
                                  (remove_entry n (dir_entries dir))))) ;;
                ret 0
              else ret (-1)
          | None => ret (-1)
          end
      | None => ret (-1)
      end
  | None => ret (-1)
  end.

(** [open(source, O_RDONLY)]: the file to read, [None] for -1. *)
Definition sys_open_read (path : string) : M (option dirent) :=
  t <- tick ;;
  fs <- get s_fs ;;
  match fs_file fs path with
  | Some e => if os_open E t path then ret (Some e) else ret None
  | None => ret None
  end.

(** Putting a file of the given bytes at [path], over any file of that
    name; a file that was there keeps its owner, a new one belongs to
    the effective user. *)
Definition fs_write (now : Z) (fs : filesystem) (path data : string)
  : filesystem :=
  match split_path path with
  | Some (d, n) =>
      match fs d with
      | Some dir =>
          let owner :=
            match lookup_entry n (dir_entries dir) with
            | Some old => st_uid (d_ino old)
            | None => os_euid E
            end in
          fs_set fs d
            (mkDirectory (dir_mode dir)
               (remove_entry n (dir_entries dir) ++
                [mkDirent n DT_REG
                   (mkInode now (Z.of_nat (String.length data))
                            owner data)]))
      | None => fs
      end
  | None => fs
  end.

(** [open(destination, O_WRONLY | O_CREAT | O_TRUNC, 0644)]: the file is
    there and empty afterwards; [false] for -1. *)
Definition sys_open_write (path : string) : M bool :=
  t <- tick ;;
  fs <- get s_fs ;;
  match split_path path with
  | Some (d, n) =>
      match fs d with
      | Some _ =>
          if os_open E t path then
            modify (with_fs (fs_write (os_time E t) fs path "")) ;;
            ret true
          else ret false
      | None => ret false
      end
  | None => ret false
  end.

Definition sys_getpwuid (uid : Z) : M (option string) :=
  t <- tick ;; ret (os_getpwuid E t uid).

(** [malloc]/[realloc]: [false] for NULL. *)
Definition sys_alloc : M bool :=
  t <- tick ;; ret (os_alloc E t).

Definition sys_read_fifo : M read_result :=
  t <- tick ;; ret (os_read E t).

(* ----------------------------------------------------------------- *)
(** *** file_operations.c *)

(** [copy_file]: both opens as in the source; the read/write loop over
    the 4096-byte buffer is taken by the way it ends.  The bytes are
    read after the destination was opened and so truncated: a file
    copied onto itself is read empty. *)
Definition copy_file (source destination : string) : M Z :=
  src <- sys_open_read source ;;
  match src with
  | None =>
      log_error "Failed to open source file %s: %s" [ArgS source; ArgErrno] ;;
      ret FAILURE
  | Some e =>
      opened <- sys_open_write destination ;;
      if negb opened then
        log_error "Failed to open destination file %s: %s"
                  [ArgS destination; ArgErrno] ;;
        ret FAILURE
      else
        t <- tick ;;
        fs <- get s_fs ;;
        let data :=
          if String.eqb source destination then EmptyString
          else i_data (d_ino e) in
        let now := os_time E t in
        match os_copy_io E t with
        | IoWriteFails n =>
            modify (with_fs
              (fs_write now fs destination (CString.take n data))) ;;
            log_error "Failed to write to destination file: %s" [ArgErrno] ;;
            ret FAILURE
        | IoReadFails n =>
            modify (with_fs
              (fs_write now fs destination (CString.take n data))) ;;
            log_error "Failed to read from source file: %s" [ArgErrno] ;;
            ret FAILURE
        | IoDone =>
            modify (with_fs (fs_write now fs destination data)) ;;
            ret SUCCESS
        end
  end.

Definition move_file (source destination : string) : M Z :=
  (* First try to rename the file (works if on same filesystem) *)
  r <- sys_rename source destination ;;
  if r =? 0 then ret SUCCESS
  else
    (* If rename fails, try copy and delete *)
    c <- copy_file source destination ;;
    if c =? SUCCESS then
      u <- sys_unlink source ;;
      if negb (u =? 0) then
        log_error "Failed to delete source file after copy: %s" [ArgErrno] ;;
        ret FAILURE
      else ret SUCCESS
    else ret FAILURE.

(** A [uid_t] handed to "%d": its 32 bits read as an [int]. *)
Definition uid_as_int (uid : Z) : Z :=
  let u := uid mod 2 ^ 32 in
  if u <? 2 ^ 31 then u else u - 2 ^ 32.

(** [get_file_owner]: the status and what the [owner] buffer holds
    afterwards ([None]: not written). *)
Definition get_file_owner (path : string) (owner_size : Z)
  : M (Z * option string) :=
  st <- sys_stat path ;;
  match st with
  | None =>
      log_error "Failed to get file stats for %s: %s" [ArgS path; ArgErrno] ;;
      ret (FAILURE, None)
  | Some file_stat =>
      pwd <- sys_getpwuid (st_uid file_stat) ;;
      match pwd with
      | None =>
          log_error "Failed to get owner for %s: %s" [ArgS path; ArgErrno] ;;
          ret (FAILURE,
               Some (CString.take (Z.to_nat (owner_size - 1))
                                  (decimal (uid_as_int (st_uid file_stat)))))
      | Some pw_name =>
          ret (SUCCESS,
               Some (CString.take (Z.to_nat (owner_size - 1)) pw_name))
      end
  end.

(** [log_file_change]: one call is one record handed to the change log;
    [written] tells whether the line reached the file.  The change log
    is a file of the log directory and, like the other two logs, is
    kept in the trace, not in [s_fs]. *)
Definition log_file_change (username : option string)
    (filename action : string) : M Z :=
  now <- sys_time ;;
  t <- tick ;;
  if os_open E t CHANGE_LOG then
    emit (LogFileChange now username filename action true) ;;
    ret SUCCESS
  else
    emit (LogFileChange now username filename action false) ;;
    log_error "Failed to open change log file: %s" [ArgErrno] ;;
    ret FAILURE.

(** The test both directory loops make before touching an entry:
    [entry->d_type == DT_DIR || strstr(entry->d_name, REPORT_EXTENSION)
    == NULL]. *)
Definition not_a_report (entry : dirent) : bool :=
  orb (is_DT_DIR (d_type entry))
      (match CString.strstr (d_name entry) REPORT_EXTENSION with
       | None => true
       | Some _ => false
       end).

(** The body of the [readdir] loop of [transfer_reports]; [result] is the
    local it may set. *)
Definition transfer_entry (result : Z) (entry : dirent) : M Z :=
  (* Skip directory entries and non-XML files *)
  if not_a_report entry then ret result
  else
    (* Construct source and destination paths *)
    let src_path := snprintf_path UPLOAD_DIR (d_name entry) in
    let dest_path := snprintf_path DASHBOARD_DIR (d_name entry) in
    (* Move the file *)
    log_operation "Moving file: %s to %s"
                  [ArgS (d_name entry); ArgS DASHBOARD_DIR] ;;
    m <- move_file src_path dest_path ;;
    if negb (m =? SUCCESS) then
      log_error "Failed to move file %s to dashboard" [ArgS (d_name entry)] ;;
      ret FAILURE
    else
      (* Log the transfer operation *)
      o <- get_file_owner dest_path MAX_USER_LENGTH ;;
      (if fst o =? SUCCESS
       then r <- log_file_change (snd o) (d_name entry) "transfer" ;; ret tt
       else ret tt) ;;
      ret result.

Definition transfer_reports : M Z :=
  log_operation "Starting report transfer from upload to dashboard" [] ;;
  (* Open the upload directory *)
  dir <- sys_opendir UPLOAD_DIR ;;
  match dir with
  | None =>
      log_error "Failed to open upload directory: %s" [ArgErrno] ;;
      ret FAILURE
  | Some entries =>
      (* Process each file in the directory *)
      result <- fold_m transfer_entry entries SUCCESS ;;
      ret result
  end.

Definition department_reports : list string :=
  [DEPT_WAREHOUSE; DEPT_MANUFACTURING; DEPT_SALES; DEPT_DISTRIBUTION].

(** The inner [for] of [check_missing_reports]: the first department equal
    to the label, letter case aside, is marked. *)
Fixpoint mark_found (department : string) (depts : list string)
    (found : list Z) : list Z :=
  match depts, found with
  | d :: ds, f :: fs =>
      if CString.strcasecmp department d =? 0 then 1 :: fs
      else f :: mark_found department ds fs
  | _, _ => found
  end.

Definition check_entry (found : list Z) (entry : dirent) : M (list Z) :=
  (* Skip directory entries and non-XML files *)
  if not_a_report entry then ret found
  else
    (* Extract department from filename *)
    match extract_department_from_filename (d_name entry) MAX_USER_LENGTH with
    | Some department => ret (mark_found department department_reports found)
    | None => ret found
    end.

(** The closing [for] of [check_missing_reports]. *)
Fixpoint log_missing (depts : list string) (found : list Z)
    (missing_count : Z) : M Z :=
  match depts, found with
  | d :: ds, f :: fs =>
      if f =? 0 then
        log_error "Missing report from department: %s" [ArgS d] ;;
        log_missing ds fs (missing_count + 1)
      else log_missing ds fs missing_count
  | _, _ => ret missing_count
  end.

Definition check_missing_reports : M Z :=
  log_operation "Checking for missing department reports" [] ;;
  (* Open the dashboard directory *)
  dir <- sys_opendir DASHBOARD_DIR ;;
  match dir with
  | None =>
      log_error "Failed to open dashboard directory: %s" [ArgErrno] ;;
      ret 4 (* Assume all reports are missing *)
  | Some entries =>
      (* Scan for report files *)
      found <- fold_m check_entry entries [0; 0; 0; 0] ;;
      (* Log missing reports *)
      missing_count <- log_missing department_reports found 0 ;;
      log_operation "Missing report check completed, %d missing"
                    [ArgD missing_count] ;;
      ret missing_count
  end.

Definition is_hidden (name : string) : bool :=
  match name with
  | String c _ => Ascii.eqb c "."%char
  | EmptyString => false
  end.

(** What [scan_directory] hands back through [files] and [count]. *)
Record scan_result := mkScan {
  scan_status : Z;
  scan_files : list ReportFile;
  scan_count : Z
}.

(** The [readdir] loop of [scan_directory]; [files] is the filled part of
    the array, [file_count] the local counter and [array_size] the
    capacity.  A failed [realloc] leaves the loop with FAILURE, NULL and
    a count of 0. *)
Fixpoint scan_entries (dir_path : string) (entries : list dirent)
    (files : list ReportFile) (file_count array_size : Z) : M scan_result :=
  match entries with
  | [] => ret (mkScan SUCCESS files file_count)
  | entry :: rest =>
      (* Skip directory entries and hidden files *)
      if orb (is_DT_DIR (d_type entry)) (is_hidden (d_name entry)) then
        scan_entries dir_path rest files file_count array_size
      else
        (* Construct the full path *)
        let full_path := snprintf_path dir_path (d_name entry) in
        (* Get file information *)
        st <- sys_stat full_path ;;
        match st with
        | None =>
            log_error "Failed to get file stats for %s: %s"
                      [ArgS (d_name entry); ArgErrno] ;;
            scan_entries dir_path rest files file_count array_size
        | Some file_stat =>
            (* Resize the array if needed *)
            grown <- (if file_count >=? array_size
                      then ok <- sys_alloc ;; ret (ok, array_size * 2)
                      else ret (true, array_size)) ;;
            if negb (fst grown) then
              log_error "Memory reallocation failed for file list" [] ;;
              ret (mkScan FAILURE [] 0)
            else
              (* Fill in file information *)
              o <- get_file_owner full_path MAX_USER_LENGTH ;;
              let file :=
                mkReportFile
                  (CString.take (Z.to_nat (MAX_PATH_LENGTH - 1)) full_path)
                  (CString.take (Z.to_nat (MAX_PATH_LENGTH - 1))
                                (d_name entry))
                  (* Extract department if it's a report file *)
                  (match CString.strstr (d_name entry) REPORT_EXTENSION with
                   | Some _ =>
                       extract_department_from_filename
                         (d_name entry) MAX_USER_LENGTH
                   | None => Some ""
                   end)
                  (st_mtime file_stat)
                  (snd o)
                  (to_int32 (st_size file_stat)) in
              scan_entries dir_path rest (files ++ [file]) (file_count + 1)
                           (snd grown)
        end
  end.

(** [scan_directory]; on the two early returns [*files] and [*count] keep
    what the caller put there, NULL and 0. *)
Definition scan_directory (dir_path : string) : M scan_result :=
  (* Open the directory *)
  dir <- sys_opendir dir_path ;;
  match dir with
  | None =>
      log_error "Failed to open directory %s: %s" [ArgS dir_path; ArgErrno] ;;
      ret (mkScan FAILURE [] 0)
  | Some entries =>
      (* Allocate initial memory for files array *)
      ok <- sys_alloc ;;
      if negb ok then
        log_error "Memory allocation failed for file list" [] ;;
        ret (mkScan FAILURE [] 0)
      else
        (* Process each file in the directory *)
        scan_entries dir_path entries [] 0 10
  end.

(** The inner [for] over the previous files: stops at the first equal
    filename, logs a modification when the current file is newer, and
    yields [found]. *)
Fixpoint find_in_previous (cur : ReportFile) (previous : list ReportFile)
  : M Z :=
  match previous with
  | [] => ret 0
  | p :: rest =>
      if CString.strcmp (rf_filename cur) (rf_filename p) =? 0 then
        (* Check if file was modified *)
        (if rf_timestamp cur >? rf_timestamp p
         then r <- log_file_change (rf_owner cur) (rf_filename cur) "modify" ;;
              ret tt
         else ret tt) ;;
        ret 1
      else find_in_previous cur rest
  end.

(** The inner [for] over the current files: [found]. *)
Fixpoint find_in_current (prev : ReportFile) (current : list ReportFile)
  : Z :=
  match current with
  | [] => 0
  | c :: rest =>
      if CString.strcmp (rf_filename prev) (rf_filename c) =? 0 then 1
      else find_in_current prev rest
  end.

(** The body of the first [for] of [monitor_directory_changes]. *)
Definition monitor_current (previous : list ReportFile) (_ : unit)
    (cur : ReportFile) : M unit :=
  found <- find_in_previous cur previous ;;
  if found =? 0 then
    (* Log new file *)
    r <- log_file_change (rf_owner cur) (rf_filename cur) "create" ;;
    ret tt
  else ret tt.

(** The body of the second [for]. *)
Definition monitor_previous (current : list ReportFile) (_ : unit)
    (prev : ReportFile) : M unit :=
  if find_in_current prev current =? 0 then
    (* Log file deletion *)
    r <- log_file_change (rf_owner prev) (rf_filename prev) "delete" ;;
    ret tt
  else ret tt.

(** The elements [a[0]] .. [a[count - 1]] of an array. *)
Definition elements (a : list ReportFile) (count : Z) : list ReportFile :=
  List.firstn (Z.to_nat count) a.

Definition monitor_directory_changes : M Z :=
  (* Scan the upload directory *)
  scan <- scan_directory UPLOAD_DIR ;;
  let current_files := scan_files scan in
  let current_file_count := scan_count scan in
  if negb (scan_status scan =? SUCCESS) then ret FAILURE
  else
    previous <- get previous_files ;;
    match previous with
    | None =>
        (* If this is the first scan, just save the results *)
        modify (with_previous_files (Some current_files)) ;;
        modify (with_previous_file_count current_file_count) ;;
        now <- sys_time ;;
        modify (with_last_scan_time now) ;;
        ret SUCCESS
    | Some previous_files_ =>
        previous_file_count_ <- get previous_file_count ;;
        (* Look for new or modified files *)
        fold_m (monitor_current
                  (elements previous_files_ previous_file_count_))
               (elements current_files current_file_count) tt ;;
        (* Look for deleted files *)
        fold_m (monitor_previous
                  (elements current_files current_file_count))
               (elements previous_files_ previous_file_count_) tt ;;
        (* Free previous file list and update with current scan *)
        modify (with_previous_files (Some current_files)) ;;
        modify (with_previous_file_count current_file_count) ;;
        now <- sys_time ;;
        modify (with_last_scan_time now) ;;
        ret SUCCESS
    end.

(* ----------------------------------------------------------------- *)
(** *** backup.c *)

Definition set_directory_permissions (path : string) (mode : Z) : M Z :=
  r <- sys_chmod path mode ;;
  if negb (r =? 0) then
    log_error "Failed to set permissions on %s: %s" [ArgS path; ArgErrno] ;;
    ret FAILURE
  else ret SUCCESS.

Definition lock_directories : M Z :=
  log_operation "Locking directories for backup/transfer" [] ;;
  (* Change permissions to prevent modifications *)
  r1 <- set_directory_permissions UPLOAD_DIR LOCKED_PERMISSIONS ;;
  result <- (if negb (r1 =? SUCCESS)
             then log_error "Failed to lock upload directory" [] ;;
                  ret FAILURE
             else ret SUCCESS) ;;
  r2 <- set_directory_permissions DASHBOARD_DIR LOCKED_PERMISSIONS ;;
  if negb (r2 =? SUCCESS)
  then log_error "Failed to lock dashboard directory" [] ;; ret FAILURE
  else ret result.

Definition unlock_directories : M Z :=
  log_operation "Unlocking directories after backup/transfer" [] ;;
  (* Restore normal permissions *)
  r1 <- set_directory_permissions UPLOAD_DIR UPLOAD_PERMISSIONS ;;
  result <- (if negb (r1 =? SUCCESS)
             then log_error "Failed to unlock upload directory" [] ;;
                  ret FAILURE
             else ret SUCCESS) ;;
  r2 <- set_directory_permissions DASHBOARD_DIR DASHBOARD_PERMISSIONS ;;
  if negb (r2 =? SUCCESS)
  then log_error "Failed to unlock dashboard directory" [] ;; ret FAILURE
  else ret result.

(** The locals [success_count] and [file_count] of [backup_dashboard]. *)
Record backup_counts := mkCounts {
  success_count : Z;
  file_count : Z
}.

(** The body of the [readdir] loop of [backup_dashboard]. *)
Definition backup_entry (backup_path : string) (counts : backup_counts)
    (entry : dirent) : M backup_counts :=
  (* Skip directory entries *)
  if is_DT_DIR (d_type entry) then ret counts
  else
    (* Construct source and destination paths *)
    let src_path := snprintf_path DASHBOARD_DIR (d_name entry) in
    let dest_path := snprintf_path backup_path (d_name entry) in
    (* Copy the file *)
    c <- copy_file src_path dest_path ;;
    if c =? SUCCESS then
      ret (mkCounts (success_count counts + 1) (file_count counts + 1))
    else
      log_error "Failed to backup file: %s" [ArgS (d_name entry)] ;;
      ret (mkCounts (success_count counts) (file_count counts + 1)).

(** [backup_dashboard] together with the final values of its two
    counters when its loop was reached ([None] on the two early
    returns). *)
Definition backup_dashboard_counts : M (Z * option backup_counts) :=
  log_operation "Starting dashboard backup" [] ;;
  (* Get current time for backup folder name *)
  now <- sys_time ;;
  let timestamp := strftime_backup (os_localtime E now) in
  (* Create backup directory with timestamp *)
  let backup_path :=
    CString.take (Z.to_nat (MAX_PATH_LENGTH - 1))
                 (BACKUP_DIR ++ "/backup_" ++ timestamp) in
  r <- sys_mkdir backup_path 493 ;;
  if negb (r =? 0) then
    log_error "Failed to create backup directory: %s" [ArgErrno] ;;
    ret (FAILURE, None)
  else
    (* Open dashboard directory *)
    dir <- sys_opendir DASHBOARD_DIR ;;
    match dir with
    | None =>
        log_error "Failed to open dashboard directory: %s" [ArgErrno] ;;
        ret (FAILURE, None)
    | Some entries =>
        (* Process each file in the directory *)
        counts <- fold_m (backup_entry backup_path) entries (mkCounts 0 0) ;;
        (* Log result *)
        if success_count counts =? file_count counts then
          log_operation "Backup completed successfully: %d files"
                        [ArgD (success_count counts)] ;;
          ret (SUCCESS, Some counts)
        else
          log_error "Backup partially completed: %d/%d files"
                    [ArgD (success_count counts); ArgD (file_count counts)] ;;
          ret (if success_count counts >? 0 then SUCCESS else FAILURE,
               Some counts)
    end.

Definition backup_dashboard : M Z :=
  r <- backup_dashboard_counts ;; ret (fst r).

(* ----------------------------------------------------------------- *)
(** *** ipc.c *)

(** [receive_ipc_message]: the status and, after a whole record was read,
    the message stored through [msg]. *)
Definition receive_ipc_message : M (Z * option IPCMessage) :=
  fd <- get fifo_fd ;;
  (* Check if FIFO is open *)
  if fd =? -1 then
    log_error "FIFO not open for receiving message" [] ;;
    ret (FAILURE, None)
  else
    (* Try to read a message from the FIFO *)
    r <- sys_read_fifo ;;
    (* Check for errors or no data *)
    if bytes_read r =? -1 then
      if orb (read_errno r =? EAGAIN) (read_errno r =? EWOULDBLOCK) then
        (* No message available (non-blocking) *)
        ret (FAILURE, None)
      else
        log_error "Failed to read from FIFO: %s" [ArgErrno] ;;
        ret (FAILURE, None)
    else if negb (bytes_read r =? sizeof_IPCMessage) then
      (* Partial read *)
      log_error "Partial read from FIFO: %ld bytes" [ArgD (bytes_read r)] ;;
      ret (FAILURE, None)
    else ret (SUCCESS, Some (read_buf r)).

(* ----------------------------------------------------------------- *)
(** *** daemon.c *)

Inductive signal := SIGTERM | SIGINT | SIGUSR1 | SIGUSR2 | SIGHUP.

Definition signal_handler (sig : signal) : M unit :=
  match sig with
  | SIGTERM | SIGINT => modify (with_daemon_exit 1)
  | SIGUSR1 => modify (with_force_backup 1)
  | SIGUSR2 => modify (with_force_transfer 1)
  | SIGHUP => ret tt (* Could be used to reload configuration *)
  end.

(** The body of the first [if] of the loop. *)
Definition scheduled_transfer_and_backup : M unit :=
  log_operation "Starting scheduled file transfer and backup" [] ;;
  (* Lock directories before operations *)
  lock_directories ;;
  (* Transfer reports from upload to dashboard *)
  t <- transfer_reports ;;
  (if t =? SUCCESS
   then log_operation "File transfer completed successfully" []
   else log_error "File transfer failed" []) ;;
  (* Check for missing department reports *)
  check_missing_reports ;;
  (* Backup the dashboard directory *)
  b <- backup_dashboard ;;
  (if b =? SUCCESS
   then log_operation "Backup completed successfully" []
   else log_error "Backup failed" []) ;;
  (* Unlock directories after operations *)
  unlock_directories ;;
  (* Reset forced transfer flag *)
  modify (with_force_transfer 0).

(** The body of [if (force_backup)]. *)
Definition manual_backup : M unit :=
  log_operation "Starting manual backup" [] ;;
  (* Lock directories *)
  lock_directories ;;
  (* Backup the dashboard directory *)
  b <- backup_dashboard ;;
  (if b =? SUCCESS
   then log_operation "Manual backup completed successfully" []
   else log_error "Manual backup failed" []) ;;
  (* Unlock directories *)
  unlock_directories ;;
  (* Reset forced backup flag *)
  modify (with_force_backup 0).

(** The test of the first [if]: the scheduled minute, or the flag. *)
Definition transfer_due (tm_now : tm) (force_transfer_ : Z) : bool :=
  orb (andb (tm_hour tm_now =? TRANSFER_HOUR)
            (tm_min tm_now =? TRANSFER_MINUTE))
      (negb (force_transfer_ =? 0)).

(** One pass through the body of the [while], up to the [sleep]; the
    local [last_check] goes in and comes out. *)
Definition daemon_iteration (last_check : Z) : M Z :=
  (* Get current time *)
  now <- sys_time ;;
  let tm_now := os_localtime E now in
  (* Check if it's time to transfer files (1:00 AM) *)
  ft <- get force_transfer ;;
  (if transfer_due tm_now ft then scheduled_transfer_and_backup
   else ret tt) ;;
  (* Check for directory changes every 5 seconds *)
  fb <- get force_backup ;;
  if orb (now - last_check >=? 5) (negb (fb =? 0)) then
    monitor_directory_changes ;;
    (* If force_backup is set, perform a backup *)
    fb' <- get force_backup ;;
    (if negb (fb' =? 0) then manual_backup else ret tt) ;;
    ret now
  else ret last_check.

(** What happens while the loop sleeps: other processes change the
    directories and signals arrive. *)
Record sleep_input := mkSleep {
  others : filesystem -> filesystem;
  arriving : list signal
}.

Definition sleep (i : sleep_input) : M unit :=
  modify (fun s => with_fs (others i (s_fs s)) s) ;;
  fold_m (fun (_ : unit) sig => signal_handler sig) (arriving i) tt.

(** The [while (!daemon_exit)] loop, observed for as many passes as there
    are sleeps in [inputs]. *)
Fixpoint daemon_loop (inputs : list sleep_input) (last_check : Z) : M unit :=
  match inputs with
  | [] => ret tt
  | i :: rest =>
      ex <- get daemon_exit ;;
      if negb (ex =? 0) then log_operation "Exiting main daemon loop" []
      else
        last_check' <- daemon_iteration last_check ;;
        (* Sleep for 1 second before next iteration *)
        sleep i ;;
        daemon_loop rest last_check'
  end.

Definition daemon_main_loop (inputs : list sleep_input) : M unit :=
  log_operation "Entering main daemon loop" [] ;;
  daemon_loop inputs 0.

End Daemon.

From Stdlib Require DecimalPos.

(* ================================================================= *)
(** ** The rest of the sources *)

(** The functions below are the ones the daemon loop does not reach:
    directory management of [backup.c], set-up and tear-down of the FIFO
    in [ipc.c], the PID file, start and stop of [daemon.c], the XML check
    of [file_operations.c] and the time stamp of [utils.c]. *)

Definition TRUE : Z := 1.
Definition FALSE : Z := 0.

Definition LOG_DIR : string := "/var/report_system/logs".
Definition PID_FILE : string := "/var/run/report_daemon.pid".
Definition FIFO_PATH : string := "/var/report_system/ipc_pipe".

Definition MAX_TIME_LENGTH : Z := 64.

(** <errno.h>, <stdlib.h> and <limits.h> on Linux. *)
Definition ENOENT : Z := 2.
Definition EXIT_SUCCESS : Z := 0.
Definition EXIT_FAILURE : Z := 1.
Definition INT_MIN : Z := - 2 ^ 31.
Definition INT_MAX : Z := 2 ^ 31 - 1.

(* ----------------------------------------------------------------- *)
(** *** The stdio calls the sources make *)

Module Stdio.

(** [isspace] and [isdigit] in the C locale. *)
Definition isspace (c : ascii) : bool :=
  let n := nat_of_ascii c in
  orb (Nat.eqb n 32) (andb (Nat.leb 9 n) (Nat.leb n 13)).

Definition isdigit (c : ascii) : bool :=
  let n := nat_of_ascii c in
  andb (Nat.leb 48 n) (Nat.leb n 57).

Fixpoint skip_space (s : string) : string :=
  match s with
  | String c rest => if isspace c then skip_space rest else s
  | EmptyString => EmptyString
  end.

(** The longest prefix of decimal digits. *)
Fixpoint digits (s : string) : string :=
  match s with
  | String c rest => if isdigit c then String c (digits rest) else EmptyString
  | EmptyString => EmptyString
  end.

(** The conversion "%d" of [fscanf] on a stream holding [s]: white space
    is skipped, then an optional sign and decimal digits are read.
    [None] when no digit is there (the call does not return 1).  The
    value is the number as written, which is what the call stores for a
    number that fits an [int]; what it stores for a larger one is not
    modelled, and statements about a stored number assume that it
    fits. *)
Definition scan_d (s : string) : option Z :=
  let s1 := skip_space s in
  let signed :=
    match s1 with
    | String "-"%char rest => (true, rest)
    | String "+"%char rest => (false, rest)
    | _ => (false, s1)
    end in
  match digits (snd signed) with
  | EmptyString => None
  | ds =>
      match DecimalString.NilEmpty.uint_of_string ds with
      | Some u => Some (if fst signed then - Z.of_uint u else Z.of_uint u)
      | None => None
      end
  end.

(** What [fgets] stores from the bytes ahead: at most [n] of them, none
    after the first newline. *)
Fixpoint read_line (n : nat) (data : string) : string :=
  match n, data with
  | S n', String c rest =>
      if Ascii.eqb c "010"%char then String c EmptyString
      else String c (read_line n' rest)
  | _, _ => EmptyString
  end.

(** [fgets(buffer, size, fp)] on a stream just opened on [data]; [None]
    for NULL, at end of file. *)
Definition fgets (size : Z) (data : string) : option string :=
  match data with
  | EmptyString => None
  | _ => Some (read_line (Z.to_nat (size - 1)) data)
  end.

(** A buffer read as a C string: the bytes before the first NUL. *)
Fixpoint c_str (buffer : string) : string :=
  match buffer with
  | String c rest =>
      if Ascii.eqb c "000"%char then EmptyString else String c (c_str rest)
  | EmptyString => EmptyString
  end.

End Stdio.

(** [strftime(buffer, buffer_size, "%Y-%m-%d %H:%M:%S", tm)]: the text,
    when it and its NUL fit the buffer. *)
Definition strftime_log (buffer_size : Z) (t : tm) : option string :=
  let text :=
    (pad4 (tm_year t + 1900) ++ "-" ++ pad2 (tm_mon t + 1) ++ "-" ++
     pad2 (tm_mday t) ++ " " ++ pad2 (tm_hour t) ++ ":" ++
     pad2 (tm_min t) ++ ":" ++ pad2 (tm_sec t))%string in
  if Z.of_nat (String.length text) <? buffer_size then Some text else None.

(* ----------------------------------------------------------------- *)
(** *** More of the operating system *)

(** What a path names: [Some true] a directory, [Some false] another
    file, [None] nothing. *)
Definition fs_kind (fs : filesystem) (path : string) : option bool :=
  match fs path with
  | Some _ => Some true
  | None =>
      match fs_file fs path with
      | Some e => Some (is_DT_DIR (d_type e))
      | None => None
      end
  end.

(** The verdicts of the calls that [os] does not answer, drawn at the
    same ticks. *)
Record os_process := mkOsProcess {
  os_getpid : Z;
  os_access : nat -> string -> bool;
  os_mkfifo : nat -> string -> bool;
  os_fd : nat -> nat;
  os_close : nat -> Z -> bool;
  os_unlink_errno : nat -> Z;
  os_write : nat -> Z;
  os_kill : nat -> Z -> bool;
  os_fork : nat -> Z;
  os_setsid : nat -> Z;
  os_chdir : nat -> string -> Z;
  os_fread : nat -> bool;
  os_fflush : nat -> nat -> nat
}.

Definition with_fifo_fd (v : Z) (s : state) : state :=
  mkState (s_fs s) (s_clock s) (s_trace s) (daemon_exit s) (force_backup s)
          (force_transfer s) (last_scan_time s) (previous_files s)
          (previous_file_count s) v.

Definition with_sender_pid (pid : Z) (msg : IPCMessage) : IPCMessage :=
  mkIPCMessage (msg_type msg) pid (msg_status msg) (msg_text msg).

(** How a function that may call [exit] ends. *)
Inductive process_end :=
| Returns (value : Z)
| Exits (code : Z).

Section Lifecycle.

Variable E : os.
Variable F : os_process.

(** [stat] followed by [S_ISDIR(st.st_mode)]: [None] when the call
    fails. *)
Definition sys_stat_isdir (path : string) : M (option bool) :=
  t <- tick ;;
  fs <- get s_fs ;;
  match fs_kind fs path with
  | Some k => if os_stat E t path then ret (Some k) else ret None
  | None => ret None
  end.

(** [access(path, F_OK)]. *)
Definition sys_access (path : string) : M Z :=
  t <- tick ;;
  fs <- get s_fs ;;
  match fs_kind fs path with
  | Some _ => if os_access F t path then ret 0 else ret (-1)
  | None => ret (-1)
  end.

(** [mkfifo]: the name must be new and its directory must exist.
    [d_type_t] has no value for a FIFO; only [DT_DIR] is ever tested. *)
Definition sys_mkfifo (path : string) (mode : Z) : M Z :=
  t <- tick ;;
  fs <- get s_fs ;;
  match fs_kind fs path, split_path path with
  | None, Some (parent, name) =>
      match fs parent with
      | Some pd =>
          if os_mkfifo F t path then
            let entry :=
              mkDirent name DT_UNKNOWN
                       (mkInode (os_time E t) 0 (os_euid E) "") in
            modify (with_fs
              (fs_set fs parent
                 (mkDirectory (dir_mode pd) (dir_entries pd ++ [entry])))) ;;
            ret 0
          else ret (-1)
      | None => ret (-1)
      end
  | _, _ => ret (-1)
  end.

(** [open(path, O_RDWR | O_NONBLOCK)]: a descriptor, or -1. *)
Definition sys_open_rdwr (path : string) : M Z :=
  t <- tick ;;
  fs <- get s_fs ;;
  match fs_file fs path with
  | Some _ =>
      if os_open E t path then ret (Z.of_nat (os_fd F t)) else ret (-1)
  | None => ret (-1)
  end.

Definition sys_close (fd : Z) : M Z :=
  t <- tick ;; if os_close F t fd then ret 0 else ret (-1).

(** [unlink] with the [errno] it leaves on failure. *)
Definition sys_unlink_errno (path : string) : M (Z * Z) :=
  t <- get s_clock ;;
  fs <- get s_fs ;;
  r <- sys_unlink E path ;;
  if r =? 0 then ret (0, 0)
  else
    match fs_file fs path with
    | None => ret (r, ENOENT)
    | Some _ => ret (r, os_unlink_errno F t)
    end.

(** [write(fifo_fd, msg, sizeof(IPCMessage))]: the byte count, or -1. *)
Definition sys_write_fifo : M Z :=
  t <- tick ;; ret (os_write F t).

(** [kill(pid, 0)]. *)
Definition sys_kill (pid : Z) : M Z :=
  t <- tick ;; if os_kill F t pid then ret 0 else ret (-1).

Definition sys_fork : M Z :=
  t <- tick ;; ret (os_fork F t).

Definition sys_setsid : M Z :=
  t <- tick ;; ret (os_setsid F t).

Definition sys_chdir (path : string) : M Z :=
  t <- tick ;; ret (os_chdir F t path).

(** The bytes a stream opened for reading delivers; [None] on a read
    error. *)
Definition sys_fread (e : dirent) : M (option string) :=
  t <- tick ;;
  if os_fread F t then ret (Some (i_data (d_ino e))) else ret None.

(** [fprintf] and [fclose] on a stream opened with "w": as many of the
    bytes as the system takes reach the file. *)
Definition sys_fflush (path data : string) : M unit :=
  t <- tick ;;
  fs <- get s_fs ;;
  let taken := os_fflush F t (String.length data) in
  modify (with_fs (fs_write E (os_time E t) fs path (CString.take taken data))).

(* ----------------------------------------------------------------- *)
(** *** utils.c *)

Definition get_timestamp_string (timestamp : Z) (buffer_size : Z)
  : option string :=
  let tm_info := os_localtime E timestamp in
  strftime_log buffer_size tm_info.

(* ----------------------------------------------------------------- *)
(** *** backup.c: directory management *)

Definition create_directory_if_not_exists (path : string) : M Z :=
  (* Check if directory already exists *)
  st <- sys_stat_isdir path ;;
  match st with
  | Some true => ret SUCCESS
  | Some false =>
      log_error "%s exists but is not a directory" [ArgS path] ;;
      ret FAILURE
  | None =>
      (* Create the directory *)
      r <- sys_mkdir E path 493 ;;
      if negb (r =? 0) then
        log_error "Failed to create directory %s: %s" [ArgS path; ArgErrno] ;;
        ret FAILURE
      else
        log_operation "Created directory: %s" [ArgS path] ;;
        ret SUCCESS
  end.

(** The [readdir] loop of [is_directory_empty], left at the first entry
    other than "." and "..". *)
Fixpoint only_dot_entries (entries : list dirent) : Z :=
  match entries with
  | [] => TRUE
  | entry :: rest =>
      if andb (negb (CString.strcmp (d_name entry) "." =? 0))
              (negb (CString.strcmp (d_name entry) ".." =? 0))
      then FALSE
      else only_dot_entries rest
  end.

Definition is_directory_empty (path : string) : M Z :=
  (* Open the directory *)
  dir <- sys_opendir E path ;;
  match dir with
  | None =>
      log_error "Failed to open directory %s: %s" [ArgS path; ArgErrno] ;;
      ret FALSE
  | Some entries =>
      (* Check for entries other than . and .. *)
      ret (only_dot_entries entries)
  end.

(* ----------------------------------------------------------------- *)
(** *** file_operations.c: the XML check *)

Definition is_valid_xml_report (filepath : string) : M Z :=
  (* Check file extension *)
  match CString.strstr filepath REPORT_EXTENSION with
  | None => ret FALSE
  | Some _ =>
      (* Open the file *)
      fp <- sys_open_read E filepath ;;
      match fp with
      | None => ret FALSE
      | Some e =>
          (* Read the first few bytes to check for XML header *)
          data <- sys_fread e ;;
          match data with
          | None => ret FALSE
          | Some bytes =>
              match Stdio.fgets 1024 bytes with
              | None => ret FALSE
              | Some buffer =>
                  (* Basic check for XML format - should start with <?xml *)
                  match CString.strstr (Stdio.c_str buffer) "<?xml" with
                  | Some _ => ret TRUE
                  | None => ret FALSE
                  end
              end
          end
      end
  end.

(* ----------------------------------------------------------------- *)
(** *** ipc.c: set-up, tear-down and sending *)

Definition setup_ipc : M Z :=
  (* Create FIFO if it doesn't exist *)
  a <- sys_access FIFO_PATH ;;
  made <- (if negb (a =? 0) then sys_mkfifo FIFO_PATH 438 else ret 0) ;;
  if negb (made =? 0) then
    log_error "Failed to create FIFO: %s" [ArgErrno] ;;
    ret FAILURE
  else
    (* Open FIFO for both reading and writing *)
    fd <- sys_open_rdwr FIFO_PATH ;;
    modify (with_fifo_fd fd) ;;
    if fd =? -1 then
      log_error "Failed to open FIFO: %s" [ArgErrno] ;;
      ret FAILURE
    else
      log_operation "IPC setup completed" [] ;;
      ret SUCCESS.

Definition cleanup_ipc : M Z :=
  (* Close FIFO if open *)
  fd <- get fifo_fd ;;
  result <- (if negb (fd =? -1) then
               c <- sys_close fd ;;
               r <- (if negb (c =? 0) then
                       log_error "Failed to close FIFO: %s" [ArgErrno] ;;
                       ret FAILURE
                     else ret SUCCESS) ;;
               modify (with_fifo_fd (-1)) ;;
               ret r
             else ret SUCCESS) ;;
  (* Remove FIFO *)
  u <- sys_unlink_errno FIFO_PATH ;;
  result' <- (if andb (negb (fst u =? 0)) (negb (snd u =? ENOENT)) then
                log_error "Failed to remove FIFO: %s" [ArgErrno] ;;
                ret FAILURE
              else ret result) ;;
  log_operation "IPC cleanup completed" [] ;;
  ret result'.

(** What [send_ipc_message] leaves: its status, the caller's record
    afterwards and the record handed to [write], if [write] was
    called. *)
Record send_result := mkSend {
  send_status : Z;
  send_msg : IPCMessage;
  send_written : option IPCMessage
}.

Definition send_ipc_message (msg : IPCMessage) : M send_result :=
  fd <- get fifo_fd ;;
  (* Check if FIFO is open *)
  if fd =? -1 then
    log_error "FIFO not open for sending message" [] ;;
    ret (mkSend FAILURE msg None)
  else
    (* Set the sender PID *)
    let msg' := with_sender_pid (os_getpid F) msg in
    (* Write the message to the FIFO *)
    bytes_written <- sys_write_fifo ;;
    if negb (bytes_written =? sizeof_IPCMessage) then
      log_error "Failed to write to FIFO: %s" [ArgErrno] ;;
      ret (mkSend FAILURE msg' (Some msg'))
    else ret (mkSend SUCCESS msg' (Some msg')).

(** [create_reporting_process]: the process that called returns the
    child's PID or -1; the child runs [function], reports and exits.
    The last component is what the child sent. *)
Definition create_reporting_process (function : M Z) (msg_type_ : Z)
  : M (process_end * option send_result) :=
  (* Fork a new process *)
  pid <- sys_fork ;;
  if pid <? 0 then
    (* Fork failed *)
    log_error "Failed to fork process: %s" [ArgErrno] ;;
    ret (Returns (-1), None)
  else if pid =? 0 then
    (* Child process: execute the function *)
    result <- function ;;
    (* Prepare completion message *)
    let msg :=
      mkIPCMessage msg_type_ (os_getpid F) result
        (if result =? SUCCESS then "Operation completed successfully"
         else "Operation failed") in
    (* Send the completion message *)
    sent <- send_ipc_message msg ;;
    (* Exit with the result code *)
    ret (Exits (if result =? SUCCESS then EXIT_SUCCESS else EXIT_FAILURE),
         Some sent)
  else
    (* Parent process - return the child's PID *)
    ret (Returns pid, None).

(* ----------------------------------------------------------------- *)
(** *** daemon.c: PID file, start and stop *)

Definition create_pid_file : M Z :=
  opened <- sys_open_write E PID_FILE ;;
  if negb opened then
    log_error "Cannot create PID file: %s" [ArgErrno] ;;
    ret FAILURE
  else
    sys_fflush PID_FILE
               (decimal (os_getpid F) ++ String "010"%char "")%string ;;
    ret SUCCESS.

Definition check_singleton : M Z :=
  (* Try to open the PID file *)
  pid_fp <- sys_open_read E PID_FILE ;;
  match pid_fp with
  | None =>
      (* PID file doesn't exist, so no other instance is running *)
      ret FALSE
  | Some e =>
      (* Read the PID from the file *)
      data <- sys_fread e ;;
      match match data with
            | Some bytes => Stdio.scan_d bytes
            | None => None
            end with
      | Some pid =>
          (* Check if a process with this PID exists *)
          k <- sys_kill pid ;;
          if k =? 0 then ret TRUE else ret FALSE
      | None => ret FALSE
      end
  end.

(** [daemon_init]; what goes to [stderr] and to [syslog] is not among
    the log sinks, and the descriptors 0, 1 and 2 are not in the
    state. *)
Definition daemon_init : M process_end :=
  (* Check if another instance is already running *)
  running <- check_singleton ;;
  if negb (running =? 0) then ret (Returns FAILURE)
  else
    (* Fork the parent process *)
    pid <- sys_fork ;;
    (* Check for fork() error *)
    if pid <? 0 then ret (Returns FAILURE)
    (* Exit the parent process if fork was successful *)
    else if pid >? 0 then ret (Exits EXIT_SUCCESS)
    else
      (* Create a new session ID for the child process *)
      sid <- sys_setsid ;;
      if sid <? 0 then ret (Returns FAILURE)
      else
        (* Change the current working directory to root *)
        c <- sys_chdir "/" ;;
        if c <? 0 then ret (Returns FAILURE)
        else
          (* Create PID file *)
          p <- create_pid_file ;;
          if negb (p =? SUCCESS) then ret (Returns FAILURE)
          else
            (* Create necessary directories if they don't exist *)
            create_directory_if_not_exists UPLOAD_DIR ;;
            create_directory_if_not_exists DASHBOARD_DIR ;;
            create_directory_if_not_exists BACKUP_DIR ;;
            create_directory_if_not_exists LOG_DIR ;;
            (* Setup IPC *)
            i <- setup_ipc ;;
            if negb (i =? SUCCESS) then
              log_error "Failed to setup IPC" [] ;;
              ret (Returns FAILURE)
            else
              (* Set initial directory permissions *)
              set_directory_permissions E UPLOAD_DIR UPLOAD_PERMISSIONS ;;
              set_directory_permissions E DASHBOARD_DIR
                                        DASHBOARD_PERMISSIONS ;;
              log_operation "Daemon initialization complete" [] ;;
              ret (Returns SUCCESS).

Definition daemon_cleanup : M unit :=
  (* Remove PID file *)
  sys_unlink E PID_FILE ;;
  (* Cleanup IPC *)
  cleanup_ipc ;;
  log_operation "Daemon shutdown complete" [].

End Lifecycle.

(* ================================================================= *)
(** ** Observations used in the statements *)

(** The events a run appends: a computation [emits P] when the trace
    only grows, by events that satisfy [P]. *)
Definition emits {A : Type} (P : event -> bool) (m : M A) : Prop :=
  forall s, exists l,
    s_trace (snd (m s)) = s_trace s ++ l /\ forallb P l = true.

(** A computation [keeps] an observation it never changes. *)
Definition keeps {A X : Type} (proj : state -> X) (m : M A) : Prop :=
  forall s, proj (snd (m s)) = proj s.

(** The events of [s'] that [s] did not have yet. *)
Definition new_events (s s' : state) : list event :=
  skipn (List.length (s_trace s)) (s_trace s').

Definition is_error (e : event) : bool :=
  match e with LogError _ _ => true | _ => false end.

(** The operation-log lines that open a stage of a run. *)
Definition MARK_SCHEDULED : string :=
  "Starting scheduled file transfer and backup".
Definition MARK_MANUAL : string := "Starting manual backup".
Definition MARK_LOCK : string := "Locking directories for backup/transfer".
Definition MARK_TRANSFER : string :=
  "Starting report transfer from upload to dashboard".
Definition MARK_CHECK : string := "Checking for missing department reports".
Definition MARK_BACKUP : string := "Starting dashboard backup".
Definition MARK_UNLOCK : string :=
  "Unlocking directories after backup/transfer".

Definition stage_markers : list string :=
  [MARK_SCHEDULED; MARK_MANUAL; MARK_LOCK; MARK_TRANSFER; MARK_CHECK;
   MARK_BACKUP; MARK_UNLOCK].

Definition is_marker (format : string) : bool :=
  existsb (String.eqb format) stage_markers.

(** The stage lines of a trace, in order. *)
Fixpoint markers (l : list event) : list string :=
  match l with
  | [] => []
  | LogOperation f _ :: rest =>
      if is_marker f then f :: markers rest else markers rest
  | _ :: rest => markers rest
  end.

(** Events that open no stage. *)
Definition quiet (e : event) : bool :=
  match e with
  | LogOperation f _ => negb (is_marker f)
  | _ => true
  end.

(** How often the scheduled sequence was started. *)
Definition scheduled_runs (l : list event) : nat :=
  count_occ string_dec (markers l) MARK_SCHEDULED.

(** A change event as the change log receives it. *)
Record ChangeEvent := mkChange {
  ce_owner : option string;
  ce_filename : string;
  ce_action : string
}.

Fixpoint change_events (l : list event) : list ChangeEvent :=
  match l with
  | [] => []
  | LogFileChange _ u f a _ :: rest => mkChange u f a :: change_events rest
  | _ :: rest => change_events rest
  end.

(** A computation appends the change events [evs], in this order. *)
Definition reports {A : Type} (evs : list ChangeEvent) (m : M A) : Prop :=
  forall s,
    change_events (s_trace (snd (m s))) = change_events (s_trace s) ++ evs.

Definition events_about (name : string) (evs : list ChangeEvent)
  : list ChangeEvent :=
  List.filter (fun e => String.eqb (ce_filename e) name) evs.

(** The file a directory lists under a name. *)
Definition dir_file (s : state) (dir name : string) : option dirent :=
  match s_fs s dir with
  | Some d => lookup_entry name (dir_entries d)
  | None => None
  end.

Definition mode_of (s : state) (dir : string) : option Z :=
  option_map dir_mode (s_fs s dir).

(** [name] contains [c]. *)
Definition has_char (c : ascii) (name : string) : Prop :=
  exists a b, name = (a ++ String c b)%string.

(** [needle] occurs in [s] at offset [i]. *)
Definition occurs_at (needle s : string) (i : nat) : Prop :=
  exists a b, s = (a ++ needle ++ b)%string /\ String.length a = i.

(** What [readdir] guarantees about the names of one directory: they
    are distinct, hold no slash and fit [d_name]. *)
Definition wf_entries (entries : list dirent) : Prop :=
  NoDup (List.map d_name entries) /\
  forall e, In e entries ->
    ~ has_char "/"%char (d_name e) /\
    (String.length (d_name e) <= NAME_MAX)%nat.

(* ----------------------------------------------------------------- *)
(** *** Change detection as section 4.2 words it *)

Definition same_filename (a b : ReportFile) : bool :=
  String.eqb (rf_filename a) (rf_filename b).

(** For a file of the current inventory: [created] when absent from the
    previous one, [modified] when present and strictly newer, nothing
    otherwise. *)
Definition created_or_modified (previous : list ReportFile)
    (cur : ReportFile) : list ChangeEvent :=
  match List.find (same_filename cur) previous with
  | None => [mkChange (rf_owner cur) (rf_filename cur) "create"]
  | Some p =>
      if rf_timestamp p <? rf_timestamp cur
      then [mkChange (rf_owner cur) (rf_filename cur) "modify"]
      else []
  end.

(** For a file of the previous inventory: [deleted] when absent from the
    current one. *)
Definition deleted (current : list ReportFile) (prev : ReportFile)
  : list ChangeEvent :=
  if List.existsb (same_filename prev) current then []
  else [mkChange (rf_owner prev) (rf_filename prev) "delete"].

(** All created/modified events in current order, then all deleted events
    in previous order. *)
Definition detect_spec (previous current : list ReportFile)
  : list ChangeEvent :=
  List.flat_map (created_or_modified previous) current ++
  List.flat_map (deleted current) previous.

Definition filenames (files : list ReportFile) : list string :=
  List.map rf_filename files.

(** The globals of daemon.c, file_operations.c and ipc.c. *)
Definition globals (s : state)
  : Z * Z * Z * Z * option (list ReportFile) * Z * Z :=
  (daemon_exit s, force_backup s, force_transfer s, last_scan_time s,
   previous_files s, previous_file_count s, fifo_fd s).

(** The stored array and its count belong together. *)
Definition inventory_ok (s : state) : Prop :=
  match previous_files s with
  | Some files => previous_file_count s = Z.of_nat (List.length files)
  | None => previous_file_count s = 0
  end.

Definition count_errors (format : string) (l : list event) : Z :=
  Z.of_nat
    (List.length
       (List.filter
          (fun e => match e with
                    | LogError f _ => String.eqb f format
                    | _ => false
                    end) l)).

Definition is_file (e : dirent) : bool := negb (is_DT_DIR (d_type e)).

(** Every event. *)
Definition any_event (e : event) : bool := true.

(* ----------------------------------------------------------------- *)
(** *** Concrete machines for the examples *)

Definition no_message : IPCMessage := mkIPCMessage 0 0 0 "".

(** Noon on 1 January 2024. *)
Definition tm_noon : tm := mkTm 124 0 1 12 0 0.

(** The scheduled minute, 01:00. *)
Definition tm_one_am : tm := mkTm 124 0 1 1 0 0.

(** An operating system on which every call succeeds, at noon, with an
    empty FIFO. *)
Definition os_ok : os :=
  mkOs (fun _ => 1704110400) (fun _ => tm_noon) 0
       (fun _ _ _ => true) (fun _ _ => true) (fun _ _ => true)
       (fun _ _ => true) (fun _ _ _ => true) (fun _ _ => true)
       (fun _ _ => true) (fun _ => IoDone) (fun _ _ => Some "daemon")
       (fun _ => true) (fun _ => mkRead (-1) EAGAIN no_message).

(** The same, with another answer of [read]. *)
Definition os_reading (r : read_result) : os :=
  mkOs (os_time os_ok) (os_localtime os_ok) (os_euid os_ok)
       (os_chmod os_ok) (os_mkdir os_ok) (os_opendir os_ok)
       (os_stat os_ok) (os_rename os_ok) (os_unlink os_ok)
       (os_open os_ok) (os_copy_io os_ok) (os_getpwuid os_ok)
       (os_alloc os_ok) (fun _ => r).

(** The same, with [chmod] refusing to set the given mode. *)
Definition os_chmod_refusing (mode : Z) : os :=
  mkOs (os_time os_ok) (os_localtime os_ok) (os_euid os_ok)
       (fun _ _ m => negb (m =? mode)) (os_mkdir os_ok) (os_opendir os_ok)
       (os_stat os_ok) (os_rename os_ok) (os_unlink os_ok)
       (os_open os_ok) (os_copy_io os_ok) (os_getpwuid os_ok)
       (os_alloc os_ok) (os_read os_ok).

(** The same, at another local time. *)
Definition os_at (t : tm) : os :=
  mkOs (os_time os_ok) (fun _ => t) (os_euid os_ok)
       (os_chmod os_ok) (os_mkdir os_ok) (os_opendir os_ok)
       (os_stat os_ok) (os_rename os_ok) (os_unlink os_ok)
       (os_open os_ok) (os_copy_io os_ok) (os_getpwuid os_ok)
       (os_alloc os_ok) (os_read os_ok).

(** The same, with [rename] and the copy fallback failing for one
    source path. *)
Definition os_stuck (path : string) : os :=
  mkOs (os_time os_ok) (os_localtime os_ok) (os_euid os_ok)
       (os_chmod os_ok) (os_mkdir os_ok) (os_opendir os_ok)
       (os_stat os_ok)
       (fun _ src _ => negb (String.eqb src path))
       (os_unlink os_ok)
       (fun _ p => negb (String.eqb p path))
       (os_copy_io os_ok) (os_getpwuid os_ok)
       (os_alloc os_ok) (os_read os_ok).

Definition file_of (name data : string) (mtime : Z) : dirent :=
  mkDirent name DT_REG
           (mkInode mtime (Z.of_nat (String.length data)) 1000 data).

(** The three directories of the daemon, with the given upload and
    dashboard entries and no backups yet. *)
Definition fs_of (upload dashboard : list dirent) : filesystem :=
  fs_set (fs_set (fs_set (fun _ => None)
                         BACKUP_DIR (mkDirectory 493 []))
                 DASHBOARD_DIR (mkDirectory DASHBOARD_PERMISSIONS dashboard))
         UPLOAD_DIR (mkDirectory UPLOAD_PERMISSIONS upload).

(** A daemon that has just started on the given directories: no flag
    set, nothing scanned yet, the FIFO open on descriptor 3. *)
Definition started (fs : filesystem) : state :=
  mkState fs 0 [] 0 0 0 0 None 0 3.

(** A computation appends the stage lines [mk], in this order. *)
Definition marks {A : Type} (mk : list string) (m : M A) : Prop :=
  forall s, markers (s_trace (snd (m s))) = markers (s_trace s) ++ mk.

Definition by_name (name : string) (files : list ReportFile)
  : list ReportFile :=
  List.filter (fun f => String.eqb (rf_filename f) name) files.

(** The stage lines of the scheduled sequence and of a manual backup. *)
Definition scheduled_stages : list string :=
  [MARK_SCHEDULED; MARK_LOCK; MARK_TRANSFER; MARK_CHECK; MARK_BACKUP;
   MARK_UNLOCK].

Definition manual_stages : list string :=
  [MARK_MANUAL; MARK_LOCK; MARK_BACKUP; MARK_UNLOCK].

(** The scheduled minute. *)
Definition at_transfer_time (t : tm) : bool :=
  andb (tm_hour t =? TRANSFER_HOUR) (tm_min t =? TRANSFER_MINUTE).

(** How a run may end: each managed directory has its normal mode, or the
    failure to unlock it is among the run's error-log lines. *)
Definition unlocked_or_logged (s s' : state) : Prop :=
  (mode_of s' UPLOAD_DIR = Some UPLOAD_PERMISSIONS \/
   In (LogError "Failed to unlock upload directory" []) (new_events s s')) /\
  (mode_of s' DASHBOARD_DIR = Some DASHBOARD_PERMISSIONS \/
   In (LogError "Failed to unlock dashboard directory" [])
      (new_events s s')).

(** The steps of the scheduled sequence before [unlock_directories]. *)
Definition scheduled_before_unlock (E : os) : M unit :=
  log_operation "Starting scheduled file transfer and backup" [] ;;
  lock_directories E ;;
  t <- transfer_reports E ;;
  (if t =? SUCCESS
   then log_operation "File transfer completed successfully" []
   else log_error "File transfer failed" []) ;;
  check_missing_reports E ;;
  b <- backup_dashboard E ;;
  (if b =? SUCCESS
   then log_operation "Backup completed successfully" []
   else log_error "Backup failed" []).

(** The steps of a manual backup before [unlock_directories]. *)
Definition manual_before_unlock (E : os) : M unit :=
  log_operation "Starting manual backup" [] ;;
  lock_directories E ;;
  b <- backup_dashboard E ;;
  (if b =? SUCCESS
   then log_operation "Manual backup completed successfully" []
   else log_error "Manual backup failed" []).

(** The clock never shows the scheduled minute. *)
Definition never_transfer_time (E : os) : Prop :=
  forall t, at_transfer_time (os_localtime E (os_time E t)) = false.

Definition BACKUP_FAILED : string := "Failed to backup file: %s".

(** The number of entries [backup_dashboard] tries to copy. *)
Definition count_files (entries : list dirent) : Z :=
  Z.of_nat (List.length (List.filter is_file entries)).

(** What [check_entry] yields. *)
Definition checked (found : list Z) (entry : dirent) : list Z :=
  if not_a_report entry then found
  else match extract_department_from_filename (d_name entry)
                                              MAX_USER_LENGTH with
       | Some department => mark_found department department_reports found
       | None => found
       end.

Definition MISSING_REPORT : string := "Missing report from department: %s".

Definition MOVE_FAILED : string := "Failed to move file %s to dashboard".

(** Between [s] and [s'] no file of the two managed directories changed,
    except perhaps the one called [name]. *)
Definition only_touches (name : string) (s s' : state) : Prop :=
  forall other, other <> name ->
    dir_file s' UPLOAD_DIR other = dir_file s UPLOAD_DIR other /\
    dir_file s' DASHBOARD_DIR other = dir_file s DASHBOARD_DIR other.

(** The file [e] of the upload directory is in the dashboard directory
    now, with its bytes, and gone from the upload directory. *)
Definition moved (s' : state) (e : dirent) : Prop :=
  dir_file s' UPLOAD_DIR (d_name e) = None /\
  exists e', dir_file s' DASHBOARD_DIR (d_name e) = Some e' /\
             i_data (d_ino e') = i_data (d_ino e).

(** Example files and states. *)
Definition sales_report : dirent := file_of "report_Sales.xml" "<sales/>" 5.
Definition warehouse_report : dirent :=
  file_of "report_Warehouse_2024-05-01.xml" "<warehouse/>" 6.
Definition notes_file : dirent := file_of "notes.txt" "todo" 7.
Definition sales_bak : dirent := file_of "report_Sales.xml.bak" "<r/>" 5.

Definition upload_example : directory :=
  mkDirectory UPLOAD_PERMISSIONS [sales_report; warehouse_report; notes_file].

Definition SALES_PATH : string := "/var/report_system/upload/report_Sales.xml".

(** A daemon with two reports waiting in the upload directory. *)
Definition state_uploading : state :=
  started (fs_of (dir_entries upload_example) []).

(** A daemon with a file whose name only contains ".xml" in both
    directories. *)
Definition state_bak : state := started (fs_of [sales_bak] [sales_bak]).

(** A daemon with two files published. *)
Definition state_published : state :=
  started (fs_of [] [sales_report; notes_file]).

(** A daemon that scanned "a.xml" and "b.xml" earlier and now finds
    "a.xml" rewritten, "b.xml" gone and "c.xml" new. *)
Definition earlier_inventory : list ReportFile :=
  [mkReportFile "/var/report_system/upload/a.xml" "a.xml" None 5
                (Some "alice") 3;
   mkReportFile "/var/report_system/upload/b.xml" "b.xml" None 5
                (Some "bob") 3].

Definition state_rescanning : state :=
  mkState (fs_of [file_of "a.xml" "<a2/>" 9; file_of "c.xml" "<c/>" 8] [])
          0 [] 0 0 0 0 (Some earlier_inventory) 2 3.

(** A daemon that has just received SIGUSR2. *)
Definition state_forced : state :=
  with_force_transfer 1 (started (fs_of [] [])).

Definition quiet_sleep : sleep_input := mkSleep (fun fs => fs) [].

Definition read_no_data : read_result := mkRead (-1) EAGAIN no_message.
Definition read_error : read_result := mkRead (-1) EIO no_message.
Definition read_partial : read_result := mkRead 100 0 no_message.

(* ================================================================= *)
(** ** Observations used in the further statements *)

(** A string in lower case, as [strcasecmp] compares it. *)
Fixpoint lower (s : string) : string :=
  match s with
  | EmptyString => EmptyString
  | String c rest => String (CString.tolower c) (lower rest)
  end.

(** The entry counts as a report of department [dept]: it passes the test
    of the [readdir] loop and its label is [dept], letter case aside. *)
Definition reports_for (dept : string) (e : dirent) : bool :=
  andb (negb (not_a_report e))
       (match extract_department_from_filename (d_name e)
                                               MAX_USER_LENGTH with
        | Some department => CString.strcasecmp department dept =? 0
        | None => false
        end).

(** The departments no entry reports for, in the order of
    [department_reports]. *)
Definition missing_departments (entries : list dirent) : list string :=
  List.filter (fun dept => negb (List.existsb (reports_for dept) entries))
              department_reports.

(** The array [found] once the entries have been looked at. *)
Definition found_after (entries : list dirent) : list Z :=
  List.map (fun dept => if List.existsb (reports_for dept) entries
                        then 1 else 0)
           department_reports.

(** The departments whose slot in [found] is still 0. *)
Fixpoint unmarked (depts : list string) (found : list Z) : list string :=
  match depts, found with
  | d :: ds, f :: fs =>
      if f =? 0 then d :: unmarked ds fs else unmarked ds fs
  | _, _ => []
  end.

(** An entry [scan_directory] does not skip. *)
Definition visible (e : dirent) : bool :=
  negb (orb (is_DT_DIR (d_type e)) (is_hidden (d_name e))).

(** The record [scan_directory] fills in for the entry [e] of the
    directory [dir_path]; the owner comes from [get_file_owner]. *)
Definition scanned_as (dir_path : string) (e : dirent) (f : ReportFile)
  : Prop :=
  rf_path f = (dir_path ++ "/" ++ d_name e)%string /\
  rf_filename f = d_name e /\
  rf_timestamp f = st_mtime (d_ino e) /\
  rf_size f = to_int32 (st_size (d_ino e)) /\
  rf_department f =
    match CString.strstr (d_name e) REPORT_EXTENSION with
    | Some _ => extract_department_from_filename (d_name e) MAX_USER_LENGTH
    | None => Some ""
    end.

Definition STAT_FAILED : string := "Failed to get file stats for %s: %s".

(** A daemon whose stored inventory is what the upload directory still
    holds. *)
Definition settled_inventory : list ReportFile :=
  [mkReportFile "/var/report_system/upload/a.xml" "a.xml" (Some "") 5
                (Some "alice") 4].

Definition state_settled : state :=
  mkState (fs_of [file_of "a.xml" "<a/>" 5] [])
          0 [] 0 0 0 0 (Some settled_inventory) 1 3.

(** The bytes of the file a path names. *)
Definition file_data (fs : filesystem) (path : string) : option string :=
  option_map (fun e => i_data (d_ino e)) (fs_file fs path).

Definition UNLINK_FAILED : string :=
  "Failed to delete source file after copy: %s".

(** An operating system on which [rename] and [unlink] fail and every
    other call succeeds. *)
Definition os_copying : os :=
  mkOs (os_time os_ok) (os_localtime os_ok) (os_euid os_ok)
       (os_chmod os_ok) (os_mkdir os_ok) (os_opendir os_ok)
       (os_stat os_ok) (fun _ _ _ => false) (fun _ _ => false)
       (os_open os_ok) (os_copy_io os_ok) (os_getpwuid os_ok)
       (os_alloc os_ok) (os_read os_ok).

(** The same, with the copy loop stopped by a short write after [n]
    bytes. *)
Definition os_short_write (n : nat) : os :=
  mkOs (os_time os_ok) (os_localtime os_ok) (os_euid os_ok)
       (os_chmod os_ok) (os_mkdir os_ok) (os_opendir os_ok)
       (os_stat os_ok) (fun _ _ _ => false) (fun _ _ => false)
       (os_open os_ok) (fun _ => IoWriteFails n) (os_getpwuid os_ok)
       (os_alloc os_ok) (os_read os_ok).

Definition SALES_PUBLISHED : string :=
  "/var/report_system/dashboard/report_Sales.xml".

(** Whether the [chmod] drawn at tick [t] succeeds, and the directories
    after it. *)
Definition chmod_ok (E : os) (t : nat) (fs : filesystem) (path : string)
    (mode : Z) : bool :=
  match fs path with
  | Some _ => os_chmod E t path mode
  | None => false
  end.

Definition chmod_fs (fs : filesystem) (path : string) (mode : Z)
  : filesystem :=
  match fs path with
  | Some d => fs_set fs path (mkDirectory mode (dir_entries d))
  | None => fs
  end.

Definition SET_FAILED : string := "Failed to set permissions on %s: %s".

(** The shape [lock_directories] and [unlock_directories] share: the
    opening line, then one [set_directory_permissions] for each
    directory, each with its own error line. *)
Definition set_both (E : os) (opening upload_failed dashboard_failed : string)
    (upload_mode dashboard_mode : Z) : M Z :=
  log_operation opening [] ;;
  r1 <- set_directory_permissions E UPLOAD_DIR upload_mode ;;
  result <- (if negb (r1 =? SUCCESS)
             then log_error upload_failed [] ;; ret FAILURE
             else ret SUCCESS) ;;
  r2 <- set_directory_permissions E DASHBOARD_DIR dashboard_mode ;;
  if negb (r2 =? SUCCESS)
  then log_error dashboard_failed [] ;; ret FAILURE
  else ret result.

(** The error lines of a directory whose mode could not be set. *)
Definition chmod_errors (ok : bool) (path failed : string) : list event :=
  if ok then []
  else [LogError SET_FAILED [ArgS path; ArgErrno]; LogError failed []].

Definition LOCK_UPLOAD_FAILED : string := "Failed to lock upload directory".
Definition LOCK_DASHBOARD_FAILED : string :=
  "Failed to lock dashboard directory".

(** The directory [backup_dashboard] creates when it starts in [s]. *)
Definition backup_path_at (E : os) (s : state) : string :=
  CString.take (Z.to_nat (MAX_PATH_LENGTH - 1))
    (BACKUP_DIR ++ "/backup_" ++
     strftime_backup (os_localtime E (os_time E (s_clock s)))).

Definition MKDIR_FAILED : string := "Failed to create backup directory: %s".

Definition EXIT_LINE : string := "Exiting main daemon loop".

(** Every event but the line the loop logs when it ends. *)
Definition not_exit_line (e : event) : bool :=
  match e with
  | LogOperation f _ => negb (String.eqb f EXIT_LINE)
  | _ => true
  end.

(** SIGTERM and SIGINT. *)
Definition terminates (sig : signal) : bool :=
  match sig with
  | SIGTERM | SIGINT => true
  | _ => false
  end.

(** The clock always shows the scheduled minute. *)
Definition always_transfer_time (E : os) : Prop :=
  forall t, at_transfer_time (os_localtime E (os_time E t)) = true.

(** A sleep during which SIGTERM arrives, after SIGUSR1. *)
Definition stopping_sleep : sleep_input :=
  mkSleep (fun fs => fs) [SIGUSR1; SIGTERM].

(** The answers, on a machine where every further call succeeds, of a
    process 4242 that [fork] starts as the child. *)
Definition os_process_ok : os_process :=
  mkOsProcess 4242 (fun _ _ => true) (fun _ _ => true) (fun _ => 3%nat)
              (fun _ _ => true) (fun _ => 13) (fun _ => sizeof_IPCMessage)
              (fun _ _ => true) (fun _ => 0) (fun _ => 1) (fun _ _ => 0)
              (fun _ => true) (fun _ n => n).

(** The root of the daemon's directories and the directory of its PID
    file, both empty, beside the three managed directories. *)
Definition fs_installed : filesystem :=
  fs_set (fs_set (fs_of [] []) "/var/report_system" (mkDirectory 493 []))
         "/var/run" (mkDirectory 493 []).

Definition CREATED : string := "Created directory: %s".

Definition SETUP_DONE : string := "IPC setup completed".
Definition CLEANUP_DONE : string := "IPC cleanup completed".
Definition MKFIFO_FAILED : string := "Failed to create FIFO: %s".
Definition OPEN_FIFO_FAILED : string := "Failed to open FIFO: %s".
Definition SEND_CLOSED : string := "FIFO not open for sending message".
Definition RECEIVE_CLOSED : string := "FIFO not open for receiving message".

(** A completion message as a caller fills it in, with a sender of its
    own choosing. *)
Definition done_message : IPCMessage := mkIPCMessage 2 1 0 "done".

(** The line [create_pid_file] prints. *)
Definition pid_line (F : os_process) : string :=
  (decimal (os_getpid F) ++ String "010"%char "")%string.

(** The header [is_valid_xml_report] looks for, and the bytes that end a
    line and a C string. *)
Definition XML_HEADER : string := "<?xml".
Definition NEWLINE : ascii := "010"%char.
Definition NUL : ascii := "000"%char.

(** A report whose XML declaration stands on the second line. *)
Definition late_header_report : dirent :=
  file_of "report_Sales.xml"
          ("<sales/>" ++ String NEWLINE "<?xml version=1?>")%string 5.

Definition state_late_header : state :=
  started (fs_of [late_header_report] []).

Definition INIT_DONE : string := "Daemon initialization complete".
Definition SHUTDOWN_DONE : string := "Daemon shutdown complete".
Definition FORK_FAILED : string := "Failed to fork process: %s".

(** The directory of the PID file, and the one of the FIFO. *)
Definition RUN_DIR : string := "/var/run".
Definition SYSTEM_DIR : string := "/var/report_system".

(** The record a child of [create_reporting_process] reports with. *)
Definition completion_message (F : os_process) (msg_type_ result : Z)
  : IPCMessage :=
  mkIPCMessage msg_type_ (os_getpid F) result
    (if result =? SUCCESS then "Operation completed successfully"
     else "Operation failed").

(* ----------------------------------------------------------------- *)
(** *** The log directory *)

(** The log calls append to files of [LOG_DIR], which [s_fs] does not
    follow: a statement about what a call leaves alone speaks of every
    other directory. *)
Definition unchanged_but_logs (fs fs' : filesystem) : Prop :=
  forall p, p <> LOG_DIR -> fs' p = fs p.

(** [path] names a file of the log directory. *)
Definition in_log_dir (path : string) : bool :=
  match split_path path with
  | Some (d, _) => String.eqb d LOG_DIR
  | None => false
  end.

(* ----------------------------------------------------------------- *)
(** *** The scheduled sequence, as the specification words it *)

(** [s'] is [s] with further lines logged. *)
Definition logged (s s' : state) : Prop :=
  exists l, s' = with_trace (s_trace s ++ l) s.

(** Lock, transfer, missing-report check, backup, unlock: each runs on
    the state the one before it left, with nothing but log lines in
    between, and the forced-transfer flag is cleared at the end. *)
Definition locked_sequence_runs (E : os) (s s' : state) : Prop :=
  exists s0 s1 s2,
    logged s s0 /\
    logged (snd (transfer_reports E (snd (lock_directories E s0)))) s1 /\
    logged (snd (backup_dashboard E (snd (check_missing_reports E s1)))) s2 /\
    s' = with_force_transfer 0 (snd (unlock_directories E s2)).

(** The second [if] of the loop body: the change monitor and the manual
    backup, with the value [last_check] has afterwards. *)
Definition monitoring_step (E : os) (now last_check : Z) : M Z :=
  (* Check for directory changes every 5 seconds *)
  fb <- get force_backup ;;
  if orb (now - last_check >=? 5) (negb (fb =? 0)) then
    monitor_directory_changes E ;;
    (* If force_backup is set, perform a backup *)
    fb' <- get force_backup ;;
    (if negb (fb' =? 0) then manual_backup E else ret tt) ;;
    ret now
  else ret last_check.

(** A directory of the examples that the sources do not name. *)
Definition ARCHIVE_DIR : string := "/var/report_system/archive".

(** A machine on which no user id has an account, and a report owned by
    the user id 4294967294. *)
Definition os_no_account : os :=
  mkOs (os_time os_ok) (os_localtime os_ok) (os_euid os_ok)
       (os_chmod os_ok) (os_mkdir os_ok) (os_opendir os_ok)
       (os_stat os_ok) (os_rename os_ok) (os_unlink os_ok)
       (os_open os_ok) (os_copy_io os_ok) (fun _ _ => None)
       (os_alloc os_ok) (os_read os_ok).

Definition foreign_report : dirent :=
  mkDirent "report_Sales.xml" DT_REG (mkInode 5 8 4294967294 "<sales/>").

Definition state_foreign : state := started (fs_of [foreign_report] []).

(* ================================================================= *)
(** ** Reasoning about the monad *)

Lemma bind_eq {A B} (m : M A) (k : A -> M B) s :
  bind m k s = k (fst (m s)) (snd (m s)).
Proof. unfold bind. destruct (m s); reflexivity. Qed.

Lemma new_events_app s s' l :
  s_trace s' = s_trace s ++ l -> new_events s s' = l.
Proof.
  intros H. unfold new_events. rewrite H.
  rewrite skipn_app, skipn_all, Nat.sub_diag. reflexivity.
Qed.

Lemma count_errors_app f a b :
  count_errors f (a ++ b) = count_errors f a + count_errors f b.
Proof.
  unfold count_errors. rewrite filter_app, length_app. lia.
Qed.

Create HintDb emits_db.
Create HintDb keeps_db.

Section Emits.

Variable E : os.
Variable P : event -> bool.

Lemma emits_ret {A} (a : A) : emits P (ret a).
Proof.
  intros s. exists []. simpl. rewrite app_nil_r. auto.
Qed.

Lemma emits_bind {A B} (m : M A) (k : A -> M B) :
  emits P m -> (forall a, emits P (k a)) -> emits P (bind m k).
Proof.
  intros Hm Hk s. rewrite bind_eq.
  destruct (Hm s) as [l1 [H1 F1]].
  destruct (Hk (fst (m s)) (snd (m s))) as [l2 [H2 F2]].
  exists (l1 ++ l2). rewrite H2, H1, app_assoc, forallb_app, F1, F2. auto.
Qed.

Lemma emits_fold_m {A B} (body : B -> A -> M B) l :
  (forall b a, emits P (body b a)) -> forall acc, emits P (fold_m body l acc).
Proof.
  intros Hb. induction l as [|x l IH]; intros acc; simpl.
  - apply emits_ret.
  - apply emits_bind; auto.
Qed.

Lemma emits_get {A} (proj : state -> A) : emits P (get proj).
Proof. intros s. exists []. simpl. rewrite app_nil_r. auto. Qed.

Lemma emits_modify (f : state -> state) :
  (forall s, s_trace (f s) = s_trace s) -> emits P (modify f).
Proof. intros H s. exists []. simpl. rewrite H, app_nil_r. auto. Qed.

Lemma emits_emit e : P e = true -> emits P (emit e).
Proof. intros H s. exists [e]. simpl. rewrite H. auto. Qed.

Lemma emits_tick : emits P tick.
Proof. intros s. exists []. simpl. rewrite app_nil_r. auto. Qed.

End Emits.

Section Keeps.

Variable E : os.
Context {X : Type}.
Variable proj : state -> X.

Lemma keeps_ret {A} (a : A) : keeps proj (ret a).
Proof. intros s. reflexivity. Qed.

Lemma keeps_bind {A B} (m : M A) (k : A -> M B) :
  keeps proj m -> (forall a, keeps proj (k a)) -> keeps proj (bind m k).
Proof.
  intros Hm Hk s. rewrite bind_eq. rewrite Hk. apply Hm.
Qed.

Lemma keeps_fold_m {A B} (body : B -> A -> M B) l :
  (forall b a, keeps proj (body b a)) ->
  forall acc, keeps proj (fold_m body l acc).
Proof.
  intros Hb. induction l as [|x l IH]; intros acc; simpl.
  - apply keeps_ret.
  - apply keeps_bind; auto.
Qed.

Lemma keeps_get {A} (p : state -> A) : keeps proj (get p).
Proof. intros s. reflexivity. Qed.

Lemma keeps_modify (f : state -> state) :
  (forall s, proj (f s) = proj s) -> keeps proj (modify f).
Proof. intros H s. simpl. apply H. Qed.

End Keeps.

(** One step through a computation built from [bind], [ret], the loops
    and the log calls. *)
Ltac emits_step :=
  match goal with
  | |- emits _ (ret _) => apply emits_ret
  | |- emits _ (bind _ _) => apply emits_bind; [ | intros ? ]
  | |- emits _ (fold_m _ _ _) => apply emits_fold_m; intros ? ?
  | |- emits _ (get _) => apply emits_get
  | |- emits _ (tick) => apply emits_tick
  | |- emits _ (modify _) => apply emits_modify; intros; reflexivity
  | |- emits _ (emit _) => apply emits_emit; solve [auto]
  | |- emits _ (log_error _ _) => apply emits_emit; solve [auto]
  | |- emits _ (log_operation _ _) => apply emits_emit; solve [auto]
  | |- emits _ (if ?c then _ else _) => destruct c
  | |- emits _ (match ?x with _ => _ end) => destruct x
  | |- emits _ _ => solve [eauto with emits_db]
  end.

Ltac emits_tac := repeat emits_step.

(** An appended event leaves the observation alone: by computation, or
    because it is not the error line being counted. *)
Ltac keeps_event :=
  solve [ auto
        | intros; simpl; rewrite count_errors_app;
          match goal with
          | |- context [count_errors ?f [?e]] =>
              change (count_errors f [e]) with 0
          end; lia ].

Ltac keeps_step :=
  match goal with
  | |- keeps _ (ret _) => apply keeps_ret
  | |- keeps _ (bind _ _) => apply keeps_bind; [ | intros ? ]
  | |- keeps _ (fold_m _ _ _) => apply keeps_fold_m; intros ? ?
  | |- keeps _ (get _) => apply keeps_get
  | |- keeps _ (modify _) => apply keeps_modify; solve [auto]
  | |- keeps _ (emit _) => apply keeps_modify; keeps_event
  | |- keeps _ (log_error _ _) => apply keeps_modify; keeps_event
  | |- keeps _ (log_operation _ _) => apply keeps_modify; keeps_event
  | |- keeps _ (if ?c then _ else _) => destruct c
  | |- keeps _ (match ?x with _ => _ end) => destruct x
  | |- keeps _ _ => solve [eauto with keeps_db]
  end.

Ltac keeps_tac := repeat keeps_step.

(* ----------------------------------------------------------------- *)
(** *** What the functions below the daemon loop emit and keep *)

Section Footprints.

Variable E : os.
Variable P : event -> bool.
Hypothesis P_error : forall f a, P (LogError f a) = true.
Hypothesis P_change : forall n u f a w, P (LogFileChange n u f a w) = true.
Hypothesis P_moving : forall a, P (LogOperation "Moving file: %s to %s" a) = true.

Lemma emits_sys_time : emits P (sys_time E).
Proof. unfold sys_time. emits_tac. Qed.

Lemma emits_sys_chmod p m : emits P (sys_chmod E p m).
Proof. unfold sys_chmod. emits_tac. Qed.

Lemma emits_sys_mkdir p m : emits P (sys_mkdir E p m).
Proof. unfold sys_mkdir. emits_tac. Qed.

Lemma emits_sys_opendir p : emits P (sys_opendir E p).
Proof. unfold sys_opendir. emits_tac. Qed.

Lemma emits_sys_stat p : emits P (sys_stat E p).
Proof. unfold sys_stat. emits_tac. Qed.

Lemma emits_sys_rename a b : emits P (sys_rename E a b).
Proof. unfold sys_rename. emits_tac. Qed.

Lemma emits_sys_unlink p : emits P (sys_unlink E p).
Proof. unfold sys_unlink. emits_tac. Qed.

Lemma emits_sys_open_read p : emits P (sys_open_read E p).
Proof. unfold sys_open_read. emits_tac. Qed.

Lemma emits_sys_open_write p : emits P (sys_open_write E p).
Proof. unfold sys_open_write. emits_tac. Qed.

Lemma emits_sys_getpwuid u : emits P (sys_getpwuid E u).
Proof. unfold sys_getpwuid. emits_tac. Qed.

Lemma emits_sys_alloc : emits P (sys_alloc E).
Proof. unfold sys_alloc. emits_tac. Qed.

Lemma emits_sys_read_fifo : emits P (sys_read_fifo E).
Proof. unfold sys_read_fifo. emits_tac. Qed.

Hint Resolve emits_sys_time emits_sys_chmod emits_sys_mkdir
  emits_sys_opendir emits_sys_stat emits_sys_rename emits_sys_unlink
  emits_sys_open_read emits_sys_open_write emits_sys_getpwuid
  emits_sys_alloc emits_sys_read_fifo : emits_db.

Lemma emits_copy_file a b : emits P (copy_file E a b).
Proof. unfold copy_file. emits_tac. Qed.
Hint Resolve emits_copy_file : emits_db.

Lemma emits_move_file a b : emits P (move_file E a b).
Proof. unfold move_file. emits_tac. Qed.
Hint Resolve emits_move_file : emits_db.

Lemma emits_get_file_owner p n : emits P (get_file_owner E p n).
Proof. unfold get_file_owner. emits_tac. Qed.
Hint Resolve emits_get_file_owner : emits_db.

Lemma emits_set_directory_permissions p m :
  emits P (set_directory_permissions E p m).
Proof. unfold set_directory_permissions. emits_tac. Qed.
Hint Resolve emits_set_directory_permissions : emits_db.

Lemma emits_scan_entries p entries :
  forall files c n, emits P (scan_entries E p entries files c n).
Proof.
  induction entries as [|e entries IH]; intros files c n; simpl; emits_tac.
Qed.
Hint Resolve emits_scan_entries : emits_db.

Lemma emits_scan_directory p : emits P (scan_directory E p).
Proof. unfold scan_directory. emits_tac. Qed.
Hint Resolve emits_scan_directory : emits_db.

Lemma emits_log_file_change u f a : emits P (log_file_change E u f a).
Proof. unfold log_file_change. emits_tac. Qed.
Hint Resolve emits_log_file_change : emits_db.

Lemma emits_transfer_entry r e : emits P (transfer_entry E r e).
Proof. unfold transfer_entry. emits_tac. Qed.
Hint Resolve emits_transfer_entry : emits_db.

Lemma emits_check_entry f e : emits P (check_entry f e).
Proof. unfold check_entry. emits_tac. Qed.
Hint Resolve emits_check_entry : emits_db.

Lemma emits_log_missing depts :
  forall found n, emits P (log_missing depts found n).
Proof.
  induction depts as [|d depts IH]; intros found n; simpl; emits_tac.
Qed.
Hint Resolve emits_log_missing : emits_db.

Lemma emits_backup_entry p c e : emits P (backup_entry E p c e).
Proof. unfold backup_entry. emits_tac. Qed.
Hint Resolve emits_backup_entry : emits_db.

Lemma emits_find_in_previous cur previous :
  emits P (find_in_previous E cur previous).
Proof. induction previous as [|p previous IH]; simpl; emits_tac. Qed.
Hint Resolve emits_find_in_previous : emits_db.

End Footprints.

#[local] Hint Resolve emits_sys_time emits_sys_chmod emits_sys_mkdir
  emits_sys_opendir emits_sys_stat emits_sys_rename emits_sys_unlink
  emits_sys_open_read emits_sys_open_write emits_sys_getpwuid
  emits_sys_alloc emits_sys_read_fifo emits_copy_file emits_move_file
  emits_get_file_owner emits_set_directory_permissions emits_scan_entries
  emits_scan_directory emits_log_file_change emits_transfer_entry
  emits_check_entry emits_log_missing emits_backup_entry
  emits_find_in_previous : emits_db.

Section Frame.

Variable E : os.
Context {X : Type}.
Variable proj : state -> X.
Hypothesis proj_fs : forall fs s, proj (with_fs fs s) = proj s.
Hypothesis proj_clock : forall c s, proj (with_clock c s) = proj s.
Hypothesis proj_trace : forall t s, proj (with_trace t s) = proj s.

Lemma keeps_tick : keeps proj tick.
Proof. intros s. simpl. apply proj_clock. Qed.
Hint Resolve keeps_tick : keeps_db.

Lemma keeps_sys_time : keeps proj (sys_time E).
Proof. unfold sys_time. keeps_tac. Qed.

Lemma keeps_sys_chmod p m : keeps proj (sys_chmod E p m).
Proof. unfold sys_chmod. keeps_tac. Qed.

Lemma keeps_sys_mkdir p m : keeps proj (sys_mkdir E p m).
Proof. unfold sys_mkdir. keeps_tac. Qed.

Lemma keeps_sys_opendir p : keeps proj (sys_opendir E p).
Proof. unfold sys_opendir. keeps_tac. Qed.

Lemma keeps_sys_stat p : keeps proj (sys_stat E p).
Proof. unfold sys_stat. keeps_tac. Qed.

Lemma keeps_sys_rename a b : keeps proj (sys_rename E a b).
Proof. unfold sys_rename. keeps_tac. Qed.

Lemma keeps_sys_unlink p : keeps proj (sys_unlink E p).
Proof. unfold sys_unlink. keeps_tac. Qed.

Lemma keeps_sys_open_read p : keeps proj (sys_open_read E p).
Proof. unfold sys_open_read. keeps_tac. Qed.

Lemma keeps_sys_open_write p : keeps proj (sys_open_write E p).
Proof. unfold sys_open_write. keeps_tac. Qed.

Lemma keeps_sys_getpwuid u : keeps proj (sys_getpwuid E u).
Proof. unfold sys_getpwuid. keeps_tac. Qed.

Lemma keeps_sys_alloc : keeps proj (sys_alloc E).
Proof. unfold sys_alloc. keeps_tac. Qed.

Lemma keeps_sys_read_fifo : keeps proj (sys_read_fifo E).
Proof. unfold sys_read_fifo. keeps_tac. Qed.

Hint Resolve keeps_sys_time keeps_sys_chmod keeps_sys_mkdir
  keeps_sys_opendir keeps_sys_stat keeps_sys_rename keeps_sys_unlink
  keeps_sys_open_read keeps_sys_open_write keeps_sys_getpwuid
  keeps_sys_alloc keeps_sys_read_fifo : keeps_db.

Lemma keeps_copy_file a b : keeps proj (copy_file E a b).
Proof. unfold copy_file. keeps_tac. Qed.
Hint Resolve keeps_copy_file : keeps_db.

Lemma keeps_move_file a b : keeps proj (move_file E a b).
Proof. unfold move_file. keeps_tac. Qed.
Hint Resolve keeps_move_file : keeps_db.

Lemma keeps_get_file_owner p n : keeps proj (get_file_owner E p n).
Proof. unfold get_file_owner. keeps_tac. Qed.
Hint Resolve keeps_get_file_owner : keeps_db.

Lemma keeps_log_file_change u f a : keeps proj (log_file_change E u f a).
Proof. unfold log_file_change. keeps_tac. Qed.
Hint Resolve keeps_log_file_change : keeps_db.

Lemma keeps_set_directory_permissions p m :
  keeps proj (set_directory_permissions E p m).
Proof. unfold set_directory_permissions. keeps_tac. Qed.
Hint Resolve keeps_set_directory_permissions : keeps_db.

Lemma keeps_lock_directories : keeps proj (lock_directories E).
Proof. unfold lock_directories. keeps_tac. Qed.

Lemma keeps_unlock_directories : keeps proj (unlock_directories E).
Proof. unfold unlock_directories. keeps_tac. Qed.

Lemma keeps_transfer_reports : keeps proj (transfer_reports E).
Proof. unfold transfer_reports, transfer_entry. keeps_tac. Qed.

Lemma keeps_log_missing depts :
  forall found n, keeps proj (log_missing depts found n).
Proof.
  induction depts as [|d depts IH]; intros found n; simpl; keeps_tac.
Qed.
Hint Resolve keeps_log_missing : keeps_db.

Lemma keeps_check_missing_reports : keeps proj (check_missing_reports E).
Proof. unfold check_missing_reports, check_entry. keeps_tac. Qed.

Lemma keeps_backup_dashboard_counts :
  keeps proj (backup_dashboard_counts E).
Proof. unfold backup_dashboard_counts, backup_entry. keeps_tac. Qed.
Hint Resolve keeps_backup_dashboard_counts : keeps_db.

Lemma keeps_backup_dashboard : keeps proj (backup_dashboard E).
Proof. unfold backup_dashboard. keeps_tac. Qed.

Lemma keeps_scan_entries p entries :
  forall files c n, keeps proj (scan_entries E p entries files c n).
Proof.
  induction entries as [|e entries IH]; intros files c n; simpl; keeps_tac.
Qed.
Hint Resolve keeps_scan_entries : keeps_db.

Lemma keeps_scan_directory p : keeps proj (scan_directory E p).
Proof. unfold scan_directory. keeps_tac. Qed.

Lemma keeps_find_in_previous cur previous :
  keeps proj (find_in_previous E cur previous).
Proof. induction previous as [|p previous IH]; simpl; keeps_tac. Qed.

End Frame.

#[local] Hint Resolve keeps_tick keeps_sys_time keeps_sys_chmod
  keeps_sys_mkdir keeps_sys_opendir keeps_sys_stat keeps_sys_rename
  keeps_sys_unlink keeps_sys_open_read keeps_sys_open_write
  keeps_sys_getpwuid keeps_sys_alloc keeps_sys_read_fifo keeps_copy_file
  keeps_move_file keeps_get_file_owner keeps_log_file_change
  keeps_set_directory_permissions keeps_lock_directories
  keeps_unlock_directories keeps_transfer_reports keeps_log_missing
  keeps_check_missing_reports keeps_backup_dashboard_counts
  keeps_backup_dashboard keeps_scan_entries keeps_scan_directory
  keeps_find_in_previous : keeps_db.

Section Extends.

Variable E : os.

Let P := any_event.

Lemma extends_lock_directories : emits P (lock_directories E).
Proof. unfold lock_directories. emits_tac. Qed.

Lemma extends_unlock_directories : emits P (unlock_directories E).
Proof. unfold unlock_directories. emits_tac. Qed.

Lemma extends_transfer_reports : emits P (transfer_reports E).
Proof. unfold transfer_reports. emits_tac. Qed.

Lemma extends_check_missing_reports : emits P (check_missing_reports E).
Proof. unfold check_missing_reports. emits_tac. Qed.

Lemma extends_backup_dashboard_counts :
  emits P (backup_dashboard_counts E).
Proof. unfold backup_dashboard_counts. emits_tac. Qed.

Lemma extends_backup_dashboard : emits P (backup_dashboard E).
Proof.
  unfold backup_dashboard. emits_tac. apply extends_backup_dashboard_counts.
Qed.

Lemma extends_monitor_directory_changes :
  emits P (monitor_directory_changes E).
Proof.
  unfold monitor_directory_changes, monitor_current, monitor_previous.
  emits_tac.
Qed.

End Extends.

(* ================================================================= *)
(** ** Facts about the C string functions *)

Module CStringFacts.
Import CString.

Lemma append_nil_r (s : string) : (s ++ "")%string = s.
Proof. induction s; simpl; congruence. Qed.

Lemma append_assoc (a b c : string) :
  ((a ++ b) ++ c)%string = (a ++ (b ++ c))%string.
Proof. induction a; simpl; congruence. Qed.

Lemma length_append (a b : string) :
  String.length (a ++ b) = (String.length a + String.length b)%nat.
Proof. induction a; simpl; congruence. Qed.

(** Two splits of one string at the same offset are the same split. *)
Lemma append_same_length (a b c d : string) :
  (a ++ b)%string = (c ++ d)%string -> String.length a = String.length c ->
  a = c /\ b = d.
Proof.
  revert c. induction a as [|x a IH]; intros [|y c]; simpl; intros H L;
    try discriminate.
  - auto.
  - inversion H; subst. inversion L.
    destruct (IH c) as [-> ->]; auto.
Qed.

Lemma code_inj (a b : ascii) : code a = code b -> a = b.
Proof.
  unfold code. intros H. apply Nat2Z.inj in H.
  rewrite <- (ascii_nat_embedding a), <- (ascii_nat_embedding b).
  congruence.
Qed.

Lemma code_diff (a b : ascii) : a <> b -> code a - code b <> 0.
Proof. intros N H. apply N, code_inj. lia. Qed.

Lemma strcmp_eq (a b : string) : strcmp a b = 0 <-> a = b.
Proof.
  revert b. induction a as [|x a IH]; intros [|y b]; simpl;
    try (split; [discriminate | discriminate]); try tauto.
  destruct (Ascii.eqb_spec x y) as [->|N].
  - rewrite IH. split; congruence.
  - split; [intros H; exfalso; revert H; apply code_diff; auto | congruence].
Qed.

Lemma strcmp_eqb (a b : string) : (strcmp a b =? 0) = String.eqb a b.
Proof.
  destruct (String.eqb_spec a b) as [->|N].
  - apply Z.eqb_eq, strcmp_eq; reflexivity.
  - apply Z.eqb_neq. rewrite strcmp_eq. assumption.
Qed.

(** [strncmp] over the length of [p] tests whether [p] starts [s]. *)
Lemma strncmp_prefix (p s : string) :
  strncmp s p (String.length p) = 0 <-> exists rest, s = (p ++ rest)%string.
Proof.
  revert s. induction p as [|c p IH]; intros s.
  - split; [exists s; reflexivity | destruct s; reflexivity].
  - destruct s as [|x s]; simpl.
    + split; [discriminate | intros [r H]; discriminate].
    + destruct (Ascii.eqb_spec x c) as [->|N].
      * rewrite IH. split; intros [r H]; exists r; congruence.
      * split; [intros H; exfalso; revert H; apply code_diff; auto|].
        intros [r H]. congruence.
Qed.

Lemma advance_append (p s : string) :
  advance (String.length p) (p ++ s) = s.
Proof. induction p; simpl; auto. Qed.

Lemma take_append (a b : string) : take (String.length a) (a ++ b) = a.
Proof. induction a; simpl; [destruct b; reflexivity | congruence]. Qed.

Lemma take_all (n : nat) (s : string) :
  (String.length s <= n)%nat -> take n s = s.
Proof.
  revert n. induction s as [|c s IH]; intros [|n]; simpl; intros H;
    try reflexivity; try lia.
  rewrite IH; auto; lia.
Qed.

Lemma has_char_cons (c x : ascii) (s : string) :
  has_char c (String x s) <-> x = c \/ has_char c s.
Proof.
  split.
  - intros [[|y a] [b H]]; simpl in H; inversion H; subst; auto.
    right. exists a, b. reflexivity.
  - intros [->|[a [b ->]]].
    + exists ""%string, s. reflexivity.
    + exists (String x a), b. reflexivity.
Qed.

Lemma has_char_nil (c : ascii) : ~ has_char c "".
Proof. intros [[|y a] [b H]]; discriminate. Qed.

(** [strchr] finds the first occurrence. *)
Lemma strchr_spec (s : string) (c : ascii) :
  match strchr s c with
  | Some i =>
      exists a b, s = (a ++ String c b)%string /\ String.length a = i /\
                  ~ has_char c a
  | None => ~ has_char c s
  end.
Proof.
  induction s as [|x s IH]; simpl.
  - apply has_char_nil.
  - destruct (Ascii.eqb_spec x c) as [->|N].
    + exists ""%string, s. repeat split. apply has_char_nil.
    + destruct (strchr s c) as [i|]; simpl.
      * destruct IH as [a [b [-> [L Na]]]].
        exists (String x a), b. simpl. repeat split; auto.
        rewrite has_char_cons. tauto.
      * rewrite has_char_cons. tauto.
Qed.

Lemma strchr_first (a b : string) (c : ascii) :
  ~ has_char c a -> strchr (a ++ String c b) c = Some (String.length a).
Proof.
  induction a as [|x a IH]; simpl; intros H.
  - rewrite Ascii.eqb_refl. reflexivity.
  - rewrite has_char_cons in H.
    destruct (Ascii.eqb_spec x c) as [->|N]; [tauto|].
    rewrite IH by tauto. reflexivity.
Qed.

Lemma strchr_none (s : string) (c : ascii) :
  ~ has_char c s -> strchr s c = None.
Proof.
  intros H. pose proof (strchr_spec s c) as S.
  destruct (strchr s c) as [i|]; [|reflexivity].
  destruct S as [a [b [-> _]]]. exfalso. apply H. exists a, b. reflexivity.
Qed.

Lemma prefix_iff (p s : string) :
  prefix p s = true <-> exists b, s = (p ++ b)%string.
Proof.
  revert s. induction p as [|c p IH]; intros s.
  - split; [exists s; reflexivity | destruct s; reflexivity].
  - destruct s as [|x s]; simpl.
    + split; [discriminate | intros [b H]; discriminate].
    + destruct (ascii_dec c x) as [->|N].
      * rewrite IH. split; intros [b H]; exists b; congruence.
      * split; [discriminate | intros [b H]; congruence].
Qed.

Lemma occurs_at_0 (n s : string) :
  occurs_at n s 0 <-> exists b, s = (n ++ b)%string.
Proof.
  split.
  - intros [a [b [H L]]]. destruct a; [|discriminate]. exists b. exact H.
  - intros [b H]. exists ""%string, b. auto.
Qed.

Lemma occurs_at_S (n : string) (x : ascii) (s : string) (j : nat) :
  occurs_at n (String x s) (S j) <-> occurs_at n s j.
Proof.
  split.
  - intros [a [b [H L]]]. destruct a as [|y a]; [discriminate|].
    simpl in *. inversion H; subst. exists a, b. auto.
  - intros [a [b [H L]]]. exists (String x a), b. simpl. subst. auto.
Qed.

Lemma occurs_at_nil (n : string) (j : nat) :
  occurs_at n "" (S j) -> False.
Proof. intros [a [b [H L]]]. destruct a; discriminate. Qed.

Lemma strstr_nil (n : string) :
  strstr "" n = if prefix n "" then Some O else None.
Proof. reflexivity. Qed.

Lemma strstr_cons (x : ascii) (s n : string) :
  strstr (String x s) n =
  if prefix n (String x s) then Some O else option_map S (strstr s n).
Proof. reflexivity. Qed.

(** [strstr] finds the first occurrence. *)
Lemma strstr_spec (s n : string) :
  match strstr s n with
  | Some i => occurs_at n s i /\ forall j, (j < i)%nat -> ~ occurs_at n s j
  | None => forall j, ~ occurs_at n s j
  end.
Proof.
  induction s as [|x s IH].
  - rewrite strstr_nil. destruct (prefix n "") eqn:Hp.
    + split; [apply occurs_at_0, prefix_iff, Hp | intros; lia].
    + intros [|j] H; [|eapply occurs_at_nil; eauto].
      apply occurs_at_0, prefix_iff in H. congruence.
  - rewrite strstr_cons. destruct (prefix n (String x s)) eqn:Hp.
    + split; [apply occurs_at_0, prefix_iff, Hp | intros; lia].
    + destruct (strstr s n) as [i|]; simpl.
      * destruct IH as [Hi Hf]. split; [apply occurs_at_S, Hi|].
        intros [|j] Hj H.
        -- apply occurs_at_0, prefix_iff in H. congruence.
        -- apply occurs_at_S in H. apply (Hf j); [lia | exact H].
      * intros [|j] H.
        -- apply occurs_at_0, prefix_iff in H. congruence.
        -- apply occurs_at_S in H. apply (IH j H).
Qed.

Lemma strstr_first (s n : string) (i : nat) :
  occurs_at n s i -> (forall j, (j < i)%nat -> ~ occurs_at n s j) ->
  strstr s n = Some i.
Proof.
  intros Hi Hf. pose proof (strstr_spec s n) as S.
  destruct (strstr s n) as [k|].
  - destruct S as [Hk Hkf].
    destruct (Nat.lt_trichotomy k i) as [L|[->|L]]; [|reflexivity|].
    + exfalso. apply (Hf k L Hk).
    + exfalso. apply (Hkf i L Hi).
  - exfalso. apply (S i Hi).
Qed.

Lemma strstr_some_iff (s n : string) :
  strstr s n <> None <->
  exists a b, s = (a ++ n ++ b)%string.
Proof.
  pose proof (strstr_spec s n) as S. destruct (strstr s n) as [i|].
  - split; [intros _|discriminate].
    destruct S as [[a [b [H _]]] _]. exists a, b. exact H.
  - split; [congruence|]. intros [a [b H]]. exfalso.
    apply (S (String.length a)). exists a, b. auto.
Qed.

End CStringFacts.

(* ================================================================= *)
(** ** Department extraction *)

Section Extract.
Import CString CStringFacts.

Lemma extract_no_prefix (filename : string) (dept_size : Z) :
  (forall rest, filename <> (REPORT_PREFIX ++ rest)%string) ->
  extract_department_from_filename filename dept_size = None.
Proof.
  intros H. unfold extract_department_from_filename.
  destruct (Z.eqb_spec (strncmp filename REPORT_PREFIX
                                (String.length REPORT_PREFIX)) 0) as [Z|Z].
  - apply strncmp_prefix in Z. destruct Z as [rest ->].
    exfalso. apply (H rest). reflexivity.
  - reflexivity.
Qed.

(** With the prefix in place the label ends where [strchr], or failing
    that [strstr], points, provided it fits the buffer. *)
Lemma extract_after_prefix (start : string) (dept_size : Z) :
  extract_department_from_filename (REPORT_PREFIX ++ start) dept_size =
  match (match strchr start "_"%char with
         | Some e => Some e
         | None => strstr start REPORT_EXTENSION
         end) with
  | None => None
  | Some e =>
      Some (take (Z.to_nat (if Z.of_nat e >=? dept_size
                            then (dept_size - 1) mod SIZE_MODULUS
                            else Z.of_nat e)) start)
  end.
Proof.
  unfold extract_department_from_filename.
  destruct (Z.eqb_spec (strncmp (REPORT_PREFIX ++ start) REPORT_PREFIX
                                (String.length REPORT_PREFIX)) 0) as [Z|Z].
  - simpl negb. cbv iota. rewrite advance_append. reflexivity.
  - exfalso. apply Z. apply strncmp_prefix. exists start. reflexivity.
Qed.

Lemma extract_underscore (dept rest : string) (dept_size : Z) :
  ~ has_char "_"%char dept ->
  Z.of_nat (String.length dept) < dept_size ->
  extract_department_from_filename
    (REPORT_PREFIX ++ dept ++ "_" ++ rest) dept_size = Some dept.
Proof.
  intros Hn Hl. rewrite extract_after_prefix.
  change (dept ++ "_" ++ rest)%string
    with (dept ++ String "_"%char rest)%string.
  rewrite strchr_first by assumption.
  destruct (Z.geb_spec (Z.of_nat (String.length dept)) dept_size); [lia|].
  rewrite Nat2Z.id, take_append. reflexivity.
Qed.

Lemma extract_extension (dept rest : string) (dept_size : Z) :
  ~ has_char "_"%char (dept ++ REPORT_EXTENSION ++ rest) ->
  (forall j, (j < String.length dept)%nat ->
             ~ occurs_at REPORT_EXTENSION (dept ++ REPORT_EXTENSION ++ rest) j) ->
  Z.of_nat (String.length dept) < dept_size ->
  extract_department_from_filename
    (REPORT_PREFIX ++ dept ++ REPORT_EXTENSION ++ rest) dept_size = Some dept.
Proof.
  intros Hn Hf Hl. rewrite extract_after_prefix.
  rewrite strchr_none by assumption.
  rewrite (strstr_first _ _ (String.length dept)); auto.
  - destruct (Z.geb_spec (Z.of_nat (String.length dept)) dept_size); [lia|].
    rewrite Nat2Z.id, take_append. reflexivity.
  - exists dept, rest. auto.
Qed.

Lemma extract_neither (start : string) (dept_size : Z) :
  ~ has_char "_"%char start ->
  (forall j, ~ occurs_at REPORT_EXTENSION start j) ->
  extract_department_from_filename (REPORT_PREFIX ++ start) dept_size = None.
Proof.
  intros Hn Hf. rewrite extract_after_prefix.
  rewrite strchr_none by assumption.
  pose proof (strstr_spec start REPORT_EXTENSION) as S.
  destruct (strstr start REPORT_EXTENSION) as [i|]; [|reflexivity].
  destruct S as [Hi _]. exfalso. apply (Hf i Hi).
Qed.

End Extract.

(** C8.  For every filename (a directory entry name, at most [NAME_MAX]
    bytes) and the buffer size every caller passes:
    [extract_department_from_filename] returns no label when the name does
    not start with "report_"; otherwise the text between the prefix and
    the first following underscore; when no underscore follows the prefix,
    the text up to but excluding the (first) ".xml"; and no label when
    neither follows.  "report_Sales_2024-01-01.xml" and "report_Sales.xml"
    give "Sales", "invoice_2024.xml" gives none. *)
Theorem extract_department_from_filename_spec :
  (forall filename : string,
     (String.length filename <= NAME_MAX)%nat ->
     let r := extract_department_from_filename filename MAX_USER_LENGTH in
     ((forall rest, filename <> (REPORT_PREFIX ++ rest)%string) ->
      r = None) /\
     (forall dept rest,
        filename = (REPORT_PREFIX ++ dept ++ "_" ++ rest)%string ->
        ~ has_char "_"%char dept ->
        r = Some dept) /\
     (forall dept rest,
        filename = (REPORT_PREFIX ++ dept ++ REPORT_EXTENSION ++ rest)%string ->
        ~ has_char "_"%char (dept ++ REPORT_EXTENSION ++ rest) ->
        (forall j, (j < String.length dept)%nat ->
           ~ occurs_at REPORT_EXTENSION (dept ++ REPORT_EXTENSION ++ rest) j) ->
        r = Some dept) /\
     (forall start,
        filename = (REPORT_PREFIX ++ start)%string ->
        ~ has_char "_"%char start ->
        (forall j, ~ occurs_at REPORT_EXTENSION start j) ->
        r = None)) /\
  extract_department_from_filename "report_Sales_2024-01-01.xml"
                                   MAX_USER_LENGTH = Some "Sales" /\
  extract_department_from_filename "report_Sales.xml" MAX_USER_LENGTH
  = Some "Sales" /\
  extract_department_from_filename "invoice_2024.xml" MAX_USER_LENGTH = None.
Proof.
  split; [|repeat split; reflexivity].
  intros filename Hlen r. subst r.
  assert (Hfit : forall dept tail,
             filename = (REPORT_PREFIX ++ dept ++ tail)%string ->
             Z.of_nat (String.length dept) < MAX_USER_LENGTH).
  { intros dept tail ->. unfold NAME_MAX, MAX_USER_LENGTH in *.
    rewrite !CStringFacts.length_append in Hlen. lia. }
  repeat split.
  - apply extract_no_prefix.
  - intros dept rest Hf Hn. rewrite Hf.
    apply extract_underscore; [assumption | eapply Hfit; eauto].
  - intros dept rest Hf Hn Hfirst. rewrite Hf.
    apply extract_extension; [assumption | assumption | eapply Hfit; eauto].
  - intros start Hf Hn Hnone. rewrite Hf. apply extract_neither; assumption.
Qed.

(* ================================================================= *)
(** ** The FIFO: what a receive returns *)

(** C3 (as amended).  With the FIFO open, [receive_ipc_message] returns
    SUCCESS and the record only when [read] delivered a whole
    [IPCMessage]; in every other case it returns the one status FAILURE
    and no record.  The cases differ only in the error log: nothing is
    logged when no data is available (EAGAIN/EWOULDBLOCK), "Failed to
    read from FIFO" is logged for any other read error, and "Partial read
    from FIFO" with the byte count for a short record. *)
Theorem receive_ipc_message_results :
  forall (E : os) (s : state),
    fifo_fd s <> -1 ->
    let r := os_read E (s_clock s) in
    let out := receive_ipc_message E s in
    (bytes_read r = sizeof_IPCMessage ->
       fst out = (SUCCESS, Some (read_buf r)) /\
       new_events s (snd out) = []) /\
    (bytes_read r = -1 ->
       read_errno r = EAGAIN \/ read_errno r = EWOULDBLOCK ->
       fst out = (FAILURE, None) /\ new_events s (snd out) = []) /\
    (bytes_read r = -1 ->
       read_errno r <> EAGAIN -> read_errno r <> EWOULDBLOCK ->
       fst out = (FAILURE, None) /\
       new_events s (snd out) =
         [LogError "Failed to read from FIFO: %s" [ArgErrno]]) /\
    (bytes_read r <> -1 -> bytes_read r <> sizeof_IPCMessage ->
       fst out = (FAILURE, None) /\
       new_events s (snd out) =
         [LogError "Partial read from FIFO: %ld bytes"
                   [ArgD (bytes_read r)]]).
Proof.
  intros E s Hfd r out. subst r out.
  unfold receive_ipc_message, sys_read_fifo, get, tick, bind, ret, log_error,
    emit, modify, new_events.
  destruct (Z.eqb_spec (fifo_fd s) (-1)) as [F|_]; [contradiction|].
  simpl.
  set (r := os_read E (s_clock s)).
  assert (Hnil : skipn (List.length (s_trace s)) (s_trace s) = []).
  { apply skipn_all. }
  assert (Hone : forall e,
             skipn (List.length (s_trace s)) (s_trace s ++ [e]) = [e]).
  { intros e. rewrite skipn_app, skipn_all, Nat.sub_diag. reflexivity. }
  destruct (Z.eqb_spec (bytes_read r) (-1)) as [B|B].
  - destruct (Z.eqb_spec (read_errno r) EAGAIN) as [A|A];
      destruct (Z.eqb_spec (read_errno r) EWOULDBLOCK) as [W|W]; simpl;
      repeat split; intros; auto; try contradiction; try discriminate;
      try (unfold sizeof_IPCMessage, MAX_LINE_LENGTH in *; lia);
      try tauto.
  - destruct (Z.eqb_spec (bytes_read r) sizeof_IPCMessage) as [Z|Z]; simpl;
      repeat split; intros; auto; try contradiction.
Qed.

(** C3 as stated fails: the result for "no data" is the result for a read
    error, and the result for a partial record is that same result. *)
Lemma receive_ipc_message_one_failure_result :
  fst (receive_ipc_message (os_reading read_no_data) (started (fs_of [] [])))
  = fst (receive_ipc_message (os_reading read_error)
                             (started (fs_of [] []))) /\
  fst (receive_ipc_message (os_reading read_partial) (started (fs_of [] [])))
  = fst (receive_ipc_message (os_reading read_error)
                             (started (fs_of [] []))).
Proof. split; reflexivity. Qed.

(* ================================================================= *)
(** ** Change monitoring *)

Lemma change_events_app (a b : list event) :
  change_events (a ++ b) = change_events a ++ change_events b.
Proof.
  induction a as [|e a IH]; simpl; [reflexivity|].
  destruct e; simpl; congruence.
Qed.

Lemma change_events_errors (l : list event) :
  forallb is_error l = true -> change_events l = [].
Proof.
  induction l as [|e l IH]; simpl; [reflexivity|].
  destruct e; simpl; try discriminate. exact IH.
Qed.

Lemma reports_errors {A} (m : M A) : emits is_error m -> reports [] m.
Proof.
  intros H s. destruct (H s) as [l [-> F]].
  rewrite change_events_app, (change_events_errors l F). reflexivity.
Qed.

Lemma reports_ret {A} (a : A) : reports [] (ret a).
Proof. intros s. simpl. rewrite app_nil_r. reflexivity. Qed.

Lemma reports_bind {A B} (m : M A) (k : A -> M B) e1 e2 :
  reports e1 m -> (forall a, reports e2 (k a)) -> reports (e1 ++ e2) (bind m k).
Proof.
  intros Hm Hk s. rewrite bind_eq, Hk, Hm, app_assoc. reflexivity.
Qed.

Lemma reports_log_file_change E u f a :
  reports [mkChange u f a] (log_file_change E u f a).
Proof.
  intros s. unfold log_file_change, sys_time, tick, bind, ret, emit, log_error,
    modify. simpl.
  destruct (os_open E (S (s_clock s)) CHANGE_LOG); simpl;
    rewrite ?change_events_app; simpl; rewrite ?app_nil_r; reflexivity.
Qed.

Lemma same_filename_strcmp (a b : ReportFile) :
  (CString.strcmp (rf_filename a) (rf_filename b) =? 0) = same_filename a b.
Proof. apply CStringFacts.strcmp_eqb. Qed.

(** The inner search over the previous files: what it logs and whether
    it finds the name. *)
Lemma find_in_previous_run E cur previous s :
  fst (find_in_previous E cur previous s) =
    match List.find (same_filename cur) previous with
    | Some _ => 1
    | None => 0
    end /\
  change_events (s_trace (snd (find_in_previous E cur previous s))) =
    change_events (s_trace s) ++
    match List.find (same_filename cur) previous with
    | Some p =>
        if rf_timestamp p <? rf_timestamp cur
        then [mkChange (rf_owner cur) (rf_filename cur) "modify"]
        else []
    | None => []
    end.
Proof.
  induction previous as [|p previous IH]; simpl.
  - rewrite app_nil_r. auto.
  - rewrite same_filename_strcmp.
    destruct (same_filename cur p); [|exact IH].
    rewrite Z.gtb_ltb. rewrite !bind_eq.
    destruct (rf_timestamp p <? rf_timestamp cur).
    + rewrite bind_eq. simpl. split; [reflexivity|].
      apply reports_log_file_change.
    + simpl. rewrite app_nil_r. auto.
Qed.

Lemma reports_monitor_current E previous u cur :
  reports (created_or_modified previous cur)
          (monitor_current E previous u cur).
Proof.
  intros s. unfold monitor_current. rewrite bind_eq.
  destruct (find_in_previous_run E cur previous s) as [Hf Hc].
  rewrite Hf. unfold created_or_modified.
  destruct (List.find (same_filename cur) previous) as [p|]; simpl.
  - exact Hc.
  - rewrite bind_eq. simpl. rewrite reports_log_file_change, Hc, app_nil_r.
    reflexivity.
Qed.

Lemma find_in_current_existsb prev current :
  find_in_current prev current =
  if List.existsb (same_filename prev) current then 1 else 0.
Proof.
  induction current as [|c current IH]; simpl; [reflexivity|].
  rewrite same_filename_strcmp. destruct (same_filename prev c); auto.
Qed.

Lemma reports_monitor_previous E current u prev :
  reports (deleted current prev) (monitor_previous E current u prev).
Proof.
  intros s. unfold monitor_previous, deleted.
  rewrite find_in_current_existsb.
  destruct (List.existsb (same_filename prev) current); simpl.
  - rewrite app_nil_r. reflexivity.
  - rewrite bind_eq. simpl. apply reports_log_file_change.
Qed.

Lemma reports_fold_m {A} (body : unit -> A -> M unit)
    (f : A -> list ChangeEvent) (l : list A) :
  (forall u a, reports (f a) (body u a)) ->
  forall u, reports (List.flat_map f l) (fold_m body l u).
Proof.
  intros Hb. induction l as [|x l IH]; intros u; simpl.
  - apply reports_ret.
  - apply reports_bind; auto.
Qed.

Lemma keeps_previous_files_scan E s :
  previous_files (snd (scan_directory E UPLOAD_DIR s)) = previous_files s.
Proof. apply (keeps_scan_directory E previous_files); reflexivity. Qed.

Lemma keeps_previous_file_count_scan E s :
  previous_file_count (snd (scan_directory E UPLOAD_DIR s)) =
  previous_file_count s.
Proof. apply (keeps_scan_directory E previous_file_count); reflexivity. Qed.

(** [scan_directory] hands back as many files as it counts. *)
Lemma scan_entries_count E p entries :
  forall files c n s,
    c = Z.of_nat (List.length files) ->
    scan_count (fst (scan_entries E p entries files c n s)) =
    Z.of_nat (List.length
                (scan_files (fst (scan_entries E p entries files c n s)))).
Proof.
  induction entries as [|e entries IH]; intros files c n s Hc; cbn [scan_entries].
  - exact Hc.
  - destruct (is_DT_DIR (d_type e) || is_hidden (d_name e))%bool; [auto|].
    rewrite bind_eq.
    destruct (fst (sys_stat E (snprintf_path p (d_name e)) s)).
    + rewrite bind_eq.
      match goal with
      | |- context [negb (fst (fst ?g))] => destruct (negb (fst (fst g)))
      end.
      * rewrite bind_eq. reflexivity.
      * rewrite bind_eq. apply IH.
        rewrite length_app. simpl. lia.
    + rewrite bind_eq. auto.
Qed.

Lemma scan_directory_count E p s :
  scan_count (fst (scan_directory E p s)) =
  Z.of_nat (List.length (scan_files (fst (scan_directory E p s)))).
Proof.
  unfold scan_directory. rewrite bind_eq.
  destruct (fst (sys_opendir E p s)) as [entries|].
  - rewrite bind_eq.
    match goal with
    | |- context [negb (fst ?g)] => destruct (negb (fst g))
    end.
    + rewrite bind_eq. reflexivity.
    + apply scan_entries_count. reflexivity.
  - rewrite bind_eq. reflexivity.
Qed.

Lemma elements_all (a : list ReportFile) :
  elements a (Z.of_nat (List.length a)) = a.
Proof. unfold elements. rewrite Nat2Z.id. apply firstn_all. Qed.

(** How a call of [monitor_directory_changes] runs, given its scan. *)
Lemma monitor_run E s :
  monitor_directory_changes E s =
  let scan := fst (scan_directory E UPLOAD_DIR s) in
  let s1 := snd (scan_directory E UPLOAD_DIR s) in
  let store :=
    (modify (with_previous_files (Some (scan_files scan))) ;;
     modify (with_previous_file_count (scan_count scan)) ;;
     now <- sys_time E ;;
     modify (with_last_scan_time now) ;;
     ret SUCCESS) in
  if negb (scan_status scan =? SUCCESS) then (FAILURE, s1)
  else
    match previous_files s with
    | None => store s1
    | Some previous =>
        let current := elements (scan_files scan) (scan_count scan) in
        let earlier := elements previous (previous_file_count s) in
        store
          (snd (fold_m (monitor_previous E current) earlier tt
                  (snd (fold_m (monitor_current E earlier) current tt s1))))
    end.
Proof.
  unfold monitor_directory_changes. rewrite bind_eq. cbv zeta.
  destruct (negb (scan_status (fst (scan_directory E UPLOAD_DIR s))
                  =? SUCCESS));
    [reflexivity|].
  rewrite bind_eq.
  change (get previous_files (snd (scan_directory E UPLOAD_DIR s)))
    with (previous_files (snd (scan_directory E UPLOAD_DIR s)),
          snd (scan_directory E UPLOAD_DIR s)).
  cbn [fst snd]. rewrite keeps_previous_files_scan.
  destruct (previous_files s); [|reflexivity].
  rewrite bind_eq.
  change (get previous_file_count (snd (scan_directory E UPLOAD_DIR s)))
    with (previous_file_count (snd (scan_directory E UPLOAD_DIR s)),
          snd (scan_directory E UPLOAD_DIR s)).
  cbn [fst snd]. rewrite keeps_previous_file_count_scan.
  rewrite bind_eq, bind_eq. reflexivity.
Qed.

(** The closing assignments of [monitor_directory_changes]. *)
Lemma monitor_store E (current : list ReportFile) (count : Z) s :
  let out :=
    (modify (with_previous_files (Some current)) ;;
     modify (with_previous_file_count count) ;;
     now <- sys_time E ;;
     modify (with_last_scan_time now) ;;
     ret SUCCESS) s in
  fst out = SUCCESS /\
  previous_files (snd out) = Some current /\
  previous_file_count (snd out) = count /\
  s_trace (snd out) = s_trace s.
Proof. simpl. auto. Qed.

Lemma monitor_after_failed_scan E s :
  scan_status (fst (scan_directory E UPLOAD_DIR s)) <> SUCCESS ->
  monitor_directory_changes E s =
  (FAILURE, snd (scan_directory E UPLOAD_DIR s)).
Proof.
  intros H. rewrite monitor_run. cbv zeta.
  destruct (Z.eqb_spec (scan_status (fst (scan_directory E UPLOAD_DIR s)))
                       SUCCESS);
    [contradiction | reflexivity].
Qed.

Lemma monitor_priming E s :
  scan_status (fst (scan_directory E UPLOAD_DIR s)) = SUCCESS ->
  previous_files s = None ->
  let scan := fst (scan_directory E UPLOAD_DIR s) in
  let out := monitor_directory_changes E s in
  fst out = SUCCESS /\
  previous_files (snd out) = Some (scan_files scan) /\
  previous_file_count (snd out) = scan_count scan /\
  s_trace (snd out) = s_trace (snd (scan_directory E UPLOAD_DIR s)).
Proof.
  intros Hs Hp scan out. subst out scan.
  rewrite monitor_run. cbv zeta. rewrite Hs, Hp.
  change (negb (SUCCESS =? SUCCESS)) with false. cbv iota.
  apply monitor_store.
Qed.

Lemma monitor_comparing E s previous :
  scan_status (fst (scan_directory E UPLOAD_DIR s)) = SUCCESS ->
  previous_files s = Some previous ->
  previous_file_count s = Z.of_nat (List.length previous) ->
  let scan := fst (scan_directory E UPLOAD_DIR s) in
  let out := monitor_directory_changes E s in
  fst out = SUCCESS /\
  previous_files (snd out) = Some (scan_files scan) /\
  previous_file_count (snd out) = scan_count scan /\
  change_events (s_trace (snd out)) =
    change_events (s_trace s) ++ detect_spec previous (scan_files scan).
Proof.
  intros Hs Hp Hc scan out. subst out.
  rewrite monitor_run. cbv zeta. rewrite Hs, Hp, Hc.
  change (negb (SUCCESS =? SUCCESS)) with false. cbv iota.
  rewrite scan_directory_count, !elements_all.
  fold scan.
  set (current := scan_files scan).
  set (s1 := snd (scan_directory E UPLOAD_DIR s)).
  set (s2 := snd (fold_m (monitor_current E previous) current tt s1)).
  set (s3 := snd (fold_m (monitor_previous E current) previous tt s2)).
  destruct (monitor_store E current (Z.of_nat (List.length current)) s3)
    as [H1 [H2 [H3 H4]]].
  split; [exact H1|]. split; [exact H2|].
  split; [rewrite H3; symmetry; apply scan_directory_count|].
  rewrite H4. subst s3.
  rewrite (reports_fold_m _ (deleted current) previous
             (reports_monitor_previous E current) tt s2).
  subst s2.
  rewrite (reports_fold_m _ (created_or_modified previous) current
             (reports_monitor_current E previous) tt s1).
  subst s1.
  rewrite (reports_errors _ (emits_scan_directory E is_error
                               (fun _ _ => eq_refl) UPLOAD_DIR) s).
  unfold detect_spec. rewrite app_nil_r, app_assoc. reflexivity.
Qed.

(* ----------------------------------------------------------------- *)
(** *** Counting the events of [detect_spec] per filename *)

Lemma events_about_app name a b :
  events_about name (a ++ b) = events_about name a ++ events_about name b.
Proof. apply filter_app. Qed.

Lemma events_about_created_or_modified name previous cur :
  events_about name (created_or_modified previous cur) =
  if String.eqb (rf_filename cur) name
  then created_or_modified previous cur else [].
Proof.
  unfold created_or_modified.
  destruct (List.find (same_filename cur) previous) as [p|];
    [destruct (rf_timestamp p <? rf_timestamp cur)|]; simpl;
    destruct (String.eqb (rf_filename cur) name); reflexivity.
Qed.

Lemma events_about_deleted name current prev :
  events_about name (deleted current prev) =
  if String.eqb (rf_filename prev) name then deleted current prev else [].
Proof.
  unfold deleted.
  destruct (List.existsb (same_filename prev) current); simpl;
    destruct (String.eqb (rf_filename prev) name); reflexivity.
Qed.

Lemma events_about_flat_map name (f : ReportFile -> list ChangeEvent) files :
  (forall x, events_about name (f x) =
             if String.eqb (rf_filename x) name then f x else []) ->
  events_about name (List.flat_map f files) =
  List.flat_map f (by_name name files).
Proof.
  intros Hf. induction files as [|x files IH]; simpl; [reflexivity|].
  rewrite events_about_app, Hf, IH.
  destruct (String.eqb (rf_filename x) name); reflexivity.
Qed.

Lemma by_name_absent name files :
  ~ In name (filenames files) -> by_name name files = [].
Proof.
  induction files as [|x files IH]; simpl; intros H; [reflexivity|].
  destruct (String.eqb_spec (rf_filename x) name) as [Heq|_]; [tauto|].
  apply IH. tauto.
Qed.

Lemma by_name_unique x files :
  NoDup (filenames files) -> In x files ->
  by_name (rf_filename x) files = [x].
Proof.
  induction files as [|y files IH]; simpl; intros Hnd Hin; [contradiction|].
  inversion Hnd as [|? ? Hni Hnd']; subst.
  destruct Hin as [->|Hin].
  - rewrite String.eqb_refl. f_equal. apply by_name_absent. exact Hni.
  - destruct (String.eqb_spec (rf_filename y) (rf_filename x)) as [Heq|_].
    + exfalso. apply Hni. rewrite Heq. apply in_map. exact Hin.
    + apply IH; assumption.
Qed.

Lemma find_absent cur previous :
  ~ In (rf_filename cur) (filenames previous) ->
  List.find (same_filename cur) previous = None.
Proof.
  induction previous as [|p previous IH]; simpl; intros H; [reflexivity|].
  unfold same_filename at 1.
  destruct (String.eqb_spec (rf_filename cur) (rf_filename p)) as [Heq|_].
  - exfalso. apply H. left. congruence.
  - apply IH. tauto.
Qed.

Lemma find_unique cur p previous :
  NoDup (filenames previous) -> In p previous ->
  rf_filename p = rf_filename cur ->
  List.find (same_filename cur) previous = Some p.
Proof.
  induction previous as [|q previous IH]; simpl; intros Hnd Hin Heq;
    [contradiction|].
  inversion Hnd as [|? ? Hni Hnd']; subst.
  unfold same_filename at 1.
  destruct Hin as [->|Hin].
  - rewrite Heq, String.eqb_refl. reflexivity.
  - destruct (String.eqb_spec (rf_filename cur) (rf_filename q)) as [E|_].
    + exfalso. apply Hni. rewrite <- E, <- Heq. apply in_map. exact Hin.
    + apply IH; assumption.
Qed.

Lemma existsb_same_filename prev current :
  List.existsb (same_filename prev) current = true <->
  In (rf_filename prev) (filenames current).
Proof.
  rewrite existsb_exists. unfold filenames. rewrite in_map_iff.
  split; intros [x [H1 H2]]; exists x.
  - unfold same_filename in H2. apply String.eqb_eq in H2. auto.
  - split; [assumption|]. unfold same_filename. apply String.eqb_eq. auto.
Qed.

Lemma events_about_detect_spec name previous current :
  events_about name (detect_spec previous current) =
  List.flat_map (created_or_modified previous) (by_name name current) ++
  List.flat_map (deleted current) (by_name name previous).
Proof.
  unfold detect_spec. rewrite events_about_app.
  rewrite (events_about_flat_map name (created_or_modified previous)),
          (events_about_flat_map name (deleted current)).
  - reflexivity.
  - intros x. apply events_about_deleted.
  - intros x. apply events_about_created_or_modified.
Qed.

Section Counting.

Variables previous current : list ReportFile.
Hypothesis previous_unique : NoDup (filenames previous).
Hypothesis current_unique : NoDup (filenames current).

Lemma detect_created c :
  In c current -> ~ In (rf_filename c) (filenames previous) ->
  events_about (rf_filename c) (detect_spec previous current) =
  [mkChange (rf_owner c) (rf_filename c) "create"].
Proof.
  intros Hc Hp. rewrite events_about_detect_spec.
  rewrite (by_name_unique c current), (by_name_absent _ previous)
    by assumption.
  simpl.
  unfold created_or_modified. rewrite find_absent by assumption.
  reflexivity.
Qed.

Lemma detect_present c p :
  In c current -> In p previous -> rf_filename p = rf_filename c ->
  events_about (rf_filename c) (detect_spec previous current) =
  if rf_timestamp p <? rf_timestamp c
  then [mkChange (rf_owner c) (rf_filename c) "modify"] else [].
Proof.
  intros Hc Hp Heq. rewrite events_about_detect_spec.
  rewrite (by_name_unique c) by assumption.
  replace (by_name (rf_filename c) previous) with [p]
    by (rewrite <- Heq; symmetry; apply by_name_unique; assumption).
  simpl.
  unfold created_or_modified. rewrite (find_unique c p) by assumption.
  unfold deleted.
  assert (Hex : List.existsb (same_filename p) current = true).
  { apply existsb_same_filename. rewrite Heq. apply in_map. exact Hc. }
  rewrite Hex, !app_nil_r. reflexivity.
Qed.

Lemma detect_deleted p :
  In p previous -> ~ In (rf_filename p) (filenames current) ->
  events_about (rf_filename p) (detect_spec previous current) =
  [mkChange (rf_owner p) (rf_filename p) "delete"].
Proof.
  intros Hp Hc. rewrite events_about_detect_spec.
  rewrite (by_name_unique p previous), (by_name_absent _ current)
    by assumption.
  simpl.
  unfold deleted.
  destruct (List.existsb (same_filename p) current) eqn:Hex.
  - apply existsb_same_filename in Hex. contradiction.
  - reflexivity.
Qed.

End Counting.

(** C7.  On every call of [monitor_directory_changes]: when the
    directory scan fails the call returns FAILURE and [previous_files] and
    [previous_file_count] are what they were; when the scan succeeds the
    call returns SUCCESS and the stored previous inventory, array and
    count, is the inventory that scan produced. *)
Theorem monitor_directory_changes_previous_inventory :
  forall (E : os) (s : state),
    let scan := fst (scan_directory E UPLOAD_DIR s) in
    let out := monitor_directory_changes E s in
    (scan_status scan <> SUCCESS ->
       fst out = FAILURE /\
       previous_files (snd out) = previous_files s /\
       previous_file_count (snd out) = previous_file_count s) /\
    (scan_status scan = SUCCESS ->
       fst out = SUCCESS /\
       previous_files (snd out) = Some (scan_files scan) /\
       previous_file_count (snd out) = scan_count scan /\
       scan_count scan = Z.of_nat (List.length (scan_files scan))).
Proof.
  intros E s scan out. subst scan out. split.
  - intros Hf. rewrite (monitor_after_failed_scan E s Hf). cbn [fst snd].
    rewrite keeps_previous_files_scan, keeps_previous_file_count_scan. auto.
  - intros Hs.
    assert (Hstore :
      fst (monitor_directory_changes E s) = SUCCESS /\
      previous_files (snd (monitor_directory_changes E s)) =
        Some (scan_files (fst (scan_directory E UPLOAD_DIR s))) /\
      previous_file_count (snd (monitor_directory_changes E s)) =
        scan_count (fst (scan_directory E UPLOAD_DIR s))).
    { rewrite monitor_run. cbv zeta. rewrite Hs.
      change (negb (SUCCESS =? SUCCESS)) with false. cbv iota.
      destruct (previous_files s);
        match goal with
        | |- context [snd (?k ?z)] =>
            destruct (monitor_store E
                        (scan_files (fst (scan_directory E UPLOAD_DIR s)))
                        (scan_count (fst (scan_directory E UPLOAD_DIR s))) z)
              as [H1 [H2 [H3 _]]]
        end; auto. }
    destruct Hstore as [H1 [H2 H3]].
    split; [exact H1|]. split; [exact H2|]. split; [exact H3|].
    apply scan_directory_count.
Qed.

(** C6.  On the first run, when no previous inventory is stored and the
    scan succeeds, [monitor_directory_changes] stores the scan as the
    previous inventory and returns SUCCESS, and hands no change event to
    the change log. *)
Theorem monitor_directory_changes_priming_run :
  forall (E : os) (s : state),
    previous_files s = None ->
    scan_status (fst (scan_directory E UPLOAD_DIR s)) = SUCCESS ->
    let scan := fst (scan_directory E UPLOAD_DIR s) in
    let out := monitor_directory_changes E s in
    fst out = SUCCESS /\
    previous_files (snd out) = Some (scan_files scan) /\
    previous_file_count (snd out) = scan_count scan /\
    change_events (new_events s (snd out)) = [].
Proof.
  intros E s Hp Hs scan out.
  destruct (monitor_priming E s Hs Hp) as [H1 [H2 [H3 H4]]].
  split; [exact H1|]. split; [exact H2|]. split; [exact H3|].
  destruct (emits_scan_directory E is_error (fun _ _ => eq_refl)
              UPLOAD_DIR s) as [l [Hl Fl]].
  rewrite Hl in H4. fold out in H4.
  rewrite (new_events_app s (snd out) l H4).
  apply change_events_errors. exact Fl.
Qed.

(** C5.  On a call that is not the priming run (a previous inventory is
    stored, with its count), with the scan succeeding and filenames
    unique within each inventory, [monitor_directory_changes] hands to
    the change log exactly the events of [detect_spec]: created/modified
    events in the order of the current inventory, then deleted events in
    the order of the previous one.  Per filename: present in current and
    absent from previous, exactly one "create"; present in both and
    strictly newer in current, exactly one "modify"; present in both and
    not newer, no event; present in previous and absent from current,
    exactly one "delete". *)
Theorem monitor_directory_changes_events :
  forall (E : os) (s : state) (previous : list ReportFile),
    previous_files s = Some previous ->
    previous_file_count s = Z.of_nat (List.length previous) ->
    scan_status (fst (scan_directory E UPLOAD_DIR s)) = SUCCESS ->
    let current := scan_files (fst (scan_directory E UPLOAD_DIR s)) in
    NoDup (filenames previous) ->
    NoDup (filenames current) ->
    let out := monitor_directory_changes E s in
    let evs := change_events (new_events s (snd out)) in
    fst out = SUCCESS /\
    evs = List.flat_map (created_or_modified previous) current ++
          List.flat_map (deleted current) previous /\
    (forall c, In c current ->
       ~ In (rf_filename c) (filenames previous) ->
       events_about (rf_filename c) evs =
         [mkChange (rf_owner c) (rf_filename c) "create"]) /\
    (forall c p, In c current -> In p previous ->
       rf_filename p = rf_filename c ->
       rf_timestamp c > rf_timestamp p ->
       events_about (rf_filename c) evs =
         [mkChange (rf_owner c) (rf_filename c) "modify"]) /\
    (forall c p, In c current -> In p previous ->
       rf_filename p = rf_filename c ->
       rf_timestamp c <= rf_timestamp p ->
       events_about (rf_filename c) evs = []) /\
    (forall p, In p previous ->
       ~ In (rf_filename p) (filenames current) ->
       events_about (rf_filename p) evs =
         [mkChange (rf_owner p) (rf_filename p) "delete"]).
Proof.
  intros E s previous Hp Hcount Hs current Hnp Hnc out evs.
  destruct (monitor_comparing E s previous Hs Hp Hcount) as [H1 [_ [_ H3]]].
  fold current in H3. fold out in H1, H3.
  assert (Hevs : evs = detect_spec previous current).
  { subst evs.
    destruct (extends_monitor_directory_changes E s) as [l [Hl _]].
    fold out in Hl.
    rewrite (new_events_app _ _ _ Hl).
    rewrite Hl, change_events_app in H3.
    apply app_inv_head in H3. exact H3. }
  split; [exact H1|]. split; [exact Hevs|]. rewrite Hevs.
  split; [|split; [|split]].
  - intros c Hc Ha. apply detect_created; assumption.
  - intros c p Hc Hpin Heq Hgt.
    rewrite (detect_present previous current Hnp Hnc c p) by assumption.
    destruct (Z.ltb_spec (rf_timestamp p) (rf_timestamp c)); [reflexivity|lia].
  - intros c p Hc Hpin Heq Hle.
    rewrite (detect_present previous current Hnp Hnc c p) by assumption.
    destruct (Z.ltb_spec (rf_timestamp p) (rf_timestamp c)); [lia|reflexivity].
  - intros p Hpin Ha. apply detect_deleted; assumption.
Qed.

(* ================================================================= *)
(** ** Locking: every run ends with [unlock_directories] *)

Lemma in_new_events s s' l e :
  s_trace s' = s_trace s ++ l -> In e l -> In e (new_events s s').
Proof. intros H Hin. rewrite (new_events_app s s' l H). exact Hin. Qed.

(** [set_directory_permissions]: either the directory has the mode
    afterwards, or the call returned FAILURE; other directories keep
    their mode when the call succeeds or fails. *)
Lemma set_directory_permissions_run E path mode s :
  let out := set_directory_permissions E path mode s in
  (fst out = SUCCESS /\ mode_of (snd out) path = Some mode \/
   fst out = FAILURE /\ s_fs (snd out) = s_fs s) /\
  (forall other, other <> path ->
     mode_of (snd out) other = mode_of s other).
Proof.
  unfold set_directory_permissions, sys_chmod, tick, get, modify, bind, ret,
    log_error, emit, mode_of. simpl.
  destruct (s_fs s path) as [d|] eqn:Hd; simpl.
  - destruct (os_chmod E (s_clock s) path mode); simpl.
    + split.
      * left. unfold fs_set. rewrite String.eqb_refl. auto.
      * intros other Ho. unfold fs_set.
        destruct (String.eqb_spec other path); [contradiction|reflexivity].
    + split; [right; auto | reflexivity].
  - split; [right; auto | reflexivity].
Qed.

(** After [unlock_directories] each directory has its normal mode, or
    the failure to unlock it is in the error log. *)
Lemma unlock_directories_run E s :
  let out := unlock_directories E s in
  (mode_of (snd out) UPLOAD_DIR = Some UPLOAD_PERMISSIONS \/
   In (LogError "Failed to unlock upload directory" [])
      (new_events s (snd out))) /\
  (mode_of (snd out) DASHBOARD_DIR = Some DASHBOARD_PERMISSIONS \/
   In (LogError "Failed to unlock dashboard directory" [])
      (new_events s (snd out))).
Proof.
  cbv zeta. unfold unlock_directories.
  rewrite bind_eq.
  set (s0 := snd (log_operation "Unlocking directories after backup/transfer"
                                [] s)).
  assert (T0 : s_trace s0 = s_trace s ++ [LogOperation MARK_UNLOCK []])
    by reflexivity.
  rewrite bind_eq.
  destruct (set_directory_permissions_run E UPLOAD_DIR UPLOAD_PERMISSIONS s0)
    as [H1 _].
  destruct (emits_set_directory_permissions E any_event (fun _ _ => eq_refl)
              UPLOAD_DIR UPLOAD_PERMISSIONS s0) as [l1 [T1 _]].
  set (o1 := set_directory_permissions E UPLOAD_DIR UPLOAD_PERMISSIONS s0)
    in *.
  rewrite bind_eq.
  set (k1 := (if negb (fst o1 =? SUCCESS)
              then log_error "Failed to unlock upload directory" [];;
                   ret FAILURE
              else ret SUCCESS) (snd o1)).
  assert (K1 : s_fs (snd k1) = s_fs (snd o1) /\
               exists l, s_trace (snd k1) = s_trace (snd o1) ++ l /\
                 (fst o1 = FAILURE ->
                  In (LogError "Failed to unlock upload directory" []) l)).
  { subst k1. destruct (Z.eqb_spec (fst o1) SUCCESS) as [Z|Z]; simpl.
    - split; [reflexivity|]. exists []. rewrite app_nil_r.
      split; [reflexivity|]. rewrite Z. discriminate.
    - split; [reflexivity|]. eexists. split; [reflexivity|].
      intros _. left. reflexivity. }
  destruct K1 as [F1 [l1' [T1' E1]]].
  rewrite bind_eq.
  destruct (set_directory_permissions_run E DASHBOARD_DIR
              DASHBOARD_PERMISSIONS (snd k1)) as [H2 H2o].
  destruct (emits_set_directory_permissions E any_event (fun _ _ => eq_refl)
              DASHBOARD_DIR DASHBOARD_PERMISSIONS (snd k1)) as [l2 [T2 _]].
  set (o2 := set_directory_permissions E DASHBOARD_DIR DASHBOARD_PERMISSIONS
               (snd k1)) in *.
  assert (Hup : mode_of (snd o2) UPLOAD_DIR = mode_of (snd o1) UPLOAD_DIR).
  { rewrite H2o by discriminate. unfold mode_of. rewrite F1. reflexivity. }
  set (k2 := (if negb (fst o2 =? SUCCESS)
              then log_error "Failed to unlock dashboard directory" [];;
                   ret FAILURE
              else ret (fst k1)) (snd o2)).
  assert (K2 : s_fs (snd k2) = s_fs (snd o2) /\
               exists l, s_trace (snd k2) = s_trace (snd o2) ++ l /\
                 (fst o2 = FAILURE ->
                  In (LogError "Failed to unlock dashboard directory" []) l)).
  { subst k2. destruct (Z.eqb_spec (fst o2) SUCCESS) as [Z|Z]; simpl.
    - split; [reflexivity|]. exists []. rewrite app_nil_r.
      split; [reflexivity|]. rewrite Z. discriminate.
    - split; [reflexivity|]. eexists. split; [reflexivity|].
      intros _. left. reflexivity. }
  destruct K2 as [F2 [l2' [T2' E2]]].
  assert (T : s_trace (snd k2) =
              s_trace s ++ ([LogOperation MARK_UNLOCK []] ++ l1 ++ l1' ++
                            l2 ++ l2')).
  { rewrite T2', T2, T1', T1, T0. rewrite <- !app_assoc. reflexivity. }
  split.
  - destruct H1 as [[_ M]|[Fl _]].
    + left. rewrite <- M, <- Hup. unfold mode_of. rewrite F2. reflexivity.
    + right. apply (in_new_events _ _ _ _ T).
      rewrite !in_app_iff. pose proof (E1 Fl). tauto.
  - destruct H2 as [[_ M]|[Fl _]].
    + left. rewrite <- M. unfold mode_of. rewrite F2. reflexivity.
    + right. apply (in_new_events _ _ _ _ T).
      rewrite !in_app_iff. pose proof (E2 Fl). tauto.
Qed.

Lemma scheduled_split E s :
  snd (scheduled_transfer_and_backup E s) =
  with_force_transfer 0
    (snd (unlock_directories E (snd (scheduled_before_unlock E s)))).
Proof.
  unfold scheduled_transfer_and_backup, scheduled_before_unlock.
  rewrite !bind_eq. reflexivity.
Qed.

Lemma manual_split E s :
  snd (manual_backup E s) =
  with_force_backup 0
    (snd (unlock_directories E (snd (manual_before_unlock E s)))).
Proof.
  unfold manual_backup, manual_before_unlock.
  rewrite !bind_eq. reflexivity.
Qed.

Lemma extends_scheduled_before_unlock E :
  emits any_event (scheduled_before_unlock E).
Proof.
  unfold scheduled_before_unlock. emits_tac;
    auto using extends_lock_directories, extends_transfer_reports,
      extends_check_missing_reports, extends_backup_dashboard.
Qed.

Lemma extends_manual_before_unlock E :
  emits any_event (manual_before_unlock E).
Proof.
  unfold manual_before_unlock. emits_tac;
    auto using extends_lock_directories, extends_backup_dashboard.
Qed.

(** What holds after [unlock_directories] holds for the whole run that
    ends with it. *)
Lemma unlocked_or_logged_after s s_mid s' :
  (exists l, s_trace s_mid = s_trace s ++ l) ->
  (exists l, s_trace s' = s_trace s_mid ++ l) ->
  unlocked_or_logged s_mid s' -> unlocked_or_logged s s'.
Proof.
  intros [l1 H1] [l2 H2] [[U|U] [D|D]]; split; auto; right;
    rewrite (new_events_app s_mid s' l2 H2) in *;
    apply (in_new_events s s' (l1 ++ l2));
    try (rewrite H2, H1, app_assoc; reflexivity);
    apply in_or_app; right; assumption.
Qed.

(** C1 (as amended).  Every run the loop starts, the scheduled or forced
    transfer-and-backup sequence and the manual backup alike, whatever
    [transfer_reports] and [backup_dashboard] return, ends by executing
    [unlock_directories] (only the flag is reset after it).  After the
    run each managed directory has its UNLOCKED mode (upload 0777,
    dashboard 0755), or [unlock_directories] has logged that it failed to
    unlock that directory. *)
Theorem pipeline_runs_end_with_unlock :
  forall (E : os) (s : state),
    (exists s_mid,
       (exists l, s_trace s_mid = s_trace s ++ l) /\
       snd (scheduled_transfer_and_backup E s) =
         with_force_transfer 0 (snd (unlock_directories E s_mid))) /\
    unlocked_or_logged s (snd (scheduled_transfer_and_backup E s)) /\
    (exists s_mid,
       (exists l, s_trace s_mid = s_trace s ++ l) /\
       snd (manual_backup E s) =
         with_force_backup 0 (snd (unlock_directories E s_mid))) /\
    unlocked_or_logged s (snd (manual_backup E s)).
Proof.
  intros E s.
  destruct (extends_scheduled_before_unlock E s) as [l1 [H1 _]].
  destruct (extends_manual_before_unlock E s) as [l2 [H2 _]].
  split; [|split; [|split]].
  - eexists. split; [exists l1; exact H1 | apply scheduled_split].
  - rewrite scheduled_split.
    apply (unlocked_or_logged_after s (snd (scheduled_before_unlock E s))).
    + exists l1. exact H1.
    + destruct (extends_unlock_directories E
                  (snd (scheduled_before_unlock E s))) as [l [Hl _]].
      exists l. exact Hl.
    + exact (unlock_directories_run E (snd (scheduled_before_unlock E s))).
  - eexists. split; [exists l2; exact H2 | apply manual_split].
  - rewrite manual_split.
    apply (unlocked_or_logged_after s (snd (manual_before_unlock E s))).
    + exists l2. exact H2.
    + destruct (extends_unlock_directories E
                  (snd (manual_before_unlock E s))) as [l [Hl _]].
      exists l. exact Hl.
    + exact (unlock_directories_run E (snd (manual_before_unlock E s))).
Qed.

(** C1 as stated fails: when [chmod] refuses to restore mode 0777 the
    scheduled run still executes [unlock_directories] last, and the
    upload directory ends the run locked (mode 0000). *)
Lemma pipeline_run_ends_locked :
  List.last
    (markers
       (new_events (started (fs_of [] []))
          (snd (scheduled_transfer_and_backup
                  (os_chmod_refusing UPLOAD_PERMISSIONS)
                  (started (fs_of [] []))))))
    "" = MARK_UNLOCK /\
  mode_of (snd (scheduled_transfer_and_backup
                  (os_chmod_refusing UPLOAD_PERMISSIONS)
                  (started (fs_of [] []))))
          UPLOAD_DIR = Some LOCKED_PERMISSIONS /\
  mode_of (snd (scheduled_transfer_and_backup
                  (os_chmod_refusing UPLOAD_PERMISSIONS)
                  (started (fs_of [] []))))
          UPLOAD_DIR <> Some UPLOAD_PERMISSIONS.
Proof. vm_compute. repeat split. discriminate. Qed.

(* ================================================================= *)
(** ** The scheduler loop *)

Lemma markers_app (a b : list event) :
  markers (a ++ b) = markers a ++ markers b.
Proof.
  induction a as [|e a IH]; simpl; [reflexivity|].
  destruct e; simpl; try exact IH.
  destruct (is_marker format); simpl; congruence.
Qed.

Lemma markers_quiet (l : list event) :
  forallb quiet l = true -> markers l = [].
Proof.
  induction l as [|e l IH]; simpl; [reflexivity|].
  intros H. apply andb_prop in H. destruct H as [Q F].
  destruct e; simpl in *; auto.
  destruct (is_marker format); [discriminate | auto].
Qed.

Lemma marks_quiet {A} (m : M A) : emits quiet m -> marks [] m.
Proof.
  intros H s. destruct (H s) as [l [-> F]].
  rewrite markers_app, (markers_quiet l F). reflexivity.
Qed.

Lemma marks_bind {A B} (m : M A) (k : A -> M B) e e1 e2 :
  marks e1 m -> (forall a, marks e2 (k a)) -> e = e1 ++ e2 ->
  marks e (bind m k).
Proof.
  intros Hm Hk -> s. rewrite bind_eq, Hk, Hm, app_assoc. reflexivity.
Qed.

Lemma marks_marker (f : string) (a : list arg) :
  is_marker f = true -> marks [f] (log_operation f a).
Proof.
  intros H s. simpl. rewrite markers_app. simpl. rewrite H. reflexivity.
Qed.

Lemma quiet_error : forall f a, quiet (LogError f a) = true.
Proof. reflexivity. Qed.

Lemma quiet_change : forall n u f a w, quiet (LogFileChange n u f a w) = true.
Proof. reflexivity. Qed.

Lemma quiet_moving :
  forall a, quiet (LogOperation "Moving file: %s to %s" a) = true.
Proof. reflexivity. Qed.

#[local] Hint Resolve quiet_error quiet_change quiet_moving : emits_db.

(** A stage function logs its marker first and nothing that opens a
    stage afterwards. *)
Ltac marks_stage :=
  eapply marks_bind;
    [ apply marks_marker; reflexivity
    | intros ?; apply marks_quiet; emits_tac
    | reflexivity ].

Lemma marks_lock_directories E : marks [MARK_LOCK] (lock_directories E).
Proof. unfold lock_directories. marks_stage. Qed.

Lemma marks_unlock_directories E :
  marks [MARK_UNLOCK] (unlock_directories E).
Proof. unfold unlock_directories. marks_stage. Qed.

Lemma marks_transfer_reports E : marks [MARK_TRANSFER] (transfer_reports E).
Proof. unfold transfer_reports. marks_stage. Qed.

Lemma marks_check_missing_reports E :
  marks [MARK_CHECK] (check_missing_reports E).
Proof. unfold check_missing_reports. marks_stage. Qed.

Lemma marks_backup_dashboard E : marks [MARK_BACKUP] (backup_dashboard E).
Proof.
  unfold backup_dashboard, backup_dashboard_counts.
  intros s. rewrite bind_eq. cbn [snd ret].
  revert s. marks_stage.
Qed.

Lemma marks_monitor_directory_changes E :
  marks [] (monitor_directory_changes E).
Proof.
  apply marks_quiet.
  unfold monitor_directory_changes, monitor_current, monitor_previous.
  emits_tac.
Qed.

(** A step whose stage lines are known, inside a sequence. *)
Ltac marks_seq :=
  lazymatch goal with
  | |- marks _ (bind _ _) =>
      eapply marks_bind; [ marks_seq | intros ?; marks_seq | reflexivity ]
  | |- marks _ (if ?c then _ else _) => destruct c; marks_seq
  | |- marks _ _ =>
      first [ apply marks_lock_directories
            | apply marks_unlock_directories
            | apply marks_transfer_reports
            | apply marks_check_missing_reports
            | apply marks_backup_dashboard
            | apply marks_marker; reflexivity
            | apply marks_quiet; emits_tac ]
  end.

Lemma marks_scheduled E :
  marks scheduled_stages (scheduled_transfer_and_backup E).
Proof.
  unfold scheduled_transfer_and_backup.
  eapply marks_bind; [ marks_seq | intros ?; marks_seq | reflexivity ].
Qed.

Lemma marks_manual E : marks manual_stages (manual_backup E).
Proof.
  unfold manual_backup.
  eapply marks_bind; [ marks_seq | intros ?; marks_seq | reflexivity ].
Qed.

(** Observations that neither the directories, the clock, the trace nor
    the stored inventory can change. *)
Section Flags.

Variable E : os.
Context {X : Type}.
Variable proj : state -> X.
Hypothesis proj_fs : forall fs s, proj (with_fs fs s) = proj s.
Hypothesis proj_clock : forall c s, proj (with_clock c s) = proj s.
Hypothesis proj_trace : forall t s, proj (with_trace t s) = proj s.
Hypothesis proj_previous :
  forall v s, proj (with_previous_files v s) = proj s.
Hypothesis proj_previous_count :
  forall v s, proj (with_previous_file_count v s) = proj s.
Hypothesis proj_scan_time :
  forall v s, proj (with_last_scan_time v s) = proj s.

Lemma keeps_monitor_directory_changes :
  keeps proj (monitor_directory_changes E).
Proof.
  unfold monitor_directory_changes, monitor_current, monitor_previous.
  keeps_tac.
Qed.

Lemma keeps_scheduled :
  (forall v s, proj (with_force_transfer v s) = proj s) ->
  keeps proj (scheduled_transfer_and_backup E).
Proof. intros H. unfold scheduled_transfer_and_backup. keeps_tac. Qed.

Lemma keeps_manual :
  (forall v s, proj (with_force_backup v s) = proj s) ->
  keeps proj (manual_backup E).
Proof. intros H. unfold manual_backup. keeps_tac. Qed.

End Flags.

Lemma scheduled_clears_flag E s :
  force_transfer (snd (scheduled_transfer_and_backup E s)) = 0.
Proof. rewrite scheduled_split. reflexivity. Qed.

(** One pass of the loop body: its stage lines and the flag afterwards. *)
Lemma daemon_iteration_run E last_check s :
  let now := os_time E (s_clock s) in
  let due := transfer_due (os_localtime E now) (force_transfer s) in
  let s' := snd (daemon_iteration E last_check s) in
  markers (s_trace s') =
    markers (s_trace s) ++
    (if due then scheduled_stages else []) ++
    (if negb (force_backup s =? 0) then manual_stages else []) /\
  force_transfer s' = (if due then 0 else force_transfer s) /\
  daemon_exit s' = daemon_exit s.
Proof.
  cbv zeta. unfold daemon_iteration.
  rewrite bind_eq.
  change (fst (sys_time E s)) with (os_time E (s_clock s)).
  set (now := os_time E (s_clock s)).
  set (s0 := snd (sys_time E s)).
  assert (T0 : s_trace s0 = s_trace s) by reflexivity.
  assert (F0 : force_transfer s0 = force_transfer s) by reflexivity.
  assert (B0 : force_backup s0 = force_backup s) by reflexivity.
  assert (X0 : daemon_exit s0 = daemon_exit s) by reflexivity.
  clearbody s0.
  rewrite bind_eq.
  change (get force_transfer s0) with (force_transfer s0, s0).
  cbn [fst snd]. rewrite F0.
  set (due := transfer_due (os_localtime E now) (force_transfer s)).
  rewrite bind_eq.
  set (s1 := snd ((if due then scheduled_transfer_and_backup E else ret tt)
                    s0)).
  assert (H1 : markers (s_trace s1) =
               markers (s_trace s) ++ (if due then scheduled_stages else []) /\
               force_transfer s1 = (if due then 0 else force_transfer s) /\
               force_backup s1 = force_backup s /\
               daemon_exit s1 = daemon_exit s).
  { subst s1. destruct due.
    - simpl. rewrite marks_scheduled, T0, scheduled_clears_flag.
      rewrite (keeps_scheduled E force_backup), B0 by reflexivity.
      rewrite (keeps_scheduled E daemon_exit), X0 by reflexivity.
      auto.
    - simpl. rewrite T0, app_nil_r. auto. }
  destruct H1 as [M1 [F1 [B1 X1]]].
  rewrite bind_eq.
  change (get force_backup s1) with (force_backup s1, s1).
  cbn [fst snd]. rewrite B1.
  destruct (Z.eqb_spec (force_backup s) 0) as [Z|Z]; cbn [negb].
  - rewrite orb_false_r.
    destruct (now - last_check >=? 5); cbn [snd ret].
    + rewrite !bind_eq.
      set (s2 := snd (monitor_directory_changes E s1)).
      change (get force_backup s2) with (force_backup s2, s2).
      cbn [fst snd].
      assert (B2 : force_backup s2 = 0).
      { subst s2.
        rewrite (keeps_monitor_directory_changes E force_backup)
          by reflexivity.
        congruence. }
      rewrite B2. cbn [Z.eqb negb ret snd].
      subst s2. rewrite marks_monitor_directory_changes, M1.
      rewrite (keeps_monitor_directory_changes E force_transfer)
        by reflexivity.
      rewrite (keeps_monitor_directory_changes E daemon_exit)
        by reflexivity.
      rewrite !app_nil_r. auto.
    + rewrite M1, !app_nil_r. auto.
  - rewrite orb_true_r. rewrite !bind_eq.
    set (s2 := snd (monitor_directory_changes E s1)).
    change (get force_backup s2) with (force_backup s2, s2).
    cbn [fst snd].
    assert (B2 : force_backup s2 = force_backup s).
    { subst s2.
      rewrite (keeps_monitor_directory_changes E force_backup)
        by reflexivity.
      congruence. }
    rewrite B2.
    destruct (Z.eqb_spec (force_backup s) 0) as [Z'|_]; [contradiction|].
    cbn [negb ret snd].
    rewrite marks_manual.
    rewrite (keeps_manual E force_transfer) by reflexivity.
    rewrite (keeps_manual E daemon_exit) by reflexivity.
    subst s2. rewrite marks_monitor_directory_changes, M1.
    rewrite (keeps_monitor_directory_changes E force_transfer)
      by reflexivity.
    rewrite (keeps_monitor_directory_changes E daemon_exit)
      by reflexivity.
    rewrite !app_nil_r, <- app_assoc. auto.
Qed.

#[local] Hint Resolve extends_lock_directories extends_unlock_directories
  extends_transfer_reports extends_check_missing_reports
  extends_backup_dashboard extends_monitor_directory_changes : emits_db.

Lemma extends_scheduled E : emits any_event (scheduled_transfer_and_backup E).
Proof. unfold scheduled_transfer_and_backup. emits_tac. Qed.

Lemma extends_manual E : emits any_event (manual_backup E).
Proof. unfold manual_backup. emits_tac. Qed.

#[local] Hint Resolve extends_scheduled extends_manual : emits_db.

Lemma extends_daemon_iteration E last_check :
  emits any_event (daemon_iteration E last_check).
Proof. unfold daemon_iteration. emits_tac. Qed.

Lemma markers_new_events s s' mk :
  (exists l, s_trace s' = s_trace s ++ l) ->
  markers (s_trace s') = markers (s_trace s) ++ mk ->
  markers (new_events s s') = mk.
Proof.
  intros [l Hl] H. rewrite (new_events_app s s' l Hl).
  rewrite Hl, markers_app in H. apply app_inv_head in H. exact H.
Qed.

Lemma transfer_due_iff (t : tm) (flag : Z) :
  transfer_due t flag = true <->
  (tm_hour t = TRANSFER_HOUR /\ tm_min t = TRANSFER_MINUTE) \/ flag <> 0.
Proof.
  unfold transfer_due.
  rewrite orb_true_iff, andb_true_iff, negb_true_iff, !Z.eqb_eq, Z.eqb_neq.
  tauto.
Qed.

(** While the loop sleeps only SIGUSR2 sets the transfer flag. *)
Lemma sleep_run i s :
  s_trace (snd (sleep i s)) = s_trace s /\
  (~ In SIGUSR2 (arriving i) ->
   force_transfer (snd (sleep i s)) = force_transfer s).
Proof.
  unfold sleep. rewrite bind_eq. cbn [modify snd].
  set (s0 := with_fs (others i (s_fs s)) s).
  change (s_trace s) with (s_trace s0).
  change (force_transfer s) with (force_transfer s0).
  generalize s0 as z. generalize tt as u. clear.
  induction (arriving i) as [|sig sigs IH]; intros u z; cbn [fold_m].
  - simpl. auto.
  - rewrite bind_eq.
    destruct (IH (fst (signal_handler sig z)) (snd (signal_handler sig z)))
      as [T F].
    split.
    + rewrite T. destruct sig; reflexivity.
    + intros H. rewrite F by (simpl in H; tauto).
      destruct sig; try reflexivity. exfalso. apply H. left. reflexivity.
Qed.

Lemma scheduled_runs_app a b :
  scheduled_runs (a ++ b) = (scheduled_runs a + scheduled_runs b)%nat.
Proof. unfold scheduled_runs. rewrite markers_app. apply count_occ_app. Qed.

(** With the flag down and the scheduled minute never shown, the loop
    starts no scheduled sequence. *)
Lemma daemon_loop_idle E inputs :
  never_transfer_time E ->
  (forall i, In i inputs -> ~ In SIGUSR2 (arriving i)) ->
  forall last_check s,
    force_transfer s = 0 ->
    count_occ string_dec
      (markers (s_trace (snd (daemon_loop E inputs last_check s))))
      MARK_SCHEDULED =
    count_occ string_dec (markers (s_trace s)) MARK_SCHEDULED.
Proof.
  intros Hnever. induction inputs as [|i inputs IH]; intros Hsig lc s Hf.
  - reflexivity.
  - cbn [daemon_loop]. rewrite bind_eq.
    change (get daemon_exit s) with (daemon_exit s, s). cbn [fst snd].
    destruct (negb (daemon_exit s =? 0)).
    + simpl. rewrite markers_app, count_occ_app. simpl. lia.
    + rewrite !bind_eq.
      destruct (daemon_iteration_run E lc s) as [M [F _]].
      destruct (sleep_run i (snd (daemon_iteration E lc s))) as [T Fs].
      rewrite IH.
      * rewrite T, M, !count_occ_app.
        unfold transfer_due. rewrite Hf.
        fold (at_transfer_time
                (os_localtime E (os_time E (s_clock s)))).
        rewrite Hnever. simpl.
        destruct (negb (force_backup s =? 0)); simpl; lia.
      * intros j Hj. apply Hsig. right. exact Hj.
      * rewrite Fs by (apply Hsig; left; reflexivity).
        rewrite F. unfold transfer_due. rewrite Hf.
        fold (at_transfer_time
                (os_localtime E (os_time E (s_clock s)))).
        rewrite Hnever. reflexivity.
Qed.

Lemma extends_sleep i : emits any_event (sleep i).
Proof.
  intros s. exists []. rewrite app_nil_r.
  split; [apply sleep_run | reflexivity].
Qed.

#[local] Hint Resolve extends_daemon_iteration extends_sleep : emits_db.

Lemma extends_daemon_loop E inputs :
  forall last_check, emits any_event (daemon_loop E inputs last_check).
Proof.
  induction inputs as [|i inputs IH]; intros lc; simpl; emits_tac.
Qed.

(** A line logged between two stages. *)
Lemma logged_line (cond : bool) (f g : string) (s : state) :
  logged s (snd ((if cond then log_operation f [] else log_error g []) s)).
Proof.
  destruct cond; [exists [LogOperation f []] | exists [LogError g []]];
    reflexivity.
Qed.

(** The body of the first [if] is the locked sequence: the five stages
    run, in order, each on the state the one before it left. *)
Lemma scheduled_is_locked_sequence E s :
  locked_sequence_runs E s (snd (scheduled_transfer_and_backup E s)).
Proof.
  unfold scheduled_transfer_and_backup, locked_sequence_runs.
  rewrite bind_eq.
  set (s0 := snd (log_operation "Starting scheduled file transfer and backup"
                                [] s)).
  rewrite bind_eq. rewrite bind_eq.
  set (moved := transfer_reports E (snd (lock_directories E s0))).
  rewrite bind_eq.
  set (s1 := snd ((if fst moved =? SUCCESS
                   then log_operation "File transfer completed successfully" []
                   else log_error "File transfer failed" []) (snd moved))).
  rewrite bind_eq. rewrite bind_eq.
  set (backed := backup_dashboard E (snd (check_missing_reports E s1))).
  rewrite bind_eq.
  set (s2 := snd ((if fst backed =? SUCCESS
                   then log_operation "Backup completed successfully" []
                   else log_error "Backup failed" []) (snd backed))).
  rewrite bind_eq.
  exists s0, s1, s2.
  split; [exists [LogOperation MARK_SCHEDULED []]; reflexivity|].
  split; [apply logged_line|]. split; [apply logged_line|]. reflexivity.
Qed.

(** A pass of the loop is its first [if] followed by its second. *)
Lemma daemon_iteration_split E last_check s :
  let s0 := with_clock (S (s_clock s)) s in
  let now := os_time E (s_clock s) in
  let due := transfer_due (os_localtime E now) (force_transfer s) in
  daemon_iteration E last_check s =
  monitoring_step E now last_check
    (snd ((if due then scheduled_transfer_and_backup E else ret tt) s0)).
Proof.
  cbv zeta. unfold daemon_iteration, monitoring_step.
  rewrite bind_eq.
  change (fst (sys_time E s)) with (os_time E (s_clock s)).
  change (snd (sys_time E s)) with (with_clock (S (s_clock s)) s).
  rewrite bind_eq.
  change (get force_transfer (with_clock (S (s_clock s)) s))
    with (force_transfer s, with_clock (S (s_clock s)) s).
  cbn [fst snd]. rewrite bind_eq. reflexivity.
Qed.

(** C9.  In each pass of the loop the locked sequence lock, transfer,
    missing-report check, backup, unlock runs exactly when the local time
    read in that pass is TRANSFER_HOUR:TRANSFER_MINUTE or [force_transfer]
    is set; at any other minute with the flag down it does not run.
    After a run the flag is 0.  A pass that is due runs the five stage
    functions themselves, in that order, each on the state left by the
    one before it, so that the transfer, the check and the backup work
    on the directories as [lock_directories] left them and
    [unlock_directories] comes last; a pass that is not due goes
    straight to the change monitor.  Hence, away from the scheduled
    minute, one forced trigger gives exactly one run however long the
    loop goes on. *)
Theorem scheduled_sequence_runs_when_due :
  forall E : os,
    (forall (last_check : Z) (s : state),
       let t := os_localtime E (os_time E (s_clock s)) in
       let due := transfer_due t (force_transfer s) in
       let s' := snd (daemon_iteration E last_check s) in
       (due = true <->
        (tm_hour t = TRANSFER_HOUR /\ tm_min t = TRANSFER_MINUTE) \/
        force_transfer s <> 0) /\
       markers (new_events s s') =
         (if due then scheduled_stages else []) ++
         (if negb (force_backup s =? 0) then manual_stages else []) /\
       scheduled_runs (new_events s s') = (if due then 1 else 0)%nat /\
       (due = true -> force_transfer s' = 0) /\
       (~ (tm_hour t = TRANSFER_HOUR /\ tm_min t = TRANSFER_MINUTE) ->
        force_transfer s = 0 ->
        ~ In MARK_TRANSFER (markers (new_events s s')) /\
        force_transfer s' = 0) /\
       (exists s_mid,
          (if due
           then locked_sequence_runs E (with_clock (S (s_clock s)) s) s_mid
           else s_mid = with_clock (S (s_clock s)) s) /\
          daemon_iteration E last_check s =
            monitoring_step E (os_time E (s_clock s)) last_check s_mid)) /\
    (forall (inputs : list sleep_input) (last_check : Z) (s : state),
       never_transfer_time E ->
       (forall i, In i inputs -> ~ In SIGUSR2 (arriving i)) ->
       daemon_exit s = 0 -> force_transfer s <> 0 -> inputs <> [] ->
       scheduled_runs
         (new_events s (snd (daemon_loop E inputs last_check s))) = 1%nat).
Proof.
  intros E. split.
  - intros lc s t due s'.
    destruct (daemon_iteration_run E lc s) as [M [F _]].
    fold t in M, F. fold due in M, F. fold s' in M, F.
    assert (Hm : markers (new_events s s') =
                 (if due then scheduled_stages else []) ++
                 (if negb (force_backup s =? 0) then manual_stages else [])).
    { apply markers_new_events; [|exact M].
      destruct (extends_daemon_iteration E lc s) as [l [Hl _]].
      exists l. exact Hl. }
    split; [apply transfer_due_iff|].
    split; [exact Hm|].
    split.
    { unfold scheduled_runs. rewrite Hm, count_occ_app.
      destruct due; destruct (negb (force_backup s =? 0)); reflexivity. }
    split.
    { intros Hd. rewrite F, Hd. reflexivity. }
    split.
    { intros Hn Hz.
      assert (Hd : due = false).
      { destruct due eqn:Hd; [|reflexivity].
        apply transfer_due_iff in Hd. tauto. }
      rewrite Hm, F, Hd. split; [|exact Hz].
      destruct (negb (force_backup s =? 0)); simpl; intuition discriminate. }
    exists (snd ((if due then scheduled_transfer_and_backup E else ret tt)
                   (with_clock (S (s_clock s)) s))).
    split; [|apply daemon_iteration_split].
    destruct due; [apply scheduled_is_locked_sequence | reflexivity].
  - intros inputs lc s Hnever Hsig Hexit Hflag Hne.
    destruct inputs as [|i inputs]; [congruence|].
    destruct (extends_daemon_loop E (i :: inputs) lc s) as [l [Hl _]].
    rewrite (new_events_app _ _ _ Hl).
    assert (Hc : count_occ string_dec
                   (markers (s_trace (snd (daemon_loop E (i :: inputs) lc s))))
                   MARK_SCHEDULED =
                 S (count_occ string_dec (markers (s_trace s))
                              MARK_SCHEDULED)).
    { cbn [daemon_loop]. rewrite bind_eq.
      change (get daemon_exit s) with (daemon_exit s, s). cbn [fst snd].
      rewrite Hexit. cbn [Z.eqb negb].
      rewrite !bind_eq.
      destruct (daemon_iteration_run E lc s) as [M [F _]].
      destruct (sleep_run i (snd (daemon_iteration E lc s))) as [T Fs].
      assert (Hd : transfer_due (os_localtime E (os_time E (s_clock s)))
                                (force_transfer s) = true).
      { apply transfer_due_iff. auto. }
      rewrite Hd in M, F.
      rewrite daemon_loop_idle.
      - rewrite T, M, !count_occ_app.
        destruct (negb (force_backup s =? 0)); simpl; lia.
      - exact Hnever.
      - intros j Hj. apply Hsig. right. exact Hj.
      - rewrite Fs by (apply Hsig; left; reflexivity). exact F. }
    rewrite Hl, markers_app, count_occ_app in Hc.
    unfold scheduled_runs. lia.
Qed.

(* ================================================================= *)
(** ** Backup: counting copies *)

Lemma count_errors_nonneg f l : 0 <= count_errors f l.
Proof. unfold count_errors. lia. Qed.

(** [copy_file] never logs the line of the backup loop. *)
Lemma copy_file_not_backup_failed E a b :
  keeps (fun s => count_errors BACKUP_FAILED (s_trace s)) (copy_file E a b).
Proof. unfold copy_file. keeps_tac. Qed.

(** The loop of [backup_dashboard]: every file is counted, and counted
    as a success unless its failure is logged. *)
Lemma backup_loop_counts E bp entries :
  forall c0 s,
    let out := fold_m (backup_entry E bp) entries c0 s in
    file_count (fst out) = file_count c0 + count_files entries /\
    success_count c0 <= success_count (fst out) /\
    (success_count (fst out) - success_count c0) +
    (count_errors BACKUP_FAILED (s_trace (snd out)) -
     count_errors BACKUP_FAILED (s_trace s)) = count_files entries.
Proof.
  unfold count_files.
  induction entries as [|e entries IH]; intros c0 s; cbn [fold_m].
  - simpl. lia.
  - cbv zeta. rewrite bind_eq.
    specialize (IH (fst (backup_entry E bp c0 e s))
                   (snd (backup_entry E bp c0 e s))).
    cbv zeta in IH. destruct IH as [I1 [I2 I3]].
    rewrite I1. clear I1.
    set (o := fold_m (backup_entry E bp) entries
                (fst (backup_entry E bp c0 e s))
                (snd (backup_entry E bp c0 e s))) in *.
    clearbody o.
    unfold backup_entry in *. cbn [List.filter].
    assert (Hf : is_file e = negb (is_DT_DIR (d_type e))) by reflexivity.
    rewrite Hf. clear Hf.
    destruct (is_DT_DIR (d_type e)); cbn [negb ret fst snd] in *.
    + lia.
    + rewrite bind_eq in *.
      set (cp := copy_file E (snprintf_path DASHBOARD_DIR (d_name e))
                   (snprintf_path bp (d_name e)) s) in *.
      assert (Hc : count_errors BACKUP_FAILED (s_trace (snd cp)) =
                   count_errors BACKUP_FAILED (s_trace s))
        by apply (copy_file_not_backup_failed E _ _ s).
      clearbody cp.
      destruct (fst cp =? SUCCESS); cbn [ret fst snd success_count
                                         file_count List.length] in *.
      * rewrite Hc in I3. lia.
      * rewrite bind_eq in *. cbn [ret fst snd success_count file_count] in *.
        change (s_trace (snd (log_error "Failed to backup file: %s"
                                [ArgS (d_name e)] (snd cp))))
          with (s_trace (snd cp) ++
                [LogError BACKUP_FAILED [ArgS (d_name e)]]) in *.
        rewrite count_errors_app, Hc in I3.
        change (count_errors BACKUP_FAILED
                  [LogError BACKUP_FAILED [ArgS (d_name e)]]) with 1 in I3.
        lia.
Qed.

Lemma split_path_join p d n :
  split_path p = Some (d, n) -> p = (d ++ "/" ++ n)%string.
Proof.
  revert d n. induction p as [|c p IH]; intros d n; simpl; [discriminate|].
  destruct (split_path p) as [[d' n']|].
  - intros H. inversion H; subst. simpl. f_equal. apply IH. reflexivity.
  - destruct (Ascii.eqb_spec c "/"%char) as [->|_]; [|discriminate].
    intros H. inversion H; subst. reflexivity.
Qed.

(** [mkdir] touches the new directory and its parent only. *)
Lemma sys_mkdir_frame E path mode s other :
  other <> path ->
  (forall n, path <> (other ++ "/" ++ n)%string) ->
  s_fs (snd (sys_mkdir E path mode s)) other = s_fs s other.
Proof.
  intros Hp Hn. unfold sys_mkdir, tick, get, modify, bind, ret. simpl.
  destruct (s_fs s path); [reflexivity|].
  destruct (split_path path) as [[parent name]|] eqn:Hs; [|reflexivity].
  destruct (s_fs s parent); [|reflexivity].
  destruct (os_mkdir E (s_clock s) path); [|reflexivity].
  simpl. unfold fs_set.
  destruct (String.eqb_spec other path); [contradiction|].
  destruct (String.eqb_spec other parent) as [->|]; [|reflexivity].
  exfalso. apply (Hn name). apply split_path_join. exact Hs.
Qed.

Lemma sys_opendir_run E path s :
  snd (sys_opendir E path s) = with_clock (S (s_clock s)) s /\
  forall entries, fst (sys_opendir E path s) = Some entries ->
    exists d, s_fs s path = Some d /\ entries = dir_entries d.
Proof.
  unfold sys_opendir, tick, get, bind, ret. simpl.
  destruct (s_fs s path) as [d|]; [destruct (os_opendir E (s_clock s) path)|];
    simpl; split; try reflexivity; try discriminate.
  intros entries H. inversion H. exists d. auto.
Qed.

(** No backup directory is, or lies directly in, the dashboard. *)
Lemma backup_path_not_dashboard (timestamp : string) :
  let bp := CString.take (Z.to_nat (MAX_PATH_LENGTH - 1))
              (BACKUP_DIR ++ "/backup_" ++ timestamp) in
  DASHBOARD_DIR <> bp /\
  forall n, bp <> (DASHBOARD_DIR ++ "/" ++ n)%string.
Proof.
  cbv zeta. split; [|intros n]; intros H; vm_compute in H; congruence.
Qed.

Lemma extends_backup_loop E bp entries c0 :
  emits any_event (fold_m (backup_entry E bp) entries c0).
Proof. emits_tac. Qed.

(** The status and the log of [backup_dashboard] by its two counters:
    K successes among the N files of the dashboard directory. *)
Lemma backup_dashboard_counts_result :
  forall (E : os) (s : state),
    let out := backup_dashboard_counts E s in
    let r := fst (fst out) in
    let s' := snd out in
    backup_dashboard E s = (r, s') /\
    match snd (fst out) with
    | None =>
        r = FAILURE /\
        (In (LogError "Failed to create backup directory: %s" [ArgErrno])
            (new_events s s') \/
         In (LogError "Failed to open dashboard directory: %s" [ArgErrno])
            (new_events s s'))
    | Some c =>
        let K := success_count c in
        let N := file_count c in
        (exists d, s_fs s DASHBOARD_DIR = Some d /\
                   N = count_files (dir_entries d)) /\
        K = N - count_errors BACKUP_FAILED (new_events s s') /\
        0 <= K <= N /\
        (K = N ->
         r = SUCCESS /\
         In (LogOperation "Backup completed successfully: %d files" [ArgD K])
            (new_events s s')) /\
        (0 < K < N ->
         r = SUCCESS /\
         In (LogError "Backup partially completed: %d/%d files"
                      [ArgD K; ArgD N])
            (new_events s s')) /\
        (r = FAILURE -> K = 0 /\ 0 < N)
    end.
Proof.
  intros E s out r s'. subst r s'.
  split.
  { unfold backup_dashboard. rewrite bind_eq. reflexivity. }
  subst out. unfold backup_dashboard_counts.
  rewrite bind_eq.
  set (s0 := snd (log_operation "Starting dashboard backup" [] s)).
  assert (T0 : s_trace s0 = s_trace s ++ [LogOperation MARK_BACKUP []])
    by reflexivity.
  assert (F0 : s_fs s0 = s_fs s) by reflexivity.
  clearbody s0.
  rewrite bind_eq.
  set (now := fst (sys_time E s0)).
  set (s1 := snd (sys_time E s0)).
  assert (T1 : s_trace s1 = s_trace s0) by reflexivity.
  assert (F1 : s_fs s1 = s_fs s0) by reflexivity.
  clearbody s1 now.
  cbv zeta.
  set (bp := CString.take (Z.to_nat (MAX_PATH_LENGTH - 1))
               (BACKUP_DIR ++ "/backup_" ++
                strftime_backup (os_localtime E now))).
  destruct (backup_path_not_dashboard
              (strftime_backup (os_localtime E now))) as [Hne Hnp].
  fold bp in Hne, Hnp.
  rewrite bind_eq.
  assert (F2 : s_fs (snd (sys_mkdir E bp 493 s1)) DASHBOARD_DIR =
               s_fs s DASHBOARD_DIR).
  { rewrite sys_mkdir_frame by assumption. rewrite F1, F0. reflexivity. }
  assert (T2 : s_trace (snd (sys_mkdir E bp 493 s1)) = s_trace s1).
  { apply (keeps_sys_mkdir E s_trace); reflexivity. }
  set (mk := sys_mkdir E bp 493 s1) in *. clearbody mk.
  destruct (negb (fst mk =? 0)).
  - (* the directory could not be created *)
    rewrite bind_eq. cbn [ret fst snd].
    split; [reflexivity|]. left.
    apply (in_new_events _ _ [LogOperation MARK_BACKUP [];
             LogError "Failed to create backup directory: %s" [ArgErrno]]).
    + simpl. rewrite T2, T1, T0, <- app_assoc. reflexivity.
    + right. left. reflexivity.
  - rewrite bind_eq.
    destruct (sys_opendir_run E DASHBOARD_DIR (snd mk)) as [S3 D3].
    set (od := sys_opendir E DASHBOARD_DIR (snd mk)) in *. clearbody od.
    destruct od as [dir s3]. cbn [fst snd] in *.
    assert (T3 : s_trace s3 = s_trace s ++ [LogOperation MARK_BACKUP []]).
    { rewrite S3. simpl. rewrite T2, T1, T0. reflexivity. }
    clear S3.
    destruct dir as [entries|].
    + (* the loop runs *)
      destruct (D3 entries eq_refl) as [d [Hd Hentries]]. clear D3.
      rewrite F2 in Hd.
      rewrite bind_eq.
      destruct (backup_loop_counts E bp entries (mkCounts 0 0) s3)
        as [L1 [L2 L3]].
      destruct (extends_backup_loop E bp entries (mkCounts 0 0) s3)
        as [l [Tl _]].
      set (lp := fold_m (backup_entry E bp) entries (mkCounts 0 0) s3) in *.
      clearbody lp. destruct lp as [c s4]. cbn [fst snd] in *.
      simpl in L1, L2, L3.
      rewrite Tl, count_errors_app in L3.
      assert (Hl : count_errors BACKUP_FAILED l = file_count c - success_count c)
        by lia.
      clear L3.
      destruct (Z.eqb_spec (success_count c) (file_count c)) as [Heq|Hneq].
      * rewrite bind_eq. cbn [ret fst snd].
        assert (Tn : s_trace (snd (log_operation
                       "Backup completed successfully: %d files"
                       [ArgD (success_count c)] s4)) =
                     s_trace s ++
                     ([LogOperation MARK_BACKUP []] ++ l ++
                      [LogOperation "Backup completed successfully: %d files"
                                    [ArgD (success_count c)]])).
        { simpl. rewrite Tl, T3, <- !app_assoc. reflexivity. }
        rewrite (new_events_app _ _ _ Tn).
        split; [|split; [|split; [|split; [|split]]]].
        -- exists d. split; [exact Hd | subst entries; lia].
        -- rewrite !count_errors_app, Hl.
           change (count_errors BACKUP_FAILED [LogOperation MARK_BACKUP []])
             with 0.
           change (count_errors BACKUP_FAILED
                     [LogOperation "Backup completed successfully: %d files"
                                   [ArgD (success_count c)]]) with 0.
           lia.
        -- lia.
        -- intros _. split; [reflexivity|].
           rewrite !in_app_iff. right. right. left. reflexivity.
        -- intros H. lia.
        -- discriminate.
      * rewrite bind_eq. cbn [ret fst snd].
        assert (Tn : s_trace (snd (log_error
                       "Backup partially completed: %d/%d files"
                       [ArgD (success_count c); ArgD (file_count c)] s4)) =
                     s_trace s ++
                     ([LogOperation MARK_BACKUP []] ++ l ++
                      [LogError "Backup partially completed: %d/%d files"
                         [ArgD (success_count c); ArgD (file_count c)]])).
        { simpl. rewrite Tl, T3, <- !app_assoc. reflexivity. }
        rewrite (new_events_app _ _ _ Tn).
        pose proof (count_errors_nonneg BACKUP_FAILED l) as Hnn.
        split; [|split; [|split; [|split; [|split]]]].
        -- exists d. split; [exact Hd | subst entries; lia].
        -- rewrite !count_errors_app, Hl.
           change (count_errors BACKUP_FAILED [LogOperation MARK_BACKUP []])
             with 0.
           change (count_errors BACKUP_FAILED
                     [LogError "Backup partially completed: %d/%d files"
                        [ArgD (success_count c); ArgD (file_count c)]])
             with 0.
           lia.
        -- lia.
        -- intros H. contradiction.
        -- intros H. split.
           ++ destruct (Z.gtb_spec (success_count c) 0); [reflexivity|lia].
           ++ rewrite !in_app_iff. right. right. left. reflexivity.
        -- destruct (Z.gtb_spec (success_count c) 0); [discriminate|].
           intros _. lia.
    + (* the dashboard could not be opened *)
      rewrite bind_eq. cbn [ret fst snd].
      split; [reflexivity|]. right.
      apply (in_new_events _ _ [LogOperation MARK_BACKUP [];
               LogError "Failed to open dashboard directory: %s" [ArgErrno]]).
      * simpl. rewrite T3, <- app_assoc. reflexivity.
      * right. left. reflexivity.
Qed.

(* ================================================================= *)
(** ** Which entries count as reports *)

Lemma not_a_report_iff (e : dirent) :
  not_a_report e = false <->
  d_type e <> DT_DIR /\
  exists pre post, d_name e = (pre ++ REPORT_EXTENSION ++ post)%string.
Proof.
  unfold not_a_report. rewrite orb_false_iff.
  pose proof (CStringFacts.strstr_some_iff (d_name e) REPORT_EXTENSION) as S.
  split.
  - intros [Hd Hs]. split.
    + intros H. rewrite H in Hd. discriminate.
    + apply S. destruct (CString.strstr (d_name e) REPORT_EXTENSION);
        [discriminate | discriminate].
  - intros [Hd Hs]. split.
    + destruct (d_type e); try reflexivity. contradiction.
    + apply S in Hs.
      destruct (CString.strstr (d_name e) REPORT_EXTENSION);
        [reflexivity | contradiction].
Qed.

(** The move of every selected entry is announced in the operation
    log. *)
Lemma transfer_loop_announces E entries :
  forall r s e,
    In e entries -> not_a_report e = false ->
    In (LogOperation "Moving file: %s to %s"
                     [ArgS (d_name e); ArgS DASHBOARD_DIR])
       (new_events s (snd (fold_m (transfer_entry E) entries r s))).
Proof.
  induction entries as [|x entries IH]; intros r s e Hin Hsel; [contradiction|].
  cbn [fold_m]. rewrite bind_eq.
  destruct (emits_transfer_entry E any_event (fun _ _ => eq_refl)
              (fun _ _ _ _ _ => eq_refl) (fun _ => eq_refl) r x s)
    as [l1 [T1 _]].
  destruct (emits_fold_m any_event (transfer_entry E) entries
              (fun b a => emits_transfer_entry E any_event (fun _ _ => eq_refl)
                 (fun _ _ _ _ _ => eq_refl) (fun _ => eq_refl) b a)
              (fst (transfer_entry E r x s)) (snd (transfer_entry E r x s)))
    as [l2 [T2 _]].
  apply (in_new_events _ _ (l1 ++ l2)).
  { rewrite T2, T1, app_assoc. reflexivity. }
  apply in_or_app. destruct Hin as [->|Hin].
  - left. clear - T1 Hsel. unfold transfer_entry in T1. rewrite Hsel in T1.
    rewrite bind_eq in T1.
    set (s0 := snd (log_operation "Moving file: %s to %s"
                      [ArgS (d_name e); ArgS DASHBOARD_DIR] s)) in *.
    match type of T1 with
    | s_trace (snd (?k s0)) = _ =>
        assert (Hk : exists l, s_trace (snd (k s0)) = s_trace s0 ++ l)
    end.
    { match goal with
      | |- exists l, s_trace (snd (?k s0)) = _ =>
          assert (Hem : emits any_event k) by emits_tac
      end.
      destruct (Hem s0) as [l [Hl _]]. exists l. exact Hl. }
    destruct Hk as [l Hl]. rewrite Hl in T1. subst s0. simpl in T1.
    rewrite <- app_assoc in T1. apply app_inv_head in T1. subst l1.
    left. reflexivity.
  - right. specialize (IH (fst (transfer_entry E r x s))
                          (snd (transfer_entry E r x s)) e Hin Hsel).
    rewrite (new_events_app _ _ _ T2) in IH. exact IH.
Qed.

Lemma check_entry_checked found e :
  check_entry found e = ret (checked found e).
Proof.
  unfold check_entry, checked. destruct (not_a_report e); [reflexivity|].
  destruct (extract_department_from_filename (d_name e) MAX_USER_LENGTH);
    reflexivity.
Qed.

Lemma check_loop_run entries :
  forall found s,
    fold_m check_entry entries found s =
    (List.fold_left checked entries found, s).
Proof.
  induction entries as [|e entries IH]; intros found s; cbn [fold_m].
  - reflexivity.
  - rewrite bind_eq, check_entry_checked. cbn [ret fst snd]. apply IH.
Qed.

Lemma mark_found_length department depts :
  forall found,
    List.length (mark_found department depts found) = List.length found.
Proof.
  induction depts as [|d depts IH]; intros [|f found]; simpl; try reflexivity.
  destruct (CString.strcasecmp department d =? 0); simpl; auto.
Qed.

(** A department once found stays found. *)
Lemma mark_found_keeps department depts :
  forall found i,
    nth i found 0 = 1 -> nth i (mark_found department depts found) 0 = 1.
Proof.
  induction depts as [|d depts IH]; intros [|f found] i H; simpl; auto.
  destruct (CString.strcasecmp department d =? 0).
  - destruct i; simpl in *; auto.
  - destruct i; simpl in *; auto.
Qed.

Lemma checked_length found e :
  List.length (checked found e) = List.length found.
Proof.
  unfold checked. destruct (not_a_report e); [reflexivity|].
  destruct (extract_department_from_filename (d_name e) MAX_USER_LENGTH);
    [apply mark_found_length | reflexivity].
Qed.

Lemma checked_keeps found e i :
  nth i found 0 = 1 -> nth i (checked found e) 0 = 1.
Proof.
  intros H. unfold checked. destruct (not_a_report e); [exact H|].
  destruct (extract_department_from_filename (d_name e) MAX_USER_LENGTH);
    [apply mark_found_keeps; exact H | exact H].
Qed.

Lemma fold_checked_keeps entries :
  forall found i,
    nth i found 0 = 1 -> nth i (List.fold_left checked entries found) 0 = 1.
Proof.
  induction entries as [|e entries IH]; intros found i H; simpl; auto.
  apply IH. apply checked_keeps. exact H.
Qed.

(** An entry named "report_Sales.xml.bak" marks the Sales department. *)
Lemma checked_sales found e :
  List.length found = 4%nat ->
  d_name e = "report_Sales.xml.bak" -> d_type e <> DT_DIR ->
  nth 2 (checked found e) 0 = 1.
Proof.
  intros Hl Hn Ht. unfold checked.
  assert (Hsel : not_a_report e = false).
  { unfold not_a_report. rewrite Hn.
    destruct (d_type e); try reflexivity. contradiction. }
  rewrite Hsel, Hn.
  destruct found as [|a [|b [|c [|d [|x found]]]]]; try discriminate.
  reflexivity.
Qed.

Lemma fold_checked_sales entries :
  forall found e,
    List.length found = 4%nat -> In e entries ->
    d_name e = "report_Sales.xml.bak" -> d_type e <> DT_DIR ->
    nth 2 (List.fold_left checked entries found) 0 = 1.
Proof.
  induction entries as [|x entries IH]; intros found e Hl Hin Hn Ht;
    [contradiction|].
  simpl. destruct Hin as [->|Hin].
  - apply fold_checked_keeps. apply checked_sales; assumption.
  - apply (IH _ e); auto. rewrite checked_length. exact Hl.
Qed.

Lemma fold_checked_length entries :
  forall found,
    List.length (List.fold_left checked entries found) = List.length found.
Proof.
  induction entries as [|x entries IH]; intros found; simpl; auto.
  rewrite IH. apply checked_length.
Qed.

(** With Sales marked, the closing loop does not report it missing and
    counts at most three departments. *)
Lemma log_missing_sales found s :
  List.length found = 4%nat -> nth 2 found 0 = 1 ->
  let out := log_missing department_reports found 0 s in
  fst out <= 3 /\
  exists l, s_trace (snd out) = s_trace s ++ l /\
            ~ In (LogError MISSING_REPORT [ArgS DEPT_SALES]) l.
Proof.
  intros Hl Hs.
  destruct found as [|a [|b [|c [|d [|x found]]]]]; try discriminate.
  simpl in Hs. subst c. cbv zeta.
  unfold department_reports, log_missing, bind, ret, log_error, emit, modify.
  destruct (a =? 0); destruct (b =? 0); destruct (d =? 0); simpl;
    (split; [lia|]); eexists;
    (split; [rewrite <- ?app_assoc; simpl; try reflexivity;
             rewrite app_nil_r; reflexivity|]);
    simpl; intuition discriminate.
Qed.

Lemma sys_opendir_ok E path s d :
  s_fs s path = Some d -> os_opendir E (s_clock s) path = true ->
  sys_opendir E path s = (Some (dir_entries d), with_clock (S (s_clock s)) s).
Proof.
  intros Hd Ho. unfold sys_opendir, tick, get, bind, ret. simpl.
  rewrite Hd, Ho. reflexivity.
Qed.

(** C10.  Both directory loops take an entry for a report file exactly
    when it is not a directory and ".xml" occurs somewhere in its name.
    So a file "report_Sales.xml.bak" in the upload directory is moved by
    [transfer_reports], and in the dashboard directory it makes Sales
    present for [check_missing_reports]. *)
Theorem report_extension_matched_anywhere :
  (forall e : dirent,
     not_a_report e = false <->
     d_type e <> DT_DIR /\
     exists pre post, d_name e = (pre ++ REPORT_EXTENSION ++ post)%string) /\
  (forall (E : os) (s : state) (d : directory) (e : dirent),
     s_fs s UPLOAD_DIR = Some d ->
     os_opendir E (s_clock s) UPLOAD_DIR = true ->
     In e (dir_entries d) -> d_type e <> DT_DIR ->
     d_name e = "report_Sales.xml.bak" ->
     In (LogOperation "Moving file: %s to %s"
                      [ArgS "report_Sales.xml.bak"; ArgS DASHBOARD_DIR])
        (new_events s (snd (transfer_reports E s)))) /\
  (forall (E : os) (s : state) (d : directory) (e : dirent),
     s_fs s DASHBOARD_DIR = Some d ->
     os_opendir E (s_clock s) DASHBOARD_DIR = true ->
     In e (dir_entries d) -> d_type e <> DT_DIR ->
     d_name e = "report_Sales.xml.bak" ->
     fst (check_missing_reports E s) <= 3 /\
     ~ In (LogError MISSING_REPORT [ArgS DEPT_SALES])
          (new_events s (snd (check_missing_reports E s)))) /\
  (let s := started (fs_of [file_of "report_Sales.xml.bak" "<r/>" 5] []) in
   let s' := snd (transfer_reports os_ok s) in
   dir_file s' UPLOAD_DIR "report_Sales.xml.bak" = None /\
   dir_file s' DASHBOARD_DIR "report_Sales.xml.bak" =
     Some (file_of "report_Sales.xml.bak" "<r/>" 5) /\
   fst (check_missing_reports os_ok s') = 3 /\
   fst (check_missing_reports os_ok s) = 4).
Proof.
  split; [exact not_a_report_iff|]. split; [|split].
  - intros E s d e Hd Ho Hin Ht Hn.
    assert (Hsel : not_a_report e = false).
    { apply not_a_report_iff. split; [exact Ht|].
      exists "report_Sales", ".bak". exact Hn. }
    unfold transfer_reports. rewrite bind_eq.
    set (s0 := snd (log_operation
                      "Starting report transfer from upload to dashboard"
                      [] s)).
    assert (T0 : s_trace s0 = s_trace s ++ [LogOperation MARK_TRANSFER []])
      by reflexivity.
    assert (Hd0 : s_fs s0 UPLOAD_DIR = Some d) by exact Hd.
    assert (Ho0 : os_opendir E (s_clock s0) UPLOAD_DIR = true) by exact Ho.
    clearbody s0.
    rewrite bind_eq.
    rewrite (sys_opendir_ok E UPLOAD_DIR s0 d Hd0 Ho0). cbn [fst snd].
    rewrite bind_eq. cbn [ret snd].
    set (s1 := with_clock (S (s_clock s0)) s0).
    assert (T1 : s_trace s1 = s_trace s0) by reflexivity.
    clearbody s1.
    pose proof (transfer_loop_announces E (dir_entries d) SUCCESS s1 e Hin Hsel)
      as Hl.
    rewrite Hn in Hl.
    destruct (emits_fold_m any_event (transfer_entry E) (dir_entries d)
                (fun b a => emits_transfer_entry E any_event
                   (fun _ _ => eq_refl) (fun _ _ _ _ _ => eq_refl)
                   (fun _ => eq_refl) b a) SUCCESS s1) as [l [Tl _]].
    rewrite (new_events_app _ _ _ Tl) in Hl.
    apply (in_new_events _ _ ([LogOperation MARK_TRANSFER []] ++ l)).
    + rewrite Tl, T1, T0, <- app_assoc. reflexivity.
    + apply in_or_app. right. exact Hl.
  - intros E s d e Hd Ho Hin Ht Hn.
    unfold check_missing_reports. rewrite bind_eq.
    set (s0 := snd (log_operation "Checking for missing department reports"
                      [] s)).
    assert (T0 : s_trace s0 = s_trace s ++ [LogOperation MARK_CHECK []])
      by reflexivity.
    assert (Hd0 : s_fs s0 DASHBOARD_DIR = Some d) by exact Hd.
    assert (Ho0 : os_opendir E (s_clock s0) DASHBOARD_DIR = true) by exact Ho.
    clearbody s0.
    rewrite bind_eq.
    rewrite (sys_opendir_ok E DASHBOARD_DIR s0 d Hd0 Ho0). cbn [fst snd].
    rewrite bind_eq, check_loop_run. cbn [fst snd].
    set (s1 := with_clock (S (s_clock s0)) s0).
    assert (T1 : s_trace s1 = s_trace s0) by reflexivity.
    clearbody s1.
    set (found := List.fold_left checked (dir_entries d) [0; 0; 0; 0]).
    assert (Hlen : List.length found = 4%nat).
    { subst found. rewrite fold_checked_length. reflexivity. }
    assert (Hs : nth 2 found 0 = 1).
    { subst found. apply (fold_checked_sales _ _ e); auto. }
    destruct (log_missing_sales found s1 Hlen Hs) as [Hc [l [Tl Hni]]].
    rewrite bind_eq, bind_eq. cbn [ret fst snd].
    split; [exact Hc|].
    set (fin := LogOperation "Missing report check completed, %d missing"
                  [ArgD (fst (log_missing department_reports found 0 s1))]).
    assert (Tn : s_trace (snd (log_operation
                   "Missing report check completed, %d missing"
                   [ArgD (fst (log_missing department_reports found 0 s1))]
                   (snd (log_missing department_reports found 0 s1)))) =
                 s_trace s ++ ([LogOperation MARK_CHECK []] ++ l ++ [fin])).
    { cbn [log_operation emit modify snd s_trace with_trace].
      rewrite Tl, T1, T0, <- !app_assoc. reflexivity. }
    rewrite (new_events_app _ _ _ Tn).
    rewrite !in_app_iff. simpl. subst fin.
    intros [[H|[]]|[H|[H|[]]]]; try discriminate. contradiction.
  - vm_compute. repeat split.
Qed.

(* ================================================================= *)
(** ** Transfer: which files arrive *)

Section Paths.
Import CString CStringFacts.

Lemma split_path_plain (n : string) :
  ~ has_char "/"%char n -> split_path n = None.
Proof.
  induction n as [|c n IH]; simpl; intros H; [reflexivity|].
  rewrite has_char_cons in H. rewrite IH by tauto.
  destruct (Ascii.eqb_spec c "/"%char); [tauto | reflexivity].
Qed.

Lemma split_path_dir_name (d n : string) :
  ~ has_char "/"%char n -> split_path (d ++ "/" ++ n) = Some (d, n).
Proof.
  intros H. induction d as [|c d IH]; simpl.
  - rewrite split_path_plain by assumption. reflexivity.
  - simpl in IH. rewrite IH. reflexivity.
Qed.

(** The path buffers are long enough for a managed directory and an
    entry name. *)
Lemma snprintf_path_fits (d n : string) :
  (String.length d <= 100)%nat -> (String.length n <= NAME_MAX)%nat ->
  snprintf_path d n = (d ++ "/" ++ n)%string.
Proof.
  intros Hd Hn. unfold snprintf_path. apply take_all.
  rewrite !length_append. unfold NAME_MAX in Hn.
  change (Z.to_nat (MAX_PATH_LENGTH - 1)) with 1023%nat. simpl. lia.
Qed.

End Paths.

Lemma lookup_remove_same n l : lookup_entry n (remove_entry n l) = None.
Proof.
  unfold lookup_entry, remove_entry.
  induction l as [|e l IH]; simpl; [reflexivity|].
  destruct (name_is n e) eqn:H; simpl; [exact IH|].
  rewrite H. exact IH.
Qed.

Lemma lookup_remove_other m n l :
  m <> n -> lookup_entry m (remove_entry n l) = lookup_entry m l.
Proof.
  intros Hmn. unfold lookup_entry, remove_entry.
  induction l as [|e l IH]; simpl; [reflexivity|].
  destruct (name_is n e) eqn:Hn; simpl.
  - unfold name_is in *. apply String.eqb_eq in Hn.
    destruct (String.eqb_spec (d_name e) m); [congruence | exact IH].
  - destruct (name_is m e); [reflexivity | exact IH].
Qed.

Lemma lookup_app m l x :
  lookup_entry m (l ++ [x]) =
  match lookup_entry m l with
  | Some e => Some e
  | None => if name_is m x then Some x else None
  end.
Proof.
  unfold lookup_entry. induction l as [|e l IH]; simpl; [reflexivity|].
  destruct (name_is m e); [reflexivity | exact IH].
Qed.

(** Replacing the entry of a name: the name finds the new entry, every
    other name finds what it found. *)
Lemma lookup_replace m n l x :
  d_name x = n ->
  lookup_entry m (remove_entry n l ++ [x]) =
  if String.eqb m n then Some x else lookup_entry m l.
Proof.
  intros Hx. rewrite lookup_app.
  destruct (String.eqb_spec m n) as [->|Hmn].
  - rewrite lookup_remove_same. unfold name_is. rewrite Hx, String.eqb_refl.
    reflexivity.
  - rewrite lookup_remove_other by assumption.
    destruct (lookup_entry m l); [reflexivity|].
    unfold name_is. rewrite Hx.
    destruct (String.eqb_spec n m); [congruence | reflexivity].
Qed.

Lemma lookup_unique x l :
  NoDup (List.map d_name l) -> In x l -> lookup_entry (d_name x) l = Some x.
Proof.
  unfold lookup_entry. induction l as [|e l IH]; simpl; intros Hnd Hin;
    [contradiction|].
  inversion Hnd as [|? ? Hni Hnd']; subst.
  unfold name_is at 1. destruct Hin as [->|Hin].
  - rewrite String.eqb_refl. reflexivity.
  - destruct (String.eqb_spec (d_name e) (d_name x)) as [Heq|_].
    + exfalso. apply Hni. rewrite Heq. apply in_map. exact Hin.
    + apply IH; assumption.
Qed.

Lemma upload_not_dashboard : UPLOAD_DIR <> DASHBOARD_DIR.
Proof. discriminate. Qed.

Lemma only_touches_refl n s : only_touches n s s.
Proof. intros m _. auto. Qed.

Lemma only_touches_trans n s1 s2 s3 :
  only_touches n s1 s2 -> only_touches n s2 s3 -> only_touches n s1 s3.
Proof.
  intros H1 H2 m Hm. destruct (H1 m Hm) as [A B], (H2 m Hm) as [C D].
  split; congruence.
Qed.

Lemma only_touches_same_fs n s s' :
  s_fs s' = s_fs s -> only_touches n s s'.
Proof. intros H m _. unfold dir_file. rewrite H. auto. Qed.

Lemma eqb_upload_dashboard : String.eqb UPLOAD_DIR DASHBOARD_DIR = false.
Proof. reflexivity. Qed.

Lemma eqb_dashboard_upload : String.eqb DASHBOARD_DIR UPLOAD_DIR = false.
Proof. reflexivity. Qed.

(** Looking a name up after one of the two directories was replaced. *)
Lemma dir_file_set_upload s fs' dir m :
  s_fs s = fs' ->
  forall s', s_fs s' = fs_set fs' UPLOAD_DIR dir ->
  dir_file s' UPLOAD_DIR m = lookup_entry m (dir_entries dir) /\
  dir_file s' DASHBOARD_DIR m = dir_file s DASHBOARD_DIR m.
Proof.
  intros <- s' H. unfold dir_file. rewrite H. unfold fs_set.
  rewrite String.eqb_refl, eqb_dashboard_upload. auto.
Qed.

Lemma dir_file_set_dashboard s fs' dir m :
  s_fs s = fs' ->
  forall s', s_fs s' = fs_set fs' DASHBOARD_DIR dir ->
  dir_file s' DASHBOARD_DIR m = lookup_entry m (dir_entries dir) /\
  dir_file s' UPLOAD_DIR m = dir_file s UPLOAD_DIR m.
Proof.
  intros <- s' H. unfold dir_file. rewrite H. unfold fs_set.
  rewrite String.eqb_refl, eqb_upload_dashboard. auto.
Qed.

Lemma fs_set_upload_dashboard fs dir :
  fs_set fs UPLOAD_DIR dir DASHBOARD_DIR = fs DASHBOARD_DIR.
Proof. unfold fs_set. rewrite eqb_dashboard_upload. reflexivity. Qed.

Section MoveOne.

Variable E : os.
Variable n : string.
Hypothesis n_plain : ~ has_char "/"%char n.

Let src : string := (UPLOAD_DIR ++ "/" ++ n)%string.
Let dst : string := (DASHBOARD_DIR ++ "/" ++ n)%string.

Lemma split_src : split_path src = Some (UPLOAD_DIR, n).
Proof. apply split_path_dir_name. exact n_plain. Qed.

Lemma split_dst : split_path dst = Some (DASHBOARD_DIR, n).
Proof. apply split_path_dir_name. exact n_plain. Qed.

Lemma fs_file_src s : fs_file (s_fs s) src = dir_file s UPLOAD_DIR n.
Proof. unfold fs_file, dir_file. rewrite split_src. reflexivity. Qed.

(** Writing the destination file. *)
Lemma fs_write_dst now data s s' :
  s_fs s' = fs_write E now (s_fs s) dst data ->
  s_fs s DASHBOARD_DIR <> None ->
  only_touches n s s' /\
  (forall m, dir_file s' UPLOAD_DIR m = dir_file s UPLOAD_DIR m) /\
  s_fs s' DASHBOARD_DIR <> None /\
  exists e', dir_file s' DASHBOARD_DIR n = Some e' /\
             i_data (d_ino e') = data.
Proof.
  intros H Hd. unfold fs_write in H. rewrite split_dst in H.
  destruct (s_fs s DASHBOARD_DIR) as [dir|] eqn:Hdir; [|congruence].
  split; [|split; [|split]].
  - intros m Hm.
    destruct (dir_file_set_dashboard s _ _ m eq_refl s' H) as [A B].
    split; [exact B|]. rewrite A. cbn [dir_entries].
    rewrite lookup_replace by reflexivity.
    destruct (String.eqb_spec m n); [contradiction|].
    unfold dir_file. rewrite Hdir. reflexivity.
  - intros m.
    destruct (dir_file_set_dashboard s _ _ m eq_refl s' H) as [_ B]. exact B.
  - rewrite H. unfold fs_set. rewrite String.eqb_refl. discriminate.
  - destruct (dir_file_set_dashboard s _ _ n eq_refl s' H) as [A _].
    rewrite A. cbn [dir_entries]. rewrite lookup_replace by reflexivity.
    rewrite String.eqb_refl. eexists. split; reflexivity.
Qed.

Lemma sys_rename_run s :
  let out := sys_rename E src dst s in
  only_touches n s (snd out) /\
  (fst out = 0 ->
   forall e, dir_file s UPLOAD_DIR n = Some e ->
     dir_file (snd out) UPLOAD_DIR n = None /\
     exists e', dir_file (snd out) DASHBOARD_DIR n = Some e' /\
                i_data (d_ino e') = i_data (d_ino e)) /\
  (fst out <> 0 -> s_fs (snd out) = s_fs s).
Proof.
  cbv zeta. unfold sys_rename, tick, get, modify, bind, ret.
  cbn [fst snd s_fs with_clock s_clock].
  rewrite split_src, split_dst.
  destruct (s_fs s UPLOAD_DIR) as [sdir|] eqn:Hs;
    [|cbn [fst snd]; split; [apply only_touches_same_fs; reflexivity|];
      split; [intros H; exfalso; lia | reflexivity]].
  destruct (lookup_entry n (dir_entries sdir)) as [e0|] eqn:He;
    [|cbn [fst snd]; split; [apply only_touches_same_fs; reflexivity|];
      split; [intros H; exfalso; lia | reflexivity]].
  rewrite fs_set_upload_dashboard.
  destruct (s_fs s DASHBOARD_DIR) as [ddir|] eqn:Hd;
    [|cbn [fst snd]; split; [apply only_touches_same_fs; reflexivity|];
      split; [intros H; exfalso; lia | reflexivity]].
  destruct (os_rename E (s_clock s) src dst);
    [|cbn [fst snd]; split; [apply only_touches_same_fs; reflexivity|];
      split; [intros H; exfalso; lia | reflexivity]].
  cbn [fst snd].
  set (s' := with_fs _ _).
  assert (Hup : forall m, dir_file s' UPLOAD_DIR m =
                          lookup_entry m (remove_entry n (dir_entries sdir))).
  { intros m. unfold dir_file, s'. cbn [s_fs with_fs]. unfold fs_set.
    rewrite eqb_upload_dashboard, String.eqb_refl. reflexivity. }
  assert (Hdn : forall m, dir_file s' DASHBOARD_DIR m =
                          lookup_entry m
                            (remove_entry n (dir_entries ddir) ++
                             [mkDirent n (d_type e0) (d_ino e0)])).
  { intros m. unfold dir_file, s'. cbn [s_fs with_fs]. unfold fs_set.
    rewrite String.eqb_refl. reflexivity. }
  clearbody s'.
  split; [|split; [|intros H; exfalso; apply H; reflexivity]].
  - intros m Hm. rewrite Hup, Hdn.
    rewrite lookup_remove_other by assumption.
    rewrite lookup_replace by reflexivity.
    destruct (String.eqb_spec m n); [contradiction|].
    unfold dir_file. rewrite Hs, Hd. auto.
  - intros _ e Hfile. unfold dir_file in Hfile. rewrite Hs, He in Hfile.
    inversion Hfile; subst e0.
    rewrite Hup, Hdn, lookup_remove_same.
    rewrite lookup_replace by reflexivity. rewrite String.eqb_refl.
    split; [reflexivity|]. eexists. split; reflexivity.
Qed.

Lemma sys_unlink_run s :
  let out := sys_unlink E src s in
  only_touches n s (snd out) /\
  (forall m, dir_file (snd out) DASHBOARD_DIR m = dir_file s DASHBOARD_DIR m) /\
  (fst out = 0 -> dir_file (snd out) UPLOAD_DIR n = None).
Proof.
  cbv zeta. unfold sys_unlink, tick, get, modify, bind, ret.
  cbn [fst snd s_fs with_clock s_clock].
  rewrite split_src.
  destruct (s_fs s UPLOAD_DIR) as [sdir|] eqn:Hs;
    [|cbn [fst snd]; split; [apply only_touches_same_fs; reflexivity|];
      split; [reflexivity | intros H; exfalso; lia]].
  destruct (lookup_entry n (dir_entries sdir)) as [e0|] eqn:He;
    [|cbn [fst snd]; split; [apply only_touches_same_fs; reflexivity|];
      split; [reflexivity | intros H; exfalso; lia]].
  destruct (os_unlink E (s_clock s) src);
    [|cbn [fst snd]; split; [apply only_touches_same_fs; reflexivity|];
      split; [reflexivity | intros H; exfalso; lia]].
  cbn [fst snd].
  set (s' := with_fs _ _).
  assert (H : s_fs s' = fs_set (s_fs s) UPLOAD_DIR
                          (mkDirectory (dir_mode sdir)
                             (remove_entry n (dir_entries sdir))))
    by reflexivity.
  clearbody s'.
  split; [|split].
  - intros m Hm.
    destruct (dir_file_set_upload s _ _ m eq_refl s' H) as [A B].
    split; [|exact B]. rewrite A. cbn [dir_entries].
    rewrite lookup_remove_other by assumption.
    unfold dir_file. rewrite Hs. reflexivity.
  - intros m. apply (dir_file_set_upload s _ _ m eq_refl s' H).
  - intros _.
    destruct (dir_file_set_upload s _ _ n eq_refl s' H) as [A _].
    rewrite A. apply lookup_remove_same.
Qed.

Lemma sys_open_read_run p s :
  s_fs (snd (sys_open_read E p s)) = s_fs s /\
  forall e, fst (sys_open_read E p s) = Some e ->
            fs_file (s_fs s) p = Some e.
Proof.
  unfold sys_open_read, tick, get, bind, ret.
  cbn [fst snd s_fs with_clock s_clock].
  destruct (fs_file (s_fs s) p) as [e0|];
    [destruct (os_open E (s_clock s) p)|]; cbn [fst snd];
    split; try reflexivity; try discriminate.
  intros e H. exact H.
Qed.

Lemma sys_open_write_run s :
  let out := sys_open_write E dst s in
  (fst out = true ->
   s_fs (snd out) = fs_write E (os_time E (s_clock s)) (s_fs s) dst "" /\
   s_fs s DASHBOARD_DIR <> None) /\
  (fst out = false -> s_fs (snd out) = s_fs s).
Proof.
  cbv zeta. unfold sys_open_write, tick, get, modify, bind, ret.
  cbn [fst snd s_fs with_clock s_clock]. rewrite split_dst.
  destruct (s_fs s DASHBOARD_DIR) as [ddir|];
    [destruct (os_open E (s_clock s) dst)|]; cbn [fst snd];
    split; try discriminate; try reflexivity.
  intros _. split; [reflexivity | discriminate].
Qed.

(** The copy fallback: it leaves the upload directory alone, touches at
    most the destination file, and on SUCCESS that file has the bytes of
    the source. *)
Lemma copy_file_run s :
  let out := copy_file E src dst s in
  only_touches n s (snd out) /\
  (forall m, dir_file (snd out) UPLOAD_DIR m = dir_file s UPLOAD_DIR m) /\
  (fst out = SUCCESS ->
   forall e, dir_file s UPLOAD_DIR n = Some e ->
     exists e', dir_file (snd out) DASHBOARD_DIR n = Some e' /\
                i_data (d_ino e') = i_data (d_ino e)) /\
  (fst out = SUCCESS \/ fst out = FAILURE).
Proof.
  cbv zeta. unfold copy_file. rewrite bind_eq.
  destruct (sys_open_read_run src s) as [F1 R1].
  set (o1 := sys_open_read E src s) in *. clearbody o1.
  destruct o1 as [[e0|] s1]; cbn [fst snd] in *.
  2:{ rewrite bind_eq. cbn [ret fst snd].
      assert (Hfs : s_fs (snd (log_error "Failed to open source file %s: %s"
                                 [ArgS src; ArgErrno] s1)) = s_fs s)
        by exact F1.
      split; [apply only_touches_same_fs; exact Hfs|].
      split; [intros m; unfold dir_file; rewrite Hfs; reflexivity|].
      split; [discriminate | right; reflexivity]. }
  specialize (R1 e0 eq_refl). rewrite fs_file_src in R1.
  assert (U1 : forall m D, dir_file s1 D m = dir_file s D m).
  { intros m D. unfold dir_file. rewrite F1. reflexivity. }
  rewrite bind_eq.
  destruct (sys_open_write_run s1) as [W1 W0].
  set (o2 := sys_open_write E dst s1) in *. clearbody o2.
  destruct o2 as [[|] s2]; cbn [fst snd negb] in *.
  2:{ rewrite bind_eq. cbn [ret fst snd].
      specialize (W0 eq_refl).
      assert (Hfs : s_fs (snd (log_error
                                 "Failed to open destination file %s: %s"
                                 [ArgS dst; ArgErrno] s2)) = s_fs s)
        by (cbn; congruence).
      split; [apply only_touches_same_fs; exact Hfs|].
      split; [intros m; unfold dir_file; rewrite Hfs; reflexivity|].
      split; [discriminate | right; reflexivity]. }
  destruct (W1 eq_refl) as [W Wd]. clear W1 W0.
  destruct (fs_write_dst _ _ s1 s2 W Wd) as [A1 [A2 [A3 _]]].
  rewrite !bind_eq.
  change (fst (tick s2)) with (s_clock s2).
  change (snd (tick s2)) with (with_clock (S (s_clock s2)) s2).
  set (s2' := with_clock (S (s_clock s2)) s2).
  change (fst (get s_fs s2')) with (s_fs s2).
  change (snd (get s_fs s2')) with s2'.
  assert (U2 : forall m D, dir_file s2' D m = dir_file s2 D m)
    by reflexivity.
  assert (Hfinal : forall data s3,
             s_fs s3 = fs_write E (os_time E (s_clock s2)) (s_fs s2) dst data ->
             only_touches n s s3 /\
             (forall m, dir_file s3 UPLOAD_DIR m = dir_file s UPLOAD_DIR m) /\
             exists e', dir_file s3 DASHBOARD_DIR n = Some e' /\
                        i_data (d_ino e') = data).
  { intros data s3 H3.
    destruct (fs_write_dst _ _ s2 s3 H3 A3) as [B1 [B2 [_ B4]]].
    split; [|split; [|exact B4]].
    - apply (only_touches_trans n s s1);
        [apply only_touches_same_fs; exact F1|].
      apply (only_touches_trans n s1 s2); assumption.
    - intros m. rewrite B2, A2. apply U1. }
  clearbody s2'.
  destruct (os_copy_io E (s_clock s2)) as [k|k|].
  - rewrite !bind_eq. cbn [ret fst snd].
    destruct (Hfinal (CString.take k (i_data (d_ino e0)))
                (snd (log_error "Failed to write to destination file: %s"
                        [ArgErrno]
                        (snd (modify
                                (with_fs
                                   (fs_write E (os_time E (s_clock s2))
                                      (s_fs s2) dst
                                      (CString.take k (i_data (d_ino e0)))))
                                s2'))))
                eq_refl) as [C1 [C2 _]].
    split; [exact C1|]. split; [exact C2|].
    split; [discriminate | right; reflexivity].
  - rewrite !bind_eq. cbn [ret fst snd].
    destruct (Hfinal (CString.take k (i_data (d_ino e0)))
                (snd (log_error "Failed to read from source file: %s"
                        [ArgErrno]
                        (snd (modify
                                (with_fs
                                   (fs_write E (os_time E (s_clock s2))
                                      (s_fs s2) dst
                                      (CString.take k (i_data (d_ino e0)))))
                                s2'))))
                eq_refl) as [C1 [C2 _]].
    split; [exact C1|]. split; [exact C2|].
    split; [discriminate | right; reflexivity].
  - rewrite !bind_eq. cbn [ret fst snd].
    destruct (Hfinal (i_data (d_ino e0))
                (snd (modify
                        (with_fs
                           (fs_write E (os_time E (s_clock s2))
                              (s_fs s2) dst (i_data (d_ino e0))))
                        s2'))
                eq_refl) as [C1 [C2 C3]].
    split; [exact C1|]. split; [exact C2|].
    split; [|left; reflexivity].
    intros _ e He. rewrite R1 in He. inversion He; subst e. exact C3.
Qed.

(** [move_file]: at most the one file is touched, and on SUCCESS it has
    left the upload directory and is in the dashboard directory with its
    bytes. *)
Lemma move_file_run s :
  let out := move_file E src dst s in
  only_touches n s (snd out) /\
  (fst out = SUCCESS ->
   forall e, dir_file s UPLOAD_DIR n = Some e ->
     dir_file (snd out) UPLOAD_DIR n = None /\
     exists e', dir_file (snd out) DASHBOARD_DIR n = Some e' /\
                i_data (d_ino e') = i_data (d_ino e)) /\
  (fst out = SUCCESS \/ fst out = FAILURE).
Proof.
  cbv zeta. unfold move_file. rewrite bind_eq.
  destruct (sys_rename_run s) as [R1 [R2 R3]].
  set (o := sys_rename E src dst s) in *. clearbody o.
  destruct o as [r s1]. cbn [fst snd] in *.
  destruct (Z.eqb_spec r 0) as [Hr|Hr].
  - cbn [ret fst snd]. split; [exact R1|].
    split; [intros _; exact (R2 Hr) | left; reflexivity].
  - specialize (R3 Hr). clear R2.
    assert (U1 : forall m D, dir_file s1 D m = dir_file s D m).
    { intros m D. unfold dir_file. rewrite R3. reflexivity. }
    rewrite bind_eq.
    destruct (copy_file_run s1) as [C1 [C2 [C3 C4]]].
    set (c := copy_file E src dst s1) in *. clearbody c.
    destruct c as [rc s2]. cbn [fst snd] in *.
    assert (T12 : only_touches n s s2)
      by (apply (only_touches_trans n s s1); assumption).
    destruct (Z.eqb_spec rc SUCCESS) as [Hc|Hc].
    + rewrite bind_eq.
      destruct (sys_unlink_run s2) as [L1 [L2 L3]].
      set (u := sys_unlink E src s2) in *. clearbody u.
      destruct u as [ru s3]. cbn [fst snd] in *.
      assert (T13 : only_touches n s s3)
        by (apply (only_touches_trans n s s2); assumption).
      destruct (Z.eqb_spec ru 0) as [Hu|Hu]; cbn [negb].
      * cbn [ret fst snd]. split; [exact T13|].
        split; [|left; reflexivity].
        intros _ e He. split; [exact (L3 Hu)|].
        rewrite L2. apply (C3 Hc). rewrite U1. exact He.
      * rewrite bind_eq. cbn [ret fst snd].
        split; [|split; [discriminate | right; reflexivity]].
        apply (only_touches_trans n s s3); [exact T13|].
        apply only_touches_same_fs. reflexivity.
    + cbn [ret fst snd]. split; [exact T12|].
      split; [discriminate | right; reflexivity].
Qed.

End MoveOne.

Lemma s_fs_get_file_owner E p k s :
  s_fs (snd (get_file_owner E p k s)) = s_fs s.
Proof. apply (keeps_get_file_owner E s_fs); reflexivity. Qed.

Lemma s_fs_log_file_change E u f a s :
  s_fs (snd (log_file_change E u f a s)) = s_fs s.
Proof. apply (keeps_log_file_change E s_fs); reflexivity. Qed.

(** One pass of the loop of [transfer_reports] over a selected entry:
    either the local [result] is kept and the file, if the upload
    directory lists it, has moved; or [result] becomes FAILURE and the
    failure is logged.  No other file is touched. *)
Lemma transfer_entry_run E r x s :
  ~ has_char "/"%char (d_name x) ->
  (String.length (d_name x) <= NAME_MAX)%nat ->
  not_a_report x = false ->
  let out := transfer_entry E r x s in
  only_touches (d_name x) s (snd out) /\
  ((fst out = r /\
    (dir_file s UPLOAD_DIR (d_name x) = Some x -> moved (snd out) x)) \/
   (fst out = FAILURE /\
    exists l, s_trace (snd out) = s_trace s ++ l /\
              In (LogError MOVE_FAILED [ArgS (d_name x)]) l)).
Proof.
  intros Hp Hl Hsel. cbv zeta. unfold transfer_entry. rewrite Hsel.
  rewrite !snprintf_path_fits by (assumption || (simpl; lia)).
  rewrite bind_eq.
  set (s0 := snd (log_operation "Moving file: %s to %s"
                    [ArgS (d_name x); ArgS DASHBOARD_DIR] s)).
  assert (T0 : s_trace s0 =
               s_trace s ++ [LogOperation "Moving file: %s to %s"
                               [ArgS (d_name x); ArgS DASHBOARD_DIR]])
    by reflexivity.
  assert (F0 : forall m D, dir_file s0 D m = dir_file s D m) by reflexivity.
  assert (O0 : only_touches (d_name x) s s0)
    by (apply only_touches_same_fs; reflexivity).
  clearbody s0.
  rewrite bind_eq.
  destruct (move_file_run E (d_name x) Hp s0) as [M1 [M2 M3]].
  destruct (emits_move_file E any_event (fun _ _ => eq_refl)
              (UPLOAD_DIR ++ "/" ++ d_name x)%string
              (DASHBOARD_DIR ++ "/" ++ d_name x)%string s0) as [lm [Tm _]].
  set (mv := move_file E (UPLOAD_DIR ++ "/" ++ d_name x)
               (DASHBOARD_DIR ++ "/" ++ d_name x) s0) in *.
  clearbody mv. destruct mv as [rm s1]. cbn [fst snd] in *.
  assert (O1 : only_touches (d_name x) s s1)
    by (apply (only_touches_trans _ s s0); assumption).
  destruct (Z.eqb_spec rm SUCCESS) as [Hm|Hm]; cbn [negb].
  - rewrite !bind_eq. cbn [ret fst snd].
    set (o := get_file_owner E (DASHBOARD_DIR ++ "/" ++ d_name x)
                MAX_USER_LENGTH s1).
    assert (Fo : s_fs (snd o) = s_fs s1) by apply s_fs_get_file_owner.
    clearbody o. destruct o as [ro s2]. cbn [fst snd] in *.
    set (k := (if fst ro =? SUCCESS
               then r0 <- log_file_change E (snd ro) (d_name x) "transfer";;
                    ret tt
               else ret tt) s2).
    assert (Fk : s_fs (snd k) = s_fs s1).
    { subst k. destruct (fst ro =? SUCCESS).
      - rewrite bind_eq. cbn [ret snd]. rewrite s_fs_log_file_change.
        exact Fo.
      - exact Fo. }
    clearbody k.
    split.
    + apply (only_touches_trans _ s s1); [exact O1|].
      apply only_touches_same_fs. exact Fk.
    + left. split; [reflexivity|]. intros Hx.
      rewrite <- F0 in Hx. destruct (M2 Hm x Hx) as [A [e' [B C]]].
      unfold moved, dir_file. rewrite Fk. split; [exact A|].
      exists e'. auto.
  - rewrite bind_eq. cbn [ret fst snd]. split.
    + apply (only_touches_trans _ s s1); [exact O1|].
      apply only_touches_same_fs. reflexivity.
    + right. split; [reflexivity|].
      exists ([LogOperation "Moving file: %s to %s"
                 [ArgS (d_name x); ArgS DASHBOARD_DIR]] ++ lm ++
              [LogError MOVE_FAILED [ArgS (d_name x)]]).
      split.
      * cbn [log_error emit modify snd s_trace with_trace].
        rewrite Tm, T0, <- !app_assoc. reflexivity.
      * rewrite !in_app_iff. right. right. left. reflexivity.
Qed.


Lemma in_new_events_later s s1 s2 e :
  (exists l, s_trace s1 = s_trace s ++ l) ->
  (exists l, s_trace s2 = s_trace s1 ++ l) ->
  In e (new_events s1 s2) -> In e (new_events s s2).
Proof.
  intros [l1 H1] [l2 H2] Hin. rewrite (new_events_app _ _ _ H2) in Hin.
  apply (in_new_events s s2 (l1 ++ l2)).
  - rewrite H2, H1, app_assoc. reflexivity.
  - apply in_or_app. right. exact Hin.
Qed.

Lemma in_new_events_earlier s s1 s2 e :
  (exists l, s_trace s1 = s_trace s ++ l) ->
  (exists l, s_trace s2 = s_trace s1 ++ l) ->
  In e (new_events s s1) -> In e (new_events s s2).
Proof.
  intros [l1 H1] [l2 H2] Hin. rewrite (new_events_app _ _ _ H1) in Hin.
  apply (in_new_events s s2 (l1 ++ l2)).
  - rewrite H2, H1, app_assoc. reflexivity.
  - apply in_or_app. left. exact Hin.
Qed.

Lemma extends_transfer_entry E r x s :
  exists l, s_trace (snd (transfer_entry E r x s)) = s_trace s ++ l.
Proof.
  destruct (emits_transfer_entry E any_event (fun _ _ => eq_refl)
              (fun _ _ _ _ _ => eq_refl) (fun _ => eq_refl) r x s)
    as [l [H _]].
  exists l. exact H.
Qed.

Lemma extends_transfer_loop E entries r s :
  exists l,
    s_trace (snd (fold_m (transfer_entry E) entries r s)) = s_trace s ++ l.
Proof.
  destruct (emits_fold_m any_event (transfer_entry E) entries
              (fun b a => emits_transfer_entry E any_event
                 (fun _ _ => eq_refl) (fun _ _ _ _ _ => eq_refl)
                 (fun _ => eq_refl) b a) r s) as [l [H _]].
  exists l. exact H.
Qed.

(** Only the failure branch of the loop logs "Failed to move file". *)
Lemma transfer_entry_success_quiet E r x s :
  fst (transfer_entry E r x s) = SUCCESS ->
  count_errors MOVE_FAILED (s_trace (snd (transfer_entry E r x s))) =
  count_errors MOVE_FAILED (s_trace s).
Proof.
  unfold transfer_entry. destruct (not_a_report x); [reflexivity|].
  rewrite bind_eq.
  set (s0 := snd (log_operation "Moving file: %s to %s"
                    [ArgS (d_name x); ArgS DASHBOARD_DIR] s)).
  assert (C0 : count_errors MOVE_FAILED (s_trace s0) =
               count_errors MOVE_FAILED (s_trace s)).
  { subst s0. simpl. rewrite count_errors_app.
    change (count_errors MOVE_FAILED
              [LogOperation "Moving file: %s to %s"
                            [ArgS (d_name x); ArgS DASHBOARD_DIR]]) with 0.
    lia. }
  clearbody s0. rewrite bind_eq.
  set (mv := move_file E (snprintf_path UPLOAD_DIR (d_name x))
               (snprintf_path DASHBOARD_DIR (d_name x)) s0).
  assert (C1 : count_errors MOVE_FAILED (s_trace (snd mv)) =
               count_errors MOVE_FAILED (s_trace s0)).
  { subst mv.
    assert (Hk : forall a b,
               keeps (fun s => count_errors MOVE_FAILED (s_trace s))
                     (move_file E a b)).
    { intros a b. unfold move_file, copy_file. keeps_tac. }
    apply Hk. }
  clearbody mv. destruct mv as [rm s1]. cbn [fst snd] in *.
  destruct (negb (rm =? SUCCESS)).
  - rewrite bind_eq. cbn [ret fst]. discriminate.
  - intros _. rewrite <- C0, <- C1.
    match goal with
    | |- count_errors _ (s_trace (snd (?k s1))) = _ =>
        assert (Hk : keeps (fun s => count_errors MOVE_FAILED (s_trace s)) k)
    end.
    { unfold get_file_owner, log_file_change. keeps_tac. }
    apply Hk.
Qed.

Lemma in_count_errors f a l :
  In (LogError f a) l -> 0 < count_errors f l.
Proof.
  intros H. apply in_split in H. destruct H as [l1 [l2 ->]].
  rewrite count_errors_app.
  change (LogError f a :: l2) with ([LogError f a] ++ l2).
  rewrite count_errors_app.
  assert (count_errors f [LogError f a] = 1).
  { unfold count_errors. simpl. rewrite String.eqb_refl. reflexivity. }
  unfold count_errors in *. lia.
Qed.

Lemma transfer_entry_skips E r x s :
  not_a_report x = true -> transfer_entry E r x s = (r, s).
Proof. intros H. unfold transfer_entry. rewrite H. reflexivity. Qed.

Lemma moved_later s s' x :
  dir_file s' UPLOAD_DIR (d_name x) = dir_file s UPLOAD_DIR (d_name x) ->
  dir_file s' DASHBOARD_DIR (d_name x) = dir_file s DASHBOARD_DIR (d_name x) ->
  moved s x -> moved s' x.
Proof. unfold moved. intros -> ->. auto. Qed.

(** The loop of [transfer_reports] over well-formed entries the upload
    directory still lists. *)
Lemma transfer_loop_run E entries :
  forall r s,
    wf_entries entries ->
    (forall x, In x entries -> dir_file s UPLOAD_DIR (d_name x) = Some x) ->
    let out := fold_m (transfer_entry E) entries r s in
    (forall m, ~ In m (List.map d_name entries) ->
       dir_file (snd out) UPLOAD_DIR m = dir_file s UPLOAD_DIR m /\
       dir_file (snd out) DASHBOARD_DIR m = dir_file s DASHBOARD_DIR m) /\
    (fst out = r \/ fst out = FAILURE) /\
    (r = FAILURE -> fst out = FAILURE) /\
    (forall x, In x entries -> not_a_report x = false ->
       moved (snd out) x \/
       In (LogError MOVE_FAILED [ArgS (d_name x)]) (new_events s (snd out))) /\
    (fst out = FAILURE ->
       r = FAILURE \/
       exists x, In x entries /\ not_a_report x = false /\
         In (LogError MOVE_FAILED [ArgS (d_name x)])
            (new_events s (snd out))) /\
    (fst out = SUCCESS ->
       count_errors MOVE_FAILED (s_trace (snd out)) =
       count_errors MOVE_FAILED (s_trace s)).
Proof.
  induction entries as [|x entries IH]; intros r s Hwf Hup; cbn [fold_m].
  - cbv zeta. cbn [ret fst snd].
    repeat split; auto; try contradiction.
  - cbv zeta. rewrite bind_eq.
    destruct Hwf as [Hnd Hnames].
    simpl in Hnd. inversion Hnd as [|? ? Hni Hnd']; subst.
    assert (Hwf' : wf_entries entries).
    { split; [exact Hnd'|]. intros e He. apply Hnames. right. exact He. }
    destruct (Hnames x (or_introl eq_refl)) as [Hplain Hlen].
    destruct (extends_transfer_entry E r x s) as [l1 T1].
    destruct (extends_transfer_loop E entries (fst (transfer_entry E r x s))
                (snd (transfer_entry E r x s))) as [l2 T2].
    assert (Hquiet := transfer_entry_success_quiet E r x s).
    assert (Hstep :
      only_touches (d_name x) s (snd (transfer_entry E r x s)) /\
      (fst (transfer_entry E r x s) = r \/
       fst (transfer_entry E r x s) = FAILURE) /\
      (not_a_report x = false ->
       (fst (transfer_entry E r x s) = r /\
        moved (snd (transfer_entry E r x s)) x) \/
       (fst (transfer_entry E r x s) = FAILURE /\
        In (LogError MOVE_FAILED [ArgS (d_name x)])
           (new_events s (snd (transfer_entry E r x s))))) /\
      (not_a_report x = true -> fst (transfer_entry E r x s) = r)).
    { destruct (not_a_report x) eqn:Hsel.
      - rewrite (transfer_entry_skips E r x s Hsel). cbn [fst snd].
        split; [apply only_touches_refl|].
        split; [auto | split; [discriminate | reflexivity]].
      - destruct (transfer_entry_run E r x s Hplain Hlen Hsel) as [O D].
        split; [exact O|]. split; [|split; [|discriminate]].
        + destruct D as [[D _]|[D _]]; auto.
        + intros _. destruct D as [[D M]|[D [l [Tl Hin]]]].
          * left. split; [exact D|]. apply M. apply Hup. left. reflexivity.
          * right. split; [exact D|].
            apply (in_new_events _ _ _ _ Tl Hin). }
    set (o1 := transfer_entry E r x s) in *. clearbody o1.
    destruct o1 as [r1 s1]. cbn [fst snd] in *.
    destruct Hstep as [O [R1 [D Dskip]]].
    assert (Hup1 : forall y, In y entries ->
                     dir_file s1 UPLOAD_DIR (d_name y) = Some y).
    { intros y Hy.
      assert (Hne : d_name y <> d_name x).
      { intros Heq. apply Hni. rewrite <- Heq. apply in_map. exact Hy. }
      destruct (O (d_name y) Hne) as [A _]. rewrite A.
      apply Hup. right. exact Hy. }
    specialize (IH r1 s1 Hwf' Hup1). cbv zeta in IH.
    set (o := fold_m (transfer_entry E) entries r1 s1) in *. clearbody o.
    destruct o as [rf sf]. cbn [fst snd] in *.
    destruct IH as [I1 [I2 [I3 [I4 [I5 I6]]]]].
    split; [|split; [|split; [|split; [|split]]]].
    + intros m Hm. simpl in Hm.
      assert (Hmx : m <> d_name x) by (intros ->; apply Hm; left; reflexivity).
      assert (Hmr : ~ In m (List.map d_name entries)) by tauto.
      destruct (I1 m Hmr) as [A B], (O m Hmx) as [C D'].
      split; congruence.
    + destruct R1 as [-> | ->]; [exact I2|]. right. apply I3. reflexivity.
    + intros Hr. apply I3. destruct R1 as [-> | ->]; [exact Hr | reflexivity].
    + intros y [Hx|Hy] Hsel.
      * subst y. destruct (D Hsel) as [[_ M]|[_ Hin]].
        -- left. destruct (I1 (d_name x) Hni) as [A B].
           apply (moved_later s1 sf x A B M).
        -- right. apply (in_new_events_earlier s s1 sf); eauto.
      * destruct (I4 y Hy Hsel) as [M|Hin]; [left; exact M|].
        right. apply (in_new_events_later s s1 sf); eauto.
    + intros Hf. destruct (I5 Hf) as [Hr1|[y [Hy [Hsel Hin]]]].
      * destruct (not_a_report x) eqn:Hsel.
        -- left. rewrite <- (Dskip eq_refl). exact Hr1.
        -- destruct (D eq_refl) as [[Hr _]|[_ Hin]].
           ++ left. congruence.
           ++ right. exists x. split; [left; reflexivity|].
              split; [exact Hsel|].
              apply (in_new_events_earlier s s1 sf); eauto.
      * right. exists y. split; [right; exact Hy|]. split; [exact Hsel|].
        apply (in_new_events_later s s1 sf); eauto.
    + intros Hs. rewrite (I6 Hs).
      apply Hquiet.
      destruct R1 as [-> | ->].
      * destruct I2 as [I2|I2]; [congruence|]. rewrite Hs in I2. discriminate.
      * rewrite (I3 eq_refl) in Hs. discriminate.
Qed.

(** C4.  With the upload directory listing well-formed names:
    [transfer_reports] returns SUCCESS only if every matched file (not a
    directory, ".xml" in its name) has moved to the dashboard directory;
    if the move of any matched file fails (its failure is logged) the
    result is FAILURE; and, unless the directory could not be opened,
    every matched file is dealt with whatever happened to the others: in
    the final state it has moved, or its failure is logged.  A FAILURE
    comes from a failed open or from a failed move. *)
Theorem transfer_reports_result :
  forall (E : os) (s : state) (d : directory),
    s_fs s UPLOAD_DIR = Some d ->
    wf_entries (dir_entries d) ->
    let out := transfer_reports E s in
    let r := fst out in
    let s' := snd out in
    let matched e := In e (dir_entries d) /\ not_a_report e = false in
    let failed e :=
      In (LogError MOVE_FAILED [ArgS (d_name e)]) (new_events s s') in
    let unopened :=
      In (LogError "Failed to open upload directory: %s" [ArgErrno])
         (new_events s s') in
    (r = SUCCESS \/ r = FAILURE) /\
    (r = SUCCESS -> forall e, matched e -> moved s' e) /\
    ((exists e, matched e /\ failed e) -> r = FAILURE) /\
    (unopened \/ forall e, matched e -> moved s' e \/ failed e) /\
    (r = FAILURE -> unopened \/ exists e, matched e /\ failed e).
Proof.
  intros E s d Hd Hwf out r s' matched failed unopened.
  subst out r s' matched failed unopened. cbv beta.
  unfold transfer_reports. rewrite bind_eq.
  set (s0 := snd (log_operation
                    "Starting report transfer from upload to dashboard"
                    [] s)).
  assert (T0 : s_trace s0 = s_trace s ++ [LogOperation MARK_TRANSFER []])
    by reflexivity.
  assert (F0 : s_fs s0 = s_fs s) by reflexivity.
  clearbody s0.
  rewrite bind_eq.
  destruct (sys_opendir_run E UPLOAD_DIR s0) as [S1 D1].
  set (od := sys_opendir E UPLOAD_DIR s0) in *. clearbody od.
  destruct od as [dir s1]. cbn [fst snd] in *.
  assert (T1 : s_trace s1 = s_trace s ++ [LogOperation MARK_TRANSFER []]).
  { rewrite S1. exact T0. }
  assert (F1 : s_fs s1 = s_fs s) by (rewrite S1; exact F0).
  clear S1.
  destruct dir as [entries|].
  - destruct (D1 entries eq_refl) as [d' [Hd' ->]]. clear D1.
    rewrite F0, Hd in Hd'. inversion Hd'; subst d'. clear Hd'.
    rewrite bind_eq. cbn [ret fst snd].
    assert (Hup : forall x, In x (dir_entries d) ->
                    dir_file s1 UPLOAD_DIR (d_name x) = Some x).
    { intros x Hx. unfold dir_file. rewrite F1, Hd.
      apply lookup_unique; [apply Hwf | exact Hx]. }
    destruct (transfer_loop_run E (dir_entries d) SUCCESS s1 Hwf Hup)
      as [_ [L2 [_ [L4 [L5 L6]]]]].
    destruct (extends_transfer_loop E (dir_entries d) SUCCESS s1) as [l Tl].
    set (o := fold_m (transfer_entry E) (dir_entries d) SUCCESS s1) in *.
    clearbody o. destruct o as [rf sf]. cbn [fst snd] in *.
    assert (Tn : s_trace sf = s_trace s ++ ([LogOperation MARK_TRANSFER []] ++ l)).
    { rewrite Tl, T1, <- app_assoc. reflexivity. }
    assert (Hnew : forall e, In e (new_events s1 sf) ->
                             In e (new_events s sf)).
    { intros e He. apply (in_new_events_later s s1 sf); eauto. }
    assert (Hfail : forall e, In (LogError MOVE_FAILED [ArgS (d_name e)])
                                 (new_events s sf) -> rf = FAILURE).
    { intros e He. destruct L2 as [L2|L2]; [|exact L2]. exfalso.
      specialize (L6 L2).
      rewrite (new_events_app _ _ _ Tn) in He.
      apply in_app_or in He. destruct He as [[He|[]]|He]; [discriminate|].
      apply in_count_errors in He.
      rewrite Tl, count_errors_app in L6. lia. }
    split; [exact L2|]. split; [|split; [|split]].
    + intros Hr e [He Hsel].
      destruct (L4 e He Hsel) as [M|Hin]; [exact M|].
      apply Hnew in Hin. rewrite (Hfail e Hin) in Hr. discriminate.
    + intros [e [_ Hin]]. exact (Hfail e Hin).
    + right. intros e [He Hsel].
      destruct (L4 e He Hsel) as [M|Hin]; [left; exact M|].
      right. apply Hnew. exact Hin.
    + intros Hr. right. destruct (L5 Hr) as [Hr'|[x [Hx [Hsel Hin]]]];
        [discriminate|].
      exists x. split; [split; assumption|]. apply Hnew. exact Hin.
  - rewrite bind_eq. cbn [ret fst snd].
    assert (Hu : In (LogError "Failed to open upload directory: %s" [ArgErrno])
                    (new_events s
                       (snd (log_error "Failed to open upload directory: %s"
                                       [ArgErrno] s1)))).
    { apply (in_new_events _ _ [LogOperation MARK_TRANSFER [];
               LogError "Failed to open upload directory: %s" [ArgErrno]]).
      - cbn [log_error emit modify snd s_trace with_trace].
        rewrite T1, <- app_assoc. reflexivity.
      - right. left. reflexivity. }
    split; [right; reflexivity|]. split; [discriminate|].
    split; [reflexivity|]. split; [left; exact Hu | intros _; left; exact Hu].
Qed.

(* ================================================================= *)
(** ** The theorems at work on concrete machines *)

Lemma plain_name_example (name : string) :
  CString.strchr name "/"%char = None -> ~ has_char "/"%char name.
Proof.
  intros H. pose proof (CStringFacts.strchr_spec name "/"%char) as S.
  rewrite H in S. exact S.
Defined.

Lemma wf_upload_example : wf_entries (dir_entries upload_example).
Proof.
  split.
  - simpl. repeat constructor; simpl; intuition discriminate.
  - intros e [<-|[<-|[<-|[]]]]; (split;
      [apply plain_name_example; reflexivity | unfold NAME_MAX; simpl; lia]).
Defined.

(** C3 at work: an empty FIFO. *)
Lemma receive_ipc_message_witness :
  fst (receive_ipc_message (os_reading read_no_data) (started (fs_of [] [])))
  = (FAILURE, None).
Proof.
  destruct (receive_ipc_message_results (os_reading read_no_data)
              (started (fs_of [] []))) as [_ [H _]].
  - simpl. discriminate.
  - apply H; [reflexivity | left; reflexivity].
Defined.

(** C4 at work: the Sales report cannot be moved, the Warehouse report
    still arrives and the result is FAILURE. *)
Lemma transfer_reports_witness :
  fst (transfer_reports (os_stuck SALES_PATH) state_uploading) = FAILURE /\
  moved (snd (transfer_reports (os_stuck SALES_PATH) state_uploading))
        warehouse_report.
Proof.
  destruct (transfer_reports_result (os_stuck SALES_PATH) state_uploading
              upload_example eq_refl wf_upload_example)
    as [_ [_ [H3 [H4 _]]]].
  assert (Hfail : In (LogError MOVE_FAILED [ArgS (d_name sales_report)])
                     (new_events state_uploading
                        (snd (transfer_reports (os_stuck SALES_PATH)
                                               state_uploading)))).
  { vm_compute. tauto. }
  split.
  - apply H3. exists sales_report.
    split; [split; [left; reflexivity | reflexivity] | exact Hfail].
  - destruct H4 as [H4|H4].
    + exfalso. vm_compute in H4. intuition discriminate.
    + destruct (H4 warehouse_report) as [M|F].
      * split; [right; left; reflexivity | reflexivity].
      * exact M.
      * exfalso. vm_compute in F. intuition discriminate.
Defined.

(** C5 at work: one file rewritten, one new, one gone. *)
Lemma monitor_directory_changes_events_witness :
  change_events
    (new_events state_rescanning
       (snd (monitor_directory_changes os_ok state_rescanning))) =
  [mkChange (Some "daemon") "a.xml" "modify";
   mkChange (Some "daemon") "c.xml" "create";
   mkChange (Some "bob") "b.xml" "delete"].
Proof.
  destruct (monitor_directory_changes_events os_ok state_rescanning
              earlier_inventory eq_refl eq_refl) as [_ [H _]].
  - vm_compute. reflexivity.
  - simpl. repeat constructor; simpl; intuition discriminate.
  - vm_compute. repeat constructor; simpl; intuition discriminate.
  - rewrite H. vm_compute. reflexivity.
Defined.

(** C6 at work: the first scan of a directory with two reports. *)
Lemma monitor_directory_changes_priming_witness :
  fst (monitor_directory_changes os_ok state_uploading) = SUCCESS /\
  change_events
    (new_events state_uploading
       (snd (monitor_directory_changes os_ok state_uploading))) = [].
Proof.
  destruct (monitor_directory_changes_priming_run os_ok state_uploading)
    as [H1 [_ [_ H3]]].
  - reflexivity.
  - vm_compute. reflexivity.
  - split; [exact H1 | exact H3].
Defined.

(** C7 at work: a successful scan replaces the stored inventory. *)
Lemma monitor_directory_changes_previous_witness :
  previous_file_count
    (snd (monitor_directory_changes os_ok state_rescanning)) = 2.
Proof.
  destruct (monitor_directory_changes_previous_inventory os_ok
              state_rescanning) as [_ H].
  destruct H as [_ [_ [H _]]].
  - vm_compute. reflexivity.
  - rewrite H. vm_compute. reflexivity.
Defined.

(** C8 at work. *)
Lemma extract_department_witness :
  extract_department_from_filename "report_Warehouse_2024-05-01.xml"
                                   MAX_USER_LENGTH = Some "Warehouse".
Proof.
  destruct extract_department_from_filename_spec as [H _].
  destruct (H "report_Warehouse_2024-05-01.xml") as [_ [H2 _]].
  - unfold NAME_MAX. simpl. lia.
  - apply (H2 "Warehouse" "2024-05-01.xml"); [reflexivity|].
    exact (CStringFacts.strchr_spec "Warehouse" "_"%char).
Defined.

(** C9 at work: at 01:00 the sequence runs, and the report that waited
    in the upload directory is in the dashboard directory when the pass
    ends; at noon one SIGUSR2 gives one run over three passes of the
    loop. *)
Lemma scheduled_sequence_witness :
  scheduled_runs
    (new_events (started (fs_of [] []))
       (snd (daemon_iteration (os_at tm_one_am) 0 (started (fs_of [] [])))))
  = 1%nat /\
  (exists s_mid,
     locked_sequence_runs (os_at tm_one_am)
       (with_clock 1 state_uploading) s_mid /\
     daemon_iteration (os_at tm_one_am) 0 state_uploading =
       monitoring_step (os_at tm_one_am)
         (os_time (os_at tm_one_am) 0) 0 s_mid) /\
  file_data
    (s_fs (snd (daemon_iteration (os_at tm_one_am) 0 state_uploading)))
    (DASHBOARD_DIR ++ "/report_Sales.xml") = Some "<sales/>"%string /\
  scheduled_runs
    (new_events state_forced
       (snd (daemon_loop os_ok [quiet_sleep; quiet_sleep; quiet_sleep] 0
                         state_forced))) = 1%nat.
Proof.
  destruct (scheduled_sequence_runs_when_due (os_at tm_one_am)) as [H1 _].
  destruct (scheduled_sequence_runs_when_due os_ok) as [_ H2].
  split; [|split; [|split]].
  - destruct (H1 0 (started (fs_of [] []))) as [_ [_ [H _]]]. exact H.
  - destruct (H1 0 state_uploading) as [_ [_ [_ [_ [_ H]]]]]. exact H.
  - vm_compute. reflexivity.
  - apply H2.
    + intros t. reflexivity.
    + intros i [<-|[<-|[<-|[]]]]; simpl; tauto.
    + reflexivity.
    + simpl. discriminate.
    + discriminate.
Defined.

(** C10 at work: "report_Sales.xml.bak" is moved and makes Sales
    present. *)
Lemma report_extension_witness :
  In (LogOperation "Moving file: %s to %s"
                   [ArgS "report_Sales.xml.bak"; ArgS DASHBOARD_DIR])
     (new_events state_bak (snd (transfer_reports os_ok state_bak))) /\
  fst (check_missing_reports os_ok state_bak) <= 3.
Proof.
  destruct report_extension_matched_anywhere as [_ [H2 [H3 _]]].
  split.
  - apply (H2 os_ok state_bak (mkDirectory UPLOAD_PERMISSIONS [sales_bak])
              sales_bak); try reflexivity.
    + left. reflexivity.
    + discriminate.
  - apply (H3 os_ok state_bak
              (mkDirectory DASHBOARD_PERMISSIONS [sales_bak]) sales_bak);
      try reflexivity.
    + left. reflexivity.
    + discriminate.
Defined.

(* ================================================================= *)
(** ** Further properties of the sources *)

(* ----------------------------------------------------------------- *)
(** *** The directories other than the log directory *)

Lemma same_fs_unchanged_but_logs (fs fs' : filesystem) :
  fs' = fs -> unchanged_but_logs fs fs'.
Proof. intros -> p _. reflexivity. Qed.

Lemma unchanged_but_logs_trans (a b c : filesystem) :
  unchanged_but_logs a b -> unchanged_but_logs b c ->
  unchanged_but_logs a c.
Proof. intros H1 H2 p Hp. rewrite H2, H1 by exact Hp. reflexivity. Qed.

(* ----------------------------------------------------------------- *)
(** *** Department extraction: bounds *)

Module TakeFacts.
Import CString CStringFacts.

Lemma length_take (n : nat) (s : string) :
  (String.length (take n s) <= n)%nat.
Proof.
  revert n. induction s as [|c s IH]; intros [|n]; simpl; try lia.
  specialize (IH n). lia.
Qed.

Lemma take_prefix (n : nat) (s : string) :
  exists rest, s = (take n s ++ rest)%string.
Proof.
  revert n. induction s as [|c s IH]; intros [|n]; simpl.
  - exists "". reflexivity.
  - exists "". reflexivity.
  - exists (String c s). reflexivity.
  - destruct (IH n) as [rest H]. exists rest. f_equal. exact H.
Qed.

Lemma take_append_le (n : nat) (a b : string) :
  (n <= String.length a)%nat -> take n (a ++ b) = take n a.
Proof.
  revert n. induction a as [|c a IH]; intros n H; destruct n as [|n];
    simpl in *; try reflexivity; try lia.
  rewrite IH; auto; lia.
Qed.

Lemma has_char_append_l (c : ascii) (a b : string) :
  has_char c a -> has_char c (a ++ b).
Proof.
  intros [x [y ->]]. exists x, (y ++ b)%string.
  rewrite append_assoc. reflexivity.
Qed.

Lemma has_char_take (c : ascii) (n : nat) (s : string) :
  has_char c (take n s) -> has_char c s.
Proof.
  intros H. destruct (take_prefix n s) as [rest E].
  rewrite E. apply has_char_append_l. exact H.
Qed.

Lemma length_take_eq (n : nat) (s : string) :
  (n <= String.length s)%nat -> String.length (take n s) = n.
Proof.
  revert n. induction s as [|c s IH]; intros [|n]; simpl; intros H;
    try reflexivity; try lia.
  rewrite IH; auto; lia.
Qed.

End TakeFacts.

(** A name in which [strchr] finds no [c] holds none. *)
Lemma no_char_example (c : ascii) (name : string) :
  CString.strchr name c = None -> ~ has_char c name.
Proof.
  intros H. pose proof (CStringFacts.strchr_spec name c) as S.
  rewrite H in S. exact S.
Defined.

(** The number of bytes [extract_department_from_filename] copies stays
    below the size of the buffer and does not pass the end it found. *)
Lemma extract_copy_length (e : nat) (dept_size : Z) :
  1 <= dept_size ->
  let n := Z.to_nat (if Z.of_nat e >=? dept_size
                     then (dept_size - 1) mod SIZE_MODULUS
                     else Z.of_nat e) in
  Z.of_nat n < dept_size /\ (n <= e)%nat.
Proof.
  intros H n. subst n.
  destruct (Z.geb_spec (Z.of_nat e) dept_size) as [G|G].
  - assert (M : 0 <= (dept_size - 1) mod SIZE_MODULUS <= dept_size - 1).
    { split.
      - apply Z.mod_pos_bound. reflexivity.
      - apply Z.mod_le; [lia | reflexivity]. }
    rewrite Z2Nat.id by lia. split; lia.
  - rewrite Nat2Z.id. split; lia.
Qed.

(** X1.  Whatever [extract_department_from_filename] returns fits the
    buffer it was given (with room for the NUL), holds no underscore and
    is the text that follows the prefix "report_" in the file name. *)
Theorem extract_department_fits_buffer :
  forall (filename : string) (dept_size : Z) (department : string),
    1 <= dept_size ->
    extract_department_from_filename filename dept_size = Some department ->
    Z.of_nat (String.length department) < dept_size /\
    ~ has_char "_"%char department /\
    exists rest, filename = (REPORT_PREFIX ++ department ++ rest)%string.
Proof.
  intros filename dept_size department Hsize H.
  assert (Hp : exists start, filename = (REPORT_PREFIX ++ start)%string).
  { destruct (Z.eqb_spec
                (CString.strncmp filename REPORT_PREFIX
                                 (String.length REPORT_PREFIX)) 0) as [Z|Z].
    - apply CStringFacts.strncmp_prefix in Z. exact Z.
    - unfold extract_department_from_filename in H.
      destruct (Z.eqb_spec
                  (CString.strncmp filename REPORT_PREFIX
                                   (String.length REPORT_PREFIX)) 0);
        [contradiction | discriminate]. }
  destruct Hp as [start ->].
  rewrite extract_after_prefix in H.
  pose proof (CStringFacts.strchr_spec start "_"%char) as Hc.
  destruct (CString.strchr start "_"%char) as [e|].
  - destruct Hc as [a [b [Hs [Hl Hn]]]].
    injection H as H.
    destruct (extract_copy_length e dept_size Hsize) as [L1 L2].
    set (n := Z.to_nat _) in *. clearbody n. subst department.
    split; [|split].
    + pose proof (TakeFacts.length_take n start). lia.
    + rewrite Hs, TakeFacts.take_append_le by lia.
      intros C. apply Hn. eapply TakeFacts.has_char_take. exact C.
    + destruct (TakeFacts.take_prefix n start) as [rest R].
      exists rest. rewrite <- R. reflexivity.
  - destruct (CString.strstr start REPORT_EXTENSION) as [e|];
      [|discriminate].
    injection H as H.
    destruct (extract_copy_length e dept_size Hsize) as [L1 L2].
    set (n := Z.to_nat _) in *. clearbody n. subst department.
    split; [|split].
    + pose proof (TakeFacts.length_take n start). lia.
    + intros C. apply Hc. eapply TakeFacts.has_char_take. exact C.
    + destruct (TakeFacts.take_prefix n start) as [rest R].
      exists rest. rewrite <- R. reflexivity.
Qed.

Lemma extract_department_fits_buffer_witness :
  Z.of_nat (String.length "Sales") < MAX_USER_LENGTH /\
  ~ has_char "_"%char "Sales" /\
  exists rest,
    "report_Sales_2024-01-01.xml" = (REPORT_PREFIX ++ "Sales" ++ rest)%string.
Proof.
  apply (extract_department_fits_buffer
           "report_Sales_2024-01-01.xml" MAX_USER_LENGTH "Sales").
  - unfold MAX_USER_LENGTH. lia.
  - reflexivity.
Defined.

(** X2.  A department label that does not fit the buffer is cut to the
    first [dept_size - 1] bytes; the call still succeeds. *)
Theorem extract_department_truncates :
  forall (dept rest : string) (dept_size : Z),
    1 <= dept_size < SIZE_MODULUS ->
    ~ has_char "_"%char dept ->
    dept_size <= Z.of_nat (String.length dept) ->
    extract_department_from_filename
      (REPORT_PREFIX ++ dept ++ "_" ++ rest) dept_size =
    Some (CString.take (Z.to_nat (dept_size - 1)) dept).
Proof.
  intros dept rest dept_size Hsize Hn Hl.
  rewrite extract_after_prefix.
  change (dept ++ "_" ++ rest)%string
    with (dept ++ String "_"%char rest)%string.
  rewrite CStringFacts.strchr_first by assumption.
  destruct (Z.geb_spec (Z.of_nat (String.length dept)) dept_size); [|lia].
  rewrite Z.mod_small by lia.
  rewrite TakeFacts.take_append_le by lia. reflexivity.
Qed.

Lemma extract_department_truncates_witness :
  extract_department_from_filename "report_Warehouse_2024.xml" 5 =
  Some "Ware".
Proof.
  apply (extract_department_truncates "Warehouse" "2024.xml" 5).
  - unfold SIZE_MODULUS. lia.
  - apply no_char_example. reflexivity.
  - simpl. lia.
Defined.

(* ----------------------------------------------------------------- *)
(** *** The missing-report check *)

Section Missing.
Import CString CStringFacts.

Lemma strcasecmp_lower (a b : string) :
  strcasecmp a b = 0 <-> lower a = lower b.
Proof.
  revert b. induction a as [|x a IH]; intros [|y b]; simpl;
    try (split; [lia | discriminate]); try tauto.
  destruct (Ascii.eqb_spec (tolower x) (tolower y)) as [Hc|Hc].
  - rewrite IH. rewrite Hc. split; [congruence|].
    intros H. injection H as H. exact H.
  - split.
    + intros H. exfalso. revert H. apply code_diff. exact Hc.
    + intros H. injection H as H1 H2. contradiction.
Qed.

Lemma strcasecmp_eqb_lower (a b : string) :
  (strcasecmp a b =? 0) = String.eqb (lower a) (lower b).
Proof.
  destruct (Z.eqb_spec (strcasecmp a b) 0) as [H|H];
    destruct (String.eqb_spec (lower a) (lower b)) as [L|L];
    try reflexivity.
  - apply strcasecmp_lower in H. contradiction.
  - apply strcasecmp_lower in L. contradiction.
Qed.

(** The inner loop marks the department the label names; the four names
    differ, so its [break] skips nothing. *)
Lemma mark_found_departments (department : string) (f1 f2 f3 f4 : Z) :
  mark_found department department_reports [f1; f2; f3; f4] =
  [if strcasecmp department DEPT_WAREHOUSE =? 0 then 1 else f1;
   if strcasecmp department DEPT_MANUFACTURING =? 0 then 1 else f2;
   if strcasecmp department DEPT_SALES =? 0 then 1 else f3;
   if strcasecmp department DEPT_DISTRIBUTION =? 0 then 1 else f4].
Proof.
  unfold department_reports. cbn [mark_found].
  rewrite !strcasecmp_eqb_lower.
  destruct (String.eqb_spec (lower department) (lower DEPT_WAREHOUSE)) as [A|A];
  destruct (String.eqb_spec (lower department) (lower DEPT_MANUFACTURING)) as [B|B];
  destruct (String.eqb_spec (lower department) (lower DEPT_SALES)) as [C|C];
  destruct (String.eqb_spec (lower department) (lower DEPT_DISTRIBUTION)) as [D|D];
  try reflexivity;
  try (rewrite A in *; discriminate);
  try (rewrite B in *; discriminate);
  try (rewrite C in *; discriminate).
Qed.

Lemma found_after_nil : found_after [] = [0; 0; 0; 0].
Proof. reflexivity. Qed.

Lemma existsb_snoc {A} (f : A -> bool) (l : list A) (x : A) :
  List.existsb f (l ++ [x]) = orb (List.existsb f l) (f x).
Proof. rewrite existsb_app. simpl. rewrite orb_false_r. reflexivity. Qed.

Lemma checked_found_after (seen : list dirent) (e : dirent) :
  checked (found_after seen) e = found_after (seen ++ [e]).
Proof.
  unfold found_after, department_reports. cbn [List.map].
  rewrite !existsb_snoc. unfold checked, reports_for.
  destruct (not_a_report e).
  - simpl. rewrite !orb_false_r. reflexivity.
  - destruct (extract_department_from_filename (d_name e) MAX_USER_LENGTH)
      as [department|].
    + rewrite mark_found_departments. simpl.
      repeat match goal with
             | |- context [strcasecmp department ?d =? 0] =>
                 destruct (strcasecmp department d =? 0)
             end;
      rewrite ?orb_true_r, ?orb_false_r; reflexivity.
    + simpl. rewrite !orb_false_r. reflexivity.
Qed.

Lemma fold_checked_found_after (entries : list dirent) :
  forall seen,
    List.fold_left checked entries (found_after seen) =
    found_after (seen ++ entries).
Proof.
  induction entries as [|e entries IH]; intros seen; simpl.
  - rewrite app_nil_r. reflexivity.
  - rewrite checked_found_after, IH, <- app_assoc. reflexivity.
Qed.

Lemma unmarked_found_after (entries : list dirent) :
  unmarked department_reports (found_after entries) =
  missing_departments entries.
Proof.
  unfold found_after, missing_departments.
  induction department_reports as [|d ds IH]; simpl; [reflexivity|].
  destruct (List.existsb (reports_for d) entries); simpl; rewrite IH;
    reflexivity.
Qed.

(** The closing loop logs one error for each unmarked department and
    counts them. *)
Lemma log_missing_run (depts : list string) :
  forall found n s,
    let out := log_missing depts found n s in
    fst out = n + Z.of_nat (List.length (unmarked depts found)) /\
    s_trace (snd out) =
      s_trace s ++
      List.map (fun d => LogError MISSING_REPORT [ArgS d])
               (unmarked depts found) /\
    s_fs (snd out) = s_fs s.
Proof.
  induction depts as [|d depts IH]; intros found n s; simpl.
  - destruct found; simpl; rewrite app_nil_r; repeat split; lia.
  - destruct found as [|f found]; simpl.
    + rewrite app_nil_r. repeat split; lia.
    + destruct (f =? 0).
      * rewrite bind_eq.
        destruct (IH found (n + 1)
                     (snd (log_error "Missing report from department: %s"
                                     [ArgS d] s))) as [H1 [H2 H3]].
        split; [|split].
        -- rewrite H1. cbn [List.length]. lia.
        -- rewrite H2. simpl. rewrite <- app_assoc. reflexivity.
        -- rewrite H3. reflexivity.
      * apply IH.
Qed.

End Missing.

(** X3.  [check_missing_reports] returns the number of departments for
    which the dashboard directory lists no report (a non-directory entry
    with ".xml" in its name whose label is the department, letter case
    aside), logs exactly one error for each of them, in the order of the
    department table, and leaves every directory other than the log
    directory as it was.  When the directory cannot be opened it returns
    4 and logs the open failure only. *)
Theorem check_missing_reports_counts :
  forall (E : os) (s : state),
    let out := check_missing_reports E s in
    unchanged_but_logs (s_fs s) (s_fs (snd out)) /\
    (forall d,
       s_fs s DASHBOARD_DIR = Some d ->
       os_opendir E (s_clock s) DASHBOARD_DIR = true ->
       let missing := missing_departments (dir_entries d) in
       fst out = Z.of_nat (List.length missing) /\
       0 <= fst out <= 4 /\
       new_events s (snd out) =
         LogOperation MARK_CHECK [] ::
         List.map (fun dept => LogError MISSING_REPORT [ArgS dept]) missing ++
         [LogOperation "Missing report check completed, %d missing"
                       [ArgD (fst out)]]) /\
    (s_fs s DASHBOARD_DIR = None \/
     os_opendir E (s_clock s) DASHBOARD_DIR = false ->
     fst out = 4 /\
     new_events s (snd out) =
       [LogOperation MARK_CHECK [];
        LogError "Failed to open dashboard directory: %s" [ArgErrno]]).
Proof.
  intros E s out. subst out. split; [|split].
  - apply same_fs_unchanged_but_logs.
    apply (keeps_check_missing_reports E s_fs); reflexivity.
  - intros d Hd Ho missing.
    unfold check_missing_reports. rewrite bind_eq.
    set (s0 := snd (log_operation
                      "Checking for missing department reports" [] s)).
    assert (T0 : s_trace s0 = s_trace s ++ [LogOperation MARK_CHECK []])
      by reflexivity.
    assert (Hd0 : s_fs s0 DASHBOARD_DIR = Some d) by exact Hd.
    assert (Ho0 : os_opendir E (s_clock s0) DASHBOARD_DIR = true) by exact Ho.
    clearbody s0.
    rewrite bind_eq, (sys_opendir_ok E DASHBOARD_DIR s0 d Hd0 Ho0).
    cbn [fst snd]. rewrite bind_eq, check_loop_run. cbn [fst snd].
    rewrite <- found_after_nil.
    rewrite (fold_checked_found_after (dir_entries d) []). cbn [app].
    rewrite bind_eq.
    destruct (log_missing_run department_reports
                (found_after (dir_entries d)) 0
                (with_clock (S (s_clock s0)) s0)) as [H1 [H2 _]].
    rewrite unmarked_found_after in H1, H2. fold missing in H1, H2.
    set (lm := log_missing department_reports
                 (found_after (dir_entries d)) 0
                 (with_clock (S (s_clock s0)) s0)) in *.
    rewrite bind_eq. cbn [fst snd ret].
    rewrite H1. cbn [Z.add].
    split; [reflexivity|]. split.
    + split; [lia|].
      unfold missing, missing_departments.
      pose proof (filter_length_le
                    (fun dept => negb (List.existsb (reports_for dept)
                                                    (dir_entries d)))
                    department_reports) as L.
      simpl List.length in L at 2. lia.
    + apply new_events_app. simpl. rewrite H2. simpl. rewrite T0.
      rewrite <- !app_assoc. reflexivity.
  - intros Hf.
    assert (Hn : fst (sys_opendir E DASHBOARD_DIR
                        (snd (log_operation
                                "Checking for missing department reports"
                                [] s))) = None).
    { unfold sys_opendir, bind, tick, get, log_operation, emit, modify.
      simpl.
      destruct Hf as [Hf|Hf]; rewrite Hf; [reflexivity|].
      destruct (s_fs s DASHBOARD_DIR); reflexivity. }
    unfold check_missing_reports. rewrite bind_eq, bind_eq, Hn.
    rewrite bind_eq. cbn [fst snd ret]. split; [reflexivity|].
    apply new_events_app.
    destruct (sys_opendir_run E DASHBOARD_DIR
                (snd (log_operation
                        "Checking for missing department reports" [] s)))
      as [R _].
    rewrite R. simpl. rewrite <- app_assoc. reflexivity.
Qed.

Lemma check_missing_reports_counts_witness :
  fst (check_missing_reports os_ok state_published) = 3 /\
  fst (check_missing_reports os_ok (started (fun _ => None))) = 4.
Proof.
  destruct (check_missing_reports_counts os_ok state_published)
    as [_ [H _]].
  destruct (check_missing_reports_counts os_ok (started (fun _ => None)))
    as [_ [_ H']].
  split.
  - destruct (H (mkDirectory DASHBOARD_PERMISSIONS [sales_report; notes_file])
                eq_refl eq_refl) as [H1 _].
    exact (eq_trans H1 eq_refl).
  - destruct H' as [H1 _]; [left; reflexivity | exact H1].
Defined.

(* ----------------------------------------------------------------- *)
(** *** The directory scan *)

Lemma snprintf_path_exact (d n : string) :
  (String.length d + String.length n + 1 < Z.to_nat MAX_PATH_LENGTH)%nat ->
  snprintf_path d n = (d ++ "/" ++ n)%string.
Proof.
  intros H. unfold snprintf_path. apply CStringFacts.take_all.
  rewrite !CStringFacts.length_append.
  change (Z.to_nat MAX_PATH_LENGTH) with 1024%nat in H.
  change (Z.to_nat (MAX_PATH_LENGTH - 1)) with 1023%nat. simpl. lia.
Qed.

Lemma sys_stat_run E p s :
  s_fs (snd (sys_stat E p s)) = s_fs s /\
  s_trace (snd (sys_stat E p s)) = s_trace s /\
  forall ino, fst (sys_stat E p s) = Some ino ->
    exists e, fs_file (s_fs s) p = Some e /\ d_ino e = ino.
Proof.
  unfold sys_stat, bind, tick, get. simpl.
  destruct (fs_file (s_fs s) p) as [e|]; [|repeat split; discriminate].
  destruct (os_stat E (s_clock s) p); simpl.
  - repeat split. intros ino H. injection H as <-. exists e. auto.
  - repeat split; discriminate.
Qed.

Section Scan.

Variable E : os.
Variable dir_path : string.
Variable d : directory.
Hypothesis d_wf : wf_entries (dir_entries d).
Hypothesis dir_fits :
  (String.length dir_path + NAME_MAX + 1 < Z.to_nat MAX_PATH_LENGTH)%nat.

Lemma scan_path (e : dirent) :
  In e (dir_entries d) ->
  snprintf_path dir_path (d_name e) = (dir_path ++ "/" ++ d_name e)%string /\
  CString.take (Z.to_nat (MAX_PATH_LENGTH - 1))
               (dir_path ++ "/" ++ d_name e) =
    (dir_path ++ "/" ++ d_name e)%string /\
  CString.take (Z.to_nat (MAX_PATH_LENGTH - 1)) (d_name e) = d_name e /\
  forall fs, fs dir_path = Some d ->
    fs_file fs (dir_path ++ "/" ++ d_name e) = Some e.
Proof.
  intros Hin. destruct d_wf as [Hnd Hall].
  destruct (Hall e Hin) as [Hplain Hlen].
  assert (Hfit : (String.length dir_path + String.length (d_name e) + 1
                  < Z.to_nat MAX_PATH_LENGTH)%nat) by lia.
  split; [apply snprintf_path_exact; exact Hfit|].
  change (Z.to_nat MAX_PATH_LENGTH) with 1024%nat in *.
  change (Z.to_nat (MAX_PATH_LENGTH - 1)) with 1023%nat.
  split; [|split].
  - apply CStringFacts.take_all. rewrite !CStringFacts.length_append.
    simpl. lia.
  - apply CStringFacts.take_all. lia.
  - intros fs Hfs. unfold fs_file.
    rewrite split_path_dir_name by assumption. rewrite Hfs.
    apply lookup_unique; assumption.
Qed.

Lemma scan_entries_run (entries : list dirent) :
  incl entries (dir_entries d) ->
  NoDup (List.map d_name entries) ->
  forall files c n s,
    s_fs s dir_path = Some d ->
    let out := scan_entries E dir_path entries files c n s in
    exists l,
      s_trace (snd out) = s_trace s ++ l /\
      (scan_status (fst out) = SUCCESS ->
       exists new,
         scan_files (fst out) = files ++ new /\
         NoDup (filenames new) /\
         (forall f, In f new ->
            exists e, In e entries /\ visible e = true /\
                      scanned_as dir_path e f) /\
         (forall e, In e entries -> visible e = true ->
            In (d_name e) (filenames new) \/
            In (LogError STAT_FAILED [ArgS (d_name e); ArgErrno]) l)).
Proof.
  induction entries as [|e entries IH]; intros Hincl Hnd files c n s Hfs.
  - exists []. simpl. rewrite app_nil_r. split; [reflexivity|].
    intros _. exists []. rewrite app_nil_r.
    split; [reflexivity|]. split; [simpl; constructor|].
    split; intros ? [].
  - assert (Hin : In e (dir_entries d)) by (apply Hincl; left; reflexivity).
    assert (Hincl' : incl entries (dir_entries d))
      by (intros x Hx; apply Hincl; right; exact Hx).
    inversion Hnd as [|? ? Hfresh Hnd']; subst.
    destruct (scan_path e Hin) as [Hp [Hpt [Hnt Hfile]]].
    cbn [scan_entries]. unfold visible in *.
    destruct (is_DT_DIR (d_type e) || is_hidden (d_name e))%bool eqn:Hskip.
    + (* skipped *)
      destruct (IH Hincl' Hnd' files c n s Hfs) as [l [Ht Hok]].
      exists l. split; [exact Ht|]. intros Hs.
      destruct (Hok Hs) as [new [H1 [H2 [H3 H4]]]].
      exists new. split; [exact H1|]. split; [exact H2|]. split.
      * intros f Hf. destruct (H3 f Hf) as [e' [He' R]].
        exists e'. split; [right; exact He' | exact R].
      * intros e' [<-|He'] Hv.
        -- unfold visible in Hv. rewrite Hskip in Hv. discriminate.
        -- apply H4; assumption.
    + rewrite Hp. rewrite bind_eq.
      destruct (sys_stat_run E (dir_path ++ "/" ++ d_name e) s)
        as [Sfs [Str Sino]].
      set (s1 := snd (sys_stat E (dir_path ++ "/" ++ d_name e) s)) in *.
      destruct (fst (sys_stat E (dir_path ++ "/" ++ d_name e) s))
        as [file_stat|].
      * (* the entry is recorded *)
        destruct (Sino file_stat eq_refl) as [e0 [He0 Hino]].
        rewrite (Hfile (s_fs s) Hfs) in He0. injection He0 as <-.
        clear Sino. clearbody s1.
        rewrite bind_eq.
        set (g := (if c >=? n
                   then ok <- sys_alloc E ;; ret (ok, n * 2)
                   else ret (true, n)) s1).
        assert (G : s_fs (snd g) = s_fs s1 /\ s_trace (snd g) = s_trace s1).
        { subst g. destruct (c >=? n); split; reflexivity. }
        destruct G as [Gfs Gtr]. clearbody g.
        destruct (fst g) as [[|] n'] eqn:Hg; cbn [fst snd negb].
        -- rewrite bind_eq.
           set (o := get_file_owner E (dir_path ++ "/" ++ d_name e)
                                    MAX_USER_LENGTH (snd g)).
           assert (Ofs : s_fs (snd o) = s_fs (snd g))
             by apply s_fs_get_file_owner.
           destruct (emits_get_file_owner E any_event
                       (fun _ _ => eq_refl)
                       (dir_path ++ "/" ++ d_name e) MAX_USER_LENGTH (snd g))
             as [lo [Otr _]].
           fold o in Otr. clearbody o.
           set (file := mkReportFile _ _ _ _ _ _).
           assert (Hfs' : s_fs (snd o) dir_path = Some d)
             by (rewrite Ofs, Gfs, Sfs; exact Hfs).
           destruct (IH Hincl' Hnd' (files ++ [file]) (c + 1) n' (snd o) Hfs')
             as [l [Ht Hok]].
           exists (lo ++ l). split.
           { rewrite Ht, Otr, Gtr, Str, app_assoc. reflexivity. }
           intros Hs. destruct (Hok Hs) as [new [H1 [H2 [H3 H4]]]].
           exists (file :: new). split.
           { rewrite H1, <- app_assoc. reflexivity. }
           assert (Hname : rf_filename file = d_name e) by exact Hnt.
           split; [|split].
           ++ unfold filenames. cbn [List.map]. constructor; [|exact H2].
              rewrite Hname. intros C. apply Hfresh.
              unfold filenames in C. apply in_map_iff in C.
              destruct C as [f' [Hf1 Hf2]].
              destruct (H3 f' Hf2) as [e' [He' [_ [_ [Hn' _]]]]].
              apply in_map_iff. exists e'. split; [congruence | exact He'].
           ++ intros f [<-|Hf].
              ** exists e. split; [left; reflexivity|].
                 split; [rewrite Hskip; reflexivity|].
                 unfold scanned_as. subst file.
                 cbn [rf_path rf_filename rf_timestamp rf_size
                      rf_department].
                 rewrite Hpt, Hnt, Hino. repeat split.
              ** destruct (H3 f Hf) as [e' [He' R]].
                 exists e'. split; [right; exact He' | exact R].
           ++ intros e' [<-|He'] Hv.
              ** left. unfold filenames. cbn [List.map]. left. exact Hname.
              ** destruct (H4 e' He' Hv) as [H|H].
                 --- left. unfold filenames. cbn [List.map]. right. exact H.
                 --- right. apply in_or_app. right. exact H.
        -- (* realloc failed *)
           rewrite bind_eq. cbn [fst snd ret].
           eexists. split.
           { simpl. rewrite Gtr, Str. reflexivity. }
           simpl. intros C. discriminate.
      * (* stat failed *)
        clear Sino. rewrite bind_eq.
        set (s2 := snd (log_error "Failed to get file stats for %s: %s"
                                  [ArgS (d_name e); ArgErrno] s1)).
        assert (T2 : s_trace s2 =
                     s_trace s ++ [LogError STAT_FAILED
                                            [ArgS (d_name e); ArgErrno]])
          by (subst s2; simpl; rewrite Str; reflexivity).
        assert (Hfs2 : s_fs s2 dir_path = Some d)
          by (subst s2; simpl; rewrite Sfs; exact Hfs).
        clearbody s2.
        destruct (IH Hincl' Hnd' files c n s2 Hfs2) as [l [Ht Hok]].
        eexists. split.
        { rewrite Ht, T2, <- app_assoc. reflexivity. }
        intros Hs. destruct (Hok Hs) as [new [H1 [H2 [H3 H4]]]].
        exists new. split; [exact H1|]. split; [exact H2|]. split.
        -- intros f Hf. destruct (H3 f Hf) as [e' [He' R]].
           exists e'. split; [right; exact He' | exact R].
        -- intros e' [<-|He'] Hv.
           ++ right. left. reflexivity.
           ++ destruct (H4 e' He' Hv) as [H|H]; [left; exact H|].
              right. right. exact H.
Qed.

End Scan.

(** X4.  A successful [scan_directory] over a directory whose names are
    distinct, slash-free and at most NAME_MAX long lists every filename
    once; each listed file is a non-directory entry whose name does not
    start with a dot, recorded with its path, name, modification time,
    size and department; and every such entry is listed unless the
    failure of its [stat] was logged. *)
Theorem scan_directory_lists_visible_files :
  forall (E : os) (dir_path : string) (s : state) (d : directory),
    s_fs s dir_path = Some d ->
    wf_entries (dir_entries d) ->
    (String.length dir_path + NAME_MAX + 1 < Z.to_nat MAX_PATH_LENGTH)%nat ->
    let out := scan_directory E dir_path s in
    scan_status (fst out) = SUCCESS ->
    NoDup (filenames (scan_files (fst out))) /\
    (forall f, In f (scan_files (fst out)) ->
       exists e, In e (dir_entries d) /\ d_type e <> DT_DIR /\
                 is_hidden (d_name e) = false /\ scanned_as dir_path e f) /\
    (forall e, In e (dir_entries d) -> d_type e <> DT_DIR ->
       is_hidden (d_name e) = false ->
       In (d_name e) (filenames (scan_files (fst out))) \/
       In (LogError STAT_FAILED [ArgS (d_name e); ArgErrno])
          (new_events s (snd out))).
Proof.
  intros E dir_path s d Hd Hwf Hfit out Hs. subst out.
  unfold scan_directory in *. rewrite bind_eq in *.
  destruct (sys_opendir_run E dir_path s) as [R Hent].
  destruct (fst (sys_opendir E dir_path s)) as [entries|].
  - destruct (Hent entries eq_refl) as [d' [Hd' ->]].
    rewrite Hd in Hd'. injection Hd' as <-. clear Hent.
    rewrite R in *. rewrite bind_eq in *.
    set (s1 := snd (sys_alloc E (with_clock (S (s_clock s)) s))) in *.
    assert (T1 : s_trace s1 = s_trace s) by reflexivity.
    assert (F1 : s_fs s1 dir_path = Some d) by exact Hd.
    clearbody s1.
    destruct (negb (fst (sys_alloc E (with_clock (S (s_clock s)) s)))).
    + rewrite bind_eq in Hs. discriminate.
    + destruct (scan_entries_run E dir_path d Hwf Hfit (dir_entries d)
                  (incl_refl _) (proj1 Hwf) [] 0 10 s1 F1) as [l [Ht Hok]].
      destruct (Hok Hs) as [new [H1 [H2 [H3 H4]]]].
      rewrite H1. cbn [app].
      assert (Hv : forall e, visible e = true <->
                             d_type e <> DT_DIR /\
                             is_hidden (d_name e) = false).
      { intros e. unfold visible. split.
        - intros H. apply negb_true_iff, orb_false_iff in H.
          destruct H as [A B]. split; [|exact B].
          intros C. rewrite C in A. discriminate.
        - intros [A B]. rewrite B, orb_false_r.
          destruct (d_type e); try reflexivity. contradiction. }
      split; [exact H2|]. split.
      * intros f Hf. destruct (H3 f Hf) as [e [He [V Sc]]].
        apply Hv in V. exists e. tauto.
      * intros e He Hty Hh.
        destruct (H4 e He (proj2 (Hv e) (conj Hty Hh))) as [H|H];
          [left; exact H|].
        right. rewrite T1 in Ht.
        apply (in_new_events _ _ _ _ Ht H).
  - rewrite bind_eq in Hs. discriminate.
Qed.

Lemma scan_directory_lists_visible_files_witness :
  NoDup (filenames
           (scan_files (fst (scan_directory os_ok UPLOAD_DIR
                                            state_uploading)))).
Proof.
  apply (scan_directory_lists_visible_files os_ok UPLOAD_DIR state_uploading
           upload_example).
  - reflexivity.
  - exact wf_upload_example.
  - unfold NAME_MAX. simpl. lia.
  - reflexivity.
Defined.

(* ----------------------------------------------------------------- *)
(** *** Change monitoring: what it leaves alone, when it is silent *)

Lemma flat_map_nil {A B} (f : A -> list B) (l : list A) :
  (forall x, In x l -> f x = []) -> List.flat_map f l = [].
Proof.
  induction l as [|x l IH]; intros H; simpl; [reflexivity|].
  rewrite (H x (or_introl eq_refl)), IH; [reflexivity|].
  intros y Hy. apply H. right. exact Hy.
Qed.

(** Nothing is reported when the two inventories hold the same names and
    no current file is newer than a previous one of its name. *)
Lemma detect_spec_nil (previous current : list ReportFile) :
  (forall c, In c current -> In (rf_filename c) (filenames previous)) ->
  (forall p, In p previous -> In (rf_filename p) (filenames current)) ->
  (forall c p, In c current -> In p previous ->
     rf_filename p = rf_filename c -> rf_timestamp c <= rf_timestamp p) ->
  detect_spec previous current = [].
Proof.
  intros Hc Hp Ht. unfold detect_spec.
  rewrite (flat_map_nil (created_or_modified previous) current),
          (flat_map_nil (deleted current) previous); [reflexivity| |].
  - intros p Hin. unfold deleted.
    rewrite (proj2 (existsb_same_filename p current) (Hp p Hin)).
    reflexivity.
  - intros c Hin. unfold created_or_modified.
    destruct (List.find (same_filename c) previous) as [p|] eqn:F.
    + apply find_some in F. destruct F as [Hpin Hsame].
      unfold same_filename in Hsame. apply String.eqb_eq in Hsame.
      pose proof (Ht c p Hin Hpin (eq_sym Hsame)) as L.
      destruct (Z.ltb_spec (rf_timestamp p) (rf_timestamp c));
        [lia | reflexivity].
    + exfalso. specialize (Hc c Hin). unfold filenames in Hc.
      apply in_map_iff in Hc. destruct Hc as [p [Hn Hpin]].
      apply (find_none _ _ F) in Hpin.
      unfold same_filename in Hpin. rewrite Hn, String.eqb_refl in Hpin.
      discriminate.
Qed.

(** X5.  [monitor_directory_changes] never changes a directory other
    than the log directory, a signal flag of the daemon or the FIFO
    descriptor: besides the clock and the logs it only writes its own
    inventory and scan time. *)
Theorem monitor_directory_changes_footprint :
  forall (E : os) (s : state),
    let s' := snd (monitor_directory_changes E s) in
    unchanged_but_logs (s_fs s) (s_fs s') /\
    daemon_exit s' = daemon_exit s /\
    force_backup s' = force_backup s /\
    force_transfer s' = force_transfer s /\
    fifo_fd s' = fifo_fd s.
Proof.
  intros E s s'. subst s'.
  split.
  { apply same_fs_unchanged_but_logs.
    apply (keeps_monitor_directory_changes E s_fs); reflexivity. }
  repeat split;
    match goal with
    | |- ?p (snd _) = _ =>
        apply (keeps_monitor_directory_changes E p); reflexivity
    end.
Qed.

(** X6.  A pass of [monitor_directory_changes] that finds the names of
    the stored inventory, none of them with a newer modification time,
    hands nothing to the change log: a file rewritten without a newer
    time stamp goes unnoticed. *)
Theorem monitor_unchanged_directory_is_silent :
  forall (E : os) (s : state) (previous : list ReportFile),
    previous_files s = Some previous ->
    previous_file_count s = Z.of_nat (List.length previous) ->
    scan_status (fst (scan_directory E UPLOAD_DIR s)) = SUCCESS ->
    let current := scan_files (fst (scan_directory E UPLOAD_DIR s)) in
    (forall c, In c current -> In (rf_filename c) (filenames previous)) ->
    (forall p, In p previous -> In (rf_filename p) (filenames current)) ->
    (forall c p, In c current -> In p previous ->
       rf_filename p = rf_filename c -> rf_timestamp c <= rf_timestamp p) ->
    let out := monitor_directory_changes E s in
    fst out = SUCCESS /\
    change_events (new_events s (snd out)) = [] /\
    previous_files (snd out) = Some current.
Proof.
  intros E s previous Hp Hcount Hs current Hc Hpr Ht out.
  destruct (monitor_comparing E s previous Hs Hp Hcount)
    as [H1 [H2 [_ H3]]].
  fold current in H2, H3. fold out in H1, H2, H3.
  rewrite (detect_spec_nil previous current Hc Hpr Ht), app_nil_r in H3.
  split; [exact H1|]. split; [|exact H2].
  destruct (extends_monitor_directory_changes E s) as [l [Hl _]].
  fold out in Hl.
  rewrite (new_events_app _ _ _ Hl).
  rewrite Hl, change_events_app in H3.
  rewrite <- (app_nil_r (change_events (s_trace s))) in H3 at 2.
  apply app_inv_head in H3. exact H3.
Qed.

Lemma monitor_unchanged_directory_is_silent_witness :
  change_events
    (new_events state_settled
       (snd (monitor_directory_changes os_ok state_settled))) = [].
Proof.
  apply (monitor_unchanged_directory_is_silent os_ok state_settled
           settled_inventory).
  - reflexivity.
  - reflexivity.
  - reflexivity.
  - vm_compute. intros c [<-|[]]. left. reflexivity.
  - vm_compute. intros c [<-|[]]. left. reflexivity.
  - vm_compute. intros c p [<-|[]] [<-|[]] _. discriminate.
Defined.

(* ----------------------------------------------------------------- *)
(** *** Copying and moving one file *)

Section Files.

Variable E : os.

Lemma fs_write_file_same now fs p data dd dn dir :
  split_path p = Some (dd, dn) -> fs dd = Some dir ->
  file_data (fs_write E now fs p data) p = Some data.
Proof.
  intros Sp Fd. unfold file_data, fs_write, fs_file. rewrite Sp, Fd.
  cbv zeta. unfold fs_set. rewrite String.eqb_refl. cbn [dir_entries].
  rewrite lookup_replace by reflexivity.
  rewrite String.eqb_refl. reflexivity.
Qed.

Lemma fs_write_file_other now fs p data q :
  q <> p -> fs_file (fs_write E now fs p data) q = fs_file fs q.
Proof.
  intros Hq. unfold fs_write.
  destruct (split_path p) as [[dd dn]|] eqn:Sp; [|reflexivity].
  destruct (fs dd) as [dir|] eqn:Fd; [|reflexivity].
  unfold fs_file.
  destruct (split_path q) as [[qd qn]|] eqn:Sq; [|reflexivity].
  unfold fs_set.
  destruct (String.eqb_spec qd dd) as [->|Hne]; [|reflexivity].
  rewrite Fd. cbn [dir_entries].
  rewrite lookup_replace by reflexivity.
  destruct (String.eqb_spec qn dn) as [->|]; [|reflexivity].
  exfalso. apply Hq.
  rewrite (split_path_join _ _ _ Sp), (split_path_join _ _ _ Sq).
  reflexivity.
Qed.

Lemma fs_write_parent now fs p data dd dn dir :
  split_path p = Some (dd, dn) -> fs dd = Some dir ->
  exists dir', fs_write E now fs p data dd = Some dir'.
Proof.
  intros Sp Fd. unfold fs_write. rewrite Sp, Fd. unfold fs_set.
  rewrite String.eqb_refl. eexists. reflexivity.
Qed.

Lemma sys_open_write_general p s :
  let out := sys_open_write E p s in
  s_trace (snd out) = s_trace s /\
  (fst out = true ->
   exists dd dn dir,
     split_path p = Some (dd, dn) /\ s_fs s dd = Some dir /\
     s_fs (snd out) = fs_write E (os_time E (s_clock s)) (s_fs s) p "") /\
  (fst out = false -> s_fs (snd out) = s_fs s).
Proof.
  unfold sys_open_write, bind, tick, get, modify, ret. simpl.
  destruct (split_path p) as [[dd dn]|] eqn:Sp;
    [|repeat split; discriminate].
  destruct (s_fs s dd) as [dir|] eqn:Fd; [|repeat split; discriminate].
  destruct (os_open E (s_clock s) p); simpl.
  - split; [reflexivity|]. split; [|discriminate].
    intros _. exists dd, dn, dir. auto.
  - repeat split; discriminate.
Qed.

(** [copy_file] on two different paths. *)
Lemma copy_file_general source destination s :
  source <> destination ->
  let out := copy_file E source destination s in
  (fst out = SUCCESS \/ fst out = FAILURE) /\
  (forall q, q <> destination ->
     fs_file (s_fs (snd out)) q = fs_file (s_fs s) q) /\
  (fst out = SUCCESS ->
   exists data, file_data (s_fs s) source = Some data /\
                file_data (s_fs (snd out)) destination = Some data) /\
  (fst out = FAILURE ->
   s_fs (snd out) = s_fs s \/
   exists data n,
     file_data (s_fs s) source = Some data /\
     file_data (s_fs (snd out)) destination =
       Some (CString.take n data)).
Proof.
  intros Hne. unfold copy_file. cbv zeta. rewrite bind_eq.
  destruct (sys_open_read_run E source s) as [R1 R2].
  set (s1 := snd (sys_open_read E source s)) in *.
  destruct (fst (sys_open_read E source s)) as [e|].
  - specialize (R2 e eq_refl). clearbody s1.
    assert (Hdata : file_data (s_fs s) source = Some (i_data (d_ino e)))
      by (unfold file_data; rewrite R2; reflexivity).
    rewrite bind_eq.
    destruct (sys_open_write_general destination s1) as [_ [W1 W2]].
    set (s2 := snd (sys_open_write E destination s1)) in *.
    destruct (fst (sys_open_write E destination s1)).
    + destruct (W1 eq_refl) as [dd [dn [dir [Sp [Fd W]]]]].
      clear W1 W2. clearbody s2.
      destruct (fs_write_parent (os_time E (s_clock s1)) (s_fs s1)
                  destination "" dd dn dir Sp Fd) as [dir' Fd'].
      rewrite <- W in Fd'.
      assert (Hframe : forall now data q, q <> destination ->
                fs_file (fs_write E now (s_fs s2) destination data) q =
                fs_file (s_fs s) q).
      { intros now data q Hq. rewrite fs_write_file_other by assumption.
        rewrite W, fs_write_file_other by assumption.
        rewrite R1. reflexivity. }
      assert (Hsame : forall now data,
                file_data (fs_write E now (s_fs s2) destination data)
                          destination = Some data).
      { intros now data.
        apply (fs_write_file_same now (s_fs s2) destination data
                 dd dn dir' Sp Fd'). }
      assert (Hq : (source =? destination)%string = false)
        by (apply String.eqb_neq; exact Hne).
      rewrite Hq.
      unfold bind, tick, get, modify, ret, log_error, emit. simpl.
      destruct (os_copy_io E (s_clock s2)) as [n|n|]; simpl.
      * split; [right; reflexivity|]. split; [apply Hframe|].
        split; [discriminate|]. intros _. right.
        exists (i_data (d_ino e)), n. split; [exact Hdata | apply Hsame].
      * split; [right; reflexivity|]. split; [apply Hframe|].
        split; [discriminate|]. intros _. right.
        exists (i_data (d_ino e)), n. split; [exact Hdata | apply Hsame].
      * split; [left; reflexivity|]. split; [apply Hframe|].
        split; [|discriminate]. intros _.
        exists (i_data (d_ino e)). split; [exact Hdata | apply Hsame].
    + specialize (W2 eq_refl). simpl.
      split; [right; reflexivity|]. split.
      * intros q _. rewrite W2, R1. reflexivity.
      * split; [discriminate|]. intros _. left. rewrite W2. exact R1.
  - simpl. split; [right; reflexivity|]. split.
    + intros q _. fold s1. rewrite R1. reflexivity.
    + split; [discriminate|]. intros _. left. exact R1.
Qed.

Lemma sys_rename_general source destination s :
  let out := sys_rename E source destination s in
  s_trace (snd out) = s_trace s /\
  (fst out = 0 \/ fst out = -1) /\
  (fst out = 0 ->
   (forall q, q <> source -> q <> destination ->
      fs_file (s_fs (snd out)) q = fs_file (s_fs s) q) /\
   (source <> destination -> fs_file (s_fs (snd out)) source = None) /\
   exists data, file_data (s_fs s) source = Some data /\
                file_data (s_fs (snd out)) destination = Some data) /\
  (fst out = -1 -> s_fs (snd out) = s_fs s).
Proof.
  unfold sys_rename, bind, tick, get, modify, ret. simpl.
  destruct (split_path source) as [[sd sn]|] eqn:Ss;
    [|repeat split; try discriminate; auto].
  destruct (split_path destination) as [[dd dn]|] eqn:Sd;
    [|repeat split; try discriminate; auto].
  destruct (s_fs s sd) as [sdir|] eqn:Fs;
    [|repeat split; try discriminate; auto].
  destruct (lookup_entry sn (dir_entries sdir)) as [e|] eqn:Le;
    [|repeat split; try discriminate; auto].
  set (fs1 := fs_set (s_fs s) sd
                (mkDirectory (dir_mode sdir)
                             (remove_entry sn (dir_entries sdir)))).
  destruct (fs1 dd) as [ddir|] eqn:Fd;
    [|repeat split; try discriminate; auto].
  destruct (os_rename E (s_clock s) source destination); simpl;
    [|repeat split; try discriminate; auto].
  split; [reflexivity|]. split; [left; reflexivity|].
  split; [|discriminate]. intros _.
  set (new := mkDirent dn (d_type e) (d_ino e)).
  set (fs2 := fs_set fs1 dd
                (mkDirectory (dir_mode ddir)
                             (remove_entry dn (dir_entries ddir) ++ [new]))).
  assert (L2 : forall qd qn,
            match fs2 qd with
            | Some dir => lookup_entry qn (dir_entries dir)
            | None => None
            end =
            if String.eqb qd dd
            then (if String.eqb qn dn then Some new
                  else match fs1 dd with
                       | Some dir => lookup_entry qn (dir_entries dir)
                       | None => None
                       end)
            else match fs1 qd with
                 | Some dir => lookup_entry qn (dir_entries dir)
                 | None => None
                 end).
  { intros qd qn. unfold fs2, fs_set at 1.
    destruct (String.eqb_spec qd dd) as [->|]; [|reflexivity].
    cbn [dir_entries]. rewrite lookup_replace by reflexivity.
    rewrite Fd. reflexivity. }
  assert (L1 : forall qd qn,
            match fs1 qd with
            | Some dir => lookup_entry qn (dir_entries dir)
            | None => None
            end =
            if String.eqb qd sd
            then (if String.eqb qn sn then None
                  else lookup_entry qn (dir_entries sdir))
            else match s_fs s qd with
                 | Some dir => lookup_entry qn (dir_entries dir)
                 | None => None
                 end).
  { intros qd qn. unfold fs1, fs_set.
    destruct (String.eqb_spec qd sd) as [->|]; [|reflexivity].
    cbn [dir_entries].
    destruct (String.eqb_spec qn sn) as [->|Hn].
    - apply lookup_remove_same.
    - apply lookup_remove_other. exact Hn. }
  assert (Hsrc : source = (sd ++ "/" ++ sn)%string)
    by (apply split_path_join; exact Ss).
  assert (Hdst : destination = (dd ++ "/" ++ dn)%string)
    by (apply split_path_join; exact Sd).
  split; [|split].
  - intros q Hq1 Hq2. unfold fs_file.
    destruct (split_path q) as [[qd qn]|] eqn:Sq; [|reflexivity].
    assert (Hqe : q = (qd ++ "/" ++ qn)%string)
      by (apply split_path_join; exact Sq).
    rewrite L2.
    destruct (String.eqb_spec qd dd) as [->|Hd].
    + destruct (String.eqb_spec qn dn) as [->|Hn]; [congruence|].
      rewrite L1.
      destruct (String.eqb_spec dd sd) as [->|]; [|reflexivity].
      destruct (String.eqb_spec qn sn) as [->|]; [congruence|].
      rewrite Fs. reflexivity.
    + rewrite L1.
      destruct (String.eqb_spec qd sd) as [->|]; [|reflexivity].
      destruct (String.eqb_spec qn sn) as [->|]; [congruence|].
      rewrite Fs. reflexivity.
  - intros Hne. unfold fs_file. rewrite Ss, L2.
    destruct (String.eqb_spec sd dd) as [->|Hd].
    + destruct (String.eqb_spec sn dn) as [->|Hn]; [congruence|].
      rewrite L1, !String.eqb_refl. reflexivity.
    + rewrite L1, !String.eqb_refl. reflexivity.
  - exists (i_data (d_ino e)). unfold file_data, fs_file.
    rewrite Ss, Sd, Fs, Le, L2, !String.eqb_refl. auto.
Qed.

Lemma sys_unlink_general path s :
  let out := sys_unlink E path s in
  s_trace (snd out) = s_trace s /\
  (fst out = 0 \/ fst out = -1) /\
  (forall q, q <> path ->
     fs_file (s_fs (snd out)) q = fs_file (s_fs s) q) /\
  (fst out = 0 -> fs_file (s_fs (snd out)) path = None) /\
  (fst out = -1 -> s_fs (snd out) = s_fs s).
Proof.
  unfold sys_unlink, bind, tick, get, modify, ret. simpl.
  destruct (split_path path) as [[d n]|] eqn:Sp;
    [|repeat split; try discriminate; auto].
  destruct (s_fs s d) as [dir|] eqn:Fd;
    [|repeat split; try discriminate; auto].
  destruct (lookup_entry n (dir_entries dir)) as [e|] eqn:Le;
    [|repeat split; try discriminate; auto].
  destruct (os_unlink E (s_clock s) path); simpl;
    [|repeat split; try discriminate; auto].
  split; [reflexivity|]. split; [left; reflexivity|].
  split; [|split; [|discriminate]].
  - intros q Hq. unfold fs_file.
    destruct (split_path q) as [[qd qn]|] eqn:Sq; [|reflexivity].
    unfold fs_set.
    destruct (String.eqb_spec qd d) as [->|]; [|reflexivity].
    rewrite Fd. cbn [dir_entries]. apply lookup_remove_other.
    intros ->. apply Hq.
    rewrite (split_path_join _ _ _ Sp), (split_path_join _ _ _ Sq).
    reflexivity.
  - intros _. unfold fs_file. rewrite Sp. unfold fs_set.
    rewrite String.eqb_refl. cbn [dir_entries]. apply lookup_remove_same.
Qed.

(** [copy_file] never logs the line [move_file] writes when [unlink]
    fails. *)
Lemma copy_file_not_unlink_failed a b s :
  exists l,
    s_trace (snd (copy_file E a b s)) = s_trace s ++ l /\
    ~ In (LogError UNLINK_FAILED [ArgErrno]) l.
Proof.
  destruct (emits_copy_file E any_event (fun _ _ => eq_refl) a b s)
    as [l [Hl _]].
  exists l. split; [exact Hl|]. intros C.
  apply in_count_errors in C.
  assert (K : keeps (fun s => count_errors UNLINK_FAILED (s_trace s))
                    (copy_file E a b))
    by (unfold copy_file; keeps_tac).
  specialize (K s). cbv beta in K.
  rewrite Hl, count_errors_app in K. lia.
Qed.

End Files.

(** X7.  [copy_file] on two different paths outside the log directory
    touches no file but the destination and those of the log directory.
    On SUCCESS the destination holds the bytes of the source.  On
    FAILURE the directories other than the log directory are as they
    were, or the destination holds the first bytes of the source: a copy
    that breaks off leaves its partial file behind. *)
Theorem copy_file_outcome :
  forall (E : os) (source destination : string) (s : state),
    source <> destination ->
    in_log_dir source = false ->
    in_log_dir destination = false ->
    let out := copy_file E source destination s in
    (fst out = SUCCESS \/ fst out = FAILURE) /\
    (forall q, q <> destination -> in_log_dir q = false ->
       fs_file (s_fs (snd out)) q = fs_file (s_fs s) q) /\
    (fst out = SUCCESS ->
     exists data, file_data (s_fs s) source = Some data /\
                  file_data (s_fs (snd out)) destination = Some data) /\
    (fst out = FAILURE ->
     unchanged_but_logs (s_fs s) (s_fs (snd out)) \/
     exists data n,
       file_data (s_fs s) source = Some data /\
       file_data (s_fs (snd out)) destination =
         Some (CString.take n data)).
Proof.
  intros E source destination s H _ _ out. subst out.
  destruct (copy_file_general E source destination s H) as [A [B [C D]]].
  split; [exact A|]. split; [intros q Hq _; apply B; exact Hq|].
  split; [exact C|]. intros F. destruct (D F) as [D1|D2].
  - left. apply same_fs_unchanged_but_logs. exact D1.
  - right. exact D2.
Qed.

Lemma copy_file_outcome_witness :
  file_data
    (s_fs (snd (copy_file (os_short_write 3) SALES_PATH SALES_PUBLISHED
                          state_uploading)))
    SALES_PUBLISHED = Some "<sa".
Proof.
  destruct (copy_file_outcome (os_short_write 3) SALES_PATH SALES_PUBLISHED
              state_uploading) as [_ [_ [_ H]]].
  - discriminate.
  - reflexivity.
  - reflexivity.
  - vm_compute. reflexivity.
Defined.

(** [move_file] on two different paths, in the model. *)
Lemma move_file_general :
  forall (E : os) (source destination : string) (s : state),
    source <> destination ->
    let out := move_file E source destination s in
    (fst out = SUCCESS \/ fst out = FAILURE) /\
    (forall q, q <> source -> q <> destination ->
       fs_file (s_fs (snd out)) q = fs_file (s_fs s) q) /\
    (fst out = SUCCESS ->
     fs_file (s_fs (snd out)) source = None /\
     exists data, file_data (s_fs s) source = Some data /\
                  file_data (s_fs (snd out)) destination = Some data) /\
    (In (LogError UNLINK_FAILED [ArgErrno]) (new_events s (snd out)) ->
     fst out = FAILURE /\
     fs_file (s_fs (snd out)) source = fs_file (s_fs s) source /\
     exists data, file_data (s_fs s) source = Some data /\
                  file_data (s_fs (snd out)) destination = Some data).
Proof.
  intros E source destination s Hne. unfold move_file. cbv zeta.
  rewrite bind_eq.
  destruct (sys_rename_general E source destination s)
    as [Rt [Rv [R0 R1]]].
  set (s1 := snd (sys_rename E source destination s)) in *.
  destruct (Z.eqb_spec (fst (sys_rename E source destination s)) 0)
    as [Hr|Hr].
  - (* renamed *)
    destruct (R0 Hr) as [Rf [Rs Rd]]. cbn [ret fst snd].
    split; [left; reflexivity|]. split; [exact Rf|]. split.
    + intros _. split; [apply Rs; exact Hne | exact Rd].
    + intros C. exfalso.
      rewrite (new_events_app s s1 [] ) in C by (rewrite app_nil_r; exact Rt).
      exact C.
  - assert (F1 : s_fs s1 = s_fs s) by (apply R1; destruct Rv; congruence).
    clear R0 R1 Rv Hr. clearbody s1.
    rewrite bind_eq.
    destruct (copy_file_general E source destination s1 Hne)
      as [Cv [Cf [Cs _]]].
    destruct (copy_file_not_unlink_failed E source destination s1)
      as [lc [Ct Cq]].
    set (s2 := snd (copy_file E source destination s1)) in *.
    destruct (Z.eqb_spec (fst (copy_file E source destination s1)) SUCCESS)
      as [Hc|Hc].
    + (* copied *)
      destruct (Cs Hc) as [data [D1 D2]]. rewrite F1 in D1.
      clear Cs Cv Hc. clearbody s2.
      rewrite bind_eq.
      destruct (sys_unlink_general E source s2) as [Ut [Uv [Uf [U0 U1]]]].
      set (s3 := snd (sys_unlink E source s2)) in *.
      assert (Hd3 : file_data (s_fs s3) destination = Some data).
      { unfold file_data. rewrite Uf by congruence. exact D2. }
      destruct (Z.eqb_spec (fst (sys_unlink E source s2)) 0) as [Hu|Hu].
      * cbn [negb ret fst snd].
        split; [left; reflexivity|]. split.
        { intros q Hq1 Hq2. rewrite Uf, Cf, F1 by assumption. reflexivity. }
        split.
        { intros _. split; [apply U0; exact Hu|].
          exists data. auto. }
        intros C. exfalso.
        assert (T3 : s_trace s3 = s_trace s ++ lc)
          by (rewrite Ut, Ct, Rt; reflexivity).
        rewrite (new_events_app s s3 lc T3) in C.
        exact (Cq C).
      * cbn [negb]. rewrite bind_eq. cbn [ret fst snd].
        split; [right; reflexivity|]. split.
        { intros q Hq1 Hq2. simpl. rewrite Uf, Cf, F1 by assumption.
          reflexivity. }
        split; [discriminate|]. intros _. split; [reflexivity|].
        simpl. split.
        { rewrite U1 by (destruct Uv; congruence).
          rewrite Cf, F1 by assumption. reflexivity. }
        exists data. auto.
    + (* the copy failed *)
      cbn [ret fst snd].
      split; [right; reflexivity|]. split.
      { intros q Hq1 Hq2. rewrite Cf, F1 by assumption. reflexivity. }
      split; [discriminate|]. intros C. exfalso.
      assert (T2 : s_trace s2 = s_trace s ++ lc)
        by (rewrite Ct, Rt; reflexivity).
      rewrite (new_events_app s s2 lc T2) in C.
      exact (Cq C).
Qed.

(** X8.  [move_file] on two different paths outside the log directory
    touches no file but the two and those of the log directory.  On
    SUCCESS the source is gone and the destination holds its bytes.
    When the copy fallback succeeded and the source could not be deleted
    the call returns FAILURE although the destination holds the bytes:
    the file is then in both places. *)
Theorem move_file_outcome :
  forall (E : os) (source destination : string) (s : state),
    source <> destination ->
    in_log_dir source = false ->
    in_log_dir destination = false ->
    let out := move_file E source destination s in
    (fst out = SUCCESS \/ fst out = FAILURE) /\
    (forall q, q <> source -> q <> destination -> in_log_dir q = false ->
       fs_file (s_fs (snd out)) q = fs_file (s_fs s) q) /\
    (fst out = SUCCESS ->
     fs_file (s_fs (snd out)) source = None /\
     exists data, file_data (s_fs s) source = Some data /\
                  file_data (s_fs (snd out)) destination = Some data) /\
    (In (LogError UNLINK_FAILED [ArgErrno]) (new_events s (snd out)) ->
     fst out = FAILURE /\
     fs_file (s_fs (snd out)) source = fs_file (s_fs s) source /\
     exists data, file_data (s_fs s) source = Some data /\
                  file_data (s_fs (snd out)) destination = Some data).
Proof.
  intros E source destination s H _ _ out. subst out.
  destruct (move_file_general E source destination s H) as [A [B [C D]]].
  split; [exact A|].
  split; [intros q H1 H2 _; apply B; assumption|].
  split; [exact C | exact D].
Qed.

Lemma move_file_outcome_witness :
  fst (move_file os_copying SALES_PATH SALES_PUBLISHED state_uploading)
  = FAILURE /\
  file_data
    (s_fs (snd (move_file os_copying SALES_PATH SALES_PUBLISHED
                          state_uploading)))
    SALES_PUBLISHED = Some "<sales/>".
Proof.
  destruct (move_file_outcome os_copying SALES_PATH SALES_PUBLISHED
              state_uploading) as [_ [_ [_ H]]].
  - discriminate.
  - reflexivity.
  - reflexivity.
  - destruct H as [H1 [_ [data [H2 H3]]]].
    + vm_compute. left. reflexivity.
    + split; [exact H1|]. rewrite H3, <- H2. vm_compute. reflexivity.
Defined.

(* ----------------------------------------------------------------- *)
(** *** Locking and unlocking *)

Lemma set_directory_permissions_exact E path mode s :
  set_directory_permissions E path mode s =
  if chmod_ok E (s_clock s) (s_fs s) path mode
  then (SUCCESS,
        with_fs (chmod_fs (s_fs s) path mode) (with_clock (S (s_clock s)) s))
  else (FAILURE,
        with_trace (s_trace s ++ [LogError SET_FAILED [ArgS path; ArgErrno]])
                   (with_clock (S (s_clock s)) s)).
Proof.
  unfold set_directory_permissions, sys_chmod, tick, get, modify, bind, ret,
    log_error, emit, chmod_ok, chmod_fs. simpl.
  destruct (s_fs s path) as [d|]; [|reflexivity].
  destruct (os_chmod E (s_clock s) path mode); reflexivity.
Qed.

Lemma chmod_fs_entries fs path mode p :
  option_map dir_entries (chmod_fs fs path mode p) =
  option_map dir_entries (fs p).
Proof.
  unfold chmod_fs. destruct (fs path) as [d|] eqn:Hd; [|reflexivity].
  unfold fs_set. destruct (String.eqb_spec p path) as [->|]; [|reflexivity].
  rewrite Hd. reflexivity.
Qed.

Lemma chmod_fs_other fs path mode p :
  p <> path -> chmod_fs fs path mode p = fs p.
Proof.
  intros H. unfold chmod_fs. destruct (fs path); [|reflexivity].
  unfold fs_set. destruct (String.eqb_spec p path); [contradiction|].
  reflexivity.
Qed.

Lemma chmod_fs_mode E t fs path mode :
  chmod_ok E t fs path mode = true ->
  option_map dir_mode (chmod_fs fs path mode path) = Some mode.
Proof.
  unfold chmod_ok, chmod_fs. destruct (fs path); [|discriminate].
  intros _. unfold fs_set. rewrite String.eqb_refl. reflexivity.
Qed.

Lemma chmod_fs_same_entries fs path mode :
  forall d, fs path = Some d ->
    chmod_fs fs path mode path = Some (mkDirectory mode (dir_entries d)).
Proof.
  intros d H. unfold chmod_fs. rewrite H. unfold fs_set.
  rewrite String.eqb_refl. reflexivity.
Qed.

(** What [set_both] does, in full. *)
Lemma set_both_run E opening uf df um dm s :
  let ok_u := chmod_ok E (s_clock s) (s_fs s) UPLOAD_DIR um in
  let fs1 := if ok_u then chmod_fs (s_fs s) UPLOAD_DIR um else s_fs s in
  let ok_d := chmod_ok E (S (s_clock s)) fs1 DASHBOARD_DIR dm in
  let fs2 := if ok_d then chmod_fs fs1 DASHBOARD_DIR dm else fs1 in
  let out := set_both E opening uf df um dm s in
  fst out = (if andb ok_u ok_d then SUCCESS else FAILURE) /\
  s_fs (snd out) = fs2 /\
  s_trace (snd out) =
    s_trace s ++ LogOperation opening [] ::
    chmod_errors ok_u UPLOAD_DIR uf ++ chmod_errors ok_d DASHBOARD_DIR df.
Proof.
  cbv zeta. unfold set_both. rewrite bind_eq.
  set (s0 := snd (log_operation opening [] s)).
  assert (C0 : s_clock s0 = s_clock s) by reflexivity.
  assert (F0 : s_fs s0 = s_fs s) by reflexivity.
  assert (T0 : s_trace s0 = s_trace s ++ [LogOperation opening []])
    by reflexivity.
  clearbody s0. rewrite <- C0, <- F0.
  rewrite bind_eq, set_directory_permissions_exact.
  destruct (chmod_ok E (s_clock s0) (s_fs s0) UPLOAD_DIR um);
    cbn [fst snd]; change (negb (SUCCESS =? SUCCESS)) with false;
    change (negb (FAILURE =? SUCCESS)) with true; cbv iota;
    rewrite bind_eq; cbn [ret fst snd bind log_error emit modify];
    rewrite bind_eq, set_directory_permissions_exact;
    cbn [s_clock s_fs with_fs with_clock with_trace];
    match goal with
    | |- context [chmod_ok E ?t ?fs DASHBOARD_DIR dm] =>
        destruct (chmod_ok E t fs DASHBOARD_DIR dm)
    end;
    cbn [fst snd]; change (negb (SUCCESS =? SUCCESS)) with false;
    change (negb (FAILURE =? SUCCESS)) with true; cbv iota;
    simpl; rewrite T0, <- ?app_assoc; auto.
Qed.

Lemma lock_directories_set_both E :
  lock_directories E =
  set_both E MARK_LOCK LOCK_UPLOAD_FAILED LOCK_DASHBOARD_FAILED
           LOCKED_PERMISSIONS LOCKED_PERMISSIONS.
Proof. reflexivity. Qed.

Lemma unlock_directories_set_both E :
  unlock_directories E =
  set_both E MARK_UNLOCK "Failed to unlock upload directory"
           "Failed to unlock dashboard directory"
           UPLOAD_PERMISSIONS DASHBOARD_PERMISSIONS.
Proof. reflexivity. Qed.

(** X9.  Outside the log directory [lock_directories] changes no
    directory entry and no directory but the two managed ones.  It tries
    both directories whatever the first attempt gave: each one has mode
    000 afterwards or the failure to lock it is logged.  It returns
    SUCCESS exactly when no failure is logged, and then both directories
    have mode 000. *)
Theorem lock_directories_outcome :
  forall (E : os) (s : state),
    let out := lock_directories E s in
    let s' := snd out in
    (fst out = SUCCESS \/ fst out = FAILURE) /\
    (forall p, p <> LOG_DIR ->
               option_map dir_entries (s_fs s' p) =
               option_map dir_entries (s_fs s p)) /\
    (forall p, p <> UPLOAD_DIR -> p <> DASHBOARD_DIR -> p <> LOG_DIR ->
               s_fs s' p = s_fs s p) /\
    (mode_of s' UPLOAD_DIR = Some LOCKED_PERMISSIONS \/
     In (LogError LOCK_UPLOAD_FAILED []) (new_events s s')) /\
    (mode_of s' DASHBOARD_DIR = Some LOCKED_PERMISSIONS \/
     In (LogError LOCK_DASHBOARD_FAILED []) (new_events s s')) /\
    (fst out = SUCCESS <->
     ~ In (LogError LOCK_UPLOAD_FAILED []) (new_events s s') /\
     ~ In (LogError LOCK_DASHBOARD_FAILED []) (new_events s s')) /\
    (fst out = SUCCESS ->
     mode_of s' UPLOAD_DIR = Some LOCKED_PERMISSIONS /\
     mode_of s' DASHBOARD_DIR = Some LOCKED_PERMISSIONS).
Proof.
  intros E s out s'. subst s' out. rewrite lock_directories_set_both.
  destruct (set_both_run E MARK_LOCK LOCK_UPLOAD_FAILED LOCK_DASHBOARD_FAILED
              LOCKED_PERMISSIONS LOCKED_PERMISSIONS s) as [R [F T]].
  set (o := set_both E MARK_LOCK LOCK_UPLOAD_FAILED LOCK_DASHBOARD_FAILED
              LOCKED_PERMISSIONS LOCKED_PERMISSIONS s) in *.
  clearbody o.
  rewrite (new_events_app s (snd o) _ T). unfold mode_of. rewrite F, R.
  clear R F T.
  destruct (chmod_ok E (s_clock s) (s_fs s) UPLOAD_DIR LOCKED_PERMISSIONS)
    eqn:Ou;
  match goal with
  | |- context [chmod_ok E ?t ?fs DASHBOARD_DIR LOCKED_PERMISSIONS] =>
      destruct (chmod_ok E t fs DASHBOARD_DIR LOCKED_PERMISSIONS) eqn:Od
  end; cbn [andb chmod_errors app].
  - split; [left; reflexivity|]. split.
    { intros p _. rewrite !chmod_fs_entries. reflexivity. }
    split.
    { intros p H1 H2 _. rewrite !chmod_fs_other by assumption. reflexivity. }
    assert (Mu : option_map dir_mode
                   (chmod_fs (chmod_fs (s_fs s) UPLOAD_DIR LOCKED_PERMISSIONS)
                             DASHBOARD_DIR LOCKED_PERMISSIONS UPLOAD_DIR) =
                 Some LOCKED_PERMISSIONS).
    { rewrite chmod_fs_other by discriminate.
      apply (chmod_fs_mode E _ _ _ _ Ou). }
    assert (Md : option_map dir_mode
                   (chmod_fs (chmod_fs (s_fs s) UPLOAD_DIR LOCKED_PERMISSIONS)
                             DASHBOARD_DIR LOCKED_PERMISSIONS DASHBOARD_DIR) =
                 Some LOCKED_PERMISSIONS)
      by apply (chmod_fs_mode E _ _ _ _ Od).
    split; [left; exact Mu|]. split; [left; exact Md|]. split.
    + split; [|reflexivity]. intros _.
      split; simpl; intros [C|[]]; discriminate.
    + auto.
  - split; [right; reflexivity|]. split.
    { intros p _. rewrite !chmod_fs_entries. reflexivity. }
    split.
    { intros p H1 H2 _. rewrite !chmod_fs_other by assumption. reflexivity. }
    split; [left; apply (chmod_fs_mode E _ _ _ _ Ou)|].
    split; [right; simpl; auto 10|]. split.
    + split; [discriminate|]. intros [_ C]. exfalso. apply C. simpl. auto 10.
    + discriminate.
  - split; [right; reflexivity|]. split.
    { intros p _. rewrite !chmod_fs_entries. reflexivity. }
    split.
    { intros p H1 H2 _. rewrite !chmod_fs_other by assumption. reflexivity. }
    split; [right; simpl; auto 10|].
    split; [left; apply (chmod_fs_mode E _ _ _ _ Od)|]. split.
    + split; [discriminate|]. intros [C _]. exfalso. apply C. simpl. auto 10.
    + discriminate.
  - split; [right; reflexivity|]. split; [intros p _; reflexivity|].
    split; [intros p _ _ _; reflexivity|].
    split; [right; simpl; auto 10|]. split; [right; simpl; auto 10|]. split.
    + split; [discriminate|]. intros [C _]. exfalso. apply C. simpl. auto 10.
    + discriminate.
Qed.

(** X10.  When [lock_directories] and the [unlock_directories] after it
    both succeed, the two directories hold the entries they held and
    have the modes 0777 and 0755, whatever modes they had before the
    lock; every other directory, the log directory aside, is as it
    was. *)
Theorem lock_then_unlock_resets_permissions :
  forall (E : os) (s : state),
    let locked := lock_directories E s in
    let out := unlock_directories E (snd locked) in
    fst locked = SUCCESS -> fst out = SUCCESS ->
    (exists du, s_fs s UPLOAD_DIR = Some du /\
       s_fs (snd out) UPLOAD_DIR =
         Some (mkDirectory UPLOAD_PERMISSIONS (dir_entries du))) /\
    (exists dd, s_fs s DASHBOARD_DIR = Some dd /\
       s_fs (snd out) DASHBOARD_DIR =
         Some (mkDirectory DASHBOARD_PERMISSIONS (dir_entries dd))) /\
    (forall p, p <> UPLOAD_DIR -> p <> DASHBOARD_DIR -> p <> LOG_DIR ->
       s_fs (snd out) p = s_fs s p).
Proof.
  intros E s locked out. subst out locked.
  rewrite lock_directories_set_both, unlock_directories_set_both.
  destruct (set_both_run E MARK_LOCK LOCK_UPLOAD_FAILED LOCK_DASHBOARD_FAILED
              LOCKED_PERMISSIONS LOCKED_PERMISSIONS s) as [R [F _]].
  set (o := set_both E MARK_LOCK LOCK_UPLOAD_FAILED LOCK_DASHBOARD_FAILED
              LOCKED_PERMISSIONS LOCKED_PERMISSIONS s) in *.
  clearbody o.
  destruct (set_both_run E MARK_UNLOCK "Failed to unlock upload directory"
              "Failed to unlock dashboard directory"
              UPLOAD_PERMISSIONS DASHBOARD_PERMISSIONS (snd o))
    as [R' [F' _]].
  set (o' := set_both E MARK_UNLOCK "Failed to unlock upload directory"
               "Failed to unlock dashboard directory"
               UPLOAD_PERMISSIONS DASHBOARD_PERMISSIONS (snd o)) in *.
  clearbody o'.
  rewrite R, R', F'. clear R R' F'. rewrite F. clear F.
  destruct (chmod_ok E (s_clock s) (s_fs s) UPLOAD_DIR LOCKED_PERMISSIONS)
    eqn:Ou; [|discriminate].
  cbn [andb].
  destruct (chmod_ok E (S (s_clock s))
              (chmod_fs (s_fs s) UPLOAD_DIR LOCKED_PERMISSIONS)
              DASHBOARD_DIR LOCKED_PERMISSIONS) eqn:Od; [|discriminate].
  intros _.
  set (fs2 := chmod_fs (chmod_fs (s_fs s) UPLOAD_DIR LOCKED_PERMISSIONS)
                       DASHBOARD_DIR LOCKED_PERMISSIONS).
  destruct (chmod_ok E (s_clock (snd o)) fs2 UPLOAD_DIR UPLOAD_PERMISSIONS)
    eqn:Ou'; [|discriminate].
  cbn [andb].
  destruct (chmod_ok E (S (s_clock (snd o)))
              (chmod_fs fs2 UPLOAD_DIR UPLOAD_PERMISSIONS)
              DASHBOARD_DIR DASHBOARD_PERMISSIONS) eqn:Od'; [|discriminate].
  intros _.
  assert (Hu : exists du, s_fs s UPLOAD_DIR = Some du).
  { unfold chmod_ok in Ou. destruct (s_fs s UPLOAD_DIR) as [du|];
      [exists du; reflexivity | discriminate]. }
  assert (Hd : exists dd, s_fs s DASHBOARD_DIR = Some dd).
  { unfold chmod_ok in Od.
    rewrite chmod_fs_other in Od by discriminate.
    destruct (s_fs s DASHBOARD_DIR) as [dd|];
      [exists dd; reflexivity | discriminate]. }
  destruct Hu as [du Hu], Hd as [dd Hd].
  assert (F2u : fs2 UPLOAD_DIR =
                Some (mkDirectory LOCKED_PERMISSIONS (dir_entries du))).
  { unfold fs2. rewrite chmod_fs_other by discriminate.
    apply chmod_fs_same_entries. exact Hu. }
  assert (F2d : fs2 DASHBOARD_DIR =
                Some (mkDirectory LOCKED_PERMISSIONS (dir_entries dd))).
  { unfold fs2. apply chmod_fs_same_entries.
    rewrite chmod_fs_other by discriminate. exact Hd. }
  split; [|split].
  - exists du. split; [exact Hu|].
    rewrite chmod_fs_other by discriminate.
    rewrite (chmod_fs_same_entries fs2 UPLOAD_DIR UPLOAD_PERMISSIONS _ F2u).
    reflexivity.
  - exists dd. split; [exact Hd|].
    rewrite (chmod_fs_same_entries _ DASHBOARD_DIR DASHBOARD_PERMISSIONS
               (mkDirectory LOCKED_PERMISSIONS (dir_entries dd))).
    + reflexivity.
    + rewrite chmod_fs_other by discriminate. exact F2d.
  - intros p H1 H2 _. unfold fs2.
    rewrite !chmod_fs_other by assumption. reflexivity.
Qed.

Lemma lock_then_unlock_resets_permissions_witness :
  mode_of (snd (unlock_directories os_ok
                  (snd (lock_directories os_ok
                          (started (fs_set (fs_of [] []) UPLOAD_DIR
                                           (mkDirectory 448 [notes_file])))))))
          UPLOAD_DIR = Some UPLOAD_PERMISSIONS.
Proof.
  destruct (lock_then_unlock_resets_permissions os_ok
              (started (fs_set (fs_of [] []) UPLOAD_DIR
                               (mkDirectory 448 [notes_file]))))
    as [[du [_ H]] _].
  - reflexivity.
  - reflexivity.
  - unfold mode_of. rewrite H. reflexivity.
Defined.

(* ----------------------------------------------------------------- *)
(** *** The backup: where it writes and what it copies *)

Section Plain.
Import CString CStringFacts.

Lemma strchr_append_none (a b : string) (c : ascii) :
  strchr a c = None -> strchr b c = None -> strchr (a ++ b) c = None.
Proof.
  induction a as [|x a IH]; simpl; intros Ha Hb; [exact Hb|].
  destruct (Ascii.eqb x c); [discriminate|].
  destruct (strchr a c); [discriminate|].
  rewrite IH; auto.
Qed.

Lemma uint_plain (d : Decimal.uint) :
  strchr (DecimalString.NilEmpty.string_of_uint d) "/"%char = None.
Proof. induction d; simpl; rewrite ?IHd; reflexivity. Qed.

Lemma decimal_plain (n : Z) : strchr (decimal n) "/"%char = None.
Proof.
  unfold decimal, DecimalString.NilZero.string_of_int.
  destruct (Z.to_int n) as [d|d].
  - destruct d; try reflexivity; apply uint_plain.
  - cbn [strchr]. change (Ascii.eqb "-" "/") with false. cbv iota.
    assert (H : strchr (DecimalString.NilZero.string_of_uint d) "/"%char
                = None)
      by (destruct d; try reflexivity; apply uint_plain).
    rewrite H. reflexivity.
Qed.

Lemma pad2_plain (n : Z) : strchr (pad2 n) "/"%char = None.
Proof.
  unfold pad2. destruct (_ && _)%bool; [|apply decimal_plain].
  apply strchr_append_none; [reflexivity | apply decimal_plain].
Qed.

Lemma pad4_plain (n : Z) : strchr (pad4 n) "/"%char = None.
Proof.
  unfold pad4.
  repeat match goal with
         | |- context [if ?b then _ else _] => destruct b
         end;
    try apply decimal_plain;
    (apply strchr_append_none; [reflexivity | apply decimal_plain]).
Qed.

Lemma strftime_backup_plain (t : tm) :
  strchr ("backup_" ++ strftime_backup t) "/"%char = None.
Proof.
  unfold strftime_backup.
  repeat (apply strchr_append_none;
          try reflexivity; try apply pad2_plain; try apply pad4_plain).
Qed.

End Plain.

Lemma sys_mkdir_general E path mode s :
  let out := sys_mkdir E path mode s in
  s_trace (snd out) = s_trace s /\
  (fst out = 0 \/ fst out = -1) /\
  (s_fs s path <> None -> fst out = -1) /\
  (fst out = -1 -> s_fs (snd out) = s_fs s) /\
  (fst out = 0 ->
   s_fs (snd out) path = Some (mkDirectory mode []) /\
   forall parent name, split_path path = Some (parent, name) ->
     s_fs s parent <> None /\
     forall p, p <> path -> p <> parent -> s_fs (snd out) p = s_fs s p).
Proof.
  unfold sys_mkdir, tick, get, modify, bind, ret. simpl.
  destruct (s_fs s path) eqn:Fp;
    [repeat split; auto; discriminate|].
  destruct (split_path path) as [[parent name]|] eqn:Hs;
    [|repeat split; auto; try discriminate; contradiction].
  destruct (s_fs s parent) eqn:Fd;
    [|repeat split; auto; try discriminate; contradiction].
  destruct (os_mkdir E (s_clock s) path); simpl;
    [|repeat split; auto; try discriminate; contradiction].
  split; [reflexivity|]. split; [left; reflexivity|].
  split; [contradiction|]. split; [discriminate|]. intros _.
  unfold fs_set at 1. rewrite String.eqb_refl. split; [reflexivity|].
  intros parent' name' H. injection H as <- <-.
  split; [rewrite Fd; discriminate|].
  intros p H1 H2. unfold fs_set.
  destruct (String.eqb_spec p path); [contradiction|].
  destruct (String.eqb_spec p parent); [contradiction|]. reflexivity.
Qed.

Lemma fs_write_dir_other E now fs p data dd dn q :
  split_path p = Some (dd, dn) -> q <> dd ->
  fs_write E now fs p data q = fs q.
Proof.
  intros Sp Hq. unfold fs_write. rewrite Sp.
  destruct (fs dd); [|reflexivity].
  unfold fs_set. destruct (String.eqb_spec q dd); [contradiction|].
  reflexivity.
Qed.

(** [copy_file] changes no directory but the one of its destination. *)
Lemma copy_file_dirs E source destination dd dn s q :
  split_path destination = Some (dd, dn) -> q <> dd ->
  s_fs (snd (copy_file E source destination s)) q = s_fs s q.
Proof.
  intros Sp Hq. unfold copy_file. rewrite bind_eq.
  destruct (sys_open_read_run E source s) as [R1 _].
  set (s1 := snd (sys_open_read E source s)) in *. clearbody s1.
  destruct (fst (sys_open_read E source s)) as [e|];
    [|simpl; rewrite R1; reflexivity].
  rewrite bind_eq.
  destruct (sys_open_write_general E destination s1) as [_ [W1 W2]].
  set (s2 := snd (sys_open_write E destination s1)) in *.
  destruct (fst (sys_open_write E destination s1)).
  - destruct (W1 eq_refl) as [dd' [dn' [dir [_ [_ W]]]]].
    clear W1 W2. clearbody s2.
    assert (F2 : s_fs s2 q = s_fs s q).
    { rewrite W, (fs_write_dir_other E _ _ _ _ dd dn) by assumption.
      rewrite R1. reflexivity. }
    unfold bind, tick, get, modify, ret, log_error, emit. simpl.
    destruct (os_copy_io E (s_clock s2)); simpl;
      rewrite (fs_write_dir_other E _ _ _ _ dd dn) by assumption;
      exact F2.
  - simpl. rewrite (W2 eq_refl), R1. reflexivity.
Qed.

Section BackupLoop.

Variable E : os.
Variable d : directory.
Variable bp : string.
Hypothesis d_wf : wf_entries (dir_entries d).
Hypothesis bp_not_dashboard : bp <> DASHBOARD_DIR.
Hypothesis bp_fits :
  (String.length bp + NAME_MAX + 1 < Z.to_nat MAX_PATH_LENGTH)%nat.

Let source (e : dirent) : string := (DASHBOARD_DIR ++ "/" ++ d_name e)%string.
Let target (e : dirent) : string := (bp ++ "/" ++ d_name e)%string.

Lemma backup_paths (e : dirent) :
  In e (dir_entries d) ->
  snprintf_path DASHBOARD_DIR (d_name e) = source e /\
  snprintf_path bp (d_name e) = target e /\
  split_path (target e) = Some (bp, d_name e) /\
  split_path (source e) = Some (DASHBOARD_DIR, d_name e).
Proof.
  intros Hin. destruct d_wf as [_ Hall].
  destruct (Hall e Hin) as [Hplain Hlen].
  split; [|split; [|split]].
  - apply snprintf_path_fits; [simpl; lia | exact Hlen].
  - apply snprintf_path_exact. lia.
  - apply split_path_dir_name. exact Hplain.
  - apply split_path_dir_name. exact Hplain.
Qed.

Lemma target_inj (e e' : dirent) :
  In e (dir_entries d) -> In e' (dir_entries d) ->
  target e = target e' -> d_name e = d_name e'.
Proof.
  intros H H' Heq.
  destruct (backup_paths e H) as [_ [_ [S _]]].
  destruct (backup_paths e' H') as [_ [_ [S' _]]].
  rewrite Heq, S' in S. injection S as S. congruence.
Qed.

Lemma source_not_target (e e' : dirent) :
  In e (dir_entries d) -> In e' (dir_entries d) -> source e <> target e'.
Proof.
  intros H H' Heq.
  destruct (backup_paths e H) as [_ [_ [_ S]]].
  destruct (backup_paths e' H') as [_ [_ [S' _]]].
  rewrite Heq, S' in S. injection S as S _. contradiction.
Qed.

Lemma backup_loop_run (entries : list dirent) :
  incl entries (dir_entries d) ->
  NoDup (List.map d_name entries) ->
  forall c0 s,
    (forall e, In e (dir_entries d) ->
       fs_file (s_fs s) (source e) = Some e) ->
    let out := fold_m (backup_entry E bp) entries c0 s in
    (forall p, p <> bp -> s_fs (snd out) p = s_fs s p) /\
    (forall q, (forall e, In e entries -> q <> target e) ->
       fs_file (s_fs (snd out)) q = fs_file (s_fs s) q) /\
    exists l,
      s_trace (snd out) = s_trace s ++ l /\
      forall e, In e entries -> d_type e <> DT_DIR ->
        file_data (s_fs (snd out)) (target e) = Some (i_data (d_ino e)) \/
        In (LogError BACKUP_FAILED [ArgS (d_name e)]) l.
Proof.
  induction entries as [|x entries IH]; intros Hincl Hnd c0 s Hsrc.
  - simpl. split; [reflexivity|]. split; [reflexivity|].
    exists []. rewrite app_nil_r. split; [reflexivity|]. intros e [].
  - assert (Hin : In x (dir_entries d)) by (apply Hincl; left; reflexivity).
    assert (Hincl' : incl entries (dir_entries d))
      by (intros y Hy; apply Hincl; right; exact Hy).
    inversion Hnd as [|? ? Hfresh Hnd']; subst.
    destruct (backup_paths x Hin) as [Ps [Pt [St Ss]]].
    cbn [fold_m]. rewrite bind_eq.
    destruct (is_DT_DIR (d_type x)) eqn:Hdir.
    + (* a directory entry: skipped *)
      assert (Hb : backup_entry E bp c0 x s = (c0, s))
        by (unfold backup_entry; rewrite Hdir; reflexivity).
      rewrite Hb. cbn [fst snd].
      destruct (IH Hincl' Hnd' c0 s Hsrc) as [H1 [H2 [l [Ht H3]]]].
      split; [exact H1|]. split.
      { intros q Hq. apply H2. intros e He. apply Hq. right. exact He. }
      exists l. split; [exact Ht|].
      intros e [<-|He] Hty.
      * destruct (d_type x); try discriminate. contradiction.
      * apply H3; assumption.
    + assert (Hb : backup_entry E bp c0 x s =
                   (c <- copy_file E (source x) (target x) ;;
                    if c =? SUCCESS
                    then ret (mkCounts (success_count c0 + 1)
                                       (file_count c0 + 1))
                    else log_error "Failed to backup file: %s"
                                   [ArgS (d_name x)] ;;
                         ret (mkCounts (success_count c0)
                                       (file_count c0 + 1))) s)
        by (unfold backup_entry; rewrite Hdir, Ps, Pt; reflexivity).
      rewrite Hb. clear Hb.
      assert (Hne : source x <> target x)
        by (apply source_not_target; assumption).
      rewrite bind_eq.
      destruct (copy_file_general E (source x) (target x) s Hne)
        as [Cv [Cf [Cs _]]].
      pose proof (fun q => copy_file_dirs E (source x) (target x)
                             bp (d_name x) s q St) as Cd.
      destruct (emits_copy_file E any_event (fun _ _ => eq_refl)
                  (source x) (target x) s) as [lc [Ct _]].
      set (o := copy_file E (source x) (target x) s) in *.
      (* the state after the counters are updated *)
      set (k := (if fst o =? SUCCESS
                 then ret (mkCounts (success_count c0 + 1)
                                    (file_count c0 + 1))
                 else log_error "Failed to backup file: %s"
                                [ArgS (d_name x)] ;;
                      ret (mkCounts (success_count c0)
                                    (file_count c0 + 1))) (snd o)).
      assert (K : s_fs (snd k) = s_fs (snd o) /\
                  exists lk, s_trace (snd k) = s_trace (snd o) ++ lk /\
                    (fst o <> SUCCESS ->
                     In (LogError BACKUP_FAILED [ArgS (d_name x)]) lk)).
      { subst k. destruct (Z.eqb_spec (fst o) SUCCESS) as [Z|Z].
        - split; [reflexivity|]. exists []. rewrite app_nil_r.
          split; [reflexivity|]. contradiction.
        - split; [reflexivity|]. eexists. split; [reflexivity|].
          intros _. left. reflexivity. }
      destruct K as [Kf [lk [Kt Ke]]]. clearbody k.
      assert (Hsrc' : forall e, In e (dir_entries d) ->
                fs_file (s_fs (snd k)) (source e) = Some e).
      { intros e He. rewrite Kf, Cf; [apply Hsrc; exact He|].
        apply source_not_target; assumption. }
      destruct (IH Hincl' Hnd' (fst k) (snd k) Hsrc')
        as [H1 [H2 [l [Ht H3]]]].
      split.
      { intros p Hp. rewrite H1, Kf, Cd by assumption. reflexivity. }
      split.
      { intros q Hq. rewrite H2.
        - rewrite Kf, Cf; [reflexivity|]. apply Hq. left. reflexivity.
        - intros e He. apply Hq. right. exact He. }
      exists (lc ++ lk ++ l). split.
      { rewrite Ht, Kt, Ct, <- !app_assoc. reflexivity. }
      intros e [<-|He] Hty.
      * destruct (Z.eqb_spec (fst o) SUCCESS) as [Z|Z].
        -- left. destruct (Cs Z) as [data [D1 D2]].
           unfold file_data in D1. rewrite (Hsrc x Hin) in D1.
           injection D1 as <-.
           unfold file_data. rewrite H2.
           ++ rewrite Kf. exact D2.
           ++ intros e' He' Heq. apply Hfresh.
              rewrite (target_inj x e' Hin (Hincl' e' He') Heq).
              apply in_map. exact He'.
        -- right. apply in_or_app. right. apply in_or_app. left.
           apply Ke. exact Z.
      * destruct (H3 e He Hty) as [H|H]; [left; exact H|].
        right. apply in_or_app. right. apply in_or_app. right. exact H.
Qed.

End BackupLoop.

(** The first steps of [backup_dashboard]: the opening line, the clock,
    the new directory. *)
Lemma backup_dashboard_counts_run E s :
  let s1 := with_clock (S (s_clock s))
              (with_trace (s_trace s ++ [LogOperation MARK_BACKUP []]) s) in
  let bp := backup_path_at E s in
  let m := sys_mkdir E bp 493 s1 in
  backup_dashboard_counts E s =
  if negb (fst m =? 0)
  then ((FAILURE, None), snd (log_error MKDIR_FAILED [ArgErrno] (snd m)))
  else
    (dir <- sys_opendir E DASHBOARD_DIR ;;
     match dir with
     | None =>
         log_error "Failed to open dashboard directory: %s" [ArgErrno] ;;
         ret (FAILURE, None)
     | Some entries =>
         counts <- fold_m (backup_entry E bp) entries (mkCounts 0 0) ;;
         if success_count counts =? file_count counts then
           log_operation "Backup completed successfully: %d files"
                         [ArgD (success_count counts)] ;;
           ret (SUCCESS, Some counts)
         else
           log_error "Backup partially completed: %d/%d files"
                     [ArgD (success_count counts);
                      ArgD (file_count counts)] ;;
           ret (if success_count counts >? 0 then SUCCESS else FAILURE,
                Some counts)
     end) (snd m).
Proof.
  cbv zeta. unfold backup_dashboard_counts.
  rewrite bind_eq. rewrite bind_eq. cbv zeta.
  change (fst (sys_time E
                 (snd (log_operation "Starting dashboard backup" [] s))))
    with (os_time E (s_clock s)).
  change (snd (sys_time E
                 (snd (log_operation "Starting dashboard backup" [] s))))
    with (with_clock (S (s_clock s))
            (with_trace (s_trace s ++ [LogOperation MARK_BACKUP []]) s)).
  fold (backup_path_at E s).
  rewrite bind_eq.
  destruct (negb (fst (sys_mkdir E (backup_path_at E s) 493 _) =? 0));
    reflexivity.
Qed.

Section BackupPath.
Import CString CStringFacts.

Variable E : os.
Variable s : state.
Hypothesis stamp_fits :
  (String.length (strftime_backup (os_localtime E (os_time E (s_clock s))))
   < Z.to_nat MAX_TIME_LENGTH)%nat.

Lemma backup_path_split :
  backup_path_at E s =
    (BACKUP_DIR ++ "/" ++ "backup_" ++
     strftime_backup (os_localtime E (os_time E (s_clock s))))%string /\
  split_path (backup_path_at E s) =
    Some (BACKUP_DIR,
          ("backup_" ++
           strftime_backup (os_localtime E (os_time E (s_clock s))))%string) /\
  backup_path_at E s <> DASHBOARD_DIR /\
  backup_path_at E s <> BACKUP_DIR /\
  (String.length (backup_path_at E s) + NAME_MAX + 1
   < Z.to_nat MAX_PATH_LENGTH)%nat.
Proof.
  set (ts := strftime_backup (os_localtime E (os_time E (s_clock s)))) in *.
  change (Z.to_nat MAX_TIME_LENGTH) with 64%nat in stamp_fits.
  assert (Hbp : backup_path_at E s =
                (BACKUP_DIR ++ "/" ++ "backup_" ++ ts)%string).
  { unfold backup_path_at. fold ts.
    change (BACKUP_DIR ++ "/backup_" ++ ts)%string
      with (BACKUP_DIR ++ "/" ++ "backup_" ++ ts)%string.
    apply take_all. rewrite !length_append.
    change (Z.to_nat (MAX_PATH_LENGTH - 1)) with 1023%nat. simpl. lia. }
  assert (Hlen : String.length (backup_path_at E s) =
                 (33 + String.length ts)%nat).
  { rewrite Hbp, !length_append. simpl. lia. }
  split; [exact Hbp|]. split; [|split; [|split]].
  - rewrite Hbp. apply split_path_dir_name.
    apply no_char_example. apply strftime_backup_plain.
  - intros C.
    destruct (backup_path_not_dashboard ts) as [H _]. apply H.
    symmetry. exact C.
  - intros C. rewrite C in Hlen. simpl in Hlen. lia.
  - rewrite Hlen. unfold NAME_MAX.
    change (Z.to_nat MAX_PATH_LENGTH) with 1024%nat. lia.
Qed.

End BackupPath.

(** X11.  [backup_dashboard] needs a directory name of its own: when the
    backup directory of the current second exists already, or the
    directory that holds the backups is missing, it returns FAILURE,
    copies nothing and leaves every directory other than the log
    directory as it was. *)
Theorem backup_dashboard_needs_new_directory :
  forall (E : os) (s : state),
    (String.length (strftime_backup (os_localtime E (os_time E (s_clock s))))
     < Z.to_nat MAX_TIME_LENGTH)%nat ->
    s_fs s (backup_path_at E s) <> None \/ s_fs s BACKUP_DIR = None ->
    let out := backup_dashboard E s in
    fst out = FAILURE /\
    unchanged_but_logs (s_fs s) (s_fs (snd out)) /\
    new_events s (snd out) =
      [LogOperation MARK_BACKUP []; LogError MKDIR_FAILED [ArgErrno]].
Proof.
  intros E s Hfit Hcase out. subst out.
  unfold backup_dashboard. rewrite bind_eq, backup_dashboard_counts_run.
  cbv zeta.
  set (s1 := with_clock (S (s_clock s))
               (with_trace (s_trace s ++ [LogOperation MARK_BACKUP []]) s)).
  destruct (sys_mkdir_general E (backup_path_at E s) 493 s1)
    as [Mt [Mv [Me [Mf M0]]]].
  assert (Hm : fst (sys_mkdir E (backup_path_at E s) 493 s1) = -1).
  { destruct Hcase as [Hex|Hno]; [apply Me; exact Hex|].
    destruct Mv as [Z|Z]; [|exact Z]. exfalso.
    destruct (M0 Z) as [_ Hp].
    destruct (backup_path_split E s Hfit) as [_ [Sp _]].
    destruct (Hp _ _ Sp) as [Hpar _]. apply Hpar. exact Hno. }
  rewrite Hm. cbn [negb Z.eqb fst snd ret].
  split; [reflexivity|]. split.
  - intros p _. simpl. rewrite (Mf Hm). reflexivity.
  - apply new_events_app. simpl. rewrite Mt. simpl.
    rewrite <- app_assoc. reflexivity.
Qed.

(** In the model [backup_dashboard] changes no directory but the new
    backup directory and the one that holds the backups.  Once its loop
    is reached, every non-directory entry of the dashboard directory has
    a copy with the same bytes in the new directory, or the failure to
    back it up is logged with its name; with as many successes as files,
    every one of them has its copy. *)
Lemma backup_dashboard_copies :
  forall (E : os) (s : state) (d : directory),
    s_fs s DASHBOARD_DIR = Some d ->
    wf_entries (dir_entries d) ->
    (String.length (strftime_backup (os_localtime E (os_time E (s_clock s))))
     < Z.to_nat MAX_TIME_LENGTH)%nat ->
    let out := backup_dashboard_counts E s in
    let s' := snd out in
    let bp := backup_path_at E s in
    (forall p, p <> BACKUP_DIR -> p <> bp -> s_fs s' p = s_fs s p) /\
    forall c, snd (fst out) = Some c ->
      (forall e, In e (dir_entries d) -> d_type e <> DT_DIR ->
         file_data (s_fs s') (bp ++ "/" ++ d_name e) =
           Some (i_data (d_ino e)) \/
         In (LogError BACKUP_FAILED [ArgS (d_name e)]) (new_events s s')) /\
      (success_count c = file_count c ->
       forall e, In e (dir_entries d) -> d_type e <> DT_DIR ->
         file_data (s_fs s') (bp ++ "/" ++ d_name e) =
           Some (i_data (d_ino e))).
Proof.
  intros E s d Hd Hwf Hfit out s' bp.
  destruct (backup_path_split E s Hfit) as [_ [Sp [Nd [Nb Fit]]]].
  fold bp in Sp, Nd, Nb, Fit.
  assert (Main :
    (forall p, p <> BACKUP_DIR -> p <> bp -> s_fs s' p = s_fs s p) /\
    forall c, snd (fst out) = Some c ->
      (forall e, In e (dir_entries d) -> d_type e <> DT_DIR ->
         file_data (s_fs s') (bp ++ "/" ++ d_name e) =
           Some (i_data (d_ino e)) \/
         In (LogError BACKUP_FAILED [ArgS (d_name e)]) (new_events s s')) /\
      (success_count c = file_count c ->
       count_errors BACKUP_FAILED (new_events s s') = 0)).
  { subst s' out. rewrite backup_dashboard_counts_run. cbv zeta. fold bp.
    set (s1 := with_clock (S (s_clock s))
                 (with_trace (s_trace s ++ [LogOperation MARK_BACKUP []]) s)).
    destruct (sys_mkdir_general E bp 493 s1) as [Mt [Mv [_ [Mf M0]]]].
    set (m := sys_mkdir E bp 493 s1) in *.
    destruct (Z.eqb_spec (fst m) 0) as [Hm|Hm]; cbn [negb].
    - (* the directory was created *)
      destruct (M0 Hm) as [_ Hp]. destruct (Hp _ _ Sp) as [_ Hframe].
      clear M0 Mf Mv Hp.
      assert (F2 : forall p, p <> BACKUP_DIR -> p <> bp ->
                             s_fs (snd m) p = s_fs s p).
      { intros p H1 H2. rewrite Hframe by assumption. reflexivity. }
      assert (T2 : s_trace (snd m) =
                   s_trace s ++ [LogOperation MARK_BACKUP []])
        by (rewrite Mt; reflexivity).
      clearbody m. clear Hframe Mt.
      rewrite bind_eq.
      destruct (sys_opendir_run E DASHBOARD_DIR (snd m)) as [R Hent].
      destruct (fst (sys_opendir E DASHBOARD_DIR (snd m))) as [entries|].
      + destruct (Hent entries eq_refl) as [d' [Hd' ->]]. clear Hent.
        rewrite F2 in Hd' by (try discriminate; apply not_eq_sym; exact Nd).
        rewrite Hd in Hd'. injection Hd' as <-.
        rewrite R. clear R.
        set (s3 := with_clock (S (s_clock (snd m))) (snd m)).
        assert (F3 : s_fs s3 = s_fs (snd m)) by reflexivity.
        assert (T3 : s_trace s3 = s_trace (snd m)) by reflexivity.
        clearbody s3.
        assert (Hsrc : forall e, In e (dir_entries d) ->
                  fs_file (s_fs s3) (DASHBOARD_DIR ++ "/" ++ d_name e)
                  = Some e).
        { intros e He. unfold fs_file.
          destruct Hwf as [Hnd Hall]. destruct (Hall e He) as [Hplain _].
          rewrite split_path_dir_name by assumption.
          rewrite F3, F2 by (try discriminate; apply not_eq_sym; exact Nd).
          rewrite Hd. apply lookup_unique; assumption. }
        destruct (backup_loop_run E d bp Hwf Nd Fit (dir_entries d)
                    (incl_refl _) (proj1 Hwf) (mkCounts 0 0) s3 Hsrc)
          as [L1 [_ [l [Lt L3]]]].
        destruct (backup_loop_counts E bp (dir_entries d) (mkCounts 0 0) s3)
          as [K1 [_ K3]].
        rewrite bind_eq.
        set (o := fold_m (backup_entry E bp) (dir_entries d)
                         (mkCounts 0 0) s3) in *.
        clearbody o.
        cbn [success_count file_count] in K1, K3.
        assert (Hc : count_errors BACKUP_FAILED l =
                     file_count (fst o) - success_count (fst o)).
        { rewrite Lt, count_errors_app in K3. lia. }
        assert (Fin : forall k : M (Z * option backup_counts),
                  forall ev,
                    s_fs (snd (k (snd o))) = s_fs (snd o) ->
                    s_trace (snd (k (snd o))) = s_trace (snd o) ++ [ev] ->
                    count_errors BACKUP_FAILED [ev] = 0 ->
                    snd (fst (k (snd o))) = Some (fst o) ->
                    (forall p, p <> BACKUP_DIR -> p <> bp ->
                       s_fs (snd (k (snd o))) p = s_fs s p) /\
                    forall c, snd (fst (k (snd o))) = Some c ->
                      (forall e, In e (dir_entries d) ->
                         d_type e <> DT_DIR ->
                         file_data (s_fs (snd (k (snd o))))
                                   (bp ++ "/" ++ d_name e) =
                           Some (i_data (d_ino e)) \/
                         In (LogError BACKUP_FAILED [ArgS (d_name e)])
                            (new_events s (snd (k (snd o))))) /\
                      (success_count c = file_count c ->
                       count_errors BACKUP_FAILED
                         (new_events s (snd (k (snd o)))) = 0)).
        { intros k ev Kf Kt Kc Kr.
          assert (Tall : s_trace (snd (k (snd o))) =
                         s_trace s ++
                         ([LogOperation MARK_BACKUP []] ++ l ++ [ev])).
          { rewrite Kt, Lt, T3, T2, <- !app_assoc. reflexivity. }
          rewrite (new_events_app _ _ _ Tall). split.
          - intros p H1 H2. rewrite Kf, L1, F3, F2 by assumption.
            reflexivity.
          - intros c Hcq. rewrite Kr in Hcq. injection Hcq as <-. split.
            + intros e He Hty.
              destruct (L3 e He Hty) as [H|H].
              * left. rewrite Kf. exact H.
              * right. apply in_or_app. right. apply in_or_app. left.
                exact H.
            + intros Heq. rewrite !count_errors_app, Kc, Hc.
              change (count_errors BACKUP_FAILED
                        [LogOperation MARK_BACKUP []]) with 0. lia. }
        destruct (success_count (fst o) =? file_count (fst o)).
        * apply (Fin (fun s => (_ ;; ret (SUCCESS, Some (fst o))) s)
                     (LogOperation "Backup completed successfully: %d files"
                                   [ArgD (success_count (fst o))]));
            reflexivity.
        * apply (Fin (fun s => (_ ;; ret (_, Some (fst o))) s)
                     (LogError "Backup partially completed: %d/%d files"
                               [ArgD (success_count (fst o));
                                ArgD (file_count (fst o))]));
            reflexivity.
      + rewrite bind_eq. cbn [ret fst snd]. split; [|discriminate].
        intros p H1 H2. simpl. rewrite R. simpl. apply F2; assumption.
    - cbn [fst snd]. split; [|discriminate].
      intros p H1 H2. simpl.
      rewrite Mf by (destruct Mv; congruence). reflexivity. }
  destruct Main as [M1 M2]. split; [exact M1|].
  intros c Hc. destruct (M2 c Hc) as [A B]. split; [exact A|].
  intros Heq e He Hty. destruct (A e He Hty) as [H|H]; [exact H|].
  exfalso. apply in_count_errors in H. rewrite (B Heq) in H. lia.
Qed.

Lemma backup_dashboard_needs_new_directory_witness :
  fst (backup_dashboard os_ok
         (snd (backup_dashboard os_ok state_published))) = FAILURE.
Proof.
  apply (backup_dashboard_needs_new_directory os_ok
           (snd (backup_dashboard os_ok state_published))).
  - vm_compute. lia.
  - left. vm_compute. discriminate.
Defined.

(** A directory that exists is still there after a copy. *)
Lemma fs_write_keeps E now fs path data p :
  fs p <> None -> fs_write E now fs path data p <> None.
Proof.
  intros H. unfold fs_write.
  destruct (split_path path) as [[d n]|]; [|exact H].
  destruct (fs d); [|exact H].
  unfold fs_set. destruct (String.eqb_spec p d); [discriminate | exact H].
Qed.

Lemma copy_file_keeps_directory E source destination s p :
  s_fs s p <> None ->
  s_fs (snd (copy_file E source destination s)) p <> None.
Proof.
  intros H. unfold copy_file. rewrite bind_eq.
  destruct (sys_open_read_run E source s) as [R1 _].
  set (s1 := snd (sys_open_read E source s)) in *. clearbody s1.
  destruct (fst (sys_open_read E source s)) as [e|];
    [|simpl; rewrite R1; exact H].
  rewrite bind_eq.
  destruct (sys_open_write_general E destination s1) as [_ [W1 W2]].
  set (s2 := snd (sys_open_write E destination s1)) in *.
  destruct (fst (sys_open_write E destination s1)).
  - destruct (W1 eq_refl) as [dd' [dn' [dir [_ [_ W]]]]].
    clear W1 W2. clearbody s2.
    assert (F2 : s_fs s2 p <> None).
    { rewrite W. apply fs_write_keeps. rewrite R1. exact H. }
    unfold bind, tick, get, modify, ret, log_error, emit. simpl.
    destruct (os_copy_io E (s_clock s2)); simpl;
      apply fs_write_keeps; exact F2.
  - simpl. rewrite (W2 eq_refl), R1. exact H.
Qed.

Lemma backup_loop_keeps_directory E bp p (entries : list dirent) :
  forall c0 s,
    s_fs s p <> None ->
    s_fs (snd (fold_m (backup_entry E bp) entries c0 s)) p <> None.
Proof.
  induction entries as [|x entries IH]; intros c0 s H; [exact H|].
  cbn [fold_m]. rewrite bind_eq. apply IH.
  unfold backup_entry. destruct (is_DT_DIR (d_type x)); [exact H|].
  rewrite bind_eq.
  pose proof (copy_file_keeps_directory E
                (snprintf_path DASHBOARD_DIR (d_name x))
                (snprintf_path bp (d_name x)) s p H) as C.
  destruct (fst (copy_file E _ _ s) =? SUCCESS); exact C.
Qed.

(** When the loop of [backup_dashboard] was reached, the directory it
    made was new and is there at the end. *)
Lemma backup_dashboard_new_directory E s c :
  snd (fst (backup_dashboard_counts E s)) = Some c ->
  s_fs s (backup_path_at E s) = None /\
  s_fs (snd (backup_dashboard_counts E s)) (backup_path_at E s) <> None.
Proof.
  rewrite backup_dashboard_counts_run. cbv zeta.
  set (bp := backup_path_at E s).
  set (s1 := with_clock (S (s_clock s))
               (with_trace (s_trace s ++ [LogOperation MARK_BACKUP []]) s)).
  destruct (sys_mkdir_general E bp 493 s1) as [_ [_ [Me [_ M0]]]].
  set (m := sys_mkdir E bp 493 s1) in *.
  destruct (Z.eqb_spec (fst m) 0) as [Hm|Hm]; cbn [negb];
    [|discriminate].
  destruct (M0 Hm) as [Hnew _]. clear M0.
  assert (Hold : s_fs s bp = None).
  { destruct (s_fs s bp) eqn:Hs; [|reflexivity]. exfalso.
    assert (C : fst m = -1) by (apply Me; simpl; rewrite Hs; discriminate).
    rewrite C in Hm. discriminate. }
  clear Me. clearbody m.
  rewrite bind_eq.
  destruct (sys_opendir_run E DASHBOARD_DIR (snd m)) as [R _].
  destruct (fst (sys_opendir E DASHBOARD_DIR (snd m))) as [entries|];
    [|discriminate].
  rewrite R. intros _. split; [exact Hold|].
  rewrite bind_eq.
  assert (L : s_fs (snd (fold_m (backup_entry E bp) entries (mkCounts 0 0)
                           (with_clock (S (s_clock (snd m))) (snd m)))) bp
              <> None).
  { apply backup_loop_keeps_directory. simpl. rewrite Hnew. discriminate. }
  set (o := fold_m (backup_entry E bp) entries (mkCounts 0 0)
                   (with_clock (S (s_clock (snd m))) (snd m))) in *.
  destruct (success_count (fst o) =? file_count (fst o)); exact L.
Qed.

(** C2.  [backup_dashboard] returns FAILURE with no file copied when the
    backup directory cannot be created (or the dashboard cannot be
    opened).  Otherwise it has made a new directory named after the
    current second and tries each of the N files of the dashboard
    directory: K copies succeed and every failure is logged.  Each file
    then has a copy with the same bytes in the new directory, or its
    failure is logged by name.  When K = N it returns SUCCESS and logs
    the count, and every file has its copy; when 0 < K < N it returns
    SUCCESS and logs the partial count K/N; it returns FAILURE only when
    K = 0. *)
Theorem backup_dashboard_result :
  forall (E : os) (s : state),
    let out := backup_dashboard_counts E s in
    let r := fst (fst out) in
    let s' := snd out in
    let bp := backup_path_at E s in
    backup_dashboard E s = (r, s') /\
    match snd (fst out) with
    | None =>
        r = FAILURE /\
        (In (LogError "Failed to create backup directory: %s" [ArgErrno])
            (new_events s s') \/
         In (LogError "Failed to open dashboard directory: %s" [ArgErrno])
            (new_events s s'))
    | Some c =>
        let K := success_count c in
        let N := file_count c in
        (exists d, s_fs s DASHBOARD_DIR = Some d /\
                   N = count_files (dir_entries d)) /\
        K = N - count_errors BACKUP_FAILED (new_events s s') /\
        0 <= K <= N /\
        (K = N ->
         r = SUCCESS /\
         In (LogOperation "Backup completed successfully: %d files" [ArgD K])
            (new_events s s')) /\
        (0 < K < N ->
         r = SUCCESS /\
         In (LogError "Backup partially completed: %d/%d files"
                      [ArgD K; ArgD N])
            (new_events s s')) /\
        (r = FAILURE -> K = 0 /\ 0 < N) /\
        s_fs s bp = None /\
        s_fs s' bp <> None /\
        (forall d,
           s_fs s DASHBOARD_DIR = Some d ->
           wf_entries (dir_entries d) ->
           (String.length
              (strftime_backup (os_localtime E (os_time E (s_clock s))))
            < Z.to_nat MAX_TIME_LENGTH)%nat ->
           (forall e, In e (dir_entries d) -> d_type e <> DT_DIR ->
              file_data (s_fs s') (bp ++ "/" ++ d_name e) =
                Some (i_data (d_ino e)) \/
              In (LogError BACKUP_FAILED [ArgS (d_name e)])
                 (new_events s s')) /\
           (K = N ->
            forall e, In e (dir_entries d) -> d_type e <> DT_DIR ->
              file_data (s_fs s') (bp ++ "/" ++ d_name e) =
                Some (i_data (d_ino e))))
    end.
Proof.
  intros E s out r s' bp.
  pose proof (backup_dashboard_counts_result E s) as H. cbv zeta in H.
  fold out in H. destruct H as [H1 H2].
  split; [exact H1|].
  destruct (snd (fst out)) as [c|] eqn:Hc; [|exact H2].
  destruct H2 as [A1 [A2 [A3 [A4 [A5 A6]]]]].
  destruct (backup_dashboard_new_directory E s c Hc) as [N1 N2].
  cbv zeta.
  split; [exact A1|]. split; [exact A2|]. split; [exact A3|].
  split; [exact A4|]. split; [exact A5|]. split; [exact A6|].
  split; [exact N1|]. split; [exact N2|].
  intros d Hd Hwf Hfit.
  destruct (backup_dashboard_copies E s d Hd Hwf Hfit) as [_ C].
  apply (C c Hc).
Qed.

(** C2 at work: two published files, both copied into the directory made
    for this second. *)
Lemma backup_dashboard_witness :
  fst (backup_dashboard os_ok state_published) = SUCCESS /\
  file_data
    (s_fs (snd (backup_dashboard_counts os_ok state_published)))
    (backup_path_at os_ok state_published ++ "/" ++ "report_Sales.xml")
  = Some "<sales/>"%string.
Proof.
  pose proof (backup_dashboard_result os_ok state_published) as H.
  cbv zeta in H. destruct H as [H1 H2].
  assert (Hc : snd (fst (backup_dashboard_counts os_ok state_published)) =
               Some (mkCounts 2 2)) by (vm_compute; reflexivity).
  rewrite Hc in H2.
  destruct H2 as [_ [_ [_ [Hall [_ [_ [_ [_ Hcopies]]]]]]]].
  destruct (Hall eq_refl) as [Hr _].
  split; [exact (eq_trans (f_equal fst H1) Hr)|].
  destruct (Hcopies
              (mkDirectory DASHBOARD_PERMISSIONS [sales_report; notes_file]))
    as [_ Hevery].
  - reflexivity.
  - split.
    + simpl. repeat constructor; simpl; intuition discriminate.
    + intros e [<-|[<-|[]]];
        (split; [apply no_char_example; reflexivity
                | unfold NAME_MAX; simpl; lia]).
  - vm_compute. lia.
  - apply (Hevery eq_refl sales_report); [left; reflexivity | discriminate].
Defined.

(** X12.  [backup_dashboard] leaves the upload and the dashboard
    directory as they are: it changes no directory other than the
    directory of this backup, the directory that holds the backups and
    the log directory. *)
Theorem backup_dashboard_footprint :
  forall (E : os) (s : state) (d : directory),
    s_fs s DASHBOARD_DIR = Some d ->
    wf_entries (dir_entries d) ->
    (String.length (strftime_backup (os_localtime E (os_time E (s_clock s))))
     < Z.to_nat MAX_TIME_LENGTH)%nat ->
    let s' := snd (backup_dashboard E s) in
    s_fs s' UPLOAD_DIR = s_fs s UPLOAD_DIR /\
    s_fs s' DASHBOARD_DIR = s_fs s DASHBOARD_DIR /\
    forall p, p <> BACKUP_DIR -> p <> backup_path_at E s -> p <> LOG_DIR ->
      s_fs s' p = s_fs s p.
Proof.
  intros E s d Hd Hwf Hfit s'. subst s'.
  destruct (backup_dashboard_copies E s d Hd Hwf Hfit) as [F _].
  destruct (backup_path_split E s Hfit) as [_ [_ [Nd [_ _]]]].
  assert (Hu : backup_path_at E s <> UPLOAD_DIR).
  { intros C. destruct (backup_path_split E s Hfit) as [_ [Sp _]].
    rewrite C in Sp. discriminate Sp. }
  unfold backup_dashboard. rewrite bind_eq. cbn [ret fst snd].
  split; [apply F; [discriminate | apply not_eq_sym; exact Hu]|].
  split; [apply F; [discriminate | apply not_eq_sym; exact Nd]|].
  intros p H1 H2 _. apply F; assumption.
Qed.

Lemma backup_dashboard_footprint_witness :
  s_fs (snd (backup_dashboard os_ok state_published)) DASHBOARD_DIR =
  s_fs state_published DASHBOARD_DIR.
Proof.
  destruct (backup_dashboard_footprint os_ok state_published
              (mkDirectory DASHBOARD_PERMISSIONS [sales_report; notes_file]))
    as [_ [H _]]; [| | | exact H].
  - reflexivity.
  - split.
    + simpl. repeat constructor; simpl; intuition discriminate.
    + intros e [<-|[<-|[]]];
        (split; [apply no_char_example; reflexivity
                | unfold NAME_MAX; simpl; lia]).
  - vm_compute. lia.
Defined.

(* ----------------------------------------------------------------- *)
(** *** The daemon loop: when it ends, how often it transfers *)

Section ExitLine.

Variable E : os.

Let P := not_exit_line.

Lemma quiet_exit_lock_directories : emits P (lock_directories E).
Proof. unfold lock_directories. emits_tac. Qed.

Lemma quiet_exit_unlock_directories : emits P (unlock_directories E).
Proof. unfold unlock_directories. emits_tac. Qed.

Lemma quiet_exit_transfer_reports : emits P (transfer_reports E).
Proof. unfold transfer_reports. emits_tac. Qed.

Lemma quiet_exit_check_missing_reports : emits P (check_missing_reports E).
Proof. unfold check_missing_reports. emits_tac. Qed.

Lemma quiet_exit_backup_dashboard : emits P (backup_dashboard E).
Proof. unfold backup_dashboard, backup_dashboard_counts. emits_tac. Qed.

Lemma quiet_exit_monitor : emits P (monitor_directory_changes E).
Proof.
  unfold monitor_directory_changes, monitor_current, monitor_previous.
  emits_tac.
Qed.

Hint Resolve quiet_exit_lock_directories quiet_exit_unlock_directories
  quiet_exit_transfer_reports quiet_exit_check_missing_reports
  quiet_exit_backup_dashboard quiet_exit_monitor : emits_db.

Lemma quiet_exit_daemon_iteration last_check :
  emits P (daemon_iteration E last_check).
Proof.
  unfold daemon_iteration, scheduled_transfer_and_backup, manual_backup.
  emits_tac.
Qed.

End ExitLine.

(** While the loop sleeps, SIGTERM and SIGINT raise [daemon_exit]; no
    signal lowers it. *)
Lemma sleep_exit i s :
  daemon_exit (snd (sleep i s)) =
  if List.existsb terminates (arriving i) then 1 else daemon_exit s.
Proof.
  unfold sleep. rewrite bind_eq. cbn [modify snd].
  set (s0 := with_fs (others i (s_fs s)) s).
  change (daemon_exit s) with (daemon_exit s0).
  generalize s0 as z. generalize tt as u. clear.
  induction (arriving i) as [|sig sigs IH]; intros u z; cbn [fold_m].
  - reflexivity.
  - rewrite bind_eq, IH. cbn [List.existsb].
    destruct sig; cbn [terminates orb]; try reflexivity;
      destruct (List.existsb terminates sigs); reflexivity.
Qed.

Lemma existsb_terminates (sigs : list signal) :
  List.existsb terminates sigs = true <->
  In SIGTERM sigs \/ In SIGINT sigs.
Proof.
  rewrite existsb_exists. split.
  - intros [sig [Hin Ht]]. destruct sig; try discriminate; auto.
  - intros [H|H]; eexists; (split; [exact H | reflexivity]).
Qed.

(** The loop as long as no terminating signal arrives. *)
Lemma daemon_loop_running E inputs :
  (forall i, In i inputs -> List.existsb terminates (arriving i) = false) ->
  forall last_check s,
    daemon_exit s = 0 ->
    let s' := snd (daemon_loop E inputs last_check s) in
    daemon_exit s' = 0 /\
    exists l, s_trace s' = s_trace s ++ l /\
              forallb not_exit_line l = true.
Proof.
  induction inputs as [|i inputs IH]; intros Hsig lc s Hexit.
  - simpl. split; [exact Hexit|]. exists []. rewrite app_nil_r. auto.
  - cbn [daemon_loop]. rewrite bind_eq.
    change (get daemon_exit s) with (daemon_exit s, s). cbn [fst snd].
    rewrite Hexit. cbn [Z.eqb negb]. rewrite !bind_eq.
    destruct (daemon_iteration_run E lc s) as [_ [_ X]].
    destruct (quiet_exit_daemon_iteration E lc s) as [l1 [T1 Q1]].
    set (s1 := snd (daemon_iteration E lc s)) in *.
    pose proof (sleep_exit i s1) as X2.
    destruct (sleep_run i s1) as [T2 _].
    rewrite (Hsig i (or_introl eq_refl)), X, Hexit in X2.
    set (s2 := snd (sleep i s1)) in *.
    destruct (IH (fun j Hj => Hsig j (or_intror Hj))
                 (fst (daemon_iteration E lc s)) s2 X2) as [X3 [l3 [T3 Q3]]].
    split; [exact X3|].
    exists (l1 ++ l3). split.
    + rewrite T3, T2, T1, app_assoc. reflexivity.
    + rewrite forallb_app, Q1, Q3. reflexivity.
Qed.

(** X13.  The loop ends on SIGTERM and SIGINT and on nothing else.  A
    terminating signal that arrives during a sleep lets the pass in
    progress finish; the loop then logs its last line and runs no
    further pass, whatever else is pending.  As long as none arrives
    [daemon_exit] stays 0 and that line is not logged. *)
Theorem daemon_loop_ends_on_termination_signals :
  forall (E : os),
    (forall (i : sleep_input) (rest : list sleep_input) (last_check : Z)
            (s : state),
       daemon_exit s = 0 ->
       In SIGTERM (arriving i) \/ In SIGINT (arriving i) ->
       rest <> [] ->
       let s1 := snd (sleep i (snd (daemon_iteration E last_check s))) in
       daemon_exit s1 = 1 /\
       daemon_loop E (i :: rest) last_check s =
         log_operation EXIT_LINE [] s1) /\
    (forall (inputs : list sleep_input) (last_check : Z) (s : state),
       daemon_exit s = 0 ->
       (forall i, In i inputs ->
          ~ In SIGTERM (arriving i) /\ ~ In SIGINT (arriving i)) ->
       let s' := snd (daemon_loop E inputs last_check s) in
       daemon_exit s' = 0 /\
       ~ In (LogOperation EXIT_LINE []) (new_events s s')).
Proof.
  intros E. split.
  - intros i rest lc s Hexit Hsig Hrest s1.
    assert (X1 : daemon_exit s1 = 1).
    { subst s1. rewrite sleep_exit.
      rewrite (proj2 (existsb_terminates (arriving i)) Hsig). reflexivity. }
    split; [exact X1|].
    cbn [daemon_loop]. rewrite bind_eq.
    change (get daemon_exit s) with (daemon_exit s, s). cbn [fst snd].
    rewrite Hexit. cbn [Z.eqb negb]. rewrite !bind_eq. fold s1.
    destruct rest as [|j rest]; [congruence|].
    cbn [daemon_loop]. rewrite bind_eq.
    change (get daemon_exit s1) with (daemon_exit s1, s1). cbn [fst snd].
    rewrite X1. reflexivity.
  - intros inputs lc s Hexit Hsig s'.
    destruct (daemon_loop_running E inputs) with (last_check := lc) (s := s)
      as [X [l [T Q]]].
    + intros i Hi. destruct (Hsig i Hi) as [A B].
      destruct (List.existsb terminates (arriving i)) eqn:Ex;
        [|reflexivity].
      apply existsb_terminates in Ex. tauto.
    + exact Hexit.
    + split; [exact X|]. subst s'.
      rewrite (new_events_app _ _ _ T). intros C.
      rewrite forallb_forall in Q. specialize (Q _ C). discriminate.
Qed.

Lemma daemon_loop_ends_on_termination_signals_witness :
  daemon_loop os_ok [stopping_sleep; quiet_sleep; quiet_sleep] 0
              (started (fs_of [] [])) =
  log_operation EXIT_LINE []
    (snd (sleep stopping_sleep
            (snd (daemon_iteration os_ok 0 (started (fs_of [] [])))))).
Proof.
  destruct (daemon_loop_ends_on_termination_signals os_ok) as [H _].
  apply (H stopping_sleep [quiet_sleep; quiet_sleep] 0
           (started (fs_of [] []))).
  - reflexivity.
  - left. simpl. auto.
  - discriminate.
Defined.

(** X14.  The scheduled sequence is started in every pass that reads
    the scheduled minute, not once a day: while the clock shows 01:00
    and no terminating signal arrives, a loop of n passes starts it n
    times. *)
Theorem scheduled_sequence_repeats_within_the_minute :
  forall (E : os) (inputs : list sleep_input) (last_check : Z) (s : state),
    always_transfer_time E ->
    daemon_exit s = 0 ->
    (forall i, In i inputs ->
       ~ In SIGTERM (arriving i) /\ ~ In SIGINT (arriving i)) ->
    scheduled_runs (new_events s (snd (daemon_loop E inputs last_check s)))
    = List.length inputs.
Proof.
  intros E inputs lc s Halways Hexit Hsig.
  destruct (extends_daemon_loop E inputs lc s) as [l [Hl _]].
  rewrite (new_events_app _ _ _ Hl).
  assert (Hc : forall ins lc0 s0,
             daemon_exit s0 = 0 ->
             (forall i, In i ins ->
                List.existsb terminates (arriving i) = false) ->
             count_occ string_dec
               (markers (s_trace (snd (daemon_loop E ins lc0 s0))))
               MARK_SCHEDULED =
             (count_occ string_dec (markers (s_trace s0)) MARK_SCHEDULED +
              List.length ins)%nat).
  { clear Hl l Hsig Hexit lc s inputs.
    intros inputs.
    induction inputs as [|i inputs IH]; intros lc s Hexit Hsig.
    - simpl. lia.
    - cbn [daemon_loop]. rewrite bind_eq.
      change (get daemon_exit s) with (daemon_exit s, s). cbn [fst snd].
      rewrite Hexit. cbn [Z.eqb negb]. rewrite !bind_eq.
      destruct (daemon_iteration_run E lc s) as [M [_ X]].
      destruct (sleep_run i (snd (daemon_iteration E lc s))) as [T _].
      pose proof (sleep_exit i (snd (daemon_iteration E lc s))) as X2.
      rewrite (Hsig i (or_introl eq_refl)), X, Hexit in X2.
      rewrite IH.
      + rewrite T, M, !count_occ_app.
        assert (Hd : transfer_due (os_localtime E (os_time E (s_clock s)))
                                  (force_transfer s) = true).
        { unfold transfer_due.
          fold (at_transfer_time (os_localtime E (os_time E (s_clock s)))).
          rewrite Halways. reflexivity. }
        rewrite Hd.
        destruct (negb (force_backup s =? 0)); simpl; lia.
      + exact X2.
      + intros j Hj. apply Hsig. right. exact Hj. }
  specialize (Hc inputs lc s Hexit).
  rewrite Hl, markers_app, count_occ_app in Hc.
  unfold scheduled_runs.
  assert (Hs : forall i, In i inputs ->
                 List.existsb terminates (arriving i) = false).
  { intros i Hi. destruct (Hsig i Hi) as [A B].
    destruct (List.existsb terminates (arriving i)) eqn:Ex; [|reflexivity].
    apply existsb_terminates in Ex. tauto. }
  specialize (Hc Hs). lia.
Qed.

Lemma scheduled_sequence_repeats_within_the_minute_witness :
  scheduled_runs
    (new_events (started (fs_of [] []))
       (snd (daemon_loop (os_at tm_one_am) [quiet_sleep; quiet_sleep] 0
                         (started (fs_of [] []))))) = 2%nat.
Proof.
  apply (scheduled_sequence_repeats_within_the_minute (os_at tm_one_am)
           [quiet_sleep; quiet_sleep] 0 (started (fs_of [] []))).
  - intros t. reflexivity.
  - reflexivity.
  - intros i [<-|[<-|[]]]; split; intros [].
Defined.

(* ----------------------------------------------------------------- *)
(** *** Directory management *)

Lemma sys_stat_isdir_run E path s :
  sys_stat_isdir E path s =
  (match fs_kind (s_fs s) path with
   | Some k => if os_stat E (s_clock s) path then Some k else None
   | None => None
   end, with_clock (S (s_clock s)) s).
Proof.
  unfold sys_stat_isdir, bind, tick, get, ret. simpl.
  destruct (fs_kind (s_fs s) path); [|reflexivity].
  destruct (os_stat E (s_clock s) path); reflexivity.
Qed.

(** What [create_directory_if_not_exists] does, case by case. *)
Lemma create_directory_run E path s :
  let out := create_directory_if_not_exists E path s in
  let s1 := with_clock (S (s_clock s)) s in
  match fst (sys_stat_isdir E path s) with
  | Some true => out = (SUCCESS, s1)
  | Some false =>
      fst out = FAILURE /\ s_fs (snd out) = s_fs s /\
      s_trace (snd out) =
        s_trace s ++ [LogError "%s exists but is not a directory"
                               [ArgS path]]
  | None =>
      (fst out = SUCCESS /\
       s_fs (snd out) path = Some (mkDirectory 493 []) /\
       s_trace (snd out) = s_trace s ++ [LogOperation CREATED [ArgS path]])
      \/
      (fst out = FAILURE /\ s_fs (snd out) = s_fs s /\
       s_trace (snd out) =
         s_trace s ++ [LogError "Failed to create directory %s: %s"
                                [ArgS path; ArgErrno]])
  end.
Proof.
  cbv zeta. unfold create_directory_if_not_exists. rewrite bind_eq.
  rewrite sys_stat_isdir_run. cbn [fst snd].
  destruct (match fs_kind (s_fs s) path with
            | Some k => if os_stat E (s_clock s) path then Some k else None
            | None => None
            end) as [[|]|].
  - reflexivity.
  - simpl. auto.
  - rewrite bind_eq.
    destruct (sys_mkdir_general E path 493 (with_clock (S (s_clock s)) s))
      as [Mt [Mv [_ [Mf M0]]]].
    set (m := sys_mkdir E path 493 (with_clock (S (s_clock s)) s)) in *.
    destruct Mv as [Z|Z]; rewrite Z; cbn [Z.eqb negb].
    + left. destruct (M0 Z) as [H _]. simpl. rewrite Mt. auto.
    + right. simpl. rewrite (Mf Z), Mt. auto.
Qed.

(** X15.  [create_directory_if_not_exists] returns SUCCESS only when the
    path names a directory afterwards, and FAILURE only with an error
    logged and every directory other than the log directory as it was.
    A directory that exists is
    left alone and nothing is logged, so a second call after a
    successful one changes nothing.  A file of that name is reported and
    left in place. *)
Theorem create_directory_if_not_exists_outcome :
  forall (E : os) (path : string) (s : state),
    let out := create_directory_if_not_exists E path s in
    (fst out = SUCCESS \/ fst out = FAILURE) /\
    (fst out = SUCCESS -> fs_kind (s_fs (snd out)) path = Some true) /\
    (fst out = FAILURE ->
     unchanged_but_logs (s_fs s) (s_fs (snd out)) /\
     exists f a, new_events s (snd out) = [LogError f a]) /\
    (fs_kind (s_fs s) path = Some true ->
     os_stat E (s_clock s) path = true ->
     out = (SUCCESS, with_clock (S (s_clock s)) s)) /\
    (fs_kind (s_fs s) path = Some false ->
     os_stat E (s_clock s) path = true ->
     fst out = FAILURE /\
     new_events s (snd out) =
       [LogError "%s exists but is not a directory" [ArgS path]]) /\
    (fst out = SUCCESS ->
     os_stat E (s_clock (snd out)) path = true ->
     create_directory_if_not_exists E path (snd out) =
       (SUCCESS, with_clock (S (s_clock (snd out))) (snd out))).
Proof.
  intros E path s out.
  assert (Hex : forall z, fs_kind (s_fs z) path = Some true ->
                  os_stat E (s_clock z) path = true ->
                  create_directory_if_not_exists E path z =
                  (SUCCESS, with_clock (S (s_clock z)) z)).
  { intros z Hk Hs. pose proof (create_directory_run E path z) as R.
    cbv zeta in R. rewrite sys_stat_isdir_run in R. cbn [fst] in R.
    rewrite Hk, Hs in R. exact R. }
  assert (Hok : fst out = SUCCESS -> fs_kind (s_fs (snd out)) path = Some true).
  { subst out. pose proof (create_directory_run E path s) as R.
    cbv zeta in R. rewrite sys_stat_isdir_run in R. cbn [fst] in R.
    destruct (fs_kind (s_fs s) path) as [k|] eqn:Hk.
    - destruct (os_stat E (s_clock s) path).
      + destruct k.
        * rewrite R. intros _. exact Hk.
        * destruct R as [R _]. rewrite R. discriminate.
      + destruct R as [[_ [R _]]|[R _]].
        * intros _. unfold fs_kind. rewrite R. reflexivity.
        * rewrite R. discriminate.
    - destruct R as [[_ [R _]]|[R _]].
      + intros _. unfold fs_kind. rewrite R. reflexivity.
      + rewrite R. discriminate. }
  split; [|split; [exact Hok|split; [|split; [|split]]]].
  - subst out. pose proof (create_directory_run E path s) as R.
    cbv zeta in R.
    destruct (fst (sys_stat_isdir E path s)) as [[|]|].
    + rewrite R. left. reflexivity.
    + right. tauto.
    + destruct R as [[R _]|[R _]]; auto.
  - subst out. pose proof (create_directory_run E path s) as R.
    cbv zeta in R.
    destruct (fst (sys_stat_isdir E path s)) as [[|]|].
    + rewrite R. discriminate.
    + intros _. destruct R as [_ [R T]].
      split; [apply same_fs_unchanged_but_logs; exact R|].
      eexists. eexists. apply new_events_app. exact T.
    + destruct R as [[R _]|[_ [R T]]]; [rewrite R; discriminate|].
      intros _. split; [apply same_fs_unchanged_but_logs; exact R|].
      eexists. eexists. apply new_events_app. exact T.
  - intros Hk Hs. apply Hex; assumption.
  - intros Hk Hs. subst out.
    pose proof (create_directory_run E path s) as R.
    cbv zeta in R. rewrite sys_stat_isdir_run in R. cbn [fst] in R.
    rewrite Hk, Hs in R. destruct R as [R [_ T]].
    split; [exact R|]. apply new_events_app. exact T.
  - intros Hs Hst. apply Hex; [apply Hok; exact Hs | exact Hst].
Qed.

Lemma create_directory_if_not_exists_outcome_witness :
  fs_kind
    (s_fs (snd (create_directory_if_not_exists os_ok LOG_DIR
                  (started fs_installed))))
    LOG_DIR = Some true.
Proof.
  destruct (create_directory_if_not_exists_outcome os_ok LOG_DIR
              (started fs_installed)) as [_ [H _]].
  apply H. reflexivity.
Defined.

Lemma only_dot_entries_true (entries : list dirent) :
  only_dot_entries entries = TRUE <->
  forall e, In e entries -> d_name e = "." \/ d_name e = "..".
Proof.
  induction entries as [|x entries IH]; simpl.
  - split; [intros _ e [] | reflexivity].
  - rewrite !CStringFacts.strcmp_eqb.
    destruct (String.eqb_spec (d_name x) ".") as [H1|H1];
      destruct (String.eqb_spec (d_name x) "..") as [H2|H2]; simpl;
      try (rewrite IH; split;
           [intros H e [<-|He]; auto | intros H e He; apply H; auto]).
    split; [discriminate|]. intros H.
    destruct (H x (or_introl eq_refl)); contradiction.
Qed.

(** X16.  [is_directory_empty] answers TRUE exactly when the directory
    can be opened and lists nothing but "." and ".."; FALSE therefore
    also stands for a directory that could not be opened, which is
    logged.  It changes no directory other than the log directory. *)
Theorem is_directory_empty_spec :
  forall (E : os) (path : string) (s : state),
    let out := is_directory_empty E path s in
    (fst out = TRUE \/ fst out = FALSE) /\
    unchanged_but_logs (s_fs s) (s_fs (snd out)) /\
    (fst out = TRUE <->
     exists d, s_fs s path = Some d /\
               os_opendir E (s_clock s) path = true /\
               forall e, In e (dir_entries d) ->
                 d_name e = "." \/ d_name e = "..") /\
    (s_fs s path = None \/ os_opendir E (s_clock s) path = false ->
     fst out = FALSE /\
     new_events s (snd out) =
       [LogError "Failed to open directory %s: %s" [ArgS path; ArgErrno]]).
Proof.
  intros E path s out. subst out.
  unfold is_directory_empty, sys_opendir, bind, tick, get, ret, log_error,
    emit, modify. simpl.
  destruct (s_fs s path) as [d|] eqn:Hd.
  - destruct (os_opendir E (s_clock s) path) eqn:Ho; simpl.
    + split.
      { assert (H : forall l, only_dot_entries l = TRUE \/
                              only_dot_entries l = FALSE).
        { induction l as [|x l IH]; simpl; auto.
          destruct (_ && _)%bool; auto. }
        apply H. }
      split; [intros p _; reflexivity|]. split.
      * rewrite only_dot_entries_true. split.
        -- intros H. exists d. auto.
        -- intros [d' [Hd' [_ H]]]. injection Hd' as <-. exact H.
      * intros [C|C]; discriminate.
    + split; [right; reflexivity|]. split; [intros p _; reflexivity|]. split.
      * split; [discriminate|]. intros [d' [_ [C _]]]. discriminate.
      * intros _. split; [reflexivity|].
        apply new_events_app. reflexivity.
  - simpl. split; [right; reflexivity|].
    split; [intros p _; reflexivity|]. split.
    + split; [discriminate|]. intros [d' [C _]]. discriminate.
    + intros _. split; [reflexivity|]. apply new_events_app. reflexivity.
Qed.

(** X17.  A directory other than the log directory that
    [create_directory_if_not_exists] has just created is empty for
    [is_directory_empty], provided it can be opened.  (The log directory
    is not: the line that reports its creation is written into it.) *)
Theorem created_directory_is_empty :
  forall (E : os) (path : string) (s : state),
    path <> LOG_DIR ->
    let made := create_directory_if_not_exists E path s in
    In (LogOperation CREATED [ArgS path]) (new_events s (snd made)) ->
    os_opendir E (s_clock (snd made)) path = true ->
    fst made = SUCCESS /\
    fst (is_directory_empty E path (snd made)) = TRUE.
Proof.
  intros E path s _ made Hlog Hopen. subst made.
  pose proof (create_directory_run E path s) as R. cbv zeta in R.
  assert (Hc : fst (create_directory_if_not_exists E path s) = SUCCESS /\
               s_fs (snd (create_directory_if_not_exists E path s)) path =
                 Some (mkDirectory 493 [])).
  { destruct (fst (sys_stat_isdir E path s)) as [[|]|].
    - exfalso. rewrite R in Hlog. simpl in Hlog.
      rewrite (new_events_app s _ []) in Hlog
        by (simpl; rewrite app_nil_r; reflexivity).
      exact Hlog.
    - exfalso. destruct R as [_ [_ T]].
      rewrite (new_events_app _ _ _ T) in Hlog.
      destruct Hlog as [C|[]]. discriminate.
    - destruct R as [[R1 [R2 _]]|[_ [_ T]]]; [auto|].
      exfalso. rewrite (new_events_app _ _ _ T) in Hlog.
      destruct Hlog as [C|[]]. discriminate. }
  destruct Hc as [Hs Hf]. split; [exact Hs|].
  set (s1 := snd (create_directory_if_not_exists E path s)) in *.
  unfold is_directory_empty, sys_opendir, bind, tick, get, ret. simpl.
  rewrite Hf, Hopen. reflexivity.
Qed.

Lemma created_directory_is_empty_witness :
  fst (is_directory_empty os_ok ARCHIVE_DIR
         (snd (create_directory_if_not_exists os_ok ARCHIVE_DIR
                 (started fs_installed)))) = TRUE.
Proof.
  apply (created_directory_is_empty os_ok ARCHIVE_DIR
           (started fs_installed)).
  - discriminate.
  - vm_compute. left. reflexivity.
  - reflexivity.
Defined.

(* ----------------------------------------------------------------- *)
(** *** The FIFO: set-up, tear-down, sending *)

Section Ipc.

Variable E : os.
Variable F : os_process.

Lemma sys_access_run path s :
  sys_access F path s =
  (if match fs_kind (s_fs s) path with
      | Some _ => os_access F (s_clock s) path
      | None => false
      end then 0 else -1,
   with_clock (S (s_clock s)) s).
Proof.
  unfold sys_access, bind, tick, get, ret. simpl.
  destruct (fs_kind (s_fs s) path); [|reflexivity].
  destruct (os_access F (s_clock s) path); reflexivity.
Qed.

Lemma sys_mkfifo_general path mode s :
  let out := sys_mkfifo E F path mode s in
  s_trace (snd out) = s_trace s /\
  fifo_fd (snd out) = fifo_fd s /\
  (fst out = 0 \/ fst out = -1) /\
  (fst out = -1 -> s_fs (snd out) = s_fs s) /\
  (fst out = 0 -> fs_file (s_fs (snd out)) path <> None).
Proof.
  unfold sys_mkfifo, bind, tick, get, modify, ret. simpl.
  destruct (fs_kind (s_fs s) path);
    [repeat split; auto; discriminate|].
  destruct (split_path path) as [[parent name]|] eqn:Sp;
    [|repeat split; auto; discriminate].
  destruct (s_fs s parent) as [pd|] eqn:Fp;
    [|repeat split; auto; discriminate].
  destruct (os_mkfifo F (s_clock s) path); simpl;
    [|repeat split; auto; discriminate].
  repeat split; auto; try discriminate.
  intros _. unfold fs_file. rewrite Sp. unfold fs_set.
  rewrite String.eqb_refl. cbn [dir_entries]. rewrite lookup_app.
  destruct (lookup_entry name (dir_entries pd)); [discriminate|].
  unfold name_is. cbn [d_name]. rewrite String.eqb_refl. discriminate.
Qed.

Lemma sys_open_rdwr_run path s :
  sys_open_rdwr E F path s =
  (if match fs_file (s_fs s) path with
      | Some _ => os_open E (s_clock s) path
      | None => false
      end then Z.of_nat (os_fd F (s_clock s)) else -1,
   with_clock (S (s_clock s)) s).
Proof.
  unfold sys_open_rdwr, bind, tick, get, ret. simpl.
  destruct (fs_file (s_fs s) path); [|reflexivity].
  destruct (os_open E (s_clock s) path); reflexivity.
Qed.

(** The second half of [setup_ipc]: opening the FIFO. *)
Lemma setup_ipc_open s0 s :
  s_trace s = s_trace s0 ->
  let out :=
    (fd <- sys_open_rdwr E F FIFO_PATH ;;
     modify (with_fifo_fd fd) ;;
     if fd =? -1 then
       log_error "Failed to open FIFO: %s" [ArgErrno] ;; ret FAILURE
     else log_operation "IPC setup completed" [] ;; ret SUCCESS) s in
  s_fs (snd out) = s_fs s /\
  ((fst out = SUCCESS /\ 0 <= fifo_fd (snd out) /\
    fs_file (s_fs s) FIFO_PATH <> None /\
    new_events s0 (snd out) = [LogOperation SETUP_DONE []]) \/
   (fst out = FAILURE /\ fifo_fd (snd out) = -1 /\
    new_events s0 (snd out) = [LogError OPEN_FIFO_FAILED [ArgErrno]])).
Proof.
  intros T. cbv zeta. rewrite bind_eq, sys_open_rdwr_run. cbn [fst snd].
  destruct (fs_file (s_fs s) FIFO_PATH) as [e|].
  - destruct (os_open E (s_clock s) FIFO_PATH).
    + assert (Hfd : (Z.of_nat (os_fd F (s_clock s)) =? -1) = false)
        by (apply Z.eqb_neq; lia).
      unfold bind, modify, log_operation, emit, ret. simpl. rewrite Hfd.
      simpl. split; [reflexivity|]. left.
      split; [reflexivity|]. split; [lia|]. split; [discriminate|].
      apply new_events_app. simpl. rewrite T. reflexivity.
    + simpl. split; [reflexivity|]. right.
      split; [reflexivity|]. split; [reflexivity|].
      apply new_events_app. simpl. rewrite T. reflexivity.
  - simpl. split; [reflexivity|]. right.
    split; [reflexivity|]. split; [reflexivity|].
    apply new_events_app. simpl. rewrite T. reflexivity.
Qed.

Lemma setup_ipc_run s :
  let out := setup_ipc E F s in
  (fst out = SUCCESS \/ fst out = FAILURE) /\
  (fst out = SUCCESS ->
   0 <= fifo_fd (snd out) /\
   fs_file (s_fs (snd out)) FIFO_PATH <> None /\
   new_events s (snd out) = [LogOperation SETUP_DONE []]) /\
  (fst out = FAILURE ->
   (new_events s (snd out) = [LogError MKFIFO_FAILED [ArgErrno]] /\
    fifo_fd (snd out) = fifo_fd s /\ s_fs (snd out) = s_fs s) \/
   (new_events s (snd out) = [LogError OPEN_FIFO_FAILED [ArgErrno]] /\
    fifo_fd (snd out) = -1)) /\
  (fs_kind (s_fs s) FIFO_PATH <> None ->
   os_access F (s_clock s) FIFO_PATH = true ->
   s_fs (snd out) = s_fs s).
Proof.
  cbv zeta. unfold setup_ipc. rewrite bind_eq, sys_access_run.
  cbn [fst snd].
  set (s1 := with_clock (S (s_clock s)) s).
  assert (Hopen : forall z, s_trace z = s_trace s ->
            let out :=
              (fd <- sys_open_rdwr E F FIFO_PATH ;;
               modify (with_fifo_fd fd) ;;
               if fd =? -1 then
                 log_error "Failed to open FIFO: %s" [ArgErrno] ;;
                 ret FAILURE
               else log_operation "IPC setup completed" [] ;; ret SUCCESS)
                z in
            (fst out = SUCCESS \/ fst out = FAILURE) /\
            (fst out = SUCCESS ->
             0 <= fifo_fd (snd out) /\
             fs_file (s_fs (snd out)) FIFO_PATH <> None /\
             new_events s (snd out) = [LogOperation SETUP_DONE []]) /\
            (fst out = FAILURE ->
             (new_events s (snd out) = [LogError MKFIFO_FAILED [ArgErrno]] /\
              fifo_fd (snd out) = fifo_fd s /\ s_fs (snd out) = s_fs s) \/
             (new_events s (snd out) = [LogError OPEN_FIFO_FAILED [ArgErrno]]
              /\ fifo_fd (snd out) = -1)) /\
            s_fs (snd out) = s_fs z).
  { intros z Tz. cbv zeta.
    destruct (setup_ipc_open s z Tz) as [Fz [[A [B [C D]]]|[A [B C]]]].
    - split; [left; exact A|]. split.
      + intros _. rewrite Fz. auto.
      + split; [rewrite A; discriminate | exact Fz].
    - split; [right; exact A|]. split; [rewrite A; discriminate|].
      split; [|exact Fz]. intros _. right. auto. }
  destruct (match fs_kind (s_fs s) FIFO_PATH with
            | Some _ => os_access F (s_clock s) FIFO_PATH
            | None => false
            end) eqn:Ha.
  - (* the FIFO is there *)
    cbn [Z.eqb negb]. rewrite bind_eq. cbn [ret fst snd Z.eqb negb].
    destruct (Hopen s1 eq_refl) as [H1 [H2 [H3 H4]]].
    split; [exact H1|]. split; [exact H2|]. split; [exact H3|].
    intros _ _. exact H4.
  - cbn [Z.eqb negb]. rewrite bind_eq.
    destruct (sys_mkfifo_general FIFO_PATH 438 s1) as [Mt [Md [Mv [Mf M0]]]].
    set (m := sys_mkfifo E F FIFO_PATH 438 s1) in *.
    assert (Hna : fs_kind (s_fs s) FIFO_PATH <> None ->
                  os_access F (s_clock s) FIFO_PATH = true -> False).
    { intros A B. destruct (fs_kind (s_fs s) FIFO_PATH); [|contradiction].
      rewrite B in Ha. discriminate. }
    destruct Mv as [Z|Z]; rewrite Z; cbn [Z.eqb negb].
    + destruct (Hopen (snd m) Mt) as [H1 [H2 [H3 H4]]].
      split; [exact H1|]. split; [exact H2|]. split; [exact H3|].
      intros A B. destruct (Hna A B).
    + rewrite bind_eq. cbn [ret fst snd].
      split; [right; reflexivity|]. split; [discriminate|]. split.
      * intros _. left. split; [|split].
        -- apply new_events_app. simpl. rewrite Mt. reflexivity.
        -- simpl. exact Md.
        -- simpl. rewrite (Mf Z). reflexivity.
      * intros A B. destruct (Hna A B).
Qed.

Lemma sys_unlink_errno_run path s :
  let out := sys_unlink_errno E F path s in
  s_trace (snd out) = s_trace s /\
  fifo_fd (snd out) = fifo_fd s /\
  (forall q, q <> path ->
     fs_file (s_fs (snd out)) q = fs_file (s_fs s) q) /\
  (fst (fst out) = 0 \/ fst (fst out) = -1) /\
  (fst (fst out) = 0 -> fs_file (s_fs (snd out)) path = None) /\
  (fst (fst out) = -1 -> s_fs (snd out) = s_fs s) /\
  (fs_file (s_fs s) path = None ->
   fst (fst out) = -1 /\ snd (fst out) = ENOENT).
Proof.
  cbv zeta. unfold sys_unlink_errno. rewrite !bind_eq. cbn [get fst snd].
  destruct (sys_unlink_general E path s) as [Ut [Uv [Uf [U0 U1]]]].
  assert (Ud : fifo_fd (snd (sys_unlink E path s)) = fifo_fd s)
    by (apply (keeps_sys_unlink E fifo_fd); reflexivity).
  assert (Un : fs_file (s_fs s) path = None ->
               fst (sys_unlink E path s) = -1).
  { intros Hn. unfold sys_unlink, bind, tick, get, ret. simpl.
    unfold fs_file in Hn.
    destruct (split_path path) as [[d n]|]; [|reflexivity].
    destruct (s_fs s d); [|reflexivity].
    rewrite Hn. reflexivity. }
  set (u := sys_unlink E path s) in *.
  destruct Uv as [Z|Z]; rewrite Z in *; cbn [Z.eqb].
  - cbn [ret fst snd].
    split; [exact Ut|]. split; [exact Ud|]. split; [exact Uf|].
    split; [left; reflexivity|].
    split; [intros _; apply U0; reflexivity|].
    split; [discriminate|].
    intros Hn. specialize (Un Hn). discriminate.
  - destruct (fs_file (s_fs s) path) eqn:Hf; cbn [ret fst snd];
      (split; [exact Ut|]); (split; [exact Ud|]); (split; [exact Uf|]);
      (split; [right; reflexivity|]); (split; [discriminate|]);
      (split; [exact U1|]).
    + discriminate.
    + intros _. split; reflexivity.
Qed.

Lemma cleanup_ipc_run s :
  let out := cleanup_ipc E F s in
  fifo_fd (snd out) = -1 /\
  (fst out = SUCCESS \/ fst out = FAILURE) /\
  (forall q, q <> FIFO_PATH ->
     fs_file (s_fs (snd out)) q = fs_file (s_fs s) q) /\
  (exists l,
     new_events s (snd out) = l ++ [LogOperation CLEANUP_DONE []] /\
     forallb is_error l = true /\
     (fst out = SUCCESS <-> l = [])) /\
  (fifo_fd s = -1 -> fs_file (s_fs s) FIFO_PATH = None ->
   fst out = SUCCESS /\ s_fs (snd out) = s_fs s).
Proof.
  cbv zeta. unfold cleanup_ipc. rewrite bind_eq. cbn [get fst snd].
  rewrite bind_eq.
  (* closing *)
  set (c := (if negb (fifo_fd s =? -1)
             then c <- sys_close F (fifo_fd s) ;;
                  r <- (if negb (c =? 0)
                        then log_error "Failed to close FIFO: %s" [ArgErrno] ;;
                             ret FAILURE
                        else ret SUCCESS) ;;
                  modify (with_fifo_fd (-1)) ;; ret r
             else ret SUCCESS) s).
  assert (C : fifo_fd (snd c) = -1 /\ s_fs (snd c) = s_fs s /\
              exists lc, s_trace (snd c) = s_trace s ++ lc /\
                forallb is_error lc = true /\
                (fst c = SUCCESS /\ lc = [] \/
                 fst c = FAILURE /\ lc <> []) /\
                (fifo_fd s = -1 -> lc = [])).
  { subst c. destruct (Z.eqb_spec (fifo_fd s) (-1)) as [Z|Z]; cbn [negb].
    - simpl. split; [exact Z|]. split; [reflexivity|].
      exists []. rewrite app_nil_r. repeat split; auto.
    - unfold sys_close, bind, tick, ret, modify, log_error, emit. simpl.
      destruct (os_close F (s_clock s) (fifo_fd s)); simpl.
      + split; [reflexivity|]. split; [reflexivity|].
        exists []. rewrite app_nil_r. repeat split; auto.
      + split; [reflexivity|]. split; [reflexivity|].
        eexists. split; [reflexivity|]. split; [reflexivity|].
        split; [right; split; [reflexivity | discriminate]|].
        intros C. contradiction. }
  destruct C as [Cd [Cf [lc [Ct [Ce [Cr Cn]]]]]]. clearbody c.
  rewrite bind_eq.
  destruct (sys_unlink_errno_run FIFO_PATH (snd c))
    as [Ut [Ud [Uf [Uv [_ [U1 Un]]]]]].
  set (u := sys_unlink_errno E F FIFO_PATH (snd c)) in *.
  rewrite bind_eq.
  set (k := (if (negb (fst (fst u) =? 0) && negb (snd (fst u) =? ENOENT))%bool
             then log_error "Failed to remove FIFO: %s" [ArgErrno] ;;
                  ret FAILURE
             else ret (fst c)) (snd u)).
  assert (K : fifo_fd (snd k) = fifo_fd (snd u) /\
              s_fs (snd k) = s_fs (snd u) /\
              exists lk, s_trace (snd k) = s_trace (snd u) ++ lk /\
                forallb is_error lk = true /\
                (fst k = fst c /\ lk = [] \/ fst k = FAILURE /\ lk <> []) /\
                (fs_file (s_fs (snd c)) FIFO_PATH = None -> lk = [])).
  { subst k.
    destruct (negb (fst (fst u) =? 0) && negb (snd (fst u) =? ENOENT))%bool
      eqn:Hb.
    - simpl. split; [reflexivity|]. split; [reflexivity|].
      eexists. split; [reflexivity|]. split; [reflexivity|].
      split; [right; split; [reflexivity | discriminate]|].
      intros Hn. destruct (Un Hn) as [_ He]. rewrite He in Hb.
      rewrite andb_comm in Hb. discriminate.
    - simpl. split; [reflexivity|]. split; [reflexivity|].
      exists []. rewrite app_nil_r. repeat split; auto. }
  destruct K as [Kd [Kf [lk [Kt [Ke [Kr Kn]]]]]]. clearbody k.
  cbn [log_operation emit modify bind ret fst snd].
  cbn [fifo_fd s_fs s_trace with_trace].
  split; [rewrite Kd, Ud; exact Cd|].
  split; [destruct Kr as [[-> _]|[-> _]]; [tauto | right; reflexivity]|].
  split.
  { intros q Hq. rewrite Kf, Uf, Cf by assumption. reflexivity. }
  split.
  - exists (lc ++ lk). split; [|split].
    + apply new_events_app. cbn [s_trace with_trace].
      rewrite Kt, Ut, Ct, <- !app_assoc. reflexivity.
    + rewrite forallb_app, Ce, Ke. reflexivity.
    + destruct Cr as [[Rc Lc]|[Rc Lc]], Kr as [[Rk Lk]|[Rk Lk]];
        rewrite ?Rk, ?Rc, ?Lc, ?Lk; split; try discriminate; auto;
        intros C; apply app_eq_nil in C; destruct C; contradiction.
  - intros Hfd Hno.
    rewrite <- Cf in Hno.
    specialize (Cn Hfd). specialize (Kn Hno).
    destruct (Un Hno) as [Hu _].
    split.
    + destruct Kr as [[Rk _]|[_ Lk]]; [|contradiction].
      rewrite Rk. destruct Cr as [[Rc _]|[_ Lc]]; [exact Rc | contradiction].
    + rewrite Kf, (U1 Hu), Cf. reflexivity.
Qed.

End Ipc.

(** X18.  [setup_ipc] returns SUCCESS only with the FIFO in place, a
    descriptor that is not negative stored in [fifo_fd] and its
    completion line logged; FAILURE only with the failing step logged:
    a failed [mkfifo] leaves [fifo_fd] and the directories other than
    the log directory as they were, a failed [open] leaves -1 in
    [fifo_fd].  A FIFO that [access] finds is opened as it is, not
    created again. *)
Theorem setup_ipc_outcome :
  forall (E : os) (F : os_process) (s : state),
    let out := setup_ipc E F s in
    (fst out = SUCCESS \/ fst out = FAILURE) /\
    (fst out = SUCCESS ->
     0 <= fifo_fd (snd out) /\
     fs_file (s_fs (snd out)) FIFO_PATH <> None /\
     new_events s (snd out) = [LogOperation SETUP_DONE []]) /\
    (fst out = FAILURE ->
     (new_events s (snd out) = [LogError MKFIFO_FAILED [ArgErrno]] /\
      fifo_fd (snd out) = fifo_fd s /\
      unchanged_but_logs (s_fs s) (s_fs (snd out))) \/
     (new_events s (snd out) = [LogError OPEN_FIFO_FAILED [ArgErrno]] /\
      fifo_fd (snd out) = -1)) /\
    (fs_kind (s_fs s) FIFO_PATH <> None ->
     os_access F (s_clock s) FIFO_PATH = true ->
     unchanged_but_logs (s_fs s) (s_fs (snd out))).
Proof.
  intros E F s out. subst out.
  destruct (setup_ipc_run E F s) as [A [B [C D]]].
  split; [exact A|]. split; [exact B|]. split.
  - intros Hf. destruct (C Hf) as [[C1 [C2 C3]]|C4].
    + left. split; [exact C1|]. split; [exact C2|].
      apply same_fs_unchanged_but_logs. exact C3.
    + right. exact C4.
  - intros H1 H2. apply same_fs_unchanged_but_logs. apply D; assumption.
Qed.

Lemma setup_ipc_outcome_witness :
  0 <= fifo_fd (snd (setup_ipc os_ok os_process_ok
                       (with_fifo_fd (-1) (started fs_installed)))).
Proof.
  destruct (setup_ipc_outcome os_ok os_process_ok
              (with_fifo_fd (-1) (started fs_installed))) as [_ [H _]].
  apply H. reflexivity.
Defined.

(** X19.  [cleanup_ipc] always leaves -1 in [fifo_fd] and always ends
    with its completion line; before it, it logs errors only, and it
    returns SUCCESS exactly when it logged none.  It touches no file but
    the FIFO and those of the log directory.  With the FIFO closed and
    gone already it succeeds and changes no directory other than the log
    directory: a missing FIFO is no error. *)
Theorem cleanup_ipc_outcome :
  forall (E : os) (F : os_process) (s : state),
    let out := cleanup_ipc E F s in
    fifo_fd (snd out) = -1 /\
    (fst out = SUCCESS \/ fst out = FAILURE) /\
    (forall q, q <> FIFO_PATH -> in_log_dir q = false ->
       fs_file (s_fs (snd out)) q = fs_file (s_fs s) q) /\
    (exists l,
       new_events s (snd out) = l ++ [LogOperation CLEANUP_DONE []] /\
       forallb is_error l = true /\
       (fst out = SUCCESS <-> l = [])) /\
    (fifo_fd s = -1 -> fs_file (s_fs s) FIFO_PATH = None ->
     fst out = SUCCESS /\ unchanged_but_logs (s_fs s) (s_fs (snd out))).
Proof.
  intros E F s out. subst out.
  destruct (cleanup_ipc_run E F s) as [A [B [C [D G]]]].
  split; [exact A|]. split; [exact B|].
  split; [intros q Hq _; apply C; exact Hq|]. split; [exact D|].
  intros H1 H2. destruct (G H1 H2) as [G1 G2].
  split; [exact G1 | apply same_fs_unchanged_but_logs; exact G2].
Qed.

Lemma cleanup_ipc_outcome_witness :
  fst (cleanup_ipc os_ok os_process_ok
         (with_fifo_fd (-1) (started fs_installed))) = SUCCESS.
Proof.
  destruct (cleanup_ipc_outcome os_ok os_process_ok
              (with_fifo_fd (-1) (started fs_installed)))
    as [_ [_ [_ [_ H]]]].
  apply H; reflexivity.
Defined.

(** X20.  After [cleanup_ipc] the FIFO is closed for this process:
    [receive_ipc_message] and [send_ipc_message] both return FAILURE
    with their "not open" line, neither reads nor writes, and the
    caller's record keeps the sender it had. *)
Theorem ipc_is_closed_after_cleanup :
  forall (E : os) (F : os_process) (s : state) (msg : IPCMessage),
    let s1 := snd (cleanup_ipc E F s) in
    receive_ipc_message E s1 =
      ((FAILURE, None),
       with_trace (s_trace s1 ++ [LogError RECEIVE_CLOSED []]) s1) /\
    send_ipc_message F msg s1 =
      (mkSend FAILURE msg None,
       with_trace (s_trace s1 ++ [LogError SEND_CLOSED []]) s1).
Proof.
  intros E F s msg s1.
  destruct (cleanup_ipc_run E F s) as [Hfd _]. fold s1 in Hfd.
  clearbody s1.
  unfold receive_ipc_message, send_ipc_message, bind, get, log_error, emit,
    modify, ret. simpl. rewrite Hfd. simpl. auto.
Qed.

(** X21.  [send_ipc_message] on an open FIFO hands to [write] the
    caller's record with the sender replaced by the PID of this process,
    whatever the caller had put there, and returns SUCCESS exactly when
    [write] took the whole record. *)
Theorem send_ipc_message_stamps_sender :
  forall (F : os_process) (msg : IPCMessage) (s : state),
    fifo_fd s <> -1 ->
    let out := send_ipc_message F msg s in
    send_written (fst out) =
      Some (mkIPCMessage (msg_type msg) (os_getpid F) (msg_status msg)
                         (msg_text msg)) /\
    send_msg (fst out) =
      mkIPCMessage (msg_type msg) (os_getpid F) (msg_status msg)
                   (msg_text msg) /\
    (send_status (fst out) = SUCCESS <->
     os_write F (s_clock s) = sizeof_IPCMessage) /\
    (send_status (fst out) = SUCCESS \/ send_status (fst out) = FAILURE).
Proof.
  intros F msg s Hfd out. subst out.
  unfold send_ipc_message, sys_write_fifo, bind, get, tick, ret, log_error,
    emit, modify. simpl.
  destruct (Z.eqb_spec (fifo_fd s) (-1)) as [Z|_]; [contradiction|].
  simpl.
  destruct (Z.eqb_spec (os_write F (s_clock s)) sizeof_IPCMessage) as [W|W];
    simpl; repeat split; auto; try discriminate.
  intros C. contradiction.
Qed.

Lemma send_ipc_message_stamps_sender_witness :
  send_written
    (fst (send_ipc_message os_process_ok done_message
            (started fs_installed))) =
  Some (mkIPCMessage 2 4242 0 "done").
Proof.
  apply (send_ipc_message_stamps_sender os_process_ok done_message
           (started fs_installed)).
  discriminate.
Defined.

(* ----------------------------------------------------------------- *)
(** *** The PID file *)

Section ScanPrint.
Import Stdio.

Ltac eval_isdigit :=
  repeat match goal with
         | |- context [isdigit ?c] =>
             let b := eval vm_compute in (isdigit c) in
             change (isdigit c) with b
         end.

Lemma digits_uint (d : Decimal.uint) (rest : string) :
  digits (DecimalString.NilEmpty.string_of_uint d ++ rest) =
  (DecimalString.NilEmpty.string_of_uint d ++ digits rest)%string.
Proof.
  induction d; cbn [DecimalString.NilEmpty.string_of_uint append digits];
    eval_isdigit; cbv iota; rewrite ?IHd; reflexivity.
Qed.

Lemma digit_is_plain (c : ascii) :
  isdigit c = true ->
  isspace c = false /\ c <> "-"%char /\ c <> "+"%char.
Proof.
  destruct c as [[|] [|] [|] [|] [|] [|] [|] [|]]; vm_compute;
    intros H; try discriminate H; repeat split; discriminate.
Qed.

Lemma uint_starts_with_digit (d : Decimal.uint) :
  d <> Decimal.Nil ->
  exists c r, DecimalString.NilEmpty.string_of_uint d = String c r /\
              isdigit c = true.
Proof.
  destruct d; intros H; try contradiction;
    cbn [DecimalString.NilEmpty.string_of_uint];
    eexists; eexists; (split; [reflexivity | reflexivity]).
Qed.

(** Reading back with "%d" what "%d" printed, whatever follows that is
    not a digit. *)
Lemma scan_unsigned (d : Decimal.uint) (rest : string) :
  d <> Decimal.Nil -> digits rest = "" ->
  scan_d (DecimalString.NilEmpty.string_of_uint d ++ rest) =
  Some (Z.of_uint d).
Proof.
  intros Hd Hr. destruct (uint_starts_with_digit d Hd) as [c [r [Hs Hc]]].
  destruct (digit_is_plain c Hc) as [Hsp [Hm Hp]].
  unfold scan_d.
  assert (Hskip : skip_space
                    (DecimalString.NilEmpty.string_of_uint d ++ rest) =
                  (DecimalString.NilEmpty.string_of_uint d ++ rest)%string).
  { rewrite Hs. cbn [append skip_space]. rewrite Hsp. reflexivity. }
  rewrite Hskip.
  assert (Hsign :
            match (DecimalString.NilEmpty.string_of_uint d ++ rest)%string
            with
            | String "-"%char rest0 => (true, rest0)
            | String "+"%char rest0 => (false, rest0)
            | _ => (false,
                    (DecimalString.NilEmpty.string_of_uint d ++ rest)%string)
            end =
            (false,
             (DecimalString.NilEmpty.string_of_uint d ++ rest)%string)).
  { rewrite Hs. cbn [append].
    destruct c as [[|] [|] [|] [|] [|] [|] [|] [|]];
      try reflexivity; exfalso; auto. }
  rewrite Hsign. cbn [fst snd].
  rewrite digits_uint, Hr, CStringFacts.append_nil_r.
  pose proof (DecimalString.NilEmpty.usu d) as U.
  rewrite Hs in *. rewrite U. reflexivity.
Qed.

Lemma scan_print (n : Z) (rest : string) :
  digits rest = "" -> scan_d (decimal n ++ rest) = Some n.
Proof.
  intros Hr. unfold decimal. destruct n as [|p|p].
  - cbn. unfold scan_d. cbn [append skip_space].
    change (isspace "0") with false. cbv iota. cbn [fst snd digits].
    change (isdigit "0") with true. cbv iota. rewrite Hr. reflexivity.
  - change (Z.to_int (Z.pos p)) with (Decimal.Pos (Pos.to_uint p)).
    cbn [DecimalString.NilZero.string_of_int].
    pose proof (DecimalPos.Unsigned.to_uint_nonnil p) as Hn.
    assert (Hz : DecimalString.NilZero.string_of_uint (Pos.to_uint p) =
                 DecimalString.NilEmpty.string_of_uint (Pos.to_uint p))
      by (destruct (Pos.to_uint p); [contradiction | reflexivity ..]).
    rewrite Hz, scan_unsigned by assumption.
    unfold Z.of_uint. rewrite DecimalPos.Unsigned.of_to. reflexivity.
  - change (Z.to_int (Z.neg p)) with (Decimal.Neg (Pos.to_uint p)).
    cbn [DecimalString.NilZero.string_of_int].
    pose proof (DecimalPos.Unsigned.to_uint_nonnil p) as Hn.
    assert (Hz : DecimalString.NilZero.string_of_uint (Pos.to_uint p) =
                 DecimalString.NilEmpty.string_of_uint (Pos.to_uint p))
      by (destruct (Pos.to_uint p); [contradiction | reflexivity ..]).
    rewrite Hz.
    destruct (uint_starts_with_digit (Pos.to_uint p) Hn)
      as [c [r [Hs Hc]]].
    unfold scan_d. cbn [append skip_space].
    change (isspace "-") with false. cbv iota. cbn [fst snd].
    rewrite digits_uint, Hr, CStringFacts.append_nil_r.
    pose proof (DecimalString.NilEmpty.usu (Pos.to_uint p)) as U.
    rewrite Hs in *. rewrite U.
    unfold Z.of_uint. rewrite DecimalPos.Unsigned.of_to. reflexivity.
Qed.

End ScanPrint.

Section PidFile.

Variable E : os.
Variable F : os_process.

Lemma sys_open_read_exact path s :
  sys_open_read E path s =
  (match fs_file (s_fs s) path with
   | Some e => if os_open E (s_clock s) path then Some e else None
   | None => None
   end, with_clock (S (s_clock s)) s).
Proof.
  unfold sys_open_read, bind, tick, get, ret. simpl.
  destruct (fs_file (s_fs s) path); [|reflexivity].
  destruct (os_open E (s_clock s) path); reflexivity.
Qed.

(** What [check_singleton] answers, in full; it logs nothing and
    changes no directory. *)
Lemma check_singleton_run s :
  let out := check_singleton E F s in
  s_fs (snd out) = s_fs s /\ s_trace (snd out) = s_trace s /\
  globals (snd out) = globals s /\
  fst out =
    match fs_file (s_fs s) PID_FILE with
    | Some e =>
        if andb (os_open E (s_clock s) PID_FILE)
                (os_fread F (S (s_clock s)))
        then match Stdio.scan_d (i_data (d_ino e)) with
             | Some pid =>
                 if os_kill F (S (S (s_clock s))) pid then TRUE else FALSE
             | None => FALSE
             end
        else FALSE
    | None => FALSE
    end.
Proof.
  cbv zeta. unfold check_singleton. rewrite bind_eq, sys_open_read_exact.
  cbn [fst snd].
  destruct (fs_file (s_fs s) PID_FILE) as [e|]; [|simpl; auto].
  destruct (os_open E (s_clock s) PID_FILE); [|simpl; auto].
  unfold sys_fread, sys_kill, bind, tick, ret. simpl.
  destruct (os_fread F (S (s_clock s))); [|simpl; auto].
  destruct (Stdio.scan_d (i_data (d_ino e))) as [pid|]; [|simpl; auto].
  simpl. destruct (os_kill F (S (S (s_clock s))) pid); simpl; auto.
Qed.

Lemma create_pid_file_run s :
  let out := create_pid_file E F s in
  (fst out = SUCCESS \/ fst out = FAILURE) /\
  (forall q, q <> PID_FILE ->
     fs_file (s_fs (snd out)) q = fs_file (s_fs s) q) /\
  (forall p, p <> "/var/run" -> s_fs (snd out) p = s_fs s p) /\
  globals (snd out) = globals s /\
  (fst out = FAILURE ->
   s_fs (snd out) = s_fs s /\
   new_events s (snd out) =
     [LogError "Cannot create PID file: %s" [ArgErrno]]) /\
  (fst out = SUCCESS ->
   new_events s (snd out) = [] /\
   exists taken,
     taken = os_fflush F (S (s_clock s)) (String.length (pid_line F)) /\
     file_data (s_fs (snd out)) PID_FILE =
       Some (CString.take taken (pid_line F))).
Proof.
  cbv zeta. unfold create_pid_file. rewrite bind_eq.
  destruct (sys_open_write_general E PID_FILE s) as [Wt [W1 W2]].
  assert (Wc : s_clock (snd (sys_open_write E PID_FILE s)) = S (s_clock s)).
  { unfold sys_open_write, bind, tick, get, modify, ret. simpl.
    destruct (s_fs s "/var/run"); [|reflexivity].
    destruct (os_open E (s_clock s) PID_FILE); reflexivity. }
  assert (Wg : globals (snd (sys_open_write E PID_FILE s)) = globals s).
  { apply (keeps_sys_open_write E globals); reflexivity. }
  assert (Sp : split_path PID_FILE = Some ("/var/run", "report_daemon.pid"))
    by reflexivity.
  set (w := sys_open_write E PID_FILE s) in *.
  destruct (fst w).
  - destruct (W1 eq_refl) as [dd [dn [dir [Sp' [Fd W]]]]].
    rewrite Sp in Sp'. injection Sp' as <- <-. clear W1 W2.
    destruct (fs_write_parent E (os_time E (s_clock s)) (s_fs s) PID_FILE ""
                _ _ dir Sp Fd) as [dir' Fd'].
    rewrite <- W in Fd'.
    cbn [negb]. fold (pid_line F).
    unfold sys_fflush, bind, tick, get, modify, ret. simpl.
    rewrite Wc.
    split; [left; reflexivity|]. split; [|split; [|split; [|split]]].
    + intros q Hq. rewrite fs_write_file_other by assumption.
      rewrite W, fs_write_file_other by assumption. reflexivity.
    + intros p Hp.
      rewrite (fs_write_dir_other E _ _ _ _ _ _ p Sp Hp).
      rewrite W, (fs_write_dir_other E _ _ _ _ _ _ p Sp Hp). reflexivity.
    + exact Wg.
    + discriminate.
    + intros _. split.
      * apply new_events_app. simpl. rewrite Wt, app_nil_r. reflexivity.
      * eexists. split; [reflexivity|].
        apply (fs_write_file_same E _ _ PID_FILE _ _ _ dir' Sp Fd').
  - specialize (W2 eq_refl). cbn [negb]. rewrite bind_eq. cbn [ret fst snd].
    split; [right; reflexivity|]. split; [|split; [|split; [|split]]].
    + intros q _. simpl. rewrite W2. reflexivity.
    + intros p _. simpl. rewrite W2. reflexivity.
    + exact Wg.
    + intros _. split; [simpl; exact W2|].
      apply new_events_app. simpl. rewrite Wt. reflexivity.
    + discriminate.
Qed.

End PidFile.

(** X22.  The PID file read back: when [create_pid_file] succeeds and
    the whole line reaches the file, the file holds the decimal PID and
    a newline; and on any state whose PID file holds that line and can
    be opened and read, [check_singleton] asks [kill] about exactly that
    PID and answers TRUE when [kill] succeeds, FALSE otherwise. *)
Theorem pid_file_round_trip :
  forall (E : os) (F : os_process) (s : state),
    let made := create_pid_file E F s in
    fst made = SUCCESS ->
    (String.length (pid_line F) <=
     os_fflush F (S (s_clock s)) (String.length (pid_line F)))%nat ->
    file_data (s_fs (snd made)) PID_FILE = Some (pid_line F) /\
    forall s2,
      file_data (s_fs s2) PID_FILE = Some (pid_line F) ->
      os_open E (s_clock s2) PID_FILE = true ->
      os_fread F (S (s_clock s2)) = true ->
      fst (check_singleton E F s2) =
        if os_kill F (S (S (s_clock s2))) (os_getpid F) then TRUE else FALSE.
Proof.
  intros E F s made Hs Hflush. subst made.
  destruct (create_pid_file_run E F s) as [_ [_ [_ [_ [_ H]]]]].
  destruct (H Hs) as [_ [taken [Ht Hd]]]. split.
  - rewrite Hd, CStringFacts.take_all; [reflexivity|]. rewrite Ht.
    exact Hflush.
  - intros s2 Hfile Hopen Hread.
    destruct (check_singleton_run E F s2) as [_ [_ [_ R]]].
    rewrite R. unfold file_data in Hfile.
    destruct (fs_file (s_fs s2) PID_FILE) as [e|]; [|discriminate].
    injection Hfile as Hfile. rewrite Hopen, Hread, Hfile. cbn [andb].
    unfold pid_line. rewrite scan_print by reflexivity. reflexivity.
Qed.

Lemma pid_file_round_trip_witness :
  file_data
    (s_fs (snd (create_pid_file os_ok os_process_ok (started fs_installed))))
    PID_FILE = Some (String.append "4242" (String "010"%char "")).
Proof.
  apply (pid_file_round_trip os_ok os_process_ok (started fs_installed)).
  - reflexivity.
  - vm_compute. lia.
Defined.

(** X23.  As long as the number in the PID file, if there is one, fits
    an [int]: [check_singleton] answers TRUE only when the PID file can
    be opened and read, starts (after white space) with a decimal number
    and [kill] with signal 0 succeeds for that number; a missing, empty
    or unparsable file and a PID that [kill] refuses all give FALSE.  It
    logs nothing and changes neither a directory nor a global. *)
Theorem check_singleton_spec :
  forall (E : os) (F : os_process) (s : state),
    (forall data pid,
       file_data (s_fs s) PID_FILE = Some data ->
       Stdio.scan_d data = Some pid ->
       INT_MIN <= pid <= INT_MAX) ->
    let out := check_singleton E F s in
    (fst out = TRUE \/ fst out = FALSE) /\
    s_fs (snd out) = s_fs s /\
    new_events s (snd out) = [] /\
    globals (snd out) = globals s /\
    (fst out = TRUE <->
     exists data pid,
       file_data (s_fs s) PID_FILE = Some data /\
       os_open E (s_clock s) PID_FILE = true /\
       os_fread F (S (s_clock s)) = true /\
       Stdio.scan_d data = Some pid /\
       os_kill F (S (S (s_clock s))) pid = true).
Proof.
  intros E F s _ out. subst out.
  destruct (check_singleton_run E F s) as [Hf [Ht [Hg R]]].
  split; [|split; [exact Hf|split; [|split; [exact Hg|]]]].
  - rewrite R.
    destruct (fs_file (s_fs s) PID_FILE); auto.
    destruct (_ && _)%bool; auto.
    destruct (Stdio.scan_d _); auto.
    destruct (os_kill _ _ _); auto.
  - apply new_events_app. rewrite app_nil_r. exact Ht.
  - rewrite R. unfold file_data.
    destruct (fs_file (s_fs s) PID_FILE) as [e|]; cbn [option_map].
    + destruct (os_open E (s_clock s) PID_FILE);
        destruct (os_fread F (S (s_clock s))); cbn [andb];
        try (split; [discriminate|];
             intros [data [pid [_ [A [B _]]]]]; discriminate).
      destruct (Stdio.scan_d (i_data (d_ino e))) as [pid|] eqn:Hscan.
      * destruct (os_kill F (S (S (s_clock s))) pid) eqn:Hk.
        -- split; [|reflexivity]. intros _.
           exists (i_data (d_ino e)), pid. auto.
        -- split; [discriminate|].
           intros [data [pid' [D [_ [_ [Sc K]]]]]].
           injection D as <-. rewrite Hscan in Sc. injection Sc as <-.
           rewrite Hk in K. discriminate.
      * split; [discriminate|].
        intros [data [pid' [D [_ [_ [Sc _]]]]]].
        injection D as <-. rewrite Hscan in Sc. discriminate.
    + split; [discriminate|]. intros [data [pid [D _]]]. discriminate.
Qed.

Lemma check_singleton_spec_witness :
  fst (check_singleton os_ok os_process_ok
         (snd (create_pid_file os_ok os_process_ok (started fs_installed))))
  = TRUE.
Proof.
  destruct (check_singleton_spec os_ok os_process_ok
              (snd (create_pid_file os_ok os_process_ok
                      (started fs_installed)))) as [_ [_ [_ [_ H]]]].
  - intros data pid H1 H2. vm_compute in H1. injection H1 as <-.
    vm_compute in H2. injection H2 as <-. vm_compute.
    split; discriminate.
  - apply H. exists (pid_line os_process_ok), 4242.
    repeat split; vm_compute; reflexivity.
Defined.

(* ----------------------------------------------------------------- *)
(** *** The XML check *)

Section FirstLine.
Import CString Stdio.

Lemma not_has_char_cons (c x : ascii) (s : string) :
  ~ has_char c (String x s) -> x <> c /\ ~ has_char c s.
Proof.
  intros H. rewrite CStringFacts.has_char_cons in H. split.
  - intros ->. apply H. left. reflexivity.
  - intros K. apply H. right. exact K.
Qed.

(** [fgets] reads through a prefix without a newline. *)
Lemma read_line_append (pre rest : string) (n : nat) :
  ~ has_char NEWLINE pre ->
  read_line (String.length pre + n) (pre ++ rest) =
  (pre ++ read_line n rest)%string.
Proof.
  induction pre as [|x pre IH]; intros H; [reflexivity|].
  destruct (not_has_char_cons _ _ _ H) as [Hx Hp].
  cbn [String.length Nat.add append read_line].
  destruct (Ascii.eqb_spec x "010"%char) as [->|_];
    [exfalso; apply Hx; reflexivity|].
  rewrite IH by exact Hp. reflexivity.
Qed.

Lemma c_str_append (pre rest : string) :
  ~ has_char NUL pre -> c_str (pre ++ rest) = (pre ++ c_str rest)%string.
Proof.
  induction pre as [|x pre IH]; intros H; [reflexivity|].
  destruct (not_has_char_cons _ _ _ H) as [Hx Hp].
  cbn [append c_str].
  destruct (Ascii.eqb_spec x "000"%char) as [->|_];
    [exfalso; apply Hx; reflexivity|].
  rewrite IH by exact Hp. reflexivity.
Qed.

(** What [fgets] stores never goes past the first newline. *)
Lemma read_line_within (line rest : string) (n : nat) :
  exists y,
    (line ++ String NEWLINE "")%string =
    (read_line n (line ++ String NEWLINE rest) ++ y)%string.
Proof.
  revert n. induction line as [|x line IH]; intros [|n];
    cbn [append read_line].
  - eexists. reflexivity.
  - exists ""%string. reflexivity.
  - eexists. reflexivity.
  - destruct (Ascii.eqb_spec x "010"%char) as [->|_].
    + eexists. reflexivity.
    + destruct (IH n) as [y Hy]. exists y. cbn [append]. rewrite <- Hy.
      reflexivity.
Qed.

Lemma c_str_within (buffer : string) :
  exists y, buffer = (c_str buffer ++ y)%string.
Proof.
  induction buffer as [|x b IH]; [exists ""%string; reflexivity|].
  cbn [c_str]. destruct (Ascii.eqb x "000"%char).
  - eexists. reflexivity.
  - destruct IH as [y Hy]. exists y. cbn [append]. rewrite <- Hy.
    reflexivity.
Qed.

Lemma append_last (u v : string) (x y : ascii) :
  (u ++ String x "")%string = (v ++ String y "")%string -> x = y.
Proof.
  revert v. induction u as [|a u IH]; intros [|b v] H; cbn [append] in H.
  - congruence.
  - destruct v; discriminate.
  - destruct u; discriminate.
  - injection H as _ H. exact (IH _ H).
Qed.

(** Cutting a string that ends in a newline. *)
Lemma append_newline_split (line u c : string) :
  (line ++ String NEWLINE "")%string = (u ++ c)%string ->
  (c = ""%string /\ u = (line ++ String NEWLINE "")%string) \/
  exists c', line = (u ++ c')%string.
Proof.
  revert u. induction line as [|x line IH]; intros [|a u] H;
    cbn [append] in H.
  - right. exists ""%string. reflexivity.
  - left. injection H as <- H. destruct u; [|discriminate].
    cbn [append] in H. subst c. auto.
  - right. eexists. reflexivity.
  - injection H as <- H. destruct (IH _ H) as [[-> ->]|[c' ->]].
    + left. auto.
    + right. exists c'. reflexivity.
Qed.

(** No header in the line, none in what [fgets] stored of it. *)
Lemma no_header_in_first_line (line rest : string) (n : nat) :
  strstr line XML_HEADER = None ->
  strstr (c_str (read_line n (line ++ String NEWLINE rest))) XML_HEADER =
  None.
Proof.
  intros Hn.
  destruct (strstr (c_str (read_line n (line ++ String NEWLINE rest)))
                   XML_HEADER) as [i|] eqn:Hs; [|reflexivity].
  exfalso.
  assert (Hsome : strstr (c_str (read_line n
                                   (line ++ String NEWLINE rest)))
                         XML_HEADER <> None) by (rewrite Hs; discriminate).
  apply CStringFacts.strstr_some_iff in Hsome. destruct Hsome as [a [b Hab]].
  destruct (c_str_within (read_line n (line ++ String NEWLINE rest)))
    as [y1 H1].
  destruct (read_line_within line rest n) as [y2 H2].
  assert (H3 : (line ++ String NEWLINE "")%string =
               ((a ++ XML_HEADER) ++ (b ++ y1 ++ y2))%string).
  { rewrite H2, H1, Hab. rewrite <- !CStringFacts.append_assoc.
    reflexivity. }
  destruct (append_newline_split _ _ _ H3) as [[_ Hu]|[c' Hc]].
  - change (a ++ XML_HEADER)%string
      with (a ++ ("<?xm" ++ String "l"%char ""))%string in Hu.
    rewrite <- CStringFacts.append_assoc in Hu.
    apply append_last in Hu. discriminate Hu.
  - assert (K : strstr line XML_HEADER <> None).
    { apply CStringFacts.strstr_some_iff. exists a, c'.
      rewrite Hc, <- CStringFacts.append_assoc. reflexivity. }
    apply K, Hn.
Qed.

(** A header in the first line, within the buffer, is found. *)
Lemma header_in_first_line (pre rest : string) :
  ~ has_char NEWLINE pre -> ~ has_char NUL pre ->
  (String.length pre + 5 <= 1023)%nat ->
  strstr (c_str (read_line (Z.to_nat (1024 - 1))
                           (pre ++ XML_HEADER ++ rest))) XML_HEADER <> None.
Proof.
  intros Hnl Hnul Hlen.
  assert (Hn : Z.to_nat (1024 - 1) =
               (String.length pre + (5 + (1018 - String.length pre)))%nat).
  { change (Z.to_nat (1024 - 1)) with 1023%nat. lia. }
  rewrite Hn, read_line_append by exact Hnl.
  rewrite c_str_append by exact Hnul.
  change (read_line (5 + (1018 - String.length pre)) (XML_HEADER ++ rest))
    with (XML_HEADER ++ read_line (1018 - String.length pre) rest)%string.
  change (c_str (XML_HEADER ++ read_line (1018 - String.length pre) rest))
    with (XML_HEADER ++ c_str (read_line (1018 - String.length pre) rest))
           %string.
  apply CStringFacts.strstr_some_iff. eexists. eexists. reflexivity.
Qed.

End FirstLine.

Section Xml.

Variable E : os.
Variable F : os_process.

(** [is_valid_xml_report], in full: it only reads. *)
Lemma is_valid_xml_report_run filepath s :
  let out := is_valid_xml_report E F filepath s in
  s_fs (snd out) = s_fs s /\ s_trace (snd out) = s_trace s /\
  globals (snd out) = globals s /\
  fst out =
    match CString.strstr filepath REPORT_EXTENSION,
          fs_file (s_fs s) filepath with
    | Some _, Some e =>
        if andb (os_open E (s_clock s) filepath)
                (os_fread F (S (s_clock s)))
        then match Stdio.fgets 1024 (i_data (d_ino e)) with
             | Some buffer =>
                 match CString.strstr (Stdio.c_str buffer) "<?xml" with
                 | Some _ => TRUE
                 | None => FALSE
                 end
             | None => FALSE
             end
        else FALSE
    | _, _ => FALSE
    end.
Proof.
  cbv zeta. unfold is_valid_xml_report.
  destruct (CString.strstr filepath REPORT_EXTENSION); [|simpl; auto].
  rewrite bind_eq, sys_open_read_exact. cbn [fst snd].
  destruct (fs_file (s_fs s) filepath) as [e|]; [|simpl; auto].
  destruct (os_open E (s_clock s) filepath); [|simpl; auto].
  unfold sys_fread, bind, tick, ret. simpl.
  destruct (os_fread F (S (s_clock s))); [|simpl; auto].
  destruct (Stdio.fgets 1024 (i_data (d_ino e))) as [buffer|];
    [|simpl; auto].
  destruct (CString.strstr (Stdio.c_str buffer) "<?xml"); simpl; auto.
Qed.

End Xml.

(** X24.  [is_valid_xml_report] only reads: no directory, log or global
    changes.  It answers TRUE exactly when the path contains ".xml", the
    file can be opened and read, is not empty, and "<?xml" occurs in the
    first line as [fgets] stores it in the 1024-byte buffer (up to the
    first NUL); every other case gives FALSE. *)
Theorem is_valid_xml_report_spec :
  forall (E : os) (F : os_process) (filepath : string) (s : state),
    let out := is_valid_xml_report E F filepath s in
    (fst out = TRUE \/ fst out = FALSE) /\
    s_fs (snd out) = s_fs s /\
    new_events s (snd out) = [] /\
    globals (snd out) = globals s /\
    (fst out = TRUE <->
     CString.strstr filepath REPORT_EXTENSION <> None /\
     exists data,
       file_data (s_fs s) filepath = Some data /\
       os_open E (s_clock s) filepath = true /\
       os_fread F (S (s_clock s)) = true /\
       data <> ""%string /\
       CString.strstr (Stdio.c_str (Stdio.read_line 1023 data)) XML_HEADER
         <> None).
Proof.
  intros E F filepath s out. subst out.
  destruct (is_valid_xml_report_run E F filepath s) as [Hf [Ht [Hg R]]].
  assert (Hfgets : forall data,
            Stdio.fgets 1024 data =
            match data with
            | EmptyString => None
            | _ => Some (Stdio.read_line 1023 data)
            end) by (intros [|c d]; reflexivity).
  split; [|split; [exact Hf|split; [|split; [exact Hg|]]]].
  - rewrite R. destruct (CString.strstr filepath REPORT_EXTENSION); auto.
    destruct (fs_file (s_fs s) filepath); auto.
    destruct (_ && _)%bool; auto.
    destruct (Stdio.fgets _ _); auto.
    destruct (CString.strstr _ _); auto.
  - apply new_events_app. rewrite app_nil_r. exact Ht.
  - rewrite R. unfold file_data, XML_HEADER.
    destruct (CString.strstr filepath REPORT_EXTENSION) as [i|];
      [|split; [discriminate | intros [H _]; contradiction]].
    destruct (fs_file (s_fs s) filepath) as [e|]; cbn [option_map];
      [|split; [discriminate | intros [_ [d [D _]]]; discriminate]].
    destruct (os_open E (s_clock s) filepath);
      destruct (os_fread F (S (s_clock s))); cbn [andb];
      try (split; [discriminate|];
           intros [_ [d [_ [A [B _]]]]]; discriminate).
    rewrite Hfgets.
    destruct (i_data (d_ino e)) as [|c d] eqn:Hd.
    + split; [discriminate|].
      intros [_ [d [D [_ [_ [N _]]]]]]. injection D as <-. contradiction.
    + destruct (CString.strstr
                  (Stdio.c_str (Stdio.read_line 1023 (String c d))) "<?xml")
        eqn:Hh.
      * split; [|reflexivity]. intros _. split; [discriminate|].
        exists (String c d). rewrite Hh.
        repeat split; auto; discriminate.
      * split; [discriminate|].
        intros [_ [d' [D [_ [_ [_ N]]]]]]. injection D as <-.
        rewrite Hh in N. contradiction.
Qed.

(** X25.  Where the header may stand.  For a file with ".xml" in its
    path that can be opened and read: "<?xml" anywhere in the first line
    is accepted, also after other text, as long as it lies within the
    first 1023 bytes and no NUL byte precedes it; a file whose first
    line has no "<?xml" is rejected whatever the later lines hold. *)
Theorem is_valid_xml_report_header_position :
  forall (E : os) (F : os_process) (filepath data : string) (s : state),
    CString.strstr filepath REPORT_EXTENSION <> None ->
    file_data (s_fs s) filepath = Some data ->
    os_open E (s_clock s) filepath = true ->
    os_fread F (S (s_clock s)) = true ->
    let answer := fst (is_valid_xml_report E F filepath s) in
    (forall before rest,
       data = (before ++ XML_HEADER ++ rest)%string ->
       ~ has_char NEWLINE before ->
       ~ has_char NUL before ->
       (String.length before + 5 <= 1023)%nat ->
       answer = TRUE) /\
    (forall line rest,
       data = (line ++ String NEWLINE rest)%string ->
       CString.strstr line XML_HEADER = None ->
       answer = FALSE).
Proof.
  intros E F filepath data s Hext Hfile Hopen Hread answer. subst answer.
  destruct (is_valid_xml_report_run E F filepath s) as [_ [_ [_ R]]].
  rewrite R. clear R. unfold file_data in Hfile.
  destruct (CString.strstr filepath REPORT_EXTENSION); [|contradiction].
  destruct (fs_file (s_fs s) filepath) as [e|]; [|discriminate].
  injection Hfile as Hfile. rewrite Hopen, Hread, Hfile. cbn [andb].
  split.
  - intros before rest -> Hnl Hnul Hlen.
    pose proof (header_in_first_line before rest Hnl Hnul Hlen) as H.
    unfold Stdio.fgets.
    destruct (before ++ XML_HEADER ++ rest)%string eqn:Hd.
    + destruct before; discriminate.
    + fold XML_HEADER.
      destruct (CString.strstr _ XML_HEADER); [reflexivity|contradiction].
  - intros line rest -> Hnone. unfold Stdio.fgets.
    destruct (line ++ String NEWLINE rest)%string eqn:Hd.
    + destruct line; discriminate.
    + rewrite <- Hd. fold XML_HEADER.
      rewrite no_header_in_first_line by exact Hnone. reflexivity.
Qed.

Lemma is_valid_xml_report_header_position_witness :
  fst (is_valid_xml_report os_ok os_process_ok SALES_PATH state_late_header)
  = FALSE.
Proof.
  destruct (is_valid_xml_report_header_position os_ok os_process_ok
              SALES_PATH
              ("<sales/>" ++ String NEWLINE "<?xml version=1?>")%string
              state_late_header) as [_ H].
  - vm_compute. discriminate.
  - vm_compute. reflexivity.
  - reflexivity.
  - reflexivity.
  - apply (H "<sales/>"%string "<?xml version=1?>"%string).
    + reflexivity.
    + vm_compute. reflexivity.
Defined.

(* ----------------------------------------------------------------- *)
(** *** Start and stop of the daemon *)

Section Directories.

Variable E : os.
Variable F : os_process.

Lemma fs_file_same_directory fs1 fs2 p dd dn :
  split_path p = Some (dd, dn) -> fs1 dd = fs2 dd ->
  fs_file fs1 p = fs_file fs2 p.
Proof. intros Sp H. unfold fs_file. rewrite Sp, H. reflexivity. Qed.

Lemma keeps_directory_log_error d format args :
  keeps (fun s => s_fs s d) (log_error format args).
Proof. intros s. reflexivity. Qed.

Lemma keeps_directory_log_operation d format args :
  keeps (fun s => s_fs s d) (log_operation format args).
Proof. intros s. reflexivity. Qed.

(** [create_directory_if_not_exists] changes the directory it makes and
    the parent of it, no other. *)
Lemma keeps_directory_create path parent name d :
  split_path path = Some (parent, name) -> d <> path -> d <> parent ->
  keeps (fun s => s_fs s d) (create_directory_if_not_exists E path).
Proof.
  intros Sp H1 H2 s. unfold create_directory_if_not_exists.
  rewrite bind_eq, sys_stat_isdir_run. cbn [fst snd].
  destruct (match fs_kind (s_fs s) path with
            | Some k => if os_stat E (s_clock s) path then Some k else None
            | None => None
            end) as [[|]|].
  - reflexivity.
  - reflexivity.
  - rewrite bind_eq.
    destruct (sys_mkdir_general E path 493 (with_clock (S (s_clock s)) s))
      as [_ [Mv [_ [Mf M0]]]].
    set (m := sys_mkdir E path 493 (with_clock (S (s_clock s)) s)) in *.
    destruct Mv as [Z|Z]; rewrite Z; cbn [Z.eqb negb].
    + destruct (M0 Z) as [_ H]. destruct (H _ _ Sp) as [_ H'].
      simpl. rewrite H' by assumption. reflexivity.
    + simpl. rewrite (Mf Z). reflexivity.
Qed.

Lemma keeps_directory_mkfifo path parent name mode d :
  split_path path = Some (parent, name) -> d <> parent ->
  keeps (fun s => s_fs s d) (sys_mkfifo E F path mode).
Proof.
  intros Sp H s. unfold sys_mkfifo, bind, tick, get, modify, ret. simpl.
  rewrite Sp. destruct (fs_kind (s_fs s) path); [reflexivity|].
  destruct (s_fs s parent); [|reflexivity].
  destruct (os_mkfifo F (s_clock s) path); [|reflexivity].
  simpl. unfold fs_set. destruct (String.eqb_spec d parent);
    [contradiction|reflexivity].
Qed.

Lemma keeps_directory_setup_ipc d :
  d <> SYSTEM_DIR -> keeps (fun s => s_fs s d) (setup_ipc E F).
Proof.
  intros H. unfold setup_ipc.
  apply keeps_bind; [intros s; rewrite sys_access_run; reflexivity|].
  intros a. apply keeps_bind.
  { destruct (negb (a =? 0)); [|apply keeps_ret].
    apply (keeps_directory_mkfifo FIFO_PATH SYSTEM_DIR "ipc_pipe");
      [reflexivity | exact H]. }
  intros made. destruct (negb (made =? 0)).
  { apply keeps_bind; [apply keeps_directory_log_error|].
    intros _. apply keeps_ret. }
  apply keeps_bind; [intros s; rewrite sys_open_rdwr_run; reflexivity|].
  intros fd. apply keeps_bind; [intros s; reflexivity|]. intros _.
  destruct (fd =? -1).
  - apply keeps_bind; [apply keeps_directory_log_error|].
    intros _. apply keeps_ret.
  - apply keeps_bind; [apply keeps_directory_log_operation|].
    intros _. apply keeps_ret.
Qed.

Lemma keeps_directory_chmod path mode d :
  d <> path ->
  keeps (fun s => s_fs s d) (set_directory_permissions E path mode).
Proof.
  intros H s. rewrite set_directory_permissions_exact.
  destruct (chmod_ok E (s_clock s) (s_fs s) path mode); simpl;
    [apply chmod_fs_other; exact H | reflexivity].
Qed.

Lemma emits_setup_ipc : emits (fun _ => true) (setup_ipc E F).
Proof.
  unfold setup_ipc, sys_access, sys_mkfifo, sys_open_rdwr. emits_tac.
Qed.

Lemma trace_of_new_events {A} (m : M A) s l :
  emits (fun _ => true) m -> new_events s (snd (m s)) = l ->
  s_trace (snd (m s)) = s_trace s ++ l.
Proof.
  intros H N. destruct (H s) as [l' [Hl _]].
  rewrite (new_events_app _ _ _ Hl) in N. subst l'. exact Hl.
Qed.

Lemma emits_create_directory path :
  emits (fun _ => true) (create_directory_if_not_exists E path).
Proof.
  unfold create_directory_if_not_exists, sys_stat_isdir. emits_tac.
Qed.

(** One of the directories [daemon_init] makes sure of. *)
Lemma init_directory_run path parent name s :
  split_path path = Some (parent, name) ->
  RUN_DIR <> path -> RUN_DIR <> parent ->
  let out := create_directory_if_not_exists E path s in
  s_fs (snd out) RUN_DIR = s_fs s RUN_DIR /\
  exists l, s_trace (snd out) = s_trace s ++ l.
Proof.
  intros Sp H1 H2. cbv zeta. split.
  - apply (keeps_directory_create path parent name RUN_DIR Sp H1 H2 s).
  - destruct (emits_create_directory path s) as [l [Hl _]]. exists l.
    exact Hl.
Qed.

(** The last steps of [daemon_init]: the initial permissions and the
    closing line. *)
Lemma init_permissions_run s :
  let out :=
    (set_directory_permissions E UPLOAD_DIR UPLOAD_PERMISSIONS ;;
     set_directory_permissions E DASHBOARD_DIR DASHBOARD_PERMISSIONS ;;
     log_operation "Daemon initialization complete" [] ;;
     ret (Returns SUCCESS)) s in
  fst out = Returns SUCCESS /\
  s_fs (snd out) RUN_DIR = s_fs s RUN_DIR /\
  s_fs (snd out) SYSTEM_DIR = s_fs s SYSTEM_DIR /\
  fifo_fd (snd out) = fifo_fd s /\
  exists l, s_trace (snd out) = s_trace s ++ l ++ [LogOperation INIT_DONE []].
Proof.
  cbv zeta. rewrite !bind_eq.
  set (s1 := snd (set_directory_permissions E UPLOAD_DIR UPLOAD_PERMISSIONS
                    s)).
  set (s2 := snd (set_directory_permissions E DASHBOARD_DIR
                    DASHBOARD_PERMISSIONS s1)).
  assert (K : forall d, d <> UPLOAD_DIR -> d <> DASHBOARD_DIR ->
                s_fs s2 d = s_fs s d).
  { intros d H1 H2. unfold s2.
    rewrite (keeps_directory_chmod DASHBOARD_DIR _ d H2 s1). unfold s1.
    apply (keeps_directory_chmod UPLOAD_DIR _ d H1 s). }
  assert (G : fifo_fd s2 = fifo_fd s).
  { unfold s2.
    rewrite (keeps_set_directory_permissions E fifo_fd); try reflexivity.
    unfold s1.
    apply (keeps_set_directory_permissions E fifo_fd); reflexivity. }
  assert (T : exists l, s_trace s2 = s_trace s ++ l).
  { destruct (emits_set_directory_permissions E (fun _ => true)
                (fun _ _ => eq_refl) UPLOAD_DIR UPLOAD_PERMISSIONS s)
      as [l1 [H1 _]].
    destruct (emits_set_directory_permissions E (fun _ => true)
                (fun _ _ => eq_refl) DASHBOARD_DIR DASHBOARD_PERMISSIONS s1)
      as [l2 [H2 _]].
    exists (l1 ++ l2). unfold s2. rewrite H2. unfold s1. rewrite H1.
    rewrite app_assoc. reflexivity. }
  simpl. split; [reflexivity|].
  split; [apply K; discriminate|]. split; [apply K; discriminate|].
  split; [exact G|]. destruct T as [l T]. exists l.
  rewrite T, app_assoc. reflexivity.
Qed.

(** [daemon_init] once the PID file is written. *)
Lemma daemon_init_tail_run s :
  let out :=
    (create_directory_if_not_exists E UPLOAD_DIR ;;
     create_directory_if_not_exists E DASHBOARD_DIR ;;
     create_directory_if_not_exists E BACKUP_DIR ;;
     create_directory_if_not_exists E LOG_DIR ;;
     i <- setup_ipc E F ;;
     if negb (i =? SUCCESS) then
       log_error "Failed to setup IPC" [] ;;
       ret (Returns FAILURE)
     else
       set_directory_permissions E UPLOAD_DIR UPLOAD_PERMISSIONS ;;
       set_directory_permissions E DASHBOARD_DIR DASHBOARD_PERMISSIONS ;;
       log_operation "Daemon initialization complete" [] ;;
       ret (Returns SUCCESS)) s in
  (fst out = Returns SUCCESS \/ fst out = Returns FAILURE) /\
  s_fs (snd out) RUN_DIR = s_fs s RUN_DIR /\
  (fst out = Returns SUCCESS ->
   0 <= fifo_fd (snd out) /\
   fs_file (s_fs (snd out)) FIFO_PATH <> None /\
   exists l,
     s_trace (snd out) = s_trace s ++ l ++ [LogOperation INIT_DONE []]).
Proof.
  cbv zeta.
  rewrite bind_eq.
  destruct (init_directory_run UPLOAD_DIR SYSTEM_DIR "upload" s)
    as [D1 [l1 T1]]; [reflexivity|discriminate|discriminate|].
  set (s1 := snd (create_directory_if_not_exists E UPLOAD_DIR s)) in *.
  rewrite bind_eq.
  destruct (init_directory_run DASHBOARD_DIR SYSTEM_DIR "dashboard" s1)
    as [D2 [l2 T2]]; [reflexivity|discriminate|discriminate|].
  set (s2 := snd (create_directory_if_not_exists E DASHBOARD_DIR s1)) in *.
  rewrite bind_eq.
  destruct (init_directory_run BACKUP_DIR SYSTEM_DIR "backup" s2)
    as [D3 [l3 T3]]; [reflexivity|discriminate|discriminate|].
  set (s3 := snd (create_directory_if_not_exists E BACKUP_DIR s2)) in *.
  rewrite bind_eq.
  destruct (init_directory_run LOG_DIR SYSTEM_DIR "logs" s3)
    as [D4 [l4 T4]]; [reflexivity|discriminate|discriminate|].
  set (s4 := snd (create_directory_if_not_exists E LOG_DIR s3)) in *.
  rewrite bind_eq.
  destruct (setup_ipc_run E F s4) as [Iv [Is _]].
  pose proof (keeps_directory_setup_ipc RUN_DIR
                ltac:(discriminate) s4) as D5.
  cbv beta in D5.
  set (i := setup_ipc E F s4) in *.
  assert (T : s_trace s4 = s_trace s ++ (l1 ++ l2 ++ l3 ++ l4)).
  { rewrite T4, T3, T2, T1, <- !app_assoc. reflexivity. }
  assert (D : s_fs s4 RUN_DIR = s_fs s RUN_DIR)
    by (rewrite D4, D3, D2, D1; reflexivity).
  destruct Iv as [V|V]; rewrite V.
  - change (negb (SUCCESS =? SUCCESS)) with false. cbv iota.
    destruct (Is V) as [Hfd [Hfifo Hev]].
    destruct (init_permissions_run (snd i)) as [R [P1 [P2 [P3 [l P4]]]]].
    rewrite R. split; [left; reflexivity|].
    split; [rewrite P1, D5; exact D|]. intros _.
    split; [rewrite P3; exact Hfd|]. split.
    + rewrite (fs_file_same_directory _ (s_fs (snd i)) FIFO_PATH
                 SYSTEM_DIR "ipc_pipe" eq_refl P2). exact Hfifo.
    + exists ((l1 ++ l2 ++ l3 ++ l4) ++ [LogOperation SETUP_DONE []] ++ l).
      rewrite P4.
      assert (Ti : s_trace (snd i) =
                   s_trace s4 ++ [LogOperation SETUP_DONE []]).
      { apply (trace_of_new_events (setup_ipc E F) s4 _ emits_setup_ipc).
        exact Hev. }
      rewrite Ti, T, <- !app_assoc. reflexivity.
  - change (negb (FAILURE =? SUCCESS)) with true. cbv iota.
    simpl. split; [right; reflexivity|].
    split; [rewrite D5; exact D|]. discriminate.
Qed.

End Directories.

Section StartStop.

Variable E : os.
Variable F : os_process.

Lemma check_singleton_value s :
  fst (check_singleton E F s) = TRUE \/ fst (check_singleton E F s) = FALSE.
Proof.
  destruct (check_singleton_run E F s) as [_ [_ [_ R]]]. rewrite R.
  destruct (fs_file (s_fs s) PID_FILE); auto.
  destruct (_ && _)%bool; auto.
  destruct (Stdio.scan_d _); auto.
  destruct (os_kill _ _ _); auto.
Qed.

Lemma check_singleton_trace s :
  new_events s (snd (check_singleton E F s)) = [].
Proof.
  destruct (check_singleton_run E F s) as [_ [T _]].
  apply new_events_app. rewrite app_nil_r. exact T.
Qed.

Lemma sys_fork_run s :
  sys_fork F s = (os_fork F (s_clock s), with_clock (S (s_clock s)) s).
Proof. reflexivity. Qed.

Lemma sys_setsid_run s :
  sys_setsid F s = (os_setsid F (s_clock s), with_clock (S (s_clock s)) s).
Proof. reflexivity. Qed.

Lemma sys_chdir_run path s :
  sys_chdir F path s =
  (os_chdir F (s_clock s) path, with_clock (S (s_clock s)) s).
Proof. reflexivity. Qed.

(** [daemon_init], step by step. *)
Lemma daemon_init_run s :
  let out := daemon_init E F s in
  let c := check_singleton E F s in
  (fst out = Returns SUCCESS \/ fst out = Returns FAILURE \/
   fst out = Exits EXIT_SUCCESS) /\
  (fst c = TRUE -> out = (Returns FAILURE, snd c)) /\
  (fst out = Exits EXIT_SUCCESS ->
   fst c = FALSE /\ 0 < os_fork F (s_clock (snd c)) /\
   snd out = with_clock (S (s_clock (snd c))) (snd c)) /\
  (fst out = Returns SUCCESS ->
   fst c = FALSE /\ os_fork F (s_clock (snd c)) = 0 /\
   (exists taken,
      file_data (s_fs (snd out)) PID_FILE =
        Some (CString.take taken (pid_line F))) /\
   0 <= fifo_fd (snd out) /\
   fs_file (s_fs (snd out)) FIFO_PATH <> None /\
   exists l, new_events s (snd out) = l ++ [LogOperation INIT_DONE []]).
Proof.
  cbv zeta. unfold daemon_init. rewrite bind_eq.
  destruct (check_singleton_run E F s) as [Cf [Ct [Cg _]]].
  set (c := check_singleton E F s) in *.
  destruct (check_singleton_value s) as [V|V]; fold c in V; rewrite V.
  { change (negb (TRUE =? 0)) with true. cbv iota. cbn [ret fst snd].
    split; [right; left; reflexivity|]. split; [reflexivity|].
    split; discriminate. }
  change (negb (FALSE =? 0)) with false. cbv iota.
  rewrite bind_eq, sys_fork_run. cbn [fst snd].
  set (s1 := with_clock (S (s_clock (snd c))) (snd c)).
  set (pid := os_fork F (s_clock (snd c))).
  destruct (Z.ltb_spec pid 0) as [Hneg|Hpos].
  { cbn [ret fst snd]. split; [right; left; reflexivity|].
    split; [discriminate|]. split; discriminate. }
  destruct (pid >? 0) eqn:Hgt.
  { cbn [ret fst snd]. split; [right; right; reflexivity|].
    split; [discriminate|]. split; [|discriminate]. intros _.
    split; [reflexivity|]. split; [|reflexivity]. apply Z.gtb_lt in Hgt.
    exact Hgt. }
  assert (Hpid : pid = 0).
  { rewrite Z.gtb_ltb in Hgt. apply Z.ltb_ge in Hgt. lia. }
  rewrite bind_eq, sys_setsid_run. cbn [fst snd].
  destruct (os_setsid F (s_clock s1) <? 0).
  { cbn [ret fst snd]. split; [right; left; reflexivity|].
    split; [discriminate|]. split; discriminate. }
  set (s2 := with_clock (S (s_clock s1)) s1).
  rewrite bind_eq, sys_chdir_run. cbn [fst snd].
  set (s3 := with_clock (S (s_clock s2)) s2).
  destruct (os_chdir F (s_clock s2) "/" <? 0).
  { cbn [ret fst snd]. split; [right; left; reflexivity|].
    split; [discriminate|]. split; discriminate. }
  rewrite bind_eq.
  destruct (create_pid_file_run E F s3) as [Pv [_ [_ [_ [_ Ps]]]]].
  assert (Pt : exists lp, s_trace (snd (create_pid_file E F s3)) =
                          s_trace s3 ++ lp).
  { assert (H : emits (fun _ => true) (create_pid_file E F)).
    { unfold create_pid_file, sys_fflush. emits_tac. }
    destruct (H s3) as [lp [Hlp _]]. exists lp. exact Hlp. }
  set (p := create_pid_file E F s3) in *.
  destruct Pv as [W|W]; rewrite W.
  2:{ change (negb (FAILURE =? SUCCESS)) with true. cbv iota.
      cbn [ret fst snd]. split; [right; left; reflexivity|].
      split; [discriminate|]. split; discriminate. }
  change (negb (SUCCESS =? SUCCESS)) with false. cbv iota.
  destruct (Ps W) as [_ [taken [_ Pd]]].
  destruct (daemon_init_tail_run E F (snd p)) as [Tv [Td Ts]].
  match goal with
  | |- context [fst (?m (snd p))] => set (out := m (snd p)) in *
  end.
  split; [destruct Tv as [Tv|Tv]; rewrite Tv; auto|].
  split; [discriminate|].
  split; [destruct Tv as [Tv|Tv]; rewrite Tv; discriminate|].
  intros R. destruct (Ts R) as [Hfd [Hfifo [l Hl]]].
  split; [reflexivity|]. split; [exact Hpid|].
  split; [|split; [exact Hfd|split; [exact Hfifo|]]].
  - exists taken. rewrite <- Pd. unfold file_data. f_equal.
    apply (fs_file_same_directory _ _ PID_FILE RUN_DIR "report_daemon.pid"
             eq_refl Td).
  - destruct Pt as [lp Pt]. exists (lp ++ l). apply new_events_app.
    rewrite Hl, Pt. unfold s3, s2, s1. simpl. rewrite Ct.
    rewrite <- !app_assoc. reflexivity.
Qed.

Lemma sys_unlink_removes path s :
  os_unlink E (s_clock s) path = true ->
  fs_file (s_fs (snd (sys_unlink E path s))) path = None.
Proof.
  intros H. unfold sys_unlink, bind, tick, get, modify, ret. simpl.
  unfold fs_file.
  destruct (split_path path) as [[d n]|] eqn:Sp; [|reflexivity].
  destruct (s_fs s d) as [dir|] eqn:Fd; [|simpl; rewrite Fd; reflexivity].
  destruct (lookup_entry n (dir_entries dir)) as [e|] eqn:Le;
    [|simpl; rewrite Fd; exact Le].
  rewrite H. simpl. unfold fs_set. rewrite String.eqb_refl.
  cbn [dir_entries]. apply lookup_remove_same.
Qed.

End StartStop.

(** X26.  A second daemon does not start.  When the PID file holds the
    line [create_pid_file] prints for a PID, can be opened and read, and
    [kill] with signal 0 succeeds for that PID, [daemon_init] returns
    FAILURE at once: no directory changes, nothing is logged, no global
    changes. *)
Theorem daemon_init_refuses_second_instance :
  forall (E : os) (F : os_process) (s : state) (pid : Z),
    file_data (s_fs s) PID_FILE =
      Some (decimal pid ++ String NEWLINE "")%string ->
    os_open E (s_clock s) PID_FILE = true ->
    os_fread F (S (s_clock s)) = true ->
    os_kill F (S (S (s_clock s))) pid = true ->
    let out := daemon_init E F s in
    fst out = Returns FAILURE /\
    s_fs (snd out) = s_fs s /\
    new_events s (snd out) = [] /\
    globals (snd out) = globals s.
Proof.
  intros E F s pid Hfile Hopen Hread Hkill out. subst out.
  destruct (check_singleton_run E F s) as [Cf [Ct [Cg R]]].
  assert (V : fst (check_singleton E F s) = TRUE).
  { rewrite R. unfold file_data in Hfile.
    destruct (fs_file (s_fs s) PID_FILE) as [e|]; [|discriminate].
    injection Hfile as Hfile. rewrite Hopen, Hread, Hfile. cbn [andb].
    rewrite scan_print by reflexivity. rewrite Hkill. reflexivity. }
  destruct (daemon_init_run E F s) as [_ [H _]]. rewrite (H V).
  cbn [fst snd]. split; [reflexivity|]. split; [exact Cf|].
  split; [apply check_singleton_trace | exact Cg].
Qed.

(** X27.  How [daemon_init] ends.  It returns SUCCESS or FAILURE, or
    exits with EXIT_SUCCESS; it exits only in the process for which
    [fork] gave a positive PID, having changed no directory and logged
    nothing.  It returns SUCCESS only in the child of [fork], with no
    running daemon found, the PID file holding the PID line (or the
    part of it that reached the file), the FIFO in place and open, and
    the completion line as the last log entry. *)
Theorem daemon_init_outcome :
  forall (E : os) (F : os_process) (s : state),
    let out := daemon_init E F s in
    let checked := check_singleton E F s in
    (fst out = Returns SUCCESS \/ fst out = Returns FAILURE \/
     fst out = Exits EXIT_SUCCESS) /\
    (fst out = Exits EXIT_SUCCESS ->
     0 < os_fork F (s_clock (snd checked)) /\
     s_fs (snd out) = s_fs s /\ new_events s (snd out) = [] /\
     globals (snd out) = globals s) /\
    (fst out = Returns SUCCESS ->
     fst checked = FALSE /\
     os_fork F (s_clock (snd checked)) = 0 /\
     (exists taken,
        file_data (s_fs (snd out)) PID_FILE =
          Some (CString.take taken (pid_line F))) /\
     0 <= fifo_fd (snd out) /\
     fs_file (s_fs (snd out)) FIFO_PATH <> None /\
     exists l, new_events s (snd out) = l ++ [LogOperation INIT_DONE []]).
Proof.
  intros E F s out checked. subst out checked.
  destruct (daemon_init_run E F s) as [Hv [_ [Hexit Hok]]].
  destruct (check_singleton_run E F s) as [Cf [Ct [Cg _]]].
  split; [exact Hv|]. split; [|exact Hok].
  intros X. destruct (Hexit X) as [_ [Hfork Hs]]. rewrite Hs.
  split; [exact Hfork|]. split; [exact Cf|]. split; [|exact Cg].
  apply new_events_app. simpl. rewrite app_nil_r. exact Ct.
Qed.

(** X28.  [daemon_cleanup] always leaves the FIFO closed in [fifo_fd]
    and its shutdown line as the last log entry, and touches no file
    but the PID file, the FIFO and those of the log directory.  When
    [unlink] does not refuse the PID file, no PID file is left, so that
    [check_singleton] answers FALSE afterwards: the next daemon may
    start. *)
Theorem daemon_cleanup_outcome :
  forall (E : os) (F : os_process) (s : state),
    let s' := snd (daemon_cleanup E F s) in
    fifo_fd s' = -1 /\
    (exists l, new_events s s' = l ++ [LogOperation SHUTDOWN_DONE []]) /\
    (forall q, q <> PID_FILE -> q <> FIFO_PATH -> in_log_dir q = false ->
       fs_file (s_fs s') q = fs_file (s_fs s) q) /\
    (os_unlink E (s_clock s) PID_FILE = true ->
     fs_file (s_fs s') PID_FILE = None /\
     fst (check_singleton E F s') = FALSE).
Proof.
  intros E F s s'. subst s'. unfold daemon_cleanup. rewrite !bind_eq.
  destruct (sys_unlink_general E PID_FILE s) as [Ut [_ [Uo _]]].
  set (s1 := snd (sys_unlink E PID_FILE s)) in *.
  destruct (cleanup_ipc_run E F s1) as [Hfd [_ [Co [[l [Hl _]] _]]]].
  assert (Ce : exists lc, s_trace (snd (cleanup_ipc E F s1)) =
                          s_trace s1 ++ lc).
  { assert (H : emits (fun _ => true) (cleanup_ipc E F)).
    { unfold cleanup_ipc, sys_close, sys_unlink_errno. emits_tac. }
    destruct (H s1) as [lc [Hlc _]]. exists lc. exact Hlc. }
  set (s2 := snd (cleanup_ipc E F s1)) in *.
  cbn [log_operation emit modify fst snd].
  split; [exact Hfd|]. split; [|split].
  - destruct Ce as [lc Ce]. exists lc. apply new_events_app. simpl.
    rewrite Ce, Ut, <- app_assoc. reflexivity.
  - intros q H1 H2 _. simpl. rewrite (Co q H2). apply Uo. exact H1.
  - intros Hu.
    assert (N : fs_file (s_fs s2) PID_FILE = None).
    { rewrite (Co PID_FILE) by discriminate. unfold s1.
      apply sys_unlink_removes. exact Hu. }
    split; [exact N|].
    match goal with
    | |- fst (check_singleton E F ?z) = _ =>
        destruct (check_singleton_run E F z) as [_ [_ [_ R]]]; rewrite R
    end.
    simpl. rewrite N. reflexivity.
Qed.

Lemma daemon_init_refuses_second_instance_witness :
  fst (daemon_init os_ok os_process_ok
         (snd (create_pid_file os_ok os_process_ok (started fs_installed))))
  = Returns FAILURE.
Proof.
  apply (daemon_init_refuses_second_instance os_ok os_process_ok
           (snd (create_pid_file os_ok os_process_ok (started fs_installed)))
           4242).
  - vm_compute. reflexivity.
  - reflexivity.
  - reflexivity.
  - reflexivity.
Defined.

(** X29.  [create_reporting_process].  In the process that called, the
    function is not run: the call returns the child's PID with nothing
    changed, or -1 with the failed [fork] logged.  In the child the
    function runs once and the process exits with EXIT_SUCCESS exactly
    when it returned SUCCESS, whether or not the completion message
    could be sent; with the FIFO open the record handed to [write]
    carries the given type, the PID of the child, the function's result
    and the matching text. *)
Theorem create_reporting_process_outcome :
  forall (F : os_process) (function : M Z) (msg_type_ : Z) (s : state),
    let out := create_reporting_process F function msg_type_ s in
    let pid := os_fork F (s_clock s) in
    let s1 := with_clock (S (s_clock s)) s in
    (pid < 0 ->
     out = ((Returns (-1), None),
            with_trace (s_trace s ++ [LogError FORK_FAILED [ArgErrno]]) s1))
    /\
    (0 < pid -> out = ((Returns pid, None), s1)) /\
    (pid = 0 ->
     let result := fst (function s1) in
     fst (fst out) =
       Exits (if result =? SUCCESS then EXIT_SUCCESS else EXIT_FAILURE) /\
     exists sent,
       snd (fst out) = Some sent /\
       (fifo_fd (snd (function s1)) <> -1 ->
        send_written sent = Some (completion_message F msg_type_ result)) /\
       (fifo_fd (snd (function s1)) = -1 ->
        send_written sent = None /\ send_status sent = FAILURE)).
Proof.
  intros F function msg_type_ s out pid s1. subst out.
  unfold create_reporting_process. rewrite bind_eq.
  change (sys_fork F s) with (pid, s1). cbn [fst snd].
  split; [|split].
  - intros H. apply Z.ltb_lt in H. rewrite H. reflexivity.
  - intros H. assert (H1 : (pid <? 0) = false) by (apply Z.ltb_ge; lia).
    assert (H2 : (pid =? 0) = false) by (apply Z.eqb_neq; lia).
    rewrite H1, H2. reflexivity.
  - intros H. rewrite H. cbn [Z.ltb Z.eqb Z.compare].
    rewrite !bind_eq. set (result := fst (function s1)). cbn [ret fst snd].
    split; [reflexivity|]. eexists. split; [reflexivity|].
    set (msg := mkIPCMessage msg_type_ (os_getpid F) result
                  (if result =? SUCCESS
                   then "Operation completed successfully"
                   else "Operation failed")).
    unfold send_ipc_message, sys_write_fifo, bind, get, tick, ret,
      log_error, emit, modify. cbn [fst snd]. split.
    + intros Hfd. apply Z.eqb_neq in Hfd. rewrite Hfd.
      destruct (negb _); reflexivity.
    + intros Hfd. rewrite Hfd. simpl. auto.
Qed.

(* ----------------------------------------------------------------- *)
(** *** The owner of a file *)

(** X30.  [get_file_owner] with a buffer of at least one byte changes
    no directory other than the log directory and logs exactly on
    FAILURE.  What it stores always fits the buffer with its NUL: on
    SUCCESS the account name of the file's owner, cut to the buffer;
    when the user id has no account, the id as "%d" prints it (its 32
    bits read as an [int], so negative from 2^31 on), cut likewise, with
    FAILURE returned.  When [stat] fails the buffer is not written at
    all. *)
Theorem get_file_owner_outcome :
  forall (E : os) (path : string) (owner_size : Z) (s : state),
    0 < owner_size ->
    let out := get_file_owner E path owner_size s in
    let status := fst (fst out) in
    let owner := snd (fst out) in
    unchanged_but_logs (s_fs s) (s_fs (snd out)) /\
    (status = SUCCESS \/ status = FAILURE) /\
    (status = SUCCESS <-> new_events s (snd out) = []) /\
    (owner = None -> status = FAILURE) /\
    (forall name, owner = Some name ->
       Z.of_nat (String.length name) < owner_size /\
       exists e rest,
         fs_file (s_fs s) path = Some e /\
         match os_getpwuid E (S (s_clock s)) (st_uid (d_ino e)) with
         | Some account =>
             status = SUCCESS /\ account = (name ++ rest)%string
         | None =>
             status = FAILURE /\
             decimal (uid_as_int (st_uid (d_ino e))) = (name ++ rest)%string
         end).
Proof.
  intros E path owner_size s Hsize out status owner.
  subst status owner out.
  assert (Hlen : forall text,
            Z.of_nat (String.length
                        (CString.take (Z.to_nat (owner_size - 1)) text))
            < owner_size).
  { intros text.
    pose proof (TakeFacts.length_take (Z.to_nat (owner_size - 1)) text).
    lia. }
  assert (Hlog : forall (z : state) (e : event),
            new_events s (with_trace (s_trace s ++ [e]) z) <> []).
  { intros z e H.
    rewrite (new_events_app s _ [e]) in H by reflexivity. discriminate H. }
  unfold get_file_owner, sys_stat, sys_getpwuid, bind, tick, get, ret,
    log_error, emit, modify. simpl.
  destruct (fs_file (s_fs s) path) as [e|] eqn:Hf.
  - destruct (os_stat E (s_clock s) path); simpl.
    + destruct (os_getpwuid E (S (s_clock s)) (st_uid (d_ino e)))
        as [account|] eqn:Hp; simpl.
      * split; [intros p _; reflexivity|]. split; [left; reflexivity|].
        split; [split; [intros _|reflexivity]|].
        { apply new_events_app. simpl. rewrite app_nil_r. reflexivity. }
        split; [discriminate|]. intros name H. injection H as <-.
        split; [apply Hlen|].
        destruct (TakeFacts.take_prefix (Z.to_nat (owner_size - 1)) account)
          as [rest Hr].
        exists e, rest. rewrite Hp. auto.
      * split; [intros p _; reflexivity|]. split; [right; reflexivity|].
        split; [split; [discriminate | intros H; exfalso;
                        exact (Hlog _ _ H)]|].
        split; [discriminate|]. intros name H. injection H as <-.
        split; [apply Hlen|].
        destruct (TakeFacts.take_prefix (Z.to_nat (owner_size - 1))
                    (decimal (uid_as_int (st_uid (d_ino e)))))
          as [rest Hr].
        exists e, rest. rewrite Hp. auto.
    + split; [intros p _; reflexivity|]. split; [right; reflexivity|].
      split; [split; [discriminate | intros H; exfalso;
                      exact (Hlog _ _ H)]|].
      split; [reflexivity|]. discriminate.
  - simpl. split; [intros p _; reflexivity|]. split; [right; reflexivity|].
    split; [split; [discriminate | intros H; exfalso; exact (Hlog _ _ H)]|].
    split; [reflexivity|]. discriminate.
Qed.

Lemma get_file_owner_outcome_witness :
  fst (fst (get_file_owner os_ok SALES_PATH MAX_USER_LENGTH state_uploading))
  = SUCCESS /\
  snd (fst (get_file_owner os_no_account SALES_PATH MAX_USER_LENGTH
              state_foreign)) = Some "-2"%string /\
  fst (fst (get_file_owner os_no_account SALES_PATH MAX_USER_LENGTH
              state_foreign)) = FAILURE.
Proof.
  split; [|split].
  - destruct (get_file_owner_outcome os_ok SALES_PATH MAX_USER_LENGTH
                state_uploading) as [_ [_ [H _]]]; [reflexivity|].
    apply H. vm_compute. reflexivity.
  - vm_compute. reflexivity.
  - destruct (get_file_owner_outcome os_no_account SALES_PATH MAX_USER_LENGTH
                state_foreign) as [_ [_ [_ [_ H]]]]; [reflexivity|].
    destruct (H "-2"%string) as [_ [e [rest [He Hm]]]];
      [vm_compute; reflexivity|].
    vm_compute in He. injection He as <-. vm_compute in Hm.
    destruct Hm as [Hm _]. exact Hm.
Defined.
